(** * Compliance pipeline: scoring, anomaly detection, validation and summary storage

    A shallow embedding of the compliance agents
    (src/copilots/compliance/...) and the properties their specification
    states about them. The first part embeds the code, module by module:
    the scoring engine, the audit logging agent, the KYC validation agent
    and the compliance summary agent, over models of Redis, of the
    relational session and of the event bus. The second part proves the
    properties.

    Python values are embedded as follows.
    - [float] is IEEE 754 binary64, the representation of a Python float;
      arithmetic and comparisons are the primitive ones, so every
      concrete evaluation below gives the bits CPython gives.
    - [str] is [string], holding the UTF-8 bytes of the text; [len(s)]
      and [s[:n]] count characters, not bytes. Where the code cuts a
      text at the places [find] and [rfind] give, the places are kept as
      offsets in bytes, which cuts the same text. A text that may be
      [None] (a NULL-able column, a ChromaDB document) is an [option].
    - [dict] objects with a fixed set of keys are records; a key read with
      [.get(key, default)] or tested with [key in d] is an [option] field.
    - Redis, the relational session and the event bus are explicit
      components of an agent state that every method threads through. *)

From Stdlib Require Import Floats ZArith Uint63 Ascii String List Bool DecimalString Sorted.
From stdpp Require Import base option list gmap strings.

Local Open Scope string_scope.

(** ** Python numbers *)

Module Py.

(** [float(n)] for a non-negative int (exact below 2^53). *)
Definition float_of_nat (n : nat) : float :=
  PrimFloat.of_uint63 (Uint63.of_Z (Z.of_nat n)).

(** [a / b] on two ints: true division. *)
Definition truediv (a b : nat) : float :=
  (float_of_nat a / float_of_nat b)%float.

(** [sum(xs)]: left-to-right addition starting from [0], as CPython does
    up to 3.11 (the documentation generator of the repository asks for
    3.8 or later); from 3.12 on [sum] compensates the rounding errors of
    floats, which can change the last bit of the result. *)
Definition sum (xs : list float) : float :=
  fold_left PrimFloat.add xs 0%float.

(** [a >= b] and [a < b] on floats. *)
Definition ge (a b : float) : bool := PrimFloat.leb b a.
Definition lt (a b : float) : bool := PrimFloat.ltb a b.

(** [s.replace(old, new)] for single ASCII characters. *)
Fixpoint replace (old new : ascii) (s : string) : string :=
  match s with
  | EmptyString => EmptyString
  | String c rest =>
      String (if Ascii.eqb c old then new else c) (replace old new rest)
  end.

(** A text ([str]) is held as its UTF-8 bytes: every character (code
    point) is one lead byte followed by the continuation bytes it
    needs, which are the bytes from 0x80 to 0xBF. An ASCII character is
    its one byte. *)
Definition is_continuation (c : ascii) : bool :=
  let n := nat_of_ascii c in ((128 <=? n) && (n <? 192))%nat.

(** [len(s)]: the number of characters. *)
Fixpoint len (s : string) : nat :=
  match s with
  | EmptyString => 0
  | String c rest => if is_continuation c then len rest else S (len rest)
  end.

(** [s[:n]]: the first [n] characters of [s], each with all its bytes;
    the whole of [s] when it has no more than [n]. *)
Fixpoint slice_to (n : nat) (s : string) : string :=
  match s with
  | EmptyString => EmptyString
  | String c rest =>
      if is_continuation c then String c (slice_to n rest)
      else match n with
           | O => EmptyString
           | S m => String c (slice_to m rest)
           end
  end.

(** [x in xs] for a list of strings. *)
Definition contains (x : string) (xs : list string) : bool :=
  existsb (String.eqb x) xs.

(** [str(n)] for a non-negative int, and [str(n).zfill(width)]. *)
Definition str_of_N (n : N) : string :=
  NilEmpty.string_of_uint (N.to_uint n).

Fixpoint zeros (n : nat) : string :=
  match n with
  | O => EmptyString
  | S m => String "0" (zeros m)
  end.

Definition zfill (width : nat) (n : N) : string :=
  let digits := str_of_N n in
  zeros (width - String.length digits) +:+ digits.

(** [if x:] for a value that is an object or [None]. *)
Definition is_set {A} (x : option A) : bool :=
  match x with Some _ => true | None => false end.

(** [str(x)] for a value that is a string or [None]. *)
Definition str_of_optional (x : option string) : string :=
  match x with Some s => s | None => "None" end.

(** The decimal literals of the code, as the nearest binary64 values. *)
Definition f0_1 : float := 0x1.999999999999ap-4%float.
Definition f0_2 : float := 0x1.999999999999ap-3%float.
Definition f0_3 : float := 0x1.3333333333333p-2%float.
Definition f0_4 : float := 0x1.999999999999ap-2%float.
Definition f0_5 : float := 0x1p-1%float.
Definition f0_6 : float := 0x1.3333333333333p-1%float.
Definition f0_7 : float := 0x1.6666666666666p-1%float.
Definition f0_8 : float := 0x1.999999999999ap-1%float.
Definition f0_9 : float := 0x1.ccccccccccccdp-1%float.

(** [str(n)] for a count. *)
Definition str_of_nat (n : nat) : string := str_of_N (N.of_nat n).

(** [float(z)] for an int (exact below 2^53 in absolute value). *)
Definition float_of_Z (z : Z) : float :=
  if (z <? 0)%Z
  then (- PrimFloat.of_uint63 (Uint63.of_Z (- z)))%float
  else PrimFloat.of_uint63 (Uint63.of_Z z).

(** [a / b] on two ints, negative ones included. *)
Definition truediv_Z (a b : Z) : float := (float_of_Z a / float_of_Z b)%float.

(** [format(x, '.<precision>f')]: the decimal expansion of the exact
    value of [x], rounded to [precision] places, ties to even. A finite
    float is [m * 2^e]; [scaled] is that value times [10^precision],
    rounded to an integer. *)
Definition round_half_even (num den : Z) : Z :=
  let q := (num / den)%Z in
  let r := (num mod den)%Z in
  if (den <? 2 * r)%Z then (q + 1)%Z
  else if (2 * r =? den)%Z then (if Z.even q then q else (q + 1)%Z)
  else q.

Definition scaled (precision : nat) (m : positive) (e : Z) : Z :=
  let n := (Z.pos m * 10 ^ Z.of_nat precision)%Z in
  if (0 <=? e)%Z then (n * 2 ^ e)%Z else round_half_even n (2 ^ (- e))%Z.

Definition fixed (precision : nat) (n : Z) : string :=
  let digits := str_of_N (Z.to_N n) in
  let digits := zeros (S precision - String.length digits) +:+ digits in
  let k := String.length digits - precision in
  String.substring 0 k digits
  +:+ (if (precision =? 0)%nat then "" else "." +:+ String.substring k precision digits).

Definition format_f (precision : nat) (x : float) : string :=
  match Prim2SF x with
  | S754_nan => "nan"
  | S754_infinity s => (if s then "-" else "") +:+ "inf"
  | S754_zero s => (if s then "-" else "") +:+ fixed precision 0
  | S754_finite s m e =>
      (if s then "-" else "") +:+ fixed precision (scaled precision m e)
  end.

(** [format(x, '.<precision>%')]: the float is multiplied by 100 first. *)
Definition format_percent (precision : nat) (x : float) : string :=
  format_f precision (x * 100)%float +:+ "%".

(** [int(s)] for a text of ASCII characters: blanks around, an optional
    sign, decimal digits with single underscores between them;
    [None] stands for [ValueError]. *)
Definition is_space (c : ascii) : bool :=
  let n := nat_of_ascii c in
  ((9 <=? n) && (n <=? 13) || (28 <=? n) && (n <=? 32))%nat.

Definition is_digit (c : ascii) : bool :=
  let n := nat_of_ascii c in ((48 <=? n) && (n <=? 57))%nat.

Fixpoint lstrip (s : string) : string :=
  match s with
  | String c rest => if is_space c then lstrip rest else s
  | EmptyString => EmptyString
  end.

Definition strip (s : string) : string :=
  String.rev (lstrip (String.rev (lstrip s))).

Fixpoint digits_value (acc : Z) (after_digit : bool) (s : string) : option Z :=
  match s with
  | EmptyString => if after_digit then Some acc else None
  | String c rest =>
      if is_digit c
      then digits_value (10 * acc + Z.of_nat (nat_of_ascii c - 48))%Z true rest
      else if Ascii.eqb c "_" && after_digit
      then match rest with
           | String d _ => if is_digit d then digits_value acc false rest else None
           | EmptyString => None
           end
      else None
  end.

Definition int_of_text (s : string) : option Z :=
  match strip s with
  | String "+" rest => digits_value 0 false rest
  | String "-" rest => Z.opp <$> digits_value 0 false rest
  | stripped => digits_value 0 false stripped
  end.

(** [s.endswith(suffix)] *)
Definition endswith (s suffix : string) : bool :=
  bool_decide (list_ascii_of_string suffix `suffix_of` list_ascii_of_string s).

(** The lowest and the highest index of a character, if it occurs. *)
Fixpoint index_of (c : ascii) (s : string) : option nat :=
  match s with
  | EmptyString => None
  | String d rest => if Ascii.eqb d c then Some 0%nat else S <$> index_of c rest
  end.

Fixpoint last_index_of (c : ascii) (s : string) : option nat :=
  match s with
  | EmptyString => None
  | String d rest =>
      match last_index_of c rest with
      | Some i => Some (S i)
      | None => if Ascii.eqb d c then Some 0%nat else None
      end
  end.

(** [s.find(c)] and [s.rfind(c)] for a single ASCII character: [-1]
    when it does not occur, and otherwise its place as an offset into
    the bytes of [s] (the byte of an ASCII character occurs nowhere
    inside another character). *)
Definition find (c : ascii) (s : string) : Z :=
  match index_of c s with Some i => Z.of_nat i | None => (-1)%Z end.

Definition rfind (c : ascii) (s : string) : Z :=
  match last_index_of c s with Some i => Z.of_nat i | None => (-1)%Z end.

(** [s[start:stop]] for two places that are not negative, given as
    [find] and [rfind] give them. *)
Definition slice (s : string) (start stop : Z) : string :=
  String.substring (Z.to_nat start) (Z.to_nat (stop - start)) s.

End Py.

(** ** Clock readings *)

Module Datetime.

(** A [datetime.datetime] value (years of four digits). *)
Record datetime := mkDatetime {
  year : N; month : N; day : N;
  hour : N; minute : N; second : N;
  microsecond : N
}.

Definition date_part (sep : string) (d : datetime) : string :=
  Py.zfill 4 (year d) +:+ sep +:+ Py.zfill 2 (month d) +:+ sep +:+ Py.zfill 2 (day d).

Definition time_part (sep : string) (d : datetime) : string :=
  Py.zfill 2 (hour d) +:+ sep +:+ Py.zfill 2 (minute d) +:+ sep +:+ Py.zfill 2 (second d).

Definition fraction (d : datetime) : string :=
  match microsecond d with
  | 0%N => ""
  | us => "." +:+ Py.zfill 6 us
  end.

(** [str(d)] *)
Definition str (d : datetime) : string :=
  date_part "-" d +:+ " " +:+ time_part ":" d +:+ fraction d.

(** [d.isoformat()] *)
Definition isoformat (d : datetime) : string :=
  date_part "-" d +:+ "T" +:+ time_part ":" d +:+ fraction d.

(** [d.strftime('%Y%m%d')] and [d.strftime('%Y%m%d%H%M%S')] *)
Definition strftime_Ymd (d : datetime) : string := date_part "" d.
Definition strftime_YmdHMS (d : datetime) : string :=
  date_part "" d +:+ time_part "" d.

(** [d.strftime('%Y%m%d_%H%M%S')] and [str(d.date())] *)
Definition strftime_Ymd_HMS (d : datetime) : string :=
  date_part "" d +:+ "_" +:+ time_part "" d.

(** Comparison: by year, month, day, hour, minute, second and
    microsecond, in that order. *)
Definition fields (d : datetime) : list N :=
  [year d; month d; day d; hour d; minute d; second d; microsecond d].

Fixpoint lex_compare (a b : list N) : comparison :=
  match a, b with
  | x :: a', y :: b' =>
      match N.compare x y with
      | Eq => lex_compare a' b'
      | c => c
      end
  | [], [] => Eq
  | [], _ :: _ => Lt
  | _ :: _, [] => Gt
  end.

Definition compare (a b : datetime) : comparison := lex_compare (fields a) (fields b).

Definition leb (a b : datetime) : bool :=
  match compare a b with Gt => false | _ => true end.





End Datetime.

(** ** Scoring engine: [SAMAComplianceSummaryAgent._calculate_scores] *)

Module Scoring.

(** A document dictionary as [_get_customer_documents] builds it; the
    scoring code reads [doc['type']] and [doc.get('compliant', False)].
    [doc_compliant = None] stands for a missing key or a NULL column,
    both falsy. *)
Record Document := mkDocument {
  doc_id : string;
  doc_type : string;
  doc_compliant : option bool
}.

(** A validation dictionary as [_get_validation_results] builds it; the
    scoring code reads [v['score']] under the guard ['score' in v],
    [val['status']] and [val['document_id']]. [val_score = None] stands
    for a dictionary without the key; a score is a float, as the KYC
    agent, the only writer of the column, stores it. *)
Record Validation := mkValidation {
  val_document_id : string;
  val_status : string;
  val_score : option float
}.

(** The dictionary [_calculate_scores] returns. Python's int [0] (no
    documents, or no scored validation) is the float [0]: the two are
    equal in Python and behave alike under [>=], [*] and [+]. *)
Record Scores := mkScores {
  overall_score : float;
  compliant_count : nat;
  status : string;
  all_issues : list string;
  all_recommendations : list string
}.

(** [doc.get('compliant', False)] used as a condition. *)
Definition is_compliant (doc : Document) : bool :=
  match doc_compliant doc with Some b => b | None => false end.

(** [sum(1 for doc in documents if doc.get('compliant', False))] *)
Definition count_compliant (documents : list Document) : nat :=
  length (List.filter is_compliant documents).

(** [[v['score'] for v in validations if 'score' in v]] *)
Definition validation_scores (validations : list Validation) : list float :=
  omap val_score validations.

(** [sum(validation_scores) / len(validation_scores) if validation_scores else 0] *)
Definition avg_validation_score (validations : list Validation) : float :=
  match validation_scores validations with
  | [] => 0%float
  | scores => (Py.sum scores / Py.float_of_nat (length scores))%float
  end.

(** [compliant_count / total_docs] *)
Definition doc_compliance_rate (documents : list Document) : float :=
  Py.truediv (count_compliant documents) (length documents).

Definition required_types : list string :=
  ["commercial_registration"; "national_id"; "bank_statement"].

Definition missing_issue (req_type : string) : string :=
  "Missing " +:+ Py.replace "_" " " req_type.

Definition missing_recommendation (req_type : string) : string :=
  "Provide " +:+ Py.replace "_" " " req_type.

Definition failed_issue (val : Validation) : string :=
  "Document " +:+ Py.slice_to 8 (val_document_id val) +:+ " validation failed".

(** The status ladder on the overall score. *)
Definition status_of (score : float) : string :=
  if Py.ge score Py.f0_8 then "compliant"
  else if Py.ge score Py.f0_6 then "partially_compliant"
  else "non_compliant".

Definition _calculate_scores
    (documents : list Document) (validations : list Validation) : Scores :=
  let total_docs := length documents in
  let compliant_count := count_compliant documents in
  let avg_validation_score := avg_validation_score validations in
  let overall_score :=
    if (0 <? total_docs)%nat then
      let doc_compliance_rate := Py.truediv compliant_count total_docs in
      (doc_compliance_rate * Py.f0_6 + avg_validation_score * Py.f0_4)%float
    else 0%float in
  let status := status_of overall_score in
  let doc_types := map doc_type documents in
  let missing :=
    List.filter (fun req_type => negb (Py.contains req_type doc_types))
                required_types in
  let failed :=
    List.filter (fun val => negb (String.eqb (val_status val) "passed"))
                validations in
  {| overall_score := overall_score;
     compliant_count := compliant_count;
     status := status;
     all_issues := map missing_issue missing ++ map failed_issue failed;
     all_recommendations := map missing_recommendation missing |}.

(** The scoring example of the specification: a compliant registration,
    a compliant identity document and a third document that is not a
    bank statement, with validations scored 0.9 and 0.8. *)
Definition example_documents : list Document :=
  [ mkDocument "d41d8cd98f00b204e9800998ecf8427e" "commercial_registration" (Some true);
    mkDocument "0cc175b9c0f1b6a831c399e269772661" "national_id" (Some true);
    mkDocument "900150983cd24fb0d6963f7d28e17f72" "unknown" (Some false) ].

Definition example_validations : list Validation :=
  [ mkValidation "d41d8cd98f00b204e9800998ecf8427e" "passed" (Some Py.f0_9);
    mkValidation "0cc175b9c0f1b6a831c399e269772661" "passed" (Some Py.f0_8) ].

End Scoring.

(** ** MD5 ([hashlib.md5(...).hexdigest()]), after RFC 1321 *)

Module MD5.

Local Open Scope Z_scope.

Definition mask32 : Z := 0xffffffff.

Definition add32 (a b : Z) : Z := Z.land (a + b) mask32.

Definition rotl32 (x c : Z) : Z :=
  Z.lor (Z.land (Z.shiftl x c) mask32) (Z.shiftr x (32 - c)).

Definition not32 (x : Z) : Z := Z.lxor x mask32.

(** Per-round shift amounts. *)
Definition shifts : list Z :=
  [7; 12; 17; 22; 7; 12; 17; 22; 7; 12; 17; 22; 7; 12; 17; 22;
   5; 9; 14; 20; 5; 9; 14; 20; 5; 9; 14; 20; 5; 9; 14; 20;
   4; 11; 16; 23; 4; 11; 16; 23; 4; 11; 16; 23; 4; 11; 16; 23;
   6; 10; 15; 21; 6; 10; 15; 21; 6; 10; 15; 21; 6; 10; 15; 21].

(** [floor(2^32 * abs(sin(i + 1)))] for [i] from 0 to 63. *)
Definition sines : list Z :=
   [0xd76aa478; 0xe8c7b756; 0x242070db; 0xc1bdceee;
    0xf57c0faf; 0x4787c62a; 0xa8304613; 0xfd469501;
    0x698098d8; 0x8b44f7af; 0xffff5bb1; 0x895cd7be;
    0x6b901122; 0xfd987193; 0xa679438e; 0x49b40821;
    0xf61e2562; 0xc040b340; 0x265e5a51; 0xe9b6c7aa;
    0xd62f105d; 0x02441453; 0xd8a1e681; 0xe7d3fbc8;
    0x21e1cde6; 0xc33707d6; 0xf4d50d87; 0x455a14ed;
    0xa9e3e905; 0xfcefa3f8; 0x676f02d9; 0x8d2a4c8a;
    0xfffa3942; 0x8771f681; 0x6d9d6122; 0xfde5380c;
    0xa4beea44; 0x4bdecfa9; 0xf6bb4b60; 0xbebfbc70;
    0x289b7ec6; 0xeaa127fa; 0xd4ef3085; 0x04881d05;
    0xd9d4d039; 0xe6db99e5; 0x1fa27cf8; 0xc4ac5665;
    0xf4292244; 0x432aff97; 0xab9423a7; 0xfc93a039;
    0x655b59c3; 0x8f0ccc92; 0xffeff47d; 0x85845dd1;
    0x6fa87e4f; 0xfe2ce6e0; 0xa3014314; 0x4e0811a1;
    0xf7537e82; 0xbd3af235; 0x2ad7d2bb; 0xeb86d391].

Definition bytes_of_string (s : string) : list Z :=
  map (fun c => Z.of_nat (nat_of_ascii c)) (list_ascii_of_string s).

(** [n] as [count] little-endian bytes. *)
Fixpoint le_bytes (count : nat) (n : Z) : list Z :=
  match count with
  | O => []
  | S k => Z.land n 0xff :: le_bytes k (Z.shiftr n 8)
  end.

(** A word from little-endian bytes. *)
Fixpoint le_word (bytes : list Z) : Z :=
  match bytes with
  | [] => 0
  | b :: rest => Z.lor b (Z.shiftl (le_word rest) 8)
  end.

(** The message followed by the bit [1], zeros up to 56 modulo 64 bytes
    and the length in bits on 8 bytes. *)
Definition pad (msg : list Z) : list Z :=
  let len := Z.of_nat (length msg) in
  let zeros := Z.to_nat ((55 - len) mod 64) in
  (msg ++ 0x80 :: repeat 0 zeros ++ le_bytes 8 (Z.land (8 * len) 0xffffffffffffffff))%list.

(** Split into groups of [size] elements; [fuel] bounds the number of groups. *)
Fixpoint chunks {A} (fuel size : nat) (l : list A) : list (list A) :=
  match fuel, l with
  | O, _ | _, [] => []
  | S k, _ => firstn size l :: chunks k size (skipn size l)
  end.

Definition words_of_block (block : list Z) : list Z :=
  map le_word (chunks 16 4 block).

Record state := mkState { sa : Z; sb : Z; sc : Z; sd : Z }.

Definition initial : state :=
  mkState 0x67452301 0xefcdab89 0x98badcfe 0x10325476.

(** One of the 64 operations on a block with message words [m]. *)
Definition step (m : list Z) (st : state) (i : nat) : state :=
  let '(mkState a b c d) := st in
  let iz := Z.of_nat i in
  let '(f, g) :=
    if iz <? 16 then (Z.lor (Z.land b c) (Z.land (not32 b) d), iz)
    else if iz <? 32 then
      (Z.lor (Z.land d b) (Z.land (not32 d) c), (5 * iz + 1) mod 16)
    else if iz <? 48 then (Z.lxor (Z.lxor b c) d, (3 * iz + 5) mod 16)
    else (Z.lxor c (Z.lor b (not32 d)), (7 * iz) mod 16) in
  let f' := add32 (add32 (add32 f a) (nth i sines 0)) (nth (Z.to_nat g) m 0) in
  mkState d (add32 b (rotl32 f' (nth i shifts 0))) b c.

Definition process_block (st : state) (block : list Z) : state :=
  let m := words_of_block block in
  let st' := fold_left (step m) (seq 0 64) st in
  mkState (add32 (sa st) (sa st')) (add32 (sb st) (sb st'))
          (add32 (sc st) (sc st')) (add32 (sd st) (sd st')).

Definition digest (msg : list Z) : list Z :=
  let padded := pad msg in
  let st := fold_left process_block (chunks (length padded) 64 padded) initial in
  (le_bytes 4 (sa st) ++ le_bytes 4 (sb st) ++ le_bytes 4 (sc st) ++ le_bytes 4 (sd st))%list.

Definition hex_digit (n : Z) : ascii :=
  nth (Z.to_nat n) (list_ascii_of_string "0123456789abcdef") "0"%char.

Fixpoint hex (bytes : list Z) : string :=
  match bytes with
  | [] => EmptyString
  | b :: rest => String (hex_digit (Z.shiftr b 4)) (String (hex_digit (Z.land b 0xf)) (hex rest))
  end.

(** [hashlib.md5(s.encode()).hexdigest()] *)
Definition hexdigest (s : string) : string := hex (digest (bytes_of_string s)).

End MD5.

(** ** Methods with state and exceptions

    A method of an agent reads and updates the agent (and the services it
    holds) and either returns or raises. Effects performed before a raise
    stay performed, as in Python. *)

Module Eff.

Inductive outcome (A : Type) : Type :=
| Return (a : A)
| Raise (exc : string).
Arguments Return {A} a.
Arguments Raise {A} exc.

Definition M (S A : Type) : Type := S -> outcome A * S.

Definition ret {S A} (a : A) : M S A := fun s => (Return a, s).

Definition raise {S A} (exc : string) : M S A := fun s => (Raise exc, s).

Definition bind {S A B} (m : M S A) (k : A -> M S B) : M S B :=
  fun s =>
    match m s with
    | (Return a, s') => k a s'
    | (Raise exc, s') => (Raise exc, s')
    end.

(** [try: m  except: handler] *)
Definition try_except {S A} (m : M S A) (handler : string -> M S A) : M S A :=
  fun s =>
    match m s with
    | (Return a, s') => (Return a, s')
    | (Raise exc, s') => handler exc s'
    end.

Definition get {S} : M S S := fun s => (Return s, s).
Definition modify {S} (f : S -> S) : M S unit := fun s => (Return tt, f s).

(** A computation that touches no state: one step after the other, and
    such a computation as a step of a method. *)
Definition and_then {A B} (o : outcome A) (k : A -> outcome B) : outcome B :=
  match o with
  | Return a => k a
  | Raise exc => Raise exc
  end.

Definition lift {S A} (o : outcome A) : M S A := fun s => (o, s).

(** [for x in xs: body x] *)
Fixpoint for_each {S A} (xs : list A) (body : A -> M S unit) : M S unit :=
  match xs with
  | [] => ret tt
  | x :: rest => bind (body x) (fun _ => for_each rest body)
  end.

(** On every state the method returns, with some value and final state. *)
Definition never_raises {S A} (m : M S A) : Prop :=
  forall s, exists a s', m s = (Return a, s').

(** A method all of whose steps stay within a relation [R] on states. *)
Definition steps_within {S} (R : S -> S -> Prop) {A} (m : M S A) : Prop :=
  forall s, R s (snd (m s)).

End Eff.

Import Eff.

Declare Scope eff_scope.
Delimit Scope eff_scope with eff.
Notation "'let!' x ':=' m 'in' k" := (bind m (fun x => k))
  (at level 10, x name, m at level 100, k at level 200) : eff_scope.
Notation "m ';;' k" := (bind m (fun _ => k))
  (at level 100, k at level 200, right associativity) : eff_scope.
Notation "'let?' x ':=' o 'in' k" := (and_then o (fun x => k))
  (at level 10, x name, o at level 100, k at level 200) : eff_scope.

(** ** Event bus *)

Module Kafka.

(** A value of a message dictionary. *)
Inductive field :=
| FStr (s : string)
| FNum (x : float).

(** A published message: topic, key and the items of the value
    dictionary in the order the code writes them. *)
Record Event := mkEvent {
  topic : string;
  key : string;
  value : list (string * field)
}.

(** The handler in its in-process form: an ordered buffer of every
    message published. *)
Record KafkaHandler := mkKafkaHandler {
  mock_events : list Event
}.

(** Modelled from the spec: [KafkaHandler.send_event] of
    shared/kafka_handler.py, which is not among the sources. Publishing
    is fire-and-forget: the message is appended to the ordered buffer
    and nothing is raised to the caller. *)
Definition send_event (topic key : string) (value : list (string * field))
    (h : KafkaHandler) : KafkaHandler :=
  {| mock_events := (mock_events h ++ [mkEvent topic key value])%list |}.

End Kafka.

(** ** Redis *)

Module Redis.

(** A stored value with its optional absolute expiry time in seconds. *)
Record entry (V : Type) := mkEntry {
  e_value : V;
  e_expires : option Z
}.
Arguments mkEntry {V} _ _.
Arguments e_value {V} _.
Arguments e_expires {V} _.

(** The client as the agent sees it: the server's keys and the number of
    commands issued so far on this connection. *)
Record client (V : Type) := mkClient {
  keys : gmap string (entry V);
  issued : nat
}.
Arguments mkClient {V} _ _.
Arguments keys {V} _.
Arguments issued {V} _.

(** Values of a server that holds integer counters (as [INCR] maintains
    them) next to text. *)
Inductive cell : Type :=
| CInt (n : Z)
| CText (s : string).

Definition as_int (c : cell) : option Z :=
  match c with CInt n => Some n | CText _ => None end.

Section Commands.
Context {V : Type}.

(** [down n] tells whether the [n]-th command on the connection fails
    with a connection error; [now] is the server clock in seconds. *)
Variable down : nat -> bool.
Variable now : Z.

(** A key with an expiry time is gone once the clock has passed that
    time; at the very second of its expiry it is still there. *)
Definition live (e : entry V) : bool :=
  match e_expires e with
  | Some t => (now <=? t)%Z
  | None => true
  end.

(** The entry a key holds at [now], expired entries being gone. *)
Definition lookup (k : string) (c : client V) : option (entry V) :=
  match keys c !! k with
  | Some e => if live e then Some e else None
  | None => None
  end.

(** Every command first reaches the server, or raises. *)
Definition command {A} (run : client V -> outcome A * gmap string (entry V))
  : M (client V) A :=
  fun c =>
    if down (issued c)
    then (Raise "ConnectionError", mkClient (keys c) (S (issued c)))
    else let '(r, ks) := run c in (r, mkClient ks (S (issued c))).

(** [GET key] *)
Definition get (k : string) : M (client V) (option V) :=
  command (fun c => (Return (e_value <$> lookup k c), keys c)).

(** [EXPIRE key seconds]: sets the expiry of an existing key. *)
Definition expire (k : string) (seconds : Z) : M (client V) bool :=
  command (fun c =>
    match lookup k c with
    | None => (Return false, keys c)
    | Some e =>
        (Return true,
         <[k := mkEntry (e_value e) (Some (now + seconds)%Z)]> (keys c))
    end).

(** [SETEX key seconds value] *)
Definition setex (k : string) (seconds : Z) (v : V) : M (client V) unit :=
  command (fun c =>
    (Return tt, <[k := mkEntry v (Some (now + seconds)%Z)]> (keys c))).

(** [INCR key], for values read as integers by [to_int]: a missing key
    counts from 0 and gets no expiry, an existing counter keeps its
    expiry, and a key holding something else is an error. *)
Definition incr (to_int : V -> option Z) (of_int : Z -> V) (k : string)
  : M (client V) Z :=
  command (fun c =>
    match lookup k c with
    | None => (Return 1%Z, <[k := mkEntry (of_int 1%Z) None]> (keys c))
    | Some e =>
        match to_int (e_value e) with
        | Some n =>
            (Return (n + 1)%Z,
             <[k := mkEntry (of_int (n + 1)%Z) (e_expires e)]> (keys c))
        | None => (Raise "ResponseError", keys c)
        end
    end).

End Commands.

(** [KEYS prefix*]: the live keys that start with [prefix], in no
    particular order. *)
Definition keys_with_prefix {V} (down : nat -> bool) (now : Z) (prefix : string)
  : M (client V) (list string) :=
  command down (fun c =>
    (Return (map fst
               (List.filter (fun kv => String.prefix prefix (fst kv) && live now (snd kv))
                            (map_to_list (keys c)))),
     keys c)).

End Redis.

(** ** Relational session *)

Module Db.

(** A session over tables of type [T]: the committed contents and the
    number of round trips to the server so far. *)
Record session (T : Type) := mkSession {
  tables : T;
  round_trips : nat
}.
Arguments mkSession {T} _ _.
Arguments tables {T} _.
Arguments round_trips {T} _.

Section Statements.
Context {T : Type}.

(** [down n] tells whether the [n]-th round trip fails. *)
Variable down : nat -> bool.

Definition round_trip {A} (run : T -> outcome A * T) : M (session T) A :=
  fun s =>
    if down (round_trips s)
    then (Raise "OperationalError", mkSession (tables s) (S (round_trips s)))
    else let '(r, t) := run (tables s) in (r, mkSession t (S (round_trips s))).

(** [session.query(...)...] evaluated on the committed tables. *)
Definition query {A} (q : T -> A) : M (session T) A :=
  round_trip (fun t => (Return (q t), t)).

(** [session.commit()] of the pending changes [pending]: all of them are
    written, or the server is unreachable or a constraint of the schema
    is violated and none is. A failed commit is followed in the code by
    [session.rollback()], which discards the pending changes and is taken
    not to raise. *)
Definition commit (constraints_hold : T -> bool) (pending : T -> T)
  : M (session T) unit :=
  round_trip (fun t =>
    if constraints_hold (pending t) then (Return tt, pending t)
    else (Raise "IntegrityError", t)).

End Statements.

End Db.

(** ** Audit logging agent: [SAMAAuditLoggingAgent] *)

Module Audit.

Export Datetime.
Import Kafka.

(** Values an event payload may carry besides the keys the agent reads.
    A list or a dictionary that holds itself, directly or through other
    containers, is written as the tree [json.dumps] walks: where the
    container is met again inside itself stands [PyRef]. *)
#[local] Set Warnings "-register-all".
Inductive PyValue :=
| PyStr (s : string)
| PyInt (n : Z)
| PyFloat (x : float)
| PyBool (b : bool)
| PyNone
| PyList (items : list PyValue)              (* a list or a tuple *)
| PyDict (items : list (PyValue * PyValue))  (* keys and values, as inserted *)
| PyRef       (* a list or dictionary that is being encoded, met again *)
| PyObject.   (* any other object *)
#[local] Set Warnings "register-all".

(** The [event_data] dictionary. The five keys the agent reads with
    [.get] are fields ([None]: the key is absent); [extra] holds the
    other items. *)
Record EventData := mkEventData {
  event_id : option string;
  agent_name : option string;
  customer_id : option string;
  action : option string;
  status : option string;
  extra : list (PyValue * PyValue)
}.

(** The items of the dictionary: those of the five keys that are there,
    and the others. *)
Definition items (d : EventData) : list (PyValue * PyValue) :=
  omap (fun kv : string * option string =>
          (fun v => (PyStr (fst kv), PyStr v)) <$> snd kv)
       [("event_id", event_id d); ("agent_name", agent_name d);
        ("customer_id", customer_id d); ("action", action d); ("status", status d)]
  ++ extra d.

(** *** [json.dumps]

    The encoder walks the value in order and raises at the first thing
    it cannot write. Two limits of the interpreter come in: the longest
    integer it turns into decimal digits ([sys.get_int_max_str_digits()],
    4300 unless changed, [None] when switched off), and how many
    containers it may still enter, one inside the other, before the
    recursion limit is reached. *)
Section Json.

Variable int_max_str_digits : option nat.

(** The first exception a list of items gives, in order. *)
Fixpoint first_error {A} (error : A -> option string) (l : list A) : option string :=
  match l with
  | [] => None
  | x :: rest =>
      match error x with
      | Some exc => Some exc
      | None => first_error error rest
      end
  end.

(** An integer with more digits than the limit: [ValueError]. *)
Definition int_error (n : Z) : option string :=
  match int_max_str_digits with
  | Some limit =>
      if (limit <? String.length (Py.str_of_N (Z.abs_N n)))%nat
      then Some "ValueError" else None
  | None => None
  end.

(** A key must be a string, a number, a boolean or [None]:
    [TypeError] otherwise. *)
Definition key_error (k : PyValue) : option string :=
  match k with
  | PyStr _ | PyFloat _ | PyBool _ | PyNone => None
  | PyInt n => int_error n
  | _ => Some "TypeError"
  end.

(** The exception the encoder raises on a value, if any, when it may
    still enter [nesting] containers: [RecursionError] on entering one
    more, [ValueError] on entering a container that is already being
    encoded, [TypeError] for an object it has no encoding for. *)
Fixpoint value_error (nesting : nat) (v : PyValue) {struct nesting} : option string :=
  match v with
  | PyStr _ | PyFloat _ | PyBool _ | PyNone => None
  | PyInt n => int_error n
  | PyObject => Some "TypeError"
  | PyRef =>
      match nesting with
      | O => Some "RecursionError"
      | S _ => Some "ValueError"
      end
  | PyList values =>
      match nesting with
      | O => Some "RecursionError"
      | S inner => first_error (value_error inner) values
      end
  | PyDict pairs =>
      match nesting with
      | O => Some "RecursionError"
      | S inner =>
          first_error
            (fun kv : PyValue * PyValue =>
               match key_error (fst kv) with
               | Some exc => Some exc
               | None => value_error inner (snd kv)
               end)
            pairs
      end
  end.

End Json.

(** An item [json.dumps] always writes: a text key with a text, a
    float, a boolean or [None]. *)
Definition plain (kv : PyValue * PyValue) : Prop :=
  match kv with
  | (PyStr _, (PyStr _ | PyFloat _ | PyBool _ | PyNone)) => True
  | _ => False
  end.

(** The [log_entry] dictionary, also the shape of an [AuditLog] row. *)
Record LogEntry := mkLogEntry {
  le_event_type : string;
  le_event_id : string;
  le_agent_name : string;
  le_customer_id : string;
  le_action : string;
  le_details : EventData;
  le_status : string;
  le_occurred_at : datetime
}.

(** What [log_event] returns. *)
Record LogResult := mkLogResult {
  logged : bool;
  event_type : string;
  timestamp : string
}.

(** The agent with the services it holds. [redis_client] and
    [db_session] are [None] when the connection failed at start-up;
    [memory_logs] is [Some] only when the attribute was created. *)
Record Agent := mkAgent {
  redis_client : option (Redis.client Redis.cell);
  db_session : option (Db.session (list LogEntry));
  memory_logs : option (list LogEntry);
  kafka_handler : KafkaHandler
}.

(** What a call observes of the outside world. *)
Record Env := mkEnv {
  now : datetime;             (* datetime.now() *)
  clock : Z;                  (* Redis server time, seconds *)
  redis_down : nat -> bool;   (* which Redis commands fail *)
  db_down : nat -> bool;      (* which database round trips fail *)
  nesting_allowed : nat;      (* containers the encoder may still enter *)
  int_max_str_digits : option nat   (* sys.get_int_max_str_digits() *)
}.

(** [json.dumps(event_data)]: the encoded payload (kept as the payload
    itself), or the exception of the first thing in it that cannot be
    encoded. *)
Definition json_dumps (env : Env) (d : EventData) : outcome EventData :=
  match value_error (int_max_str_digits env) (nesting_allowed env) (PyDict (items d)) with
  | None => Return d
  | Some exc => Raise exc
  end.

Definition set_redis (c : Redis.client Redis.cell) (self : Agent) : Agent :=
  mkAgent (Some c) (db_session self) (memory_logs self) (kafka_handler self).
Definition set_db (s : Db.session (list LogEntry)) (self : Agent) : Agent :=
  mkAgent (redis_client self) (Some s) (memory_logs self) (kafka_handler self).
Definition set_memory_logs (l : list LogEntry) (self : Agent) : Agent :=
  mkAgent (redis_client self) (db_session self) (Some l) (kafka_handler self).
Definition set_kafka (k : KafkaHandler) (self : Agent) : Agent :=
  mkAgent (redis_client self) (db_session self) (memory_logs self) k.

(** A command on [self.redis_client]. *)
Definition on_redis {A} (m : M (Redis.client Redis.cell) A) : M Agent A :=
  fun self =>
    match redis_client self with
    | Some c => let '(r, c') := m c in (r, set_redis c' self)
    | None => (Raise "AttributeError", self)
    end.

(** A statement on [self.db_session]. *)
Definition on_db {A} (m : M (Db.session (list LogEntry)) A) : M Agent A :=
  fun self =>
    match db_session self with
    | Some s => let '(r, s') := m s in (r, set_db s' self)
    | None => (Raise "AttributeError", self)
    end.

(** [if hasattr(self, 'memory_logs'): self.memory_logs.append(log_entry)] *)
Definition append_memory_log (log_entry : LogEntry) : M Agent unit :=
  modify (fun self =>
    match memory_logs self with
    | Some l => set_memory_logs (l ++ [log_entry])%list self
    | None => self
    end).

Local Open Scope eff_scope.

Section Methods.
Variable env : Env.

(** The Redis commands the agent issues, on [self.redis_client]. *)
Definition incr (key : string) : M Agent Z :=
  on_redis (Redis.incr (redis_down env) (clock env) Redis.as_int Redis.CInt key).
Definition expire (key : string) (seconds : Z) : M Agent bool :=
  on_redis (Redis.expire (redis_down env) (clock env) key seconds).
Definition setex (key : string) (seconds : Z) (text : string) : M Agent unit :=
  on_redis (Redis.setex (redis_down env) (clock env) key seconds (Redis.CText text)).

Definition _store_audit_log (log_entry : LogEntry) : M Agent unit :=
  let! self := get in
  if Py.is_set (db_session self) then
    try_except
      (on_db (Db.commit (db_down env) (fun _ => true)
                        (fun audit_logs => (audit_logs ++ [log_entry])%list)))
      (fun _ => append_memory_log log_entry)
  else append_memory_log log_entry.

Definition _update_metrics (event_type : string) : M Agent unit :=
  let! self := get in
  if Py.is_set (redis_client self) then
    try_except
      (let counter_key := "audit:counter:" +:+ event_type in
       incr counter_key ;;
       let today_key :=
         "audit:daily:" +:+ strftime_Ymd (now env) +:+ ":" +:+ event_type in
       incr today_key ;;
       expire today_key (86400 * 7) ;;
       ret tt)
      (fun _ => ret tt)
  else ret tt.

Definition failure_key (event_data : EventData) : string :=
  "audit:failures:" +:+ default "unknown" (customer_id event_data).

Definition failure_anomaly (event_data : EventData) : string :=
  "Multiple failures detected for customer "
    +:+ Py.str_of_optional (customer_id event_data).

Definition rate_key (event_type : string) : string :=
  "audit:rate:" +:+ event_type.

Definition rate_anomaly (event_type : string) : string :=
  "High event rate detected for " +:+ event_type.

Definition _detect_anomalies (event_type : string) (event_data : EventData)
  : M Agent (list string) :=
  let! self := get in
  (* Check for repeated failures *)
  let! repeated :=
    if bool_decide (status event_data = Some "failure") then
      if Py.is_set (redis_client self) then
        try_except
          (let! failures := incr (failure_key event_data) in
           expire (failure_key event_data) 3600 ;;
           ret (if (5 <? failures)%Z then [failure_anomaly event_data] else []))
          (fun _ => ret [])
      else ret []
    else ret [] in
  (* Check for unusual activity patterns *)
  let! rate_high :=
    if Py.is_set (redis_client self) then
      try_except
        (let! rate := incr (rate_key event_type) in
         expire (rate_key event_type) 60 ;;
         ret (if (100 <? rate)%Z then [rate_anomaly event_type] else []))
        (fun _ => ret [])
    else ret [] in
  ret (repeated ++ rate_high)%list.

Definition anomaly_event (anomaly : string) : Event :=
  mkEvent "audit-anomaly" "anomaly"
          [("anomaly", FStr anomaly); ("detected_at", FStr (isoformat (now env)))].

Definition _handle_anomalies (anomalies : list string) : M Agent unit :=
  for_each anomalies (fun anomaly =>
    modify (fun self =>
      set_kafka (send_event "audit-anomaly" "anomaly"
                   [("anomaly", FStr anomaly);
                    ("detected_at", FStr (isoformat (now env)))]
                   (kafka_handler self)) self) ;;
    let! self := get in
    if Py.is_set (redis_client self) then
      try_except
        (let alert_key := "audit:alert:" +:+ strftime_YmdHMS (now env) in
         setex alert_key 3600 anomaly)
        (fun _ => ret tt)
    else ret tt).

(** Parts of the methods above, named for the properties: the alert that
    [_handle_anomalies] stores in Redis for one anomaly, *)
Definition store_alert (anomaly : string) : M Agent unit :=
  bind get (fun self =>
    if Py.is_set (redis_client self) then
      try_except
        (setex ("audit:alert:" +:+ strftime_YmdHMS (now env)) 3600 anomaly)
        (fun _ => ret tt)
    else ret tt).

(** and the two checks of [_detect_anomalies], for an agent [self] read
    at its start. *)
Definition failure_check (event_data : EventData) (self : Agent) : M Agent (list string) :=
  if bool_decide (status event_data = Some "failure") then
    if Py.is_set (redis_client self) then
      try_except
        (bind (incr (failure_key event_data)) (fun failures =>
         bind (expire (failure_key event_data) 3600) (fun _ =>
         ret (if (5 <? failures)%Z then [failure_anomaly event_data] else []))))
        (fun _ => ret [])
    else ret []
  else ret [].

Definition rate_check (event_type : string) (self : Agent) : M Agent (list string) :=
  if Py.is_set (redis_client self) then
    try_except
      (bind (incr (rate_key event_type)) (fun rate =>
       bind (expire (rate_key event_type) 60) (fun _ =>
       ret (if (100 <? rate)%Z then [rate_anomaly event_type] else []))))
      (fun _ => ret [])
  else ret [].

(** The [log_entry] dictionary of [log_event]. *)
Definition make_log_entry (event_type : string) (event_data details : EventData)
  : LogEntry :=
  {| le_event_type := event_type;
     le_event_id := default "" (event_id event_data);
     le_agent_name := default "unknown" (agent_name event_data);
     le_customer_id := default "" (customer_id event_data);
     le_action := default event_type (action event_data);
     le_details := details;
     le_status := default "success" (status event_data);
     le_occurred_at := now env |}.

Definition log_event (event_type : string) (event_data : EventData)
  : M Agent LogResult :=
  (* Create audit log entry *)
  let! details :=
    match json_dumps env event_data with
    | Return d => ret d
    | Raise exc => raise exc
    end in
  let log_entry := make_log_entry event_type event_data details in
  _store_audit_log log_entry ;;
  _update_metrics event_type ;;
  let! anomalies := _detect_anomalies event_type event_data in
  (match anomalies with
   | [] => ret tt
   | _ => _handle_anomalies anomalies
   end) ;;
  ret {| logged := true;
         event_type := event_type;
         timestamp := isoformat (le_occurred_at log_entry) |}.

End Methods.

(** A sequence of [log_event] calls, one at a time: each call has its own
    observations of the outside world, its event type and its payload. *)
Fixpoint run_events (calls : list (Env * string * EventData)) (self : Agent) : Agent :=
  match calls with
  | [] => self
  | (env, event_type, event_data) :: rest =>
      run_events rest (snd (log_event env event_type event_data self))
  end.

(** An [audit-anomaly] message that carries the anomaly [text]. *)
Definition is_alert (text : string) (e : Event) : bool :=
  String.eqb (topic e) "audit-anomaly"
  && match value e with
     | (name, FStr anomaly) :: _ => String.eqb name "anomaly" && String.eqb anomaly text
     | _ => false
     end.

(** The number of anomalies with that text published so far. *)
Definition alerts (text : string) (self : Agent) : nat :=
  length (List.filter (is_alert text) (mock_events (kafka_handler self))).

(** The failure counter of a subject as Redis reads it at time [now]: a
    key that is missing or has expired counts 0. *)
Definition failure_count (now : Z) (event_data : EventData) (self : Agent) : option Z :=
  match redis_client self with
  | Some c =>
      match Redis.lookup now (failure_key event_data) c with
      | Some e => Redis.as_int (Redis.e_value e)
      | None => Some 0%Z
      end
  | None => None
  end.

(** A logged failure event of [subject] at a time within the hour that
    starts at [t0], Redis answering every command. *)
Definition failure_in_window (t0 : Z) (subject : option string)
    (call : Env * string * EventData) : Prop :=
  let '(env, _, event_data) := call in
  status event_data = Some "failure"
  /\ customer_id event_data = subject
  /\ (exists details, json_dumps env event_data = Return details)
  /\ (forall i, redis_down env i = false)
  /\ (t0 <= clock env < t0 + 3600)%Z.

(** The cache cannot be used: there is no client, or every command fails. *)
Definition cache_unavailable (env : Env) (self : Agent) : Prop :=
  redis_client self = None \/ forall n, redis_down env n = true.

(** A run for illustration: the failure event of the agent's own test,
    logged six times at ten-minute intervals by an agent with an empty
    Redis and no database. *)
Definition example_event : EventData :=
  {| event_id := Some "sum_001";
     agent_name := Some "ComplianceSummaryAgent";
     customer_id := Some "CUSTOMER_001";
     action := Some "generate_summary";
     status := Some "failure";
     extra := [] |}.

Definition example_env (minutes : N) (redis_up : bool) : Env :=
  {| now := mkDatetime 2024 1 5 9 minutes 7 0;
     clock := 1704445387 + 60 * Z.of_N minutes;
     redis_down := fun _ => negb redis_up;
     db_down := fun _ => false;
     nesting_allowed := 900;
     int_max_str_digits := Some 4300 |}.

Definition example_agent : Agent :=
  {| redis_client := Some (Redis.mkClient ∅ 0);
     db_session := None;
     memory_logs := Some [];
     kafka_handler := mkKafkaHandler [] |}.

Definition six_failures : list (Env * string * EventData) :=
  map (fun minutes => (example_env minutes true, "compliance-summary-generated", example_event))
      [0; 10; 20; 30; 40; 50]%N.

(** *** What the methods leave alone *)

(** The Redis key [k] holds what it held, and a missing client stays
    missing. *)
Definition redis_key_kept (k : string) (s s' : Agent) : Prop :=
  match redis_client s, redis_client s' with
  | Some c, Some c' => Redis.keys c' !! k = Redis.keys c !! k
  | None, None => True
  | _, _ => False
  end.

(** The stored audit records are the same. *)
Definition records_kept (s s' : Agent) : Prop :=
  db_session s' = db_session s /\ memory_logs s' = memory_logs s.

(** Nothing was published. *)
Definition quiet (s s' : Agent) : Prop :=
  kafka_handler s' = kafka_handler s.

(** The steps of the metrics and of detection spare the key [k], the
    records and the bus; those of the alerts spare the key and the
    records; storing a record spares Redis and the bus. *)
Definition metrics_step (k : string) (s s' : Agent) : Prop :=
  redis_key_kept k s s' /\ records_kept s s' /\ quiet s s'.

Definition alert_step (k : string) (s s' : Agent) : Prop :=
  redis_key_kept k s s' /\ records_kept s s'.

Definition store_step (s s' : Agent) : Prop :=
  redis_client s' = redis_client s /\ quiet s s'.

(** Throughout the hour that starts at [t0] the counter of the subject
    reads [n]. *)
Definition counter_reads (t0 : Z) (subject : EventData) (n : Z) (s : Agent) : Prop :=
  forall t, (t0 <= t < t0 + 3600)%Z -> failure_count t subject s = Some n.

(** *** Reports: [get_audit_report] and the methods it calls *)

(** A log dictionary as [_get_audit_logs] returns it: the five items it
    makes of a database row, or the [log_entry] the in-memory list
    holds. *)
Inductive AuditDict :=
| OfRow (event_type agent_name customer_id status : string) (occurred_at : datetime)
| OfMemory (log_entry : LogEntry).

Definition dict_event_type (log : AuditDict) : string :=
  match log with OfRow e _ _ _ _ => e | OfMemory l => le_event_type l end.
Definition dict_agent_name (log : AuditDict) : string :=
  match log with OfRow _ a _ _ _ => a | OfMemory l => le_agent_name l end.
Definition dict_customer_id (log : AuditDict) : string :=
  match log with OfRow _ _ c _ _ => c | OfMemory l => le_customer_id l end.
Definition dict_status (log : AuditDict) : string :=
  match log with OfRow _ _ _ s _ => s | OfMemory l => le_status l end.
Definition dict_occurred_at (log : AuditDict) : datetime :=
  match log with OfRow _ _ _ _ t => t | OfMemory l => le_occurred_at l end.

Definition dict_of_row (log : LogEntry) : AuditDict :=
  OfRow (le_event_type log) (le_agent_name log) (le_customer_id log)
        (le_status log) (le_occurred_at log).

(** [if customer_id:] for a string or [None]: an empty string is as good
    as none. *)
Definition given (customer_id : option string) : bool :=
  match customer_id with
  | Some c => negb (String.eqb c "")
  | None => false
  end.

(** [start_date <= t <= end_date] *)
Definition in_period (start_date end_date t : datetime) : bool :=
  Datetime.leb start_date t && Datetime.leb t end_date.

(** The rows or entries a report asks for. *)
Definition selected (customer_id : option string) (start_date end_date : datetime)
    (log : LogEntry) : bool :=
  (negb (given customer_id) || String.eqb (le_customer_id log) (default "" customer_id))
  && in_period start_date end_date (le_occurred_at log).

(** [order_by(AuditLog.occurred_at.desc())]: latest first; rows of equal
    time stamp are kept in the order of insertion, where the database
    is free to choose. *)
Fixpoint insert_desc (x : LogEntry) (sorted : list LogEntry) : list LogEntry :=
  match sorted with
  | [] => [x]
  | y :: rest =>
      if Datetime.leb (le_occurred_at y) (le_occurred_at x)
      then x :: sorted
      else y :: insert_desc x rest
  end.

Definition order_by_desc (rows : list LogEntry) : list LogEntry :=
  fold_right insert_desc [] rows.

(** A dictionary of counts, in the order in which the keys were first
    counted. [bump key counts] is [counts[key] = counts.get(key, 0) + 1]. *)
Fixpoint bump (key : string) (counts : list (string * nat)) : list (string * nat) :=
  match counts with
  | [] => [(key, 1)]
  | (k, n) :: rest =>
      if String.eqb k key then (k, S n) :: rest else (k, n) :: bump key rest
  end.

(** [counts.get(key)] and [sum(counts.values())] *)
Definition count_of (key : string) (counts : list (string * nat)) : option nat :=
  snd <$> List.find (fun kv => String.eqb (fst kv) key) counts.

Definition total (counts : list (string * nat)) : nat := list_sum (map snd counts).


Record StatusCounts := mkStatusCounts {
  sc_success : nat;
  sc_failure : nat;
  sc_warning : nat
}.

(** The dictionary [_analyze_logs] returns ([timeline] stays empty). *)
Record Analysis := mkAnalysis {
  event_counts : list (string * nat);
  agent_counts : list (string * nat);
  status_counts : StatusCounts;
  timeline : list AuditDict
}.

(** [if status in status_counts: status_counts[status] += 1] *)
Definition count_status (status : string) (c : StatusCounts) : StatusCounts :=
  if String.eqb status "success"
  then mkStatusCounts (S (sc_success c)) (sc_failure c) (sc_warning c)
  else if String.eqb status "failure"
  then mkStatusCounts (sc_success c) (S (sc_failure c)) (sc_warning c)
  else if String.eqb status "warning"
  then mkStatusCounts (sc_success c) (sc_failure c) (S (sc_warning c))
  else c.

Definition _analyze_logs (logs : list AuditDict) : Analysis :=
  fold_left
    (fun analysis log =>
       {| event_counts := bump (dict_event_type log) (event_counts analysis);
          agent_counts := bump (dict_agent_name log) (agent_counts analysis);
          status_counts := count_status (dict_status log) (status_counts analysis);
          timeline := timeline analysis |})
    logs
    {| event_counts := []; agent_counts := [];
       status_counts := mkStatusCounts 0 0 0; timeline := [] |}.


(** The dictionary [get_compliance_metrics] returns; [recent_failures]
    is [None] while it still is the empty list it starts as. *)
Record Metrics := mkMetrics {
  total_events_today : Z;
  success_rate : float;
  active_agents : list string;
  recent_failures : option nat;
  system_health : string
}.

Definition initial_metrics : Metrics :=
  {| total_events_today := 0;
     success_rate := 0;
     active_agents := [];
     recent_failures := None;
     system_health := "healthy" |}.

Definition monitored_topics : list string :=
  [ "document-processed"; "kyc-validation-requested"; "kyc-validation-completed";
    "compliance-summary-requested"; "compliance-summary-generated";
    "chat-interaction"; "audit-log" ].

(** A value as Redis hands it to Python is a string: [if count:] tests
    that it is not empty, [int(count)] reads it as a number. *)
Definition truthy (c : Redis.cell) : bool :=
  match c with
  | Redis.CInt _ => true
  | Redis.CText s => negb (String.eqb s "")
  end.

Definition int_of_cell (c : Redis.cell) : outcome Z :=
  match c with
  | Redis.CInt n => Return n
  | Redis.CText s =>
      match Py.int_of_text s with
      | Some n => Return n
      | None => Raise "ValueError"
      end
  end.

Definition daily_key (date event_type : string) : string :=
  "audit:daily:" +:+ date +:+ ":" +:+ event_type.

(** The method body works on the agent and on the local [metrics]. *)
Definition on_agent {A} (m : M Agent A) : M (Agent * Metrics) A :=
  fun '(self, metrics) => let '(r, self') := m self in (r, (self', metrics)).

Definition update (f : Metrics -> Metrics) : M (Agent * Metrics) unit :=
  modify (fun '(self, metrics) => (self, f metrics)).

Definition the_metrics : M (Agent * Metrics) Metrics :=
  fun '(self, metrics) => (Return metrics, (self, metrics)).

Definition lift_outcome {S A} (r : outcome A) : M S A :=
  match r with Return a => ret a | Raise exc => raise exc end.

Section Reports.
Variable env : Env.

(** [self.llm], which is not among the fields of [Agent]: [None] when
    there is no model, and otherwise what [self.llm.run(prompt)] does in
    this call. *)
Variable llm : option (outcome string).

Definition _get_audit_logs (customer_id : option string)
    (start_date end_date : datetime) : M Agent (list AuditDict) :=
  let! self := get in
  let! logs :=
    if Py.is_set (db_session self) then
      try_except
        (let! db_logs :=
           on_db (Db.query (db_down env) (fun audit_logs =>
             order_by_desc
               (List.filter (selected customer_id start_date end_date) audit_logs))) in
         ret (map dict_of_row db_logs))
        (fun _ => ret [])
    else ret [] in
  (* Fall back to memory logs *)
  let! self := get in
  match logs, memory_logs self with
  | [], Some memory =>
      ret (map OfMemory
             (List.filter (selected customer_id start_date end_date) memory))
  | _, _ => ret logs
  end.




(** The Redis reads of [get_compliance_metrics]. *)
Definition redis_get (key : string) : M (Agent * Metrics) (option Redis.cell) :=
  on_agent (on_redis (Redis.get (redis_down env) (clock env) key)).

(** [int(self.redis_client.get(key) or 0)] *)
Definition count_or_zero (key : string) : M (Agent * Metrics) Z :=
  let! count := redis_get key in
  match count with
  | Some c => if truthy c then lift_outcome (int_of_cell c) else ret 0%Z
  | None => ret 0%Z
  end.

Definition get_compliance_metrics : M Agent Metrics :=
  fun self =>
    let body : M (Agent * Metrics) unit :=
      let today := strftime_Ymd (now env) in
      (* Get all event types *)
      for_each monitored_topics (fun topic =>
        let! count := redis_get (daily_key today topic) in
        match count with
        | Some c =>
            if truthy c then
              let! n := lift_outcome (int_of_cell c) in
              update (fun m => mkMetrics (total_events_today m + n) (success_rate m)
                                 (active_agents m) (recent_failures m) (system_health m))
            else ret tt
        | None => ret tt
        end) ;;
      (* Calculate success rate *)
      let! success_count := count_or_zero (daily_key today "success") in
      let! failure_count := count_or_zero (daily_key today "failure") in
      let total := (success_count + failure_count)%Z in
      (if (0 <? total)%Z
       then update (fun m => mkMetrics (total_events_today m)
                               (Py.truediv_Z success_count total)
                               (active_agents m) (recent_failures m) (system_health m))
       else ret tt) ;;
      (* Get recent failures *)
      let! failure_keys :=
        on_agent (on_redis (Redis.keys_with_prefix (redis_down env) (clock env)
                                                   "audit:failure:")) in
      update (fun m => mkMetrics (total_events_today m) (success_rate m)
                         (active_agents m) (Some (length failure_keys))
                         (system_health m)) ;;
      (* Determine system health *)
      let! m := the_metrics in
      if Py.lt (success_rate m) Py.f0_5
      then update (fun m => mkMetrics (total_events_today m) (success_rate m)
                              (active_agents m) (recent_failures m) "critical")
      else if Py.lt (success_rate m) Py.f0_8
      then update (fun m => mkMetrics (total_events_today m) (success_rate m)
                              (active_agents m) (recent_failures m) "warning")
      else ret tt in
    let '(_, (self', metrics)) :=
      (if Py.is_set (redis_client self)
       then try_except body (fun _ => ret tt)
       else ret tt) (self, initial_metrics) in
    (Return metrics, self').

End Reports.

(** What the in-memory list gives a report, what the rows of the table
    give it, and the order of the latter. *)
Definition from_memory (customer_id : option string) (start_date end_date : datetime)
    (self : Agent) : list AuditDict :=
  match memory_logs self with
  | Some memory =>
      map OfMemory (List.filter (selected customer_id start_date end_date) memory)
  | None => []
  end.

Definition from_rows (customer_id : option string) (start_date end_date : datetime)
    (rows : list LogEntry) : list AuditDict :=
  map dict_of_row
      (order_by_desc (List.filter (selected customer_id start_date end_date) rows)).

Definition latest_first (logs : list AuditDict) : Prop :=
  StronglySorted
    (fun earlier later =>
       Datetime.leb (dict_occurred_at later) (dict_occurred_at earlier) = true)
    logs.

(** *** Notions for the metrics *)

(** A step of the body of [get_compliance_metrics] that issues [k] Redis
    commands: it leaves the keys, the stores and the bus alone, and it
    returns only if the server answered each of the commands. [reads]
    also leaves the health as it is; [guarded] does so when it raises. *)
Definition guarded_by (keeps_health : bool) (env : Env) (k : nat) {A}
    (m : M (Agent * Metrics) A) : Prop :=
  forall self metrics c,
    redis_client self = Some c ->
    let '(r, (self', metrics')) := m (self, metrics) in
    db_session self' = db_session self
    /\ memory_logs self' = memory_logs self
    /\ kafka_handler self' = kafka_handler self
    /\ (exists c', redis_client self' = Some c' /\ Redis.keys c' = Redis.keys c
                   /\ match r with
                      | Return _ => Redis.issued c' = Redis.issued c + k
                      | Raise _ => True
                      end)
    /\ match r with
       | Return _ =>
           (forall i, i < k -> redis_down env (Redis.issued c + i) = false)
           /\ (keeps_health = true -> system_health metrics' = system_health metrics)
       | Raise _ => system_health metrics' = system_health metrics
       end.

Definition reads (env : Env) (k : nat) {A} (m : M (Agent * Metrics) A) : Prop :=
  guarded_by true env k m.

Definition guarded (env : Env) (k : nat) {A} (m : M (Agent * Metrics) A) : Prop :=
  guarded_by false env k m.

(** The body of [get_compliance_metrics] up to the health, and the
    health. *)
Definition count_topic (env : Env) (today topic : string) : M (Agent * Metrics) unit :=
  bind (redis_get env (daily_key today topic)) (fun count =>
  match count with
  | Some c =>
      if truthy c then
        bind (lift_outcome (int_of_cell c)) (fun n =>
        update (fun m => mkMetrics (total_events_today m + n) (success_rate m)
                           (active_agents m) (recent_failures m) (system_health m)))
      else ret tt
  | None => ret tt
  end).

Definition determine_health : M (Agent * Metrics) unit :=
  bind the_metrics (fun m =>
  if Py.lt (success_rate m) Py.f0_5
  then update (fun m => mkMetrics (total_events_today m) (success_rate m)
                          (active_agents m) (recent_failures m) "critical")
  else if Py.lt (success_rate m) Py.f0_8
  then update (fun m => mkMetrics (total_events_today m) (success_rate m)
                          (active_agents m) (recent_failures m) "warning")
  else ret tt).

(** What the agent keeps in Redis: counters, and text under the alert
    keys only. *)
Definition own_value (k : string) (e : Redis.entry Redis.cell) : Prop :=
  String.prefix "audit:alert:" k = true \/ exists n, Redis.e_value e = Redis.CInt n.

Definition own_values (ks : gmap string (Redis.entry Redis.cell)) : Prop :=
  forall k e, ks !! k = Some e -> own_value k e.

(** The keys [get_compliance_metrics] reads for the success rate and for
    the recent failures are not there. *)
Definition unread (today : string) (ks : gmap string (Redis.entry Redis.cell)) : Prop :=
  ks !! daily_key today "success" = None
  /\ ks !! daily_key today "failure" = None
  /\ forall k, String.prefix "audit:failure:" k = true -> ks !! k = None.

(** A property of the keys that holds of an agent's Redis, together with
    [own_values], and a step that keeps it. *)
Definition holds (I : gmap string (Redis.entry Redis.cell) -> Prop) (s : Agent) : Prop :=
  match redis_client s with
  | Some c => I (Redis.keys c) /\ own_values (Redis.keys c)
  | None => True
  end.

Definition keeps (I : gmap string (Redis.entry Redis.cell) -> Prop) (s s' : Agent) : Prop :=
  (holds I s -> holds I s')
  /\ (Py.is_set (redis_client s) = true -> Py.is_set (redis_client s') = true).

(** The property survives a write to any of the keys [written]. *)
Definition closed_under (I : gmap string (Redis.entry Redis.cell) -> Prop)
    (written : list string) : Prop :=
  forall ks k e, I ks -> In k written -> I (<[k := e]> ks).

Fixpoint has_colon (s : string) : bool :=
  match s with
  | EmptyString => false
  | String c rest => Ascii.eqb c ":" || has_colon rest
  end.

(** The keys [log_event] may write in a call. *)
Definition written_keys (env : Env) (event_type : string) (event_data : EventData)
  : list string :=
  [ "audit:counter:" +:+ event_type;
    daily_key (strftime_Ymd (now env)) event_type;
    failure_key event_data;
    rate_key event_type;
    "audit:alert:" +:+ strftime_YmdHMS (now env) ].

(** An agent for illustration that has a database, which answers. *)
Definition example_db_agent : Agent :=
  {| redis_client := None;
     db_session := Some (Db.mkSession [] 0);
     memory_logs := None;
     kafka_handler := mkKafkaHandler [] |}.

(** The [document-processed] event of the agent's own test. *)
Definition example_success_event : EventData :=
  {| event_id := Some "doc_001";
     agent_name := Some "DocumentIngestionAgent";
     customer_id := Some "CUSTOMER_001";
     action := Some "process_document";
     status := Some "success";
     extra := [] |}.

(** *** Notions for the event rate *)

(** The rate counter of an event type as Redis reads it at time [now]:
    a key that is missing or has expired counts 0. *)
Definition rate_count (now : Z) (event_type : string) (self : Agent) : option Z :=
  match redis_client self with
  | Some c =>
      match Redis.lookup now (rate_key event_type) c with
      | Some e => Redis.as_int (Redis.e_value e)
      | None => Some 0%Z
      end
  | None => None
  end.

(** A logged event of type [event_type] whose payload [json.dumps]
    encodes, Redis answering every command. *)
Definition of_type (event_type : string) (call : Env * string * EventData) : Prop :=
  let '(env, called_type, event_data) := call in
  called_type = event_type
  /\ (exists details, json_dumps env event_data = Return details)
  /\ (forall i, redis_down env i = false).

(** Every call comes no more than sixty seconds, by the clock of the
    server, after the call before it; the first one after [last]. *)
Fixpoint within_a_minute (last : Z) (calls : list (Env * string * EventData)) : Prop :=
  match calls with
  | [] => True
  | (env, _, _) :: rest =>
      (clock env <= last + 60)%Z /\ within_a_minute (clock env) rest
  end.

(** The server time of the last of the calls ([first] if there is none). *)
Definition last_clock (first : Z) (calls : list (Env * string * EventData)) : Z :=
  List.last (map (fun call => clock (fst (fst call))) calls) first.

(** The rate counter holds [n] and expires sixty seconds after [t]. *)
Definition rate_entry (event_type : string) (t n : Z) (self : Agent) : Prop :=
  exists c,
    redis_client self = Some c
    /\ Redis.keys c !! rate_key event_type
       = Some (Redis.mkEntry (Redis.CInt n) (Some (t + 60)%Z)).

(** A run for illustration: an event logged every 59 seconds. *)
Definition example_env_at (seconds : Z) : Env :=
  {| now := mkDatetime 2024 1 5 9 0 7 0;
     clock := 1704445387 + seconds;
     redis_down := fun _ => false;
     db_down := fun _ => false;
     nesting_allowed := 900;
     int_max_str_digits := Some 4300 |}.

Definition steady_events (n : nat) : list (Env * string * EventData) :=
  map (fun i => (example_env_at (59 * Z.of_nat i), "document-processed", example_success_event))
      (seq 0 n).

(** *** Notions for the events of the day *)

(** The seven days a daily counter is kept. *)
Definition week : Z := 86400 * 7.

(** The call logs an event of type [topic] on the day [today], as
    [strftime('%Y%m%d')] names the days. *)
Definition logged_on (today topic : string) (call : Env * string * EventData) : bool :=
  String.eqb (strftime_Ymd (now (fst (fst call)))) today
  && String.eqb (snd (fst call)) topic.

(** The call logs an event of one of the [topics] on the day [today];
    of a monitored topic. *)
Definition logged_among (today : string) (topics : list string)
    (call : Env * string * EventData) : bool :=
  String.eqb (strftime_Ymd (now (fst (fst call)))) today
  && bool_decide (snd (fst call) ∈ topics).

Definition counted_on (today : string) (call : Env * string * EventData) : bool :=
  logged_among today monitored_topics call.

(** A logged event whose payload [json.dumps] encodes, Redis answering
    every command, at a server time within the week that starts at
    [t0]. *)
Definition in_week (t0 : Z) (call : Env * string * EventData) : Prop :=
  let '(env, _, event_data) := call in
  (exists details, json_dumps env event_data = Return details)
  /\ (forall i, redis_down env i = false)
  /\ (t0 <= clock env < t0 + week)%Z.

(** The daily counters of [today] hold the numbers of events [calls]
    logged, one counter per event type, and outlive the week. *)
Definition daily_counts (t0 : Z) (today : string)
    (calls : list (Env * string * EventData)) (self : Agent) : Prop :=
  exists c,
    redis_client self = Some c
    /\ own_values (Redis.keys c)
    /\ forall topic,
         match Redis.keys c !! daily_key today topic with
         | Some e =>
             Redis.e_value e
             = Redis.CInt (Z.of_nat (length (List.filter (logged_on today topic) calls)))
             /\ exists expiry, Redis.e_expires e = Some expiry /\ (t0 + week <= expiry)%Z
         | None => List.filter (logged_on today topic) calls = []
         end.

(** The local dictionary has the same number of events. *)
Definition same_total (s s' : Agent * Metrics) : Prop :=
  total_events_today (snd s') = total_events_today (snd s).

(** A day for illustration: two monitored events and one that is not,
    then one the day after. *)
Definition example_env_on (d : N) (seconds : Z) : Env :=
  {| now := mkDatetime 2024 1 d 9 0 7 0;
     clock := 1704445387 + seconds;
     redis_down := fun _ => false;
     db_down := fun _ => false;
     nesting_allowed := 900;
     int_max_str_digits := Some 4300 |}.

Definition example_day : list (Env * string * EventData) :=
  [ (example_env_on 5 0, "document-processed", example_success_event);
    (example_env_on 5 60, "manual-review", example_success_event);
    (example_env_on 5 120, "kyc-validation-completed", example_success_event);
    (example_env_on 6 86400, "document-processed", example_success_event) ].

End Audit.

(** ** The tables of shared/models.py the agents use *)

Module Schema.

Export Datetime.

(** [documents] (columns the agents read). *)
Record Document := mkDocumentRow {
  d_id : string;
  d_customer_id : string;
  d_extracted_text : option string;   (* NULL-able *)
  d_document_type : string;
  d_sama_compliant : option bool;   (* NULL-able *)
  d_processed_at : datetime
}.

(** [kyc_validations] (columns the agents write or read). *)
Record KYCValidation := mkKYCValidationRow {
  k_id : string;
  k_document_id : string;
  k_customer_id : string;
  k_validation_status : string;
  k_validation_score : float;
  k_identity_verified : bool;
  k_address_verified : bool;
  k_business_verified : bool;
  k_validation_details : list string * list string  (* issues, recommendations *)
}.

(** [compliance_summaries] (columns the summary agent writes). *)
Record ComplianceSummary := mkComplianceSummaryRow {
  c_id : string;
  c_customer_id : string;
  c_total_documents : nat;
  c_compliant_documents : nat;
  c_overall_compliance_score : float;
  c_compliance_status : string;
  c_summary_text : string;
  c_issues_summary : list string;
  c_recommendations_summary : list string;
  c_generated_at : datetime;
  c_updated_at : datetime
}.

Record Tables := mkTables {
  documents : list Document;
  kyc_validations : list KYCValidation;
  compliance_summaries : list ComplianceSummary
}.

(** The constraints of the schema: [id] is the primary key of every
    table, and [compliance_summaries.customer_id] is declared unique. *)
Definition constraints_hold (t : Tables) : bool :=
  bool_decide (NoDup (map d_id (documents t)))
  && bool_decide (NoDup (map k_id (kyc_validations t)))
  && bool_decide (NoDup (map c_id (compliance_summaries t)))
  && bool_decide (NoDup (map c_customer_id (compliance_summaries t))).

(** [query(Model).filter_by(...).first()] *)
Definition first {A} (matches : A -> bool) (rows : list A) : option A :=
  List.find matches rows.

(** [query(Model).filter_by(...).all()] *)
Definition all {A} (matches : A -> bool) (rows : list A) : list A :=
  List.filter matches rows.

End Schema.

(** ** KYC validation agent: [SAMAKYCValidationAgent] *)

Module Kyc.

Import Kafka.
Export Schema.

(** The dictionary [_perform_validation] returns (and the cache holds). *)
Record ValidationResult := mkValidationResult {
  validation_id : string;
  document_id : string;
  customer_id : string;
  document_type : string;
  validation_status : string;
  validation_score : float;
  identity_verified : bool;
  address_verified : bool;
  business_verified : bool;
  issues : list string;
  recommendations : list string;
  validated_at : string
}.

(** What [validate_kyc] returns: a validation, or the dictionary
    [{"status": ..., "message": ...}]. *)
Inductive Response :=
| Validated (result : ValidationResult)
| Failure (status message : string).

(** The dictionary [_retrieve_document] returns. The text is [None]
    when the row has no extracted text, or the ChromaDB entry no
    document. *)
Record RetrievedDocument := mkRetrievedDocument {
  rd_id : string;
  rd_text : option string;
  rd_type : string;
  rd_customer_id : option string
}.

(** An entry of the ChromaDB collection: the text, if it has one, and
    its metadata. *)
Record Metadata := mkMetadata {
  md_document_type : option string;
  md_customer_id : option string
}.
Record ChromaEntry := mkChromaEntry {
  ce_document : option string;
  ce_metadata : option Metadata
}.

(** The outcome of the pattern and keyword tests the type-specific
    checks run on a text ([re.search] and [in text.lower()]). *)
Record TextChecks := mkTextChecks {
  has_cr_number : bool;       (* \b\d{10}\b *)
  has_company_word : bool;
  has_capital : bool;
  has_sar : bool;
  has_date : bool;            (* \d{1,2}/\d{1,2}/\d{4} *)
  has_saudi_id : bool;        (* \b[12]\d{9}\b *)
  has_name_word : bool;
  has_birth_word : bool;
  has_saudi_word : bool;
  has_account_number : bool;  (* \b\d{10,}\b *)
  has_iban : bool;            (* \bSA\d{22}\b *)
  has_bank_word : bool
}.

(** The dictionary a type-specific check returns; the three
    [*_verified] keys are present in some checks only. *)
Record Check := mkCheck {
  ck_status : string;
  ck_score : float;
  ck_identity_verified : option bool;
  ck_address_verified : option bool;
  ck_business_verified : option bool;
  ck_issues : list string;
  ck_recommendations : list string
}.

Record Agent := mkAgent {
  llm : bool;                 (* self.llm is set *)
  redis_client : option (Redis.client ValidationResult);
  db_session : option (Db.session Tables);
  memory_storage : option (gmap string ValidationResult);
  collection : gmap string ChromaEntry;
  kafka_handler : KafkaHandler
}.

Record Env := mkEnv {
  now : datetime;
  clock : Z;
  redis_down : nat -> bool;
  db_down : nat -> bool;
  chroma_down : bool;                      (* collection.get raises *)
  text_checks : string -> TextChecks;
  ai_missing_items : option (list string)  (* parsed model answer, if any *)
}.

Definition set_redis (c : Redis.client ValidationResult) (self : Agent) : Agent :=
  mkAgent (llm self) (Some c) (db_session self) (memory_storage self)
          (collection self) (kafka_handler self).
Definition set_db (s : Db.session Tables) (self : Agent) : Agent :=
  mkAgent (llm self) (redis_client self) (Some s) (memory_storage self)
          (collection self) (kafka_handler self).
Definition set_memory_storage (m : gmap string ValidationResult) (self : Agent) : Agent :=
  mkAgent (llm self) (redis_client self) (db_session self) (Some m)
          (collection self) (kafka_handler self).
Definition set_kafka (k : KafkaHandler) (self : Agent) : Agent :=
  mkAgent (llm self) (redis_client self) (db_session self) (memory_storage self)
          (collection self) k.

Definition on_redis {A} (m : M (Redis.client ValidationResult) A) : M Agent A :=
  fun self =>
    match redis_client self with
    | Some c => let '(r, c') := m c in (r, set_redis c' self)
    | None => (Raise "AttributeError", self)
    end.

Definition on_db {A} (m : M (Db.session Tables) A) : M Agent A :=
  fun self =>
    match db_session self with
    | Some s => let '(r, s') := m s in (r, set_db s' self)
    | None => (Raise "AttributeError", self)
    end.

Definition send (topic key : string) (value : list (string * field)) : M Agent unit :=
  modify (fun self => set_kafka (send_event topic key value (kafka_handler self)) self).

(** *** The type-specific checks *)

Local Open Scope float_scope.

Definition _validate_commercial_registration (c : TextChecks) : Check :=
  let score := 0 in
  let issues := [] in
  let '(score, issues) :=
    if has_cr_number c then (score + Py.f0_3, issues)
    else (score, issues ++ ["Valid 10-digit CR number not found"])%list in
  let '(score, issues) :=
    if has_company_word c then (score + Py.f0_2, issues)
    else (score, issues ++ ["Company name not clearly identified"])%list in
  let '(score, issues) :=
    if has_capital c then (score + Py.f0_2, issues)
    else (score, issues ++ ["Capital amount not specified"])%list in
  let '(score, issues) :=
    if has_sar c then (score + Py.f0_2, issues)
    else (score, issues ++ ["Saudi currency not mentioned"])%list in
  let score := if has_date c then score + Py.f0_1 else score in
  {| ck_status := if Py.ge score Py.f0_7 then "passed" else "failed";
     ck_score := score;
     ck_identity_verified := None;
     ck_address_verified := None;
     ck_business_verified := Some (Py.ge score Py.f0_7);
     ck_issues := issues;
     ck_recommendations :=
       match issues with [] => [] | _ => ["Ensure all CR details are visible"] end |}.

Definition _validate_national_id (c : TextChecks) : Check :=
  let score := 0 in
  let issues := [] in
  let '(score, issues) :=
    if has_saudi_id c then (score + Py.f0_4, issues)
    else (score, issues ++ ["Valid Saudi ID number not found"])%list in
  let score := if has_name_word c then score + Py.f0_3 else score in
  let score := if has_birth_word c then score + Py.f0_2 else score in
  let score := if has_saudi_word c then score + Py.f0_1 else score in
  {| ck_status := if Py.ge score Py.f0_7 then "passed" else "failed";
     ck_score := score;
     ck_identity_verified := Some (Py.ge score Py.f0_7);
     ck_address_verified := None;
     ck_business_verified := None;
     ck_issues := issues;
     ck_recommendations :=
       match issues with [] => [] | _ => ["Ensure ID is clearly readable"] end |}.

Definition _validate_bank_statement (c : TextChecks) : Check :=
  let score := 0 in
  let issues := [] in
  let '(score, issues) :=
    if has_account_number c then (score + Py.f0_3, issues)
    else (score, issues ++ ["Account number not found"])%list in
  let '(score, issues) :=
    if has_iban c then (score + Py.f0_3, issues)
    else (score, issues ++ ["Saudi IBAN not found"])%list in
  let '(score, issues) :=
    if has_sar c then (score + Py.f0_2, issues)
    else (score, issues ++ ["SAR currency not mentioned"])%list in
  let score := if has_bank_word c then score + Py.f0_2 else score in
  {| ck_status := if Py.ge score Py.f0_6 then "passed" else "failed";
     ck_score := score;
     ck_identity_verified := None;
     ck_address_verified := Some (Py.ge score Py.f0_6);
     ck_business_verified := None;
     ck_issues := issues;
     ck_recommendations :=
       match issues with [] => [] | _ => ["Provide recent bank statement"] end |}.

Definition _validate_generic : Check :=
  {| ck_status := "pending";
     ck_score := Py.f0_5;
     ck_identity_verified := None;
     ck_address_verified := None;
     ck_business_verified := None;
     ck_issues := ["Document type not recognized"];
     ck_recommendations := ["Manual review required"] |}.

Local Close Scope float_scope.
Local Open Scope eff_scope.

(** *** The methods of the agent *)

Section Methods.
Variable env : Env.

Definition cache_key (document_id : string) : string := "kyc:" +:+ document_id.

Definition _get_from_cache (key : string) : M Agent (option ValidationResult) :=
  let! self := get in
  if Py.is_set (redis_client self) then
    try_except
      (on_redis (Redis.get (redis_down env) (clock env) key))
      (fun _ => ret None)
  else ret None.

Definition _save_to_cache (key : string) (data : ValidationResult) : M Agent unit :=
  let! self := get in
  if Py.is_set (redis_client self) then
    try_except
      (on_redis (Redis.setex (redis_down env) (clock env) key 3600 data))
      (fun _ => ret tt)
  else ret tt.

(** The lookup in ChromaDB: [collection.get(ids=[document_id])] and the
    reads of the first metadata, any exception being caught. *)
Definition retrieve_from_chroma (document_id : string) (self : Agent)
  : option RetrievedDocument :=
  if chroma_down env then None
  else
    match collection self !! document_id with
    | Some entry =>
        match ce_metadata entry with
        | Some metadata =>
            Some {| rd_id := document_id;
                    rd_text := ce_document entry;
                    rd_type := default "unknown" (md_document_type metadata);
                    rd_customer_id := md_customer_id metadata |}
        | None => None
        end
    | None => None
    end.

Definition document_of_row (doc : Document) : RetrievedDocument :=
  {| rd_id := d_id doc;
     rd_text := d_extracted_text doc;
     rd_type := d_document_type doc;
     rd_customer_id := Some (d_customer_id doc) |}.

Definition _retrieve_document (document_id : string)
  : M Agent (option RetrievedDocument) :=
  let! self := get in
  (* Try database first *)
  let! from_db :=
    if Py.is_set (db_session self) then
      try_except
        (let! doc :=
           on_db (Db.query (db_down env) (fun t =>
                    first (fun d => String.eqb (d_id d) document_id)
                          (documents t))) in
         ret (document_of_row <$> doc))
        (fun _ => ret None)
    else ret None in
  match from_db with
  | Some document => ret (Some document)
  | None =>
      (* Try ChromaDB *)
      let! self := get in
      ret (retrieve_from_chroma document_id self)
  end.

(** The pattern and keyword tests a type-specific check runs on the
    text it is given. Each check starts with a [re.search] on the text,
    which raises [TypeError] when the text is [None]. *)
Definition searched (text : option string) : outcome TextChecks :=
  match text with
  | Some text => Return (text_checks env text)
  | None => Raise "TypeError"
  end.

(** [_ai_validate]: the issues the answer of the model lists, if the
    answer can be read. The prompt is made first, outside the [try],
    with [text[:1000]] in it, which raises [TypeError] when the text is
    [None]. *)
Definition _ai_validate (text : option string) : outcome (option (list string)) :=
  match text with
  | Some _ => Return (ai_missing_items env)
  | None => Raise "TypeError"
  end.

Definition _perform_validation (self : Agent) (document : RetrievedDocument)
    (customer_id : string) : outcome ValidationResult :=
  let validation_id :=
    MD5.hexdigest (rd_id document +:+ "_" +:+ Datetime.str (now env)) in
  let doc_type := rd_type document in
  let doc_text := rd_text document in
  (* Perform validation based on document type *)
  let? validation :=
    if String.eqb doc_type "commercial_registration" then
      let? found := searched doc_text in
      Return (_validate_commercial_registration found)
    else if String.eqb doc_type "national_id" then
      let? found := searched doc_text in
      Return (_validate_national_id found)
    else if String.eqb doc_type "bank_statement" then
      let? found := searched doc_text in
      Return (_validate_bank_statement found)
    else Return _validate_generic in
  (* validation.update(ai_validation) replaces the issues *)
  let? issues :=
    if llm self then
      let? ai_issues := _ai_validate doc_text in
      Return (default (ck_issues validation) ai_issues)
    else Return (ck_issues validation) in
  Return
    {| validation_id := validation_id;
       document_id := rd_id document;
       customer_id := customer_id;
       document_type := doc_type;
       validation_status := ck_status validation;
       validation_score := ck_score validation;
       identity_verified := default false (ck_identity_verified validation);
       address_verified := default false (ck_address_verified validation);
       business_verified := default false (ck_business_verified validation);
       issues := issues;
       recommendations := ck_recommendations validation;
       validated_at := isoformat (now env) |}.

Definition kyc_record (validation : ValidationResult) : KYCValidation :=
  {| k_id := validation_id validation;
     k_document_id := document_id validation;
     k_customer_id := customer_id validation;
     k_validation_status := validation_status validation;
     k_validation_score := validation_score validation;
     k_identity_verified := identity_verified validation;
     k_address_verified := address_verified validation;
     k_business_verified := business_verified validation;
     k_validation_details := (issues validation, recommendations validation) |}.

Definition add_kyc_record (validation : ValidationResult) (t : Tables) : Tables :=
  mkTables (documents t)
           (kyc_validations t ++ [kyc_record validation])%list
           (compliance_summaries t).

Definition _store_validation (validation : ValidationResult) : M Agent unit :=
  let! self := get in
  if Py.is_set (db_session self) then
    try_except
      (on_db (Db.commit (db_down env) constraints_hold (add_kyc_record validation)))
      (fun _ => ret tt)
  else
    (* Store in memory *)
    modify (fun self =>
      match memory_storage self with
      | Some m => set_memory_storage (<[validation_id validation := validation]> m) self
      | None => self
      end).

Definition completed_event (validation : ValidationResult) : Event :=
  mkEvent "kyc-validation-completed" (document_id validation)
    [("validation_id", FStr (validation_id validation));
     ("document_id", FStr (document_id validation));
     ("customer_id", FStr (customer_id validation));
     ("status", FStr (validation_status validation));
     ("score", FNum (validation_score validation));
     ("validated_at", FStr (validated_at validation))].

Definition summary_requested_event (validation : ValidationResult) : Event :=
  mkEvent "compliance-summary-requested" (customer_id validation)
    [("customer_id", FStr (customer_id validation));
     ("validation_id", FStr (validation_id validation));
     ("requested_at", FStr (isoformat (now env)))].

Definition _send_events (validation : ValidationResult) : M Agent unit :=
  (* Send validation completed event *)
  send "kyc-validation-completed" (document_id validation)
    [("validation_id", FStr (validation_id validation));
     ("document_id", FStr (document_id validation));
     ("customer_id", FStr (customer_id validation));
     ("status", FStr (validation_status validation));
     ("score", FNum (validation_score validation));
     ("validated_at", FStr (validated_at validation))] ;;
  (* Request compliance summary if validation passed *)
  if String.eqb (validation_status validation) "passed" then
    send "compliance-summary-requested" (customer_id validation)
      [("customer_id", FStr (customer_id validation));
       ("validation_id", FStr (validation_id validation));
       ("requested_at", FStr (isoformat (now env)))]
  else ret tt.

(** The database part of the retrieval, as a function of the session. *)
Definition retrieve_from_db (document_id : string) (self : Agent)
  : option RetrievedDocument :=
  match db_session self with
  | Some session =>
      if db_down env (Db.round_trips session) then None
      else document_of_row
             <$> first (fun d => String.eqb (d_id d) document_id)
                       (documents (Db.tables session))
  | None => None
  end.

(** The document the stores give for an identifier: the database row if
    the session answers and has one, otherwise the ChromaDB entry. *)
Definition retrievable (document_id : string) (self : Agent) : option RetrievedDocument :=
  match retrieve_from_db document_id self with
  | Some document => Some document
  | None => retrieve_from_chroma document_id self
  end.

(** The messages [_send_events] publishes for a validation. *)
Definition events_for (validation : ValidationResult) : list Event :=
  completed_event validation
  :: (if String.eqb (validation_status validation) "passed"
      then [summary_requested_event validation] else []).

Definition not_found : Response := Failure "error" "Document not found".

(** The cache check at the head of [validate_kyc]. *)
Definition check_cache (document_id : string) : M Agent (option ValidationResult) :=
  let! self := get in
  if Py.is_set (redis_client self)
  then _get_from_cache (cache_key document_id)
  else ret None.

Definition validate_kyc (document_id customer_id : string) : M Agent Response :=
  (* Check cache first *)
  let! cached := check_cache document_id in
  match cached with
  | Some cached => ret (Validated cached)
  | None =>
      (* Retrieve document from database *)
      let! document := _retrieve_document document_id in
      match document with
      | None => ret not_found
      | Some document =>
          let! self := get in
          (* Perform KYC validation *)
          let! validation_result :=
            lift (_perform_validation self document customer_id) in
          (* Store results *)
          _store_validation validation_result ;;
          (* Cache results *)
          (if Py.is_set (redis_client self)
           then _save_to_cache (cache_key document_id) validation_result
           else ret tt) ;;
          (* Send events *)
          _send_events validation_result ;;
          ret (Validated validation_result)
      end
  end.

End Methods.

(** A run for illustration: a commercial registration like that of the
    agent's own test, held by ChromaDB only, validated by an agent with
    an empty Redis cache and no database; [stores_up] tells whether
    ChromaDB answers. *)
Definition example_document_id : string := "5d41402abc4b2a76b9719d911017c592".

Definition example_text : string :=
  "Commercial Registration Certificate. Company Name: Al-Rashid Technologies LLC. Registration Number: 1010345678. Issue Date: 01/01/2024. Authorized Capital: 5,000,000 SAR.".

(** What the patterns and keywords find in that text. *)
Definition example_checks : TextChecks :=
  {| has_cr_number := true; has_company_word := true; has_capital := true;
     has_sar := true; has_date := true; has_saudi_id := true;
     has_name_word := true; has_birth_word := false; has_saudi_word := false;
     has_account_number := true; has_iban := false; has_bank_word := false |}.

Definition example_env (minutes : N) (stores_up : bool) : Env :=
  {| now := mkDatetime 2024 1 5 9 minutes 7 0;
     clock := 1704445387 + 60 * Z.of_N minutes;
     redis_down := fun _ => false;
     db_down := fun _ => negb stores_up;
     chroma_down := negb stores_up;
     text_checks := fun _ => example_checks;
     ai_missing_items := None |}.

Definition example_agent : Agent :=
  {| llm := false;
     redis_client := Some (Redis.mkClient ∅ 0);
     db_session := None;
     memory_storage := Some ∅;
     collection :=
       {[ example_document_id :=
            mkChromaEntry (Some example_text)
              (Some (mkMetadata (Some "commercial_registration") (Some "KYC_TEST_001"))) ]};
     kafka_handler := mkKafkaHandler [] |}.

(** The same agent when the entry of the document has no text. *)
Definition example_blank_agent : Agent :=
  {| llm := false;
     redis_client := Some (Redis.mkClient ∅ 0);
     db_session := None;
     memory_storage := Some ∅;
     collection :=
       {[ example_document_id :=
            mkChromaEntry None
              (Some (mkMetadata (Some "commercial_registration") (Some "KYC_TEST_001"))) ]};
     kafka_handler := mkKafkaHandler [] |}.

(** The agent after it has validated the document while ChromaDB
    answered. *)
Definition example_validated_agent : Agent :=
  snd (validate_kyc (example_env 0 true) example_document_id "KYC_TEST_001"
                    example_agent).

(** *** Notions for the properties *)

(** What the agent and its stores hold, up to the counters of issued
    commands and round trips. *)
Definition same_data (s s' : Agent) : Prop :=
  llm s' = llm s
  /\ collection s' = collection s
  /\ kafka_handler s' = kafka_handler s
  /\ memory_storage s' = memory_storage s
  /\ (Db.tables <$> db_session s') = (Db.tables <$> db_session s)
  /\ (Redis.keys <$> redis_client s') = (Redis.keys <$> redis_client s).

(** The cache miss of a call: the lookup of the document's key finds
    nothing (no client, a failing command, no key, or an expired one). *)
Definition cache_miss (env : Env) (document_id : string) (self : Agent) : Prop :=
  fst (check_cache env document_id self) = Return None.

(** The evidence a type-specific check adds up, counted in tenths: the
    literal [0.3] of the code is 3, and so on. *)
Definition tenths (weight : nat) (found : bool) : nat :=
  if found then weight else 0.

Definition commercial_registration_tenths (c : TextChecks) : nat :=
  tenths 3 (has_cr_number c) + tenths 2 (has_company_word c)
  + tenths 2 (has_capital c) + tenths 2 (has_sar c) + tenths 1 (has_date c).

Definition national_id_tenths (c : TextChecks) : nat :=
  tenths 4 (has_saudi_id c) + tenths 3 (has_name_word c)
  + tenths 2 (has_birth_word c) + tenths 1 (has_saudi_word c).

Definition bank_statement_tenths (c : TextChecks) : nat :=
  tenths 3 (has_account_number c) + tenths 3 (has_iban c)
  + tenths 2 (has_sar c) + tenths 2 (has_bank_word c).

(** The document types that have a check of their own. *)
Definition checked_types : list string :=
  ["commercial_registration"; "national_id"; "bank_statement"].

(** The cache entry [_save_to_cache] writes at server time [t]. *)
Definition cached_at (t : Z) (validation : ValidationResult)
  : Redis.entry ValidationResult :=
  Redis.mkEntry validation (Some (t + 3600)%Z).

(** Whether [_store_validation] gets its row written through a session:
    the server answers the commit and the schema accepts the row. *)
Definition written (env : Env) (validation : ValidationResult)
    (session : Db.session Tables) : bool :=
  negb (db_down env (Db.round_trips session))
  && constraints_hold (add_kyc_record validation (Db.tables session)).

(** An agent for illustration that has a database, which holds the
    registration, and neither cache nor in-memory store. *)
Definition example_document_row : Document :=
  {| d_id := example_document_id;
     d_customer_id := "KYC_TEST_001";
     d_extracted_text := Some example_text;
     d_document_type := "commercial_registration";
     d_sama_compliant := Some false;
     d_processed_at := mkDatetime 2024 1 5 8 59 0 0 |}.

Definition example_db_agent : Agent :=
  {| llm := false;
     redis_client := None;
     db_session := Some (Db.mkSession (mkTables [example_document_row] [] []) 0);
     memory_storage := None;
     collection := ∅;
     kafka_handler := mkKafkaHandler [] |}.

End Kyc.

(** ** Compliance summary agent: [SAMAComplianceSummaryAgent] *)

Module Summary.

Import Kafka.
Export Schema.

(** The summary dictionary [generate_summary] returns (and caches). *)
Record SummaryResult := mkSummaryResult {
  summary_id : string;
  customer_id : string;
  total_documents : nat;
  validated_documents : nat;
  compliant_documents : nat;
  overall_compliance_score : float;
  compliance_status : string;
  summary_text : string;
  issues : list string;
  recommendations : list string;
  generated_at : string
}.

(** One hit of the ChromaDB query, with its metadata if it has any. *)
Record ChromaMetadata := mkChromaMetadata {
  cm_document_type : option string;
  cm_sama_compliant : option string
}.
Record ChromaHit := mkChromaHit {
  hit_id : string;
  hit_metadata : option ChromaMetadata
}.

Record Agent := mkAgent {
  llm : bool;
  redis_client : option (Redis.client SummaryResult);
  db_session : option (Db.session Tables);
  memory_storage : option (gmap string SummaryResult);
  kafka_handler : KafkaHandler
}.

Record Env := mkEnv {
  now : datetime;
  clock : Z;
  redis_down : nat -> bool;
  db_down : nat -> bool;
  (* collection.query(...) for this customer: the hits, or [None] when
     the query raises *)
  chroma_hits : option (list ChromaHit);
  (* the text [_generate_ai_summary] comes back with: the model's
     answer, or the basic summary *)
  narrative : string
}.

Definition set_redis (c : Redis.client SummaryResult) (self : Agent) : Agent :=
  mkAgent (llm self) (Some c) (db_session self) (memory_storage self) (kafka_handler self).
Definition set_db (s : Db.session Tables) (self : Agent) : Agent :=
  mkAgent (llm self) (redis_client self) (Some s) (memory_storage self) (kafka_handler self).
Definition set_memory_storage (m : gmap string SummaryResult) (self : Agent) : Agent :=
  mkAgent (llm self) (redis_client self) (db_session self) (Some m) (kafka_handler self).
Definition set_kafka (k : KafkaHandler) (self : Agent) : Agent :=
  mkAgent (llm self) (redis_client self) (db_session self) (memory_storage self) k.

Definition on_redis {A} (m : M (Redis.client SummaryResult) A) : M Agent A :=
  fun self =>
    match redis_client self with
    | Some c => let '(r, c') := m c in (r, set_redis c' self)
    | None => (Raise "AttributeError", self)
    end.

Definition on_db {A} (m : M (Db.session Tables) A) : M Agent A :=
  fun self =>
    match db_session self with
    | Some s => let '(r, s') := m s in (r, set_db s' self)
    | None => (Raise "AttributeError", self)
    end.

Local Open Scope eff_scope.

Section Methods.
Variable env : Env.

Definition cache_key (customer_id : string) : string := "summary:" +:+ customer_id.

Definition _get_from_cache (key : string) : M Agent (option SummaryResult) :=
  let! self := get in
  if Py.is_set (redis_client self) then
    try_except
      (on_redis (Redis.get (redis_down env) (clock env) key))
      (fun _ => ret None)
  else ret None.

Definition _save_to_cache (key : string) (data : SummaryResult) : M Agent unit :=
  let! self := get in
  if Py.is_set (redis_client self) then
    try_except
      (on_redis (Redis.setex (redis_down env) (clock env) key 3600 data))
      (fun _ => ret tt)
  else ret tt.

Definition document_of_row (doc : Document) : Scoring.Document :=
  {| Scoring.doc_id := d_id doc;
     Scoring.doc_type := d_document_type doc;
     Scoring.doc_compliant := d_sama_compliant doc |}.

(** The loop over the ChromaDB hits: it appends one dictionary per hit
    and stops, keeping what it has appended, at a hit whose metadata
    is [None]. *)
Fixpoint documents_of_hits (hits : list ChromaHit) : list Scoring.Document :=
  match hits with
  | [] => []
  | hit :: rest =>
      match hit_metadata hit with
      | Some metadata =>
          {| Scoring.doc_id := hit_id hit;
             Scoring.doc_type := default "unknown" (cm_document_type metadata);
             Scoring.doc_compliant :=
               Some (String.eqb (default "false" (cm_sama_compliant metadata)) "true") |}
          :: documents_of_hits rest
      | None => []
      end
  end.

Definition _get_customer_documents (customer_id : string)
  : M Agent (list Scoring.Document) :=
  let! self := get in
  (* Try database first *)
  let! documents :=
    if Py.is_set (db_session self) then
      try_except
        (let! docs :=
           on_db (Db.query (db_down env) (fun t =>
                    all (fun d => String.eqb (d_customer_id d) customer_id)
                        (documents t))) in
         ret (map document_of_row docs))
        (fun _ => ret [])
    else ret [] in
  (* Try ChromaDB as fallback *)
  match documents with
  | [] => ret (match chroma_hits env with
               | Some hits => documents_of_hits hits
               | None => []
               end)
  | _ => ret documents
  end.

Definition validation_of_row (val : KYCValidation) : Scoring.Validation :=
  {| Scoring.val_document_id := k_document_id val;
     Scoring.val_status := k_validation_status val;
     Scoring.val_score := Some (k_validation_score val) |}.

Definition _get_validation_results (customer_id : string)
  : M Agent (list Scoring.Validation) :=
  let! self := get in
  if Py.is_set (db_session self) then
    try_except
      (let! vals :=
         on_db (Db.query (db_down env) (fun t =>
                  all (fun v => String.eqb (k_customer_id v) customer_id)
                      (kyc_validations t))) in
       ret (map validation_of_row vals))
      (fun _ => ret [])
  else ret [].

(** The method [_calculate_scores]: it reads its two arguments only. *)
Definition _calculate_scores (documents : list Scoring.Document)
    (validations : list Scoring.Validation) : M Agent Scoring.Scores :=
  ret (Scoring._calculate_scores documents validations).

(** The row a stored summary becomes when none exists for the customer. *)
Definition new_summary (summary : SummaryResult) : ComplianceSummary :=
  {| c_id := summary_id summary;
     c_customer_id := customer_id summary;
     c_total_documents := total_documents summary;
     c_compliant_documents := compliant_documents summary;
     c_overall_compliance_score := overall_compliance_score summary;
     c_compliance_status := compliance_status summary;
     c_summary_text := summary_text summary;
     c_issues_summary := issues summary;
     c_recommendations_summary := recommendations summary;
     c_generated_at := now env;
     c_updated_at := now env |}.

(** The assignments to the attributes of the existing row. *)
Definition update_existing (summary : SummaryResult) (existing : ComplianceSummary)
  : ComplianceSummary :=
  {| c_id := c_id existing;
     c_customer_id := c_customer_id existing;
     c_total_documents := total_documents summary;
     c_compliant_documents := compliant_documents summary;
     c_overall_compliance_score := overall_compliance_score summary;
     c_compliance_status := compliance_status summary;
     c_summary_text := summary_text summary;
     c_issues_summary := issues summary;
     c_recommendations_summary := recommendations summary;
     c_generated_at := c_generated_at existing;
     c_updated_at := now env |}.

(** Rewrite the first row that [matches], the row [first] returns. *)
Fixpoint update_first {A} (matches : A -> bool) (f : A -> A) (rows : list A) : list A :=
  match rows with
  | [] => []
  | row :: rest =>
      if matches row then f row :: rest
      else row :: update_first matches f rest
  end.

Definition for_customer (customer_id : string) (row : ComplianceSummary) : bool :=
  String.eqb (c_customer_id row) customer_id.

(** The pending changes of [_store_summary] on the tables. *)
Definition pending_summary (summary : SummaryResult)
    (existing : option ComplianceSummary) (t : Tables) : Tables :=
  mkTables (documents t) (kyc_validations t)
    match existing with
    | Some _ =>
        update_first (for_customer (customer_id summary))
                     (update_existing summary) (compliance_summaries t)
    | None => (compliance_summaries t ++ [new_summary summary])%list
    end.

Definition _store_summary (summary : SummaryResult) : M Agent unit :=
  let! self := get in
  if Py.is_set (db_session self) then
    try_except
      ((* Check if summary exists for customer *)
       let! existing :=
         on_db (Db.query (db_down env) (fun t =>
                  first (for_customer (customer_id summary))
                        (compliance_summaries t))) in
       on_db (Db.commit (db_down env) constraints_hold
                        (pending_summary summary existing)))
      (fun _ => ret tt)
  else
    modify (fun self =>
      match memory_storage self with
      | Some m => set_memory_storage (<[summary_id summary := summary]> m) self
      | None => self
      end).

Definition _send_events (summary : SummaryResult) : M Agent unit :=
  modify (fun self =>
    set_kafka (send_event "compliance-summary-generated" (customer_id summary)
                 [("summary_id", FStr (summary_id summary));
                  ("customer_id", FStr (customer_id summary));
                  ("status", FStr (compliance_status summary));
                  ("score", FNum (overall_compliance_score summary));
                  ("generated_at", FStr (generated_at summary))]
                 (kafka_handler self)) self).

(** [hashlib.md5(f"{customer_id}_{datetime.now()}".encode()).hexdigest()] *)
Definition make_summary_id (customer_id : string) : string :=
  MD5.hexdigest (customer_id +:+ "_" +:+ Datetime.str (now env)).

(** The cache check at the head of [generate_summary]. *)
Definition check_cache (customer_id : string) : M Agent (option SummaryResult) :=
  let! self := get in
  if Py.is_set (redis_client self)
  then _get_from_cache (cache_key customer_id)
  else ret None.

Definition generate_summary (customer_id : string) : M Agent SummaryResult :=
  (* Check cache *)
  let! cached := check_cache customer_id in
  match cached with
  | Some cached => ret cached
  | None =>
      let! documents := _get_customer_documents customer_id in
      let! validations := _get_validation_results customer_id in
      let! scores := _calculate_scores documents validations in
      let summary_text := narrative env in
      let result :=
        {| summary_id := make_summary_id customer_id;
           customer_id := customer_id;
           total_documents := length documents;
           validated_documents := length validations;
           compliant_documents := Scoring.compliant_count scores;
           overall_compliance_score := Scoring.overall_score scores;
           compliance_status := Scoring.status scores;
           summary_text := summary_text;
           issues := Scoring.all_issues scores;
           recommendations := Scoring.all_recommendations scores;
           generated_at := isoformat (now env) |} in
      (* Store summary *)
      _store_summary result ;;
      (* Cache result *)
      let! self := get in
      (if Py.is_set (redis_client self)
       then _save_to_cache (cache_key customer_id) result
       else ret tt) ;;
      (* Send events *)
      _send_events result ;;
      ret result
  end.

End Methods.

(** A sequence of calls, one at a time: each call has its own
    observations of the outside world and its customer. *)
Fixpoint run_calls (calls : list (Env * string)) (self : Agent) : Agent :=
  match calls with
  | [] => self
  | (env, customer_id) :: rest =>
      run_calls rest (snd (generate_summary env customer_id self))
  end.

(** The summary rows of the database, and the summaries of the in-memory
    store, that belong to a customer. *)
Definition stored_rows (customer_id : string) (self : Agent) : list ComplianceSummary :=
  match db_session self with
  | Some s => List.filter (for_customer customer_id) (compliance_summaries (Db.tables s))
  | None => []
  end.

Definition memory_summaries (customer : string) (self : Agent) : list SummaryResult :=
  match memory_storage self with
  | Some m =>
      List.filter (fun r => String.eqb (customer_id r) customer) (snd <$> map_to_list m)
  | None => []
  end.

(** A run for illustration: an agent without database and without
    language model, with the in-memory store and an empty Redis cache,
    summarises the same customer twice, seventy minutes apart; ChromaDB
    gives the customer's three documents, and the text is the basic
    summary of those. *)
Definition example_narrative : string :=
  "Compliance Summary for Customer TEST_CUSTOMER_001: Status is non compliant with 2 of 3 documents compliant. Overall compliance score: 40.0%. Main issues: Missing bank statement. Next steps: Provide bank statement.".

Definition example_hits : list ChromaHit :=
  [ mkChromaHit "d41d8cd98f00b204e9800998ecf8427e"
      (Some (mkChromaMetadata (Some "commercial_registration") (Some "true")));
    mkChromaHit "0cc175b9c0f1b6a831c399e269772661"
      (Some (mkChromaMetadata (Some "national_id") (Some "true")));
    mkChromaHit "900150983cd24fb0d6963f7d28e17f72"
      (Some (mkChromaMetadata None (Some "false"))) ].

Definition example_env (minutes : N) : Env :=
  {| now := mkDatetime 2024 1 5 9 minutes 7 0;
     clock := 1704445387 + 60 * Z.of_N minutes;
     redis_down := fun _ => false;
     db_down := fun _ => false;
     chroma_hits := Some example_hits;
     narrative := example_narrative |}.

Definition example_agent : Agent :=
  {| llm := false;
     redis_client := Some (Redis.mkClient ∅ 0);
     db_session := None;
     memory_storage := Some ∅;
     kafka_handler := mkKafkaHandler [] |}.

Definition example_later_env : Env :=
  {| now := mkDatetime 2024 1 5 10 10 7 0;
     clock := 1704445387 + 60 * 70;
     redis_down := fun _ => false;
     db_down := fun _ => false;
     chroma_hits := Some example_hits;
     narrative := example_narrative |}.

Definition example_calls : list (Env * string) :=
  [ (example_env 0, "TEST_CUSTOMER_001");
    (example_later_env, "TEST_CUSTOMER_001") ].

(** The same agent with a database that holds one summary row of the
    customer. *)
Definition example_row : ComplianceSummary :=
  {| c_id := "0f343b0931126a20f133d67c2b018a3b";
     c_customer_id := "TEST_CUSTOMER_001";
     c_total_documents := 1;
     c_compliant_documents := 0;
     c_overall_compliance_score := 0%float;
     c_compliance_status := "non_compliant";
     c_summary_text := "";
     c_issues_summary := [];
     c_recommendations_summary := [];
     c_generated_at := mkDatetime 2024 1 4 8 0 0 0;
     c_updated_at := mkDatetime 2024 1 4 8 0 0 0 |}.

Definition example_db_agent : Agent :=
  {| llm := false;
     redis_client := None;
     db_session := Some (Db.mkSession (mkTables [] [] [example_row]) 0);
     memory_storage := None;
     kafka_handler := mkKafkaHandler [] |}.

(** *** Notions for the properties *)

(** The summary rows of the database, if the agent has a session. *)
Definition summaries (s : Agent) : option (list ComplianceSummary) :=
  compliance_summaries ∘ Db.tables <$> db_session s.

(** At most one summary row per customer. *)
Definition one_per_customer (s : Agent) : Prop :=
  forall customer, length (stored_rows customer s) <= 1.

(** A step that leaves the summary rows as they are, and a step that
    keeps them at most one per customer. *)
Definition rows_kept (s s' : Agent) : Prop := summaries s' = summaries s.

Definition invariant_kept (s s' : Agent) : Prop :=
  one_per_customer s -> one_per_customer s'.

(** The cache miss of a call: the lookup of the customer's key finds
    nothing (no client, a failing command, no key, or an expired one). *)
Definition cache_miss (env : Env) (customer : string) (self : Agent) : Prop :=
  fst (check_cache env customer self) = Return None.

(** The summary a call builds for a customer that has no database: the
    documents are those ChromaDB gives and there are no validations. *)
Definition fallback_summary (env : Env) (customer : string) : SummaryResult :=
  let documents :=
    match chroma_hits env with
    | Some hits => documents_of_hits hits
    | None => []
    end in
  let scores := Scoring._calculate_scores documents [] in
  {| summary_id := make_summary_id env customer;
     customer_id := customer;
     total_documents := length documents;
     validated_documents := length (@nil Scoring.Validation);
     compliant_documents := Scoring.compliant_count scores;
     overall_compliance_score := Scoring.overall_score scores;
     compliance_status := Scoring.status scores;
     summary_text := narrative env;
     issues := Scoring.all_issues scores;
     recommendations := Scoring.all_recommendations scores;
     generated_at := isoformat (now env) |}.

(** The message [_send_events] publishes for a summary. *)
Definition generated_event (summary : SummaryResult) : Event :=
  mkEvent "compliance-summary-generated" (customer_id summary)
    [("summary_id", FStr (summary_id summary));
     ("customer_id", FStr (customer_id summary));
     ("status", FStr (compliance_status summary));
     ("score", FNum (overall_compliance_score summary));
     ("generated_at", FStr (generated_at summary))].

(** The cache entry [_save_to_cache] writes at server time [t]. *)
Definition cached_at (t : Z) (summary : SummaryResult) : Redis.entry SummaryResult :=
  Redis.mkEntry summary (Some (t + 3600)%Z).

(** The status of [total] documents of which [compliant] are compliant,
    when no validation is at hand. *)
Definition status_without_validations (compliant total : nat) : string :=
  if (0 <? total)%nat && (compliant =? total)%nat
  then "partially_compliant" else "non_compliant".

End Summary.

(** ** The language model wrapper: [OllamaForAgno] *)

Module Ollama.

Definition blank_line : string := String "010" (String "010" EmptyString).

(** An element of the list [_messages_to_prompt] is given: a
    dictionary, with the values of its keys [role] and [content] where
    it has them (the content as an f-string prints it; a role that is
    not a string equals none of the three literals, like any other
    string), or another object, as [str] prints it. *)
Inductive Message :=
| Dict (role content : option string)
| Object (text : string).

(** What one turn of the loop appends to the prompt. *)
Definition render (msg : Message) : string :=
  match msg with
  | Dict role content =>
      let role := default "user" role in
      let content := default "" content in
      if String.eqb role "system" then "System: " +:+ content +:+ blank_line
      else if String.eqb role "user" then "User: " +:+ content +:+ blank_line
      else if String.eqb role "assistant" then "Assistant: " +:+ content +:+ blank_line
      else ""
  | Object text => text +:+ blank_line
  end.

Definition _messages_to_prompt (messages : list Message) : string :=
  match messages with
  | [] => ""
  | _ =>
      let prompt := fold_left (fun prompt msg => prompt +:+ render msg) messages "" in
      if negb (String.eqb prompt "") && negb (Py.endswith prompt "Assistant:")
      then prompt +:+ "Assistant:"
      else prompt
  end.

(** What [GET /api/tags] comes to: an answer with its status code and
    the names of the models its body lists ([None] when reading them
    raises: a body that is not JSON, an entry without [name]), or an
    exception of [requests]. *)
Inductive Tags :=
| Answered (status_code : Z) (model_names : option (list string))
| Unreachable.

(** [_test_connection], as a function from [self.model_name] before to
    [self.model_name] after; the body is read for status 200 only. *)
Definition _test_connection (tags : Tags) (model_name : string) : string :=
  match tags with
  | Answered status_code names =>
      if (status_code =? 200)%Z then
        match names with
        | Some model_names =>
            if bool_decide (model_name ∈ model_names) then model_name
            else if bool_decide (model_name +:+ ":latest" ∈ model_names)
            then model_name +:+ ":latest"
            else match model_names with
                 | first :: _ => first
                 | [] => model_name
                 end
        | None => model_name
        end
      else model_name
  | Unreachable => model_name
  end.

(** The part of an answer that [_ai_validate] and
    [_analyze_with_ollama] hand to [json.loads]: from the first opening
    brace to the last closing one; [None] when the test
    [start != -1 and end > 0] fails. *)
Definition json_text (response : string) : option string :=
  let start := Py.find "{" response in
  let stop := (Py.rfind "}" response + 1)%Z in
  if negb (start =? -1)%Z && (stop >? 0)%Z
  then Some (Py.slice response start stop)
  else None.

(** The messages a prompt is made of, one after the other. *)
Definition rendered (messages : list Message) : string :=
  foldr (fun msg rest => render msg +:+ rest) "" messages.

(** A dictionary whose role is none of system, user and assistant. *)
Definition skipped (msg : Message) : Prop :=
  match msg with
  | Dict role _ =>
      let role := default "user" role in
      role <> "system" /\ role <> "user" /\ role <> "assistant"
  | Object _ => False
  end.

(** The character [c] occurs in [s]. *)
Definition occurs (c : ascii) (s : string) : Prop :=
  In c (list_ascii_of_string s).

End Ollama.

(** ** Compliance chat agent: [SAMAComplianceChatAgent] *)

Module Chat.

Export Datetime.

(** An entry of a conversation history. *)
Record Exchange := mkExchange {
  ex_query : string;
  ex_response : string;
  ex_timestamp : string
}.

(** A document as [_retrieve_relevant_documents] returns it: its id,
    its text unless the collection holds none for it, and its metadata
    unless it has none (of the metadata only [document_type] is read;
    the key [distance] is never read). *)
Record Found := mkFound {
  found_id : string;
  found_content : option string;
  found_metadata : option (option string)
}.

(** The dictionary [_generate_response] returns. *)
Record Response := mkResponse {
  answer : string;
  sources : list (string * string);   (* document_id, type *)
  confidence : float;
  used_rag : bool
}.

(** The dictionary [chat] returns. *)
Record Result := mkResult {
  r_session_id : string;
  r_query : string;
  r_response : string;
  r_sources : list (string * string);
  r_confidence : float;
  r_timestamp : string
}.

(** The two dictionaries [get_session_summary] returns. *)
Inductive SessionSummary :=
| NoHistory (session_id message : string)
| Session (session_id : string) (total_queries : nat) (start_time last_query : string)
          (queries : list string).

(** The message [_log_interaction] publishes on topic
    "chat-interaction", keyed by the session. *)
Record Interaction := mkInteraction {
  i_key : string;
  i_session_id : string;
  i_query : string;
  i_response_preview : string;
  i_confidence : float;
  i_used_rag : bool;
  i_timestamp : string
}.

(** Which of the words the fallback answers look for occur in
    [query.lower()]. *)
Record Keywords := mkKeywords {
  has_kyc : bool;
  has_document : bool;
  has_compliance : bool;
  has_score : bool;
  has_sama : bool
}.

(** The agent: Redis holds the histories as JSON text, which reads
    back as the list written. *)
Record Agent := mkAgent {
  llm : bool;                 (* self.llm is set *)
  redis_client : option (Redis.client (list Exchange));
  conversations : gmap string (list Exchange);
  published : list Interaction   (* the messages handed to the bus *)
}.

(** What a call of [chat] meets: the readings of [datetime.now()] in
    the order they are taken, the Redis server, the documents the
    vector search comes back with (none when the query raises) and
    what [self.llm.run] does with the prompt. *)
Record Env := mkEnv {
  started : datetime;
  stored : datetime;
  logged : datetime;
  returned : datetime;
  clock : Z;
  redis_down : nat -> bool;
  retrieved : list Found;
  reply : outcome string;
  keywords : string -> Keywords
}.

Definition set_redis (c : Redis.client (list Exchange)) (self : Agent) : Agent :=
  mkAgent (llm self) (Some c) (conversations self) (published self).
Definition set_conversations (m : gmap string (list Exchange)) (self : Agent) : Agent :=
  mkAgent (llm self) (redis_client self) m (published self).
Definition set_published (l : list Interaction) (self : Agent) : Agent :=
  mkAgent (llm self) (redis_client self) (conversations self) l.

Definition on_redis {A} (m : M (Redis.client (list Exchange)) A) : M Agent A :=
  fun self =>
    match redis_client self with
    | Some c => let '(r, c') := m c in (r, set_redis c' self)
    | None => (Raise "AttributeError", self)
    end.

Definition of_outcome {A} (r : outcome A) : M Agent A := fun self => (r, self).

Local Open Scope eff_scope.

Section Methods.
Variable env : Env.

Definition history_key (session_id : string) : string :=
  "chat:history:" +:+ session_id.

(** The JSON text of a list is never the empty string, so the test
    [if history_json:] asks whether the key is there. *)
Definition _get_conversation_history (session_id : string)
  : M Agent (list Exchange) :=
  let! self := get in
  let! from_redis :=
    if Py.is_set (redis_client self) then
      try_except
        (on_redis (Redis.get (redis_down env) (clock env) (history_key session_id)))
        (fun _ => ret None)
    else ret None in
  match from_redis with
  | Some history => ret history
  | None =>
      (* Fallback to memory *)
      let! self := get in
      ret (default [] (conversations self !! session_id))
  end.

Definition fallback_answer (k : Keywords) : string :=
  if has_kyc k then
    "KYC (Know Your Customer) requirements for SAMA compliance include: "
    +:+ "1) Valid commercial registration, 2) National ID verification, "
    +:+ "3) Bank account verification, 4) Business activity documentation."
  else if has_document k then
    "Required documents for SAMA compliance: "
    +:+ "Commercial Registration (CR), National ID, Bank Statements, "
    +:+ "Tax Certificates, and Business License."
  else if has_compliance k && has_score k then
    "Compliance score is calculated based on: "
    +:+ "Document completeness (40%), Validation results (40%), "
    +:+ "and Timeliness (20%). A score above 80% is considered compliant."
  else if has_sama k then
    "SAMA (Saudi Arabian Monetary Authority) regulates financial institutions "
    +:+ "in Saudi Arabia. Compliance requires proper documentation, "
    +:+ "KYC procedures, and regular reporting."
  else
    "I can help with SAMA compliance questions. "
    +:+ "Please ask about KYC requirements, required documents, "
    +:+ "compliance scores, or specific SAMA regulations.".

Definition _generate_fallback_response (query : string) (documents : list Found)
  : Response :=
  let answer := fallback_answer (keywords env query) in
  let answer :=
    match documents with
    | [] => answer
    | _ => answer +:+ Ollama.blank_line +:+ "I found "
           +:+ Py.str_of_nat (length documents)
           +:+ " related documents in the system."
    end in
  mkResponse answer [] Py.f0_5 false.

(** One item of [sources]; [None] stands for the [AttributeError] of
    [.get] on a metadata that is [None]. *)
Definition source_of (doc : Found) : option (string * string) :=
  match found_metadata doc with
  | Some document_type =>
      Some (Py.slice_to 16 (found_id doc), default "unknown" document_type)
  | None => None
  end.

(** The prompt is made of the text of the first three documents and of
    the last three exchanges; slicing the text of a document that has
    none raises, outside the [try]. *)
Definition _generate_response (query : string) (documents : list Found)
    (history : list Exchange) : M Agent Response :=
  let! self := get in
  if negb (llm self) then ret (_generate_fallback_response query documents)
  else if forallb (fun doc => Py.is_set (found_content doc)) (firstn 3 documents)
  then
    try_except
      (let! response_text := of_outcome (reply env) in
       let confidence := match documents with [] => Py.f0_3 | _ => Py.f0_8 end in
       let! sources :=
         match mapM source_of (firstn 3 documents) with
         | Some sources => ret sources
         | None => raise "AttributeError"
         end in
       ret (mkResponse response_text sources confidence true))
      (fun _ => ret (_generate_fallback_response query documents))
  else raise "TypeError".

Definition _store_conversation (session_id query : string) (response : Response)
  : M Agent unit :=
  let conversation_entry :=
    mkExchange query (answer response) (isoformat (stored env)) in
  (* Get existing history *)
  let! history := _get_conversation_history session_id in
  let history := (history ++ [conversation_entry])%list in
  (* Store in Redis *)
  let! self := get in
  (if Py.is_set (redis_client self) then
     try_except
       (on_redis (Redis.setex (redis_down env) (clock env)
                    (history_key session_id) 7200 history))
       (fun _ => ret tt)
   else ret tt) ;;
  (* Store in memory as fallback *)
  modify (fun self =>
    set_conversations (<[session_id := history]> (conversations self)) self).

Definition _log_interaction (session_id query : string) (response : Response)
  : M Agent unit :=
  modify (fun self =>
    set_published
      (published self ++
       [mkInteraction session_id session_id query
          (Py.slice_to 200 (answer response))
          (confidence response) (used_rag response)
          (isoformat (logged env))])%list
      self).

(** The session a call works on: the one given, or one named after the
    time of the call when none (or the empty string) is given. *)
Definition session_of (session_id : option string) : string :=
  match session_id with
  | Some id => if String.eqb id "" then "session_" +:+ strftime_Ymd_HMS (started env)
               else id
  | None => "session_" +:+ strftime_Ymd_HMS (started env)
  end.

Definition chat (user_query : string) (session_id : option string) : M Agent Result :=
  let session_id := session_of session_id in
  (* Get conversation history *)
  let! history := _get_conversation_history session_id in
  (* Retrieve relevant documents using RAG *)
  let relevant_docs := retrieved env in
  (* Generate response with context *)
  let! response := _generate_response user_query relevant_docs history in
  (* Store in conversation history *)
  _store_conversation session_id user_query response ;;
  (* Log chat interaction *)
  _log_interaction session_id user_query response ;;
  ret (mkResult session_id user_query (answer response) (sources response)
         (confidence response) (isoformat (returned env))).

Definition summary_of (session_id : string) (history : list Exchange) : SessionSummary :=
  match history with
  | [] => NoHistory session_id "No conversation history found"
  | first :: _ =>
      Session session_id (length history) (ex_timestamp first)
              (ex_query (List.last history first))
              (map ex_query history)
  end.

Definition get_session_summary (session_id : string) : M Agent SessionSummary :=
  let! history := _get_conversation_history session_id in
  ret (summary_of session_id history).

End Methods.

(** *** Notions for the properties *)

(** A call of [chat]: what it meets and its two arguments. *)
Record Call := mkCall {
  c_env : Env;
  c_query : string;
  c_session : option string
}.

(** Calls made one after the other. *)
Definition run_chats (calls : list Call) : M Agent unit :=
  for_each calls (fun call =>
    chat (c_env call) (c_query call) (c_session call) ;; ret tt).

(** The questions the calls ask in a session, in the order asked. *)
Definition asked (session : string) (calls : list Call) : list string :=
  map c_query
      (List.filter (fun call =>
                      String.eqb (session_of (c_env call) (c_session call)) session)
                   calls).

(** Redis and the agent agree: a history Redis holds, expired or not,
    is the one the agent holds in memory for that session. *)
Definition coherent (self : Agent) : Prop :=
  match redis_client self with
  | Some c =>
      forall session e,
        Redis.keys c !! history_key session = Some e ->
        Redis.e_value e = default [] (conversations self !! session)
  | None => True
  end.

(** The agent has no Redis client, or the server answers every command
    of the call. *)
Definition answered (env : Env) (self : Agent) : Prop :=
  redis_client self = None \/ forall n, redis_down env n = false.

(** The call can build its prompt: without a model none is built, with
    one the first three documents found must have a text. *)
Definition readable (env : Env) (self : Agent) : Prop :=
  llm self = true ->
  forallb (fun doc => Py.is_set (found_content doc)) (firstn 3 (retrieved env)) = true.

(** The agent after a Redis command that changed no key. *)
Definition touched (self : Agent) : Agent :=
  match redis_client self with
  | Some c => set_redis (Redis.mkClient (Redis.keys c) (S (Redis.issued c))) self
  | None => self
  end.

(** The agent after [_store_conversation] has read the history and
    written [history] for the session: in memory always, in Redis if
    the server takes the write. *)
Definition after_store (env : Env) (session : string) (history : list Exchange)
    (self : Agent) : Agent :=
  set_conversations (<[session := history]> (conversations self))
    match redis_client self with
    | Some c =>
        set_redis
          (if redis_down env (S (Redis.issued c))
           then Redis.mkClient (Redis.keys c) (S (S (Redis.issued c)))
           else Redis.mkClient
                  (<[history_key session :=
                       Redis.mkEntry history (Some (clock env + 7200)%Z)]>
                     (Redis.keys c))
                  (S (S (Redis.issued c))))
          self
    | None => self
    end.

(** Reading the history of a session gives [history]. *)
Definition reads (env : Env) (session : string) (self : Agent)
    (history : list Exchange) : Prop :=
  _get_conversation_history env session self = (Return history, touched self).

(** The message a call publishes. *)
Definition interaction_of (env : Env) (session query : string) (response : Response)
  : Interaction :=
  mkInteraction session session query (Py.slice_to 200 (answer response))
    (confidence response) (used_rag response) (isoformat (logged env)).

(** The exchange a call stores for its question. *)
Definition exchange_of (env : Env) (query : string) (response : Response) : Exchange :=
  mkExchange query (answer response) (isoformat (stored env)).

Definition example_env : Env :=
  {| started := mkDatetime 2025 1 15 10 30 0 0;
     stored := mkDatetime 2025 1 15 10 30 2 0;
     logged := mkDatetime 2025 1 15 10 30 2 500;
     returned := mkDatetime 2025 1 15 10 30 2 900;
     clock := 1736937000;
     redis_down := fun _ => false;
     retrieved := [mkFound "0123456789abcdef0123" (Some "Commercial registration")
                           (Some (Some "commercial_registration"))];
     reply := Return "A commercial registration is required.";
     keywords := fun _ => mkKeywords false true false false false |}.

Definition example_agent : Agent :=
  {| llm := true;
     redis_client := Some (Redis.mkClient ∅ 0);
     conversations := ∅;
     published := [] |}.

Definition example_calls : list Call :=
  [mkCall example_env "What documents are needed?" (Some "test_session_001");
   mkCall example_env "Tell me about SAMA" None;
   mkCall example_env "What are the KYC requirements?" (Some "test_session_001")].

(** A call during which the server fails the third command, the write
    of the history. *)
Definition example_env_write_fails : Env :=
  {| started := started example_env;
     stored := stored example_env;
     logged := logged example_env;
     returned := returned example_env;
     clock := clock example_env;
     redis_down := fun n => Nat.eqb n 2;
     retrieved := [];
     reply := reply example_env;
     keywords := keywords example_env |}.

Definition example_exchange : Exchange :=
  mkExchange "What documents are needed?" "A commercial registration is required."
             "2025-01-15T10:29:00".

(** An agent in the middle of a session Redis holds. *)
Definition example_agent_in_session : Agent :=
  {| llm := true;
     redis_client :=
       Some (Redis.mkClient
               {[ history_key "test_session_001"
                  := Redis.mkEntry [example_exchange] (Some 1736944140%Z) ]}
               0);
     conversations := {[ "test_session_001" := [example_exchange] ]};
     published := [] |}.

End Chat.

(** * Properties *)

(** ** Facts about binary64 comparison and multiplication *)

Section FloatFacts.

Lemma SFcompare_antisym (x y : spec_float) :
  SFcompare y x = option_map CompOpp (SFcompare x y).
Proof.
  destruct x as [sx| sx| |sx mx ex], y as [sy|sy| |sy my ey]; simpl;
    try reflexivity;
    try (destruct sx; reflexivity);
    try (destruct sy; reflexivity);
    try (destruct sx, sy; reflexivity).
  destruct sx, sy; simpl; try reflexivity;
    rewrite (Z.compare_antisym ey ex);
    destruct (ey ?= ex)%Z; simpl; try reflexivity;
    rewrite (Pos.compare_cont_antisym mx my Eq); reflexivity.
Qed.

Lemma SFcompare_None (x y : spec_float) :
  SFcompare x y = None -> x = S754_nan \/ y = S754_nan.
Proof.
  destruct x as [sx|sx| |sx mx ex], y as [sy|sy| |sy my ey]; simpl;
    intros H; try discriminate H; auto.
Qed.

(** For [a] and [b] that are not NaN, [a < b] holds exactly when
    [b <= a] fails. *)
Lemma ltb_iff_not_leb (a b : float) :
  PrimFloat.eqb a a = true -> PrimFloat.eqb b b = true ->
  (PrimFloat.ltb a b = true <-> PrimFloat.leb b a = false).
Proof.
  rewrite !FloatAxioms.eqb_spec, FloatAxioms.leb_spec, FloatAxioms.ltb_spec.
  unfold SFeqb, SFleb, SFltb. intros Ha Hb.
  rewrite (SFcompare_antisym (Prim2SF a) (Prim2SF b)).
  destruct (SFcompare (Prim2SF a) (Prim2SF b)) as [[]|] eqn:E; simpl;
    try (split; congruence).
  apply SFcompare_None in E. destruct E as [E|E]; rewrite E in *;
    simpl in *; discriminate.
Qed.

Lemma ltb_not_leb (a b : float) :
  PrimFloat.ltb a b = true -> PrimFloat.leb b a = false.
Proof.
  rewrite FloatAxioms.leb_spec, FloatAxioms.ltb_spec. unfold SFleb, SFltb.
  rewrite (SFcompare_antisym (Prim2SF a) (Prim2SF b)).
  destruct (SFcompare _ _) as [[]|]; simpl; congruence.
Qed.

(** A float that some float is below is not NaN. *)
Lemma leb_not_nan (c a : float) :
  PrimFloat.leb c a = true -> PrimFloat.eqb a a = true.
Proof.
  rewrite FloatAxioms.eqb_spec, FloatAxioms.leb_spec. unfold SFeqb, SFleb.
  destruct (Prim2SF a) as [sa|sa| |sa ma ea], (Prim2SF c) as [sc|sc| |sc mc ec];
    simpl; try discriminate; try reflexivity;
    try (destruct sa; reflexivity); try (destruct sa; discriminate).
  all: intros _; destruct sa; rewrite Z.compare_refl, Pos.compare_cont_refl;
    reflexivity.
Qed.

Lemma SFmul_comm (x y : spec_float) : SF64mul x y = SF64mul y x.
Proof.
  unfold SF64mul, SFmul.
  destruct x as [sx|sx| |sx mx ex], y as [sy|sy| |sy my ey];
    try reflexivity; rewrite ?(xorb_comm sy sx); try reflexivity.
  now rewrite (Pos.mul_comm my mx), (Z.add_comm ey ex).
Qed.

Lemma float_mul_comm (a b : float) : (a * b = b * a)%float.
Proof.
  apply Prim2SF_inj. rewrite !FloatAxioms.mul_spec. apply SFmul_comm.
Qed.

(** Two floats that [eqb] tells apart are different values. *)
Lemma float_neq_of_eqb (a b : float) :
  PrimFloat.eqb a b = false -> PrimFloat.eqb b b = true -> a <> b.
Proof. intros Hab Hbb ->. congruence. Qed.

End FloatFacts.

(** ** The embedded library functions on known values *)

Section KnownValues.

(** The test suite of RFC 1321. *)
Example md5_test_suite :
  map MD5.hexdigest
      [""; "a"; "abc"; "message digest"; "abcdefghijklmnopqrstuvwxyz";
       "ABCDEFGHIJKLMNOPQRSTUVWXYZabcdefghijklmnopqrstuvwxyz0123456789";
       "12345678901234567890123456789012345678901234567890123456789012345678901234567890"]
  = ["d41d8cd98f00b204e9800998ecf8427e"; "0cc175b9c0f1b6a831c399e269772661";
     "900150983cd24fb0d6963f7d28e17f72"; "f96b697d7cb7938d525a2f31aaf161d0";
     "c3fcd3d76192e4007dfb496cca67e13b"; "d174ab98d277d9f5a5611c2c9f419d9f";
     "57edf4a22be3c955ac49da2e2107b67a"].
Proof. vm_compute. reflexivity. Qed.

(** [str], [isoformat] and [strftime] as CPython prints them. *)
Example datetime_formats :
  Datetime.str (Datetime.mkDatetime 2024 1 5 9 3 7 1234) = "2024-01-05 09:03:07.001234"
  /\ Datetime.str (Datetime.mkDatetime 2024 11 25 19 30 0 0) = "2024-11-25 19:30:00"
  /\ Datetime.isoformat (Datetime.mkDatetime 2024 1 5 9 3 7 0) = "2024-01-05T09:03:07"
  /\ Datetime.strftime_Ymd (Datetime.mkDatetime 2024 1 5 9 3 7 0) = "20240105"
  /\ Datetime.strftime_YmdHMS (Datetime.mkDatetime 2024 1 5 9 3 7 0) = "20240105090307".
Proof. repeat split. Qed.

(** The float literals are the binary64 values nearest to the decimals,
    and Python's arithmetic on them gives the familiar surprises. *)
#[local] Set Warnings "-inexact-float".
Example float_literals :
  [Py.f0_1; Py.f0_2; Py.f0_3; Py.f0_4; Py.f0_5; Py.f0_6; Py.f0_7; Py.f0_8; Py.f0_9]
  = [0.1; 0.2; 0.3; 0.4; 0.5; 0.6; 0.7; 0.8; 0.9]%float
  /\ (Py.f0_1 + Py.f0_2 = 0.30000000000000004)%float
  /\ Py.sum [Py.f0_9; Py.f0_8] = 1.7000000000000002%float
  /\ Py.truediv 2 3 = 0.6666666666666666%float.
Proof. repeat split. Qed.
#[local] Set Warnings "inexact-float".

(** [len(s)] and [s[:8]] on a text of five Arabic letters, of two bytes
    each, followed by [-2024-001]: fourteen characters in nineteen
    bytes, the first eight of them in thirteen. *)
Example slice_of_arabic_text :
  let s := string_of_list_ascii
             (map ascii_of_nat [217; 136; 216; 171; 217; 138; 217; 130; 216; 169;
                                45; 50; 48; 50; 52; 45; 48; 48; 49]) in
  Py.len s = 14
  /\ String.length s = 19
  /\ Py.slice_to 8 s
     = string_of_list_ascii
         (map ascii_of_nat [217; 136; 216; 171; 217; 138; 217; 130; 216; 169; 45; 50; 48])
  /\ Py.slice_to 8 "a1b2c3d4e5f60718" = "a1b2c3d4".
Proof. repeat split. Qed.

End KnownValues.

(** ** The scoring engine *)

Module ScoringSpec.

Import Scoring.

Lemma status_of_compliant (s : float) :
  status_of s = "compliant" <-> Py.ge s Py.f0_8 = true.
Proof.
  unfold status_of. destruct (Py.ge s Py.f0_8); [easy|].
  destruct (Py.ge s Py.f0_6); split; discriminate.
Qed.

Lemma status_of_partially (s : float) :
  status_of s = "partially_compliant"
  <-> Py.ge s Py.f0_6 = true /\ Py.lt s Py.f0_8 = true.
Proof.
  unfold status_of, Py.ge, Py.lt.
  destruct (PrimFloat.leb Py.f0_8 s) eqn:H8.
  - split; [discriminate|]. intros [_ Hlt].
    apply ltb_not_leb in Hlt. congruence.
  - destruct (PrimFloat.leb Py.f0_6 s) eqn:H6.
    + split; [|reflexivity]. intros _. split; [reflexivity|].
      apply ltb_iff_not_leb; [|reflexivity|assumption].
      exact (leb_not_nan _ _ H6).
    + split; [discriminate|]. intros [? _]. discriminate.
Qed.

Lemma status_of_non_compliant (s : float) :
  status_of s = "non_compliant"
  <-> Py.ge s Py.f0_8 = false
      /\ ~ (Py.ge s Py.f0_6 = true /\ Py.lt s Py.f0_8 = true).
Proof.
  rewrite <- status_of_partially. unfold status_of.
  destruct (Py.ge s Py.f0_8); [split; [discriminate | intros [? _]; discriminate]|].
  destruct (Py.ge s Py.f0_6); split; try discriminate; try tauto.
  intros _. split; [reflexivity | discriminate].
Qed.

Lemma overall_score_nonempty documents validations :
  documents <> [] ->
  overall_score (_calculate_scores documents validations)
  = (doc_compliance_rate documents * Py.f0_6
     + avg_validation_score validations * Py.f0_4)%float.
Proof.
  intros Hne. destruct documents as [|doc rest]; [contradiction|reflexivity].
Qed.

(** C1 (as stated, refuted): with no documents and the two scored
    validations 0.9 and 0.8 the returned overall score is 0, which is
    neither [0.6 * 0 + 0.4 * mean] nor [0.4 * mean] (0.34). *)
Lemma empty_documents_not_weighted_mean :
  example_validations <> []
  /\ Forall (fun v => is_Some (val_score v)) example_validations
  /\ overall_score (_calculate_scores [] example_validations) = 0%float
  /\ overall_score (_calculate_scores [] example_validations)
     <> (Py.f0_6 * 0 + Py.f0_4 * avg_validation_score example_validations)%float
  /\ overall_score (_calculate_scores [] example_validations)
     <> (Py.f0_4 * avg_validation_score example_validations)%float.
Proof.
  split; [discriminate|]. split; [|split; [reflexivity|]].
  - repeat constructor; eexists; reflexivity.
  - split; apply float_neq_of_eqb; vm_compute; reflexivity.
Qed.

(** C1 (amended): for an empty document list, whatever the validations
    and their scores, the returned overall score is 0, no document is
    counted compliant and the status is non_compliant: the weighted
    formula is applied only when there is at least one document. *)
Theorem empty_documents_score_zero (validations : list Validation) :
  let r := _calculate_scores [] validations in
  overall_score r = 0%float
  /\ compliant_count r = 0
  /\ status r = "non_compliant".
Proof. cbv zeta. repeat split. Qed.

(** C3: for a non-empty document list the overall score is
    [0.6 * (compliant / total) + 0.4 * mean], the mean being 0 when no
    validation carries a score and the left-to-right sum of the scores
    over their number otherwise; the status is compliant exactly when
    the score is at least 0.8, partially_compliant exactly when it is at
    least 0.6 and below 0.8, and non_compliant exactly otherwise; and 3
    documents with 2 compliant and validation scores 0.9 and 0.8 give
    the float 0.74 (between 0.7395 and 0.7405) and partially_compliant. *)
Theorem weighted_score_and_status
    (documents : list Document) (validations : list Validation) :
  documents <> [] ->
  let r := _calculate_scores documents validations in
  overall_score r
  = (Py.f0_6 * Py.truediv (count_compliant documents) (length documents)
     + Py.f0_4 * avg_validation_score validations)%float
  /\ (validation_scores validations = [] -> avg_validation_score validations = 0%float)
  /\ (validation_scores validations <> [] ->
      avg_validation_score validations
      = (Py.sum (validation_scores validations)
         / Py.float_of_nat (length (validation_scores validations)))%float)
  /\ (status r = "compliant" <-> Py.ge (overall_score r) Py.f0_8 = true)
  /\ (status r = "partially_compliant"
      <-> Py.ge (overall_score r) Py.f0_6 = true
          /\ Py.lt (overall_score r) Py.f0_8 = true)
  /\ (status r = "non_compliant"
      <-> Py.ge (overall_score r) Py.f0_8 = false
          /\ ~ (Py.ge (overall_score r) Py.f0_6 = true
                /\ Py.lt (overall_score r) Py.f0_8 = true))
  /\ (length documents = 3 -> count_compliant documents = 2 ->
      validation_scores validations = [Py.f0_9; Py.f0_8] ->
      overall_score r = 0x1.7ae147ae147aep-1%float
      /\ Py.lt 0x1.7a9fbe76c8b44p-1 (overall_score r) = true
      /\ Py.lt (overall_score r) 0x1.7b22d0e560419p-1 = true
      /\ status r = "partially_compliant").
Proof.
  intros Hne r.
  assert (Hscore : overall_score r
    = (Py.f0_6 * Py.truediv (count_compliant documents) (length documents)
       + Py.f0_4 * avg_validation_score validations)%float).
  { subst r. rewrite overall_score_nonempty by assumption.
    unfold doc_compliance_rate.
    now rewrite (float_mul_comm Py.f0_6), (float_mul_comm Py.f0_4). }
  split; [exact Hscore|].
  split; [unfold avg_validation_score; now intros ->|].
  split.
  { unfold avg_validation_score.
    destruct (validation_scores validations); [contradiction|reflexivity]. }
  split; [apply status_of_compliant|].
  split; [apply status_of_partially|].
  split; [apply status_of_non_compliant|].
  intros Hlen Hcount Hscores.
  assert (Hval : overall_score r = 0x1.7ae147ae147aep-1%float).
  { rewrite Hscore. unfold avg_validation_score.
    rewrite Hlen, Hcount, Hscores. vm_compute. reflexivity. }
  split; [exact Hval|].
  change (status r) with (status_of (overall_score r)).
  rewrite Hval. repeat split.
Qed.

(** The scoring example of the specification, as an instance. *)
Lemma weighted_score_and_status_witness :
  example_documents <> []
  /\ overall_score (_calculate_scores example_documents example_validations)
     = 0x1.7ae147ae147aep-1%float
  /\ status (_calculate_scores example_documents example_validations)
     = "partially_compliant".
Proof.
  assert (Hne : example_documents <> []) by discriminate.
  split; [exact Hne|].
  destruct (weighted_score_and_status example_documents example_validations Hne)
    as (_ & _ & _ & _ & _ & _ & Hex).
  destruct (Hex eq_refl eq_refl eq_refl) as (Hval & _ & _ & Hst).
  split; [exact Hval | exact Hst].
Defined.

Lemma contains_In (x : string) (xs : list string) :
  Py.contains x xs = true <-> In x xs.
Proof.
  unfold Py.contains. rewrite existsb_exists. split.
  - intros (y & Hy & Heq). apply String.eqb_eq in Heq. now subst.
  - intros Hx. exists x. split; [assumption | apply String.eqb_refl].
Qed.

Lemma slice_to_prefix (n : nat) (s : string) :
  String.prefix (Py.slice_to n s) s = true.
Proof.
  revert n. induction s as [|c s IH]; intros n; [reflexivity|].
  simpl. destruct (Py.is_continuation c); [|destruct n as [|n]; [reflexivity|]];
    simpl; (destruct (ascii_dec c c) as [_|Hc]; [apply IH | now destruct Hc]).
Qed.

(** A slice has the characters asked for, or all there are. *)
Lemma slice_to_len (n : nat) (s : string) :
  Py.len (Py.slice_to n s) = Nat.min n (Py.len s).
Proof.
  revert n. induction s as [|c s IH]; intros n; [now destruct n|].
  simpl. destruct (Py.is_continuation c) eqn:E.
  - simpl. rewrite E. apply IH.
  - destruct n as [|n]; [reflexivity|]. simpl. rewrite E. now rewrite IH.
Qed.

(** A text of no more than [n] characters is its own slice. *)
Lemma slice_to_all (n : nat) (s : string) :
  Py.len s <= n -> Py.slice_to n s = s.
Proof.
  revert n. induction s as [|c s IH]; intros n; [reflexivity|].
  simpl. destruct (Py.is_continuation c).
  - intros H. now rewrite IH.
  - destruct n as [|n]; [lia|]. intros H. rewrite IH; [reflexivity | lia].
Qed.

(** What a slice leaves out starts with a whole character. *)
Lemma slice_to_rest (n : nat) (s : string) :
  exists rest,
    s = Py.slice_to n s +:+ rest
    /\ match rest with
       | String c _ => Py.is_continuation c = false
       | EmptyString => True
       end.
Proof.
  revert n. induction s as [|c s IH]; intros n; [now exists ""|].
  simpl. destruct (Py.is_continuation c) eqn:E.
  - destruct (IH n) as (rest & Hs & Hrest). exists rest.
    split; [|exact Hrest]. change (String c (Py.slice_to n s) +:+ rest)
      with (String c (Py.slice_to n s +:+ rest)). now rewrite <- Hs.
  - destruct n as [|n].
    + exists (String c s). split; [reflexivity | exact E].
    + destruct (IH n) as (rest & Hs & Hrest). exists rest.
      split; [|exact Hrest]. change (String c (Py.slice_to n s) +:+ rest)
        with (String c (Py.slice_to n s +:+ rest)). now rewrite <- Hs.
Qed.

(** C8: for every input, each mandatory document type (commercial
    registration, national id, bank statement) that no document has
    puts its "Missing ..." issue in the issue list and its matching
    "Provide ..." recommendation in the recommendation list; and each
    validation whose status is not passed puts in the issue list the
    issue "Document <prefix> validation failed", where the prefix is the
    first 8 characters of its document identifier: a start of the
    identifier that has 8 characters (whatever bytes each takes) and
    ends where a character ends, or the whole identifier when it has no
    more than 8. *)
Theorem issues_for_missing_and_failed
    (documents : list Document) (validations : list Validation) :
  let r := _calculate_scores documents validations in
  (forall req_type,
      In req_type required_types ->
      ~ In req_type (map doc_type documents) ->
      In (missing_issue req_type) (all_issues r)
      /\ In (missing_recommendation req_type) (all_recommendations r))
  /\ (forall val,
      In val validations ->
      val_status val <> "passed" ->
      In (failed_issue val) (all_issues r)
      /\ failed_issue val
         = "Document " +:+ Py.slice_to 8 (val_document_id val) +:+ " validation failed"
      /\ String.prefix (Py.slice_to 8 (val_document_id val)) (val_document_id val) = true
      /\ Py.len (Py.slice_to 8 (val_document_id val))
         = Nat.min 8 (Py.len (val_document_id val))
      /\ (exists rest,
            val_document_id val = Py.slice_to 8 (val_document_id val) +:+ rest
            /\ match rest with
               | String c _ => Py.is_continuation c = false
               | EmptyString => True
               end)
      /\ (Py.len (val_document_id val) <= 8 ->
          Py.slice_to 8 (val_document_id val) = val_document_id val))
  /\ map (fun t => (t, missing_issue t, missing_recommendation t)) required_types
     = [("commercial_registration", "Missing commercial registration",
         "Provide commercial registration");
        ("national_id", "Missing national id", "Provide national id");
        ("bank_statement", "Missing bank statement", "Provide bank statement")].
Proof.
  cbv zeta. split; [|split; [|reflexivity]].
  - intros req_type Hreq Hmissing.
    assert (Hin : In req_type
              (List.filter (fun t => negb (Py.contains t (map doc_type documents)))
                           required_types)).
    { apply filter_In. split; [assumption|].
      apply negb_true_iff. apply not_true_is_false.
      now rewrite contains_In. }
    split.
    + unfold _calculate_scores; simpl all_issues.
      apply in_or_app. left. now apply in_map.
    + unfold _calculate_scores; simpl all_recommendations. now apply in_map.
  - intros val Hval Hstatus.
    split; [|split; [reflexivity|split; [apply slice_to_prefix|
      split; [apply slice_to_len|split; [apply slice_to_rest|apply slice_to_all]]]]].
    unfold _calculate_scores; simpl all_issues.
    apply in_or_app. right. apply in_map. apply filter_In.
    split; [assumption|].
    apply negb_true_iff. now apply String.eqb_neq.
Qed.

(** The example documents, with a failed validation of the third. *)
Lemma issues_for_missing_and_failed_witness :
  In "Missing bank statement"
     (all_issues (_calculate_scores example_documents
                    [mkValidation "900150983cd24fb0d6963f7d28e17f72" "failed" None]))
  /\ In "Provide bank statement"
        (all_recommendations (_calculate_scores example_documents
                    [mkValidation "900150983cd24fb0d6963f7d28e17f72" "failed" None]))
  /\ In "Document 90015098 validation failed"
        (all_issues (_calculate_scores example_documents
                    [mkValidation "900150983cd24fb0d6963f7d28e17f72" "failed" None])).
Proof.
  destruct (issues_for_missing_and_failed example_documents
              [mkValidation "900150983cd24fb0d6963f7d28e17f72" "failed" None])
    as (Hmissing & Hfailed & _).
  destruct (Hmissing "bank_statement") as [Hissue Hrec].
  - simpl. auto.
  - simpl. intros [H|[H|[H|[]]]]; discriminate H.
  - destruct (Hfailed (mkValidation "900150983cd24fb0d6963f7d28e17f72" "failed" None))
      as (Hin & _).
    + simpl. auto.
    + discriminate.
    + exact (conj Hissue (conj Hrec Hin)).
Defined.

(** C9: the scoring computation is deterministic and free of side
    effects: as a method of the agent it never raises, it returns the
    value that its two arguments alone determine, whatever the agent
    and its services hold, and it leaves the agent as it found it; so
    two calls with identical inputs, in whatever states, return
    identical scores, statuses, counts, issues and recommendations. *)
Theorem calculate_scores_pure
    (documents : list Document) (validations : list Validation)
    (self self' : Summary.Agent) :
  let call := Summary._calculate_scores documents validations in
  call self = (Return (_calculate_scores documents validations), self)
  /\ call self' = (Return (_calculate_scores documents validations), self')
  /\ fst (call self) = fst (call self')
  /\ snd (call (snd (call self))) = self
  /\ (forall documents' validations',
       documents' = documents -> validations' = validations ->
       fst (Summary._calculate_scores documents' validations' self') = fst (call self)).
Proof.
  cbv zeta. repeat split. intros ? ? -> ->. reflexivity.
Qed.

(** The same inputs scored by two differently equipped agents. *)
Lemma calculate_scores_pure_witness :
  fst (Summary._calculate_scores example_documents example_validations
         (Summary.mkAgent false None None None (Kafka.mkKafkaHandler [])))
  = fst (Summary._calculate_scores example_documents example_validations
         (Summary.mkAgent true None None (Some ∅) (Kafka.mkKafkaHandler []))).
Proof.
  destruct (calculate_scores_pure example_documents example_validations
              (Summary.mkAgent true None None (Some ∅) (Kafka.mkKafkaHandler []))
              (Summary.mkAgent false None None None (Kafka.mkKafkaHandler [])))
    as (_ & _ & _ & _ & H).
  exact (H example_documents example_validations eq_refl eq_refl).
Defined.

End ScoringSpec.

(** ** Methods that cannot raise *)

Section EffFacts.

Context {S : Type}.

Lemma never_raises_ret {A} (a : A) : never_raises (@ret S A a).
Proof. intros s. now exists a, s. Qed.

Lemma never_raises_get : never_raises (@get S).
Proof. intros s. now exists s, s. Qed.

Lemma never_raises_modify (f : S -> S) : never_raises (modify f).
Proof. intros s. now exists tt, (f s). Qed.

Lemma never_raises_bind {A B} (m : M S A) (k : A -> M S B) :
  never_raises m -> (forall a, never_raises (k a)) -> never_raises (bind m k).
Proof.
  intros Hm Hk s. destruct (Hm s) as (a & s' & E).
  destruct (Hk a s') as (b & s'' & E').
  exists b, s''. unfold bind. now rewrite E.
Qed.

(** A [try] whose handler cannot raise cannot raise, whatever its body. *)
Lemma never_raises_try_except {A} (m : M S A) (handler : string -> M S A) :
  (forall exc, never_raises (handler exc)) -> never_raises (try_except m handler).
Proof.
  intros Hh s. unfold try_except.
  destruct (m s) as [[a|exc] s'].
  - now exists a, s'.
  - apply Hh.
Qed.

Lemma never_raises_for_each {A} (xs : list A) (body : A -> M S unit) :
  (forall x, never_raises (body x)) -> never_raises (for_each xs body).
Proof.
  intros Hbody. induction xs as [|x xs IH]; simpl.
  - apply never_raises_ret.
  - apply never_raises_bind; [apply Hbody | intros _; exact IH].
Qed.

Section Within.

Variable R : S -> S -> Prop.
Hypothesis R_refl : forall s, R s s.
Hypothesis R_trans : forall s1 s2 s3, R s1 s2 -> R s2 s3 -> R s1 s3.

Lemma within_ret {A} (a : A) : steps_within R (ret a).
Proof. intros s. apply R_refl. Qed.

Lemma within_raise {A} exc : steps_within R (@raise S A exc).
Proof. intros s. apply R_refl. Qed.

Lemma within_get : steps_within R (@get S).
Proof. intros s. apply R_refl. Qed.

Lemma within_bind {A B} (m : M S A) (k : A -> M S B) :
  steps_within R m -> (forall a, steps_within R (k a)) -> steps_within R (bind m k).
Proof.
  intros Hm Hk s. unfold bind. specialize (Hm s).
  destruct (m s) as [[a|exc] s']; simpl in *; [|assumption].
  eapply R_trans; [exact Hm | apply Hk].
Qed.

Lemma within_try_except {A} (m : M S A) (handler : string -> M S A) :
  steps_within R m -> (forall exc, steps_within R (handler exc)) ->
  steps_within R (try_except m handler).
Proof.
  intros Hm Hh s. unfold try_except. specialize (Hm s).
  destruct (m s) as [[a|exc] s']; simpl in *; [assumption|].
  eapply R_trans; [exact Hm | apply Hh].
Qed.

Lemma within_for_each {A} (xs : list A) (body : A -> M S unit) :
  (forall x, steps_within R (body x)) -> steps_within R (for_each xs body).
Proof.
  intros Hbody. induction xs as [|x xs IH]; simpl.
  - apply within_ret.
  - apply within_bind; [apply Hbody | intros _; exact IH].
Qed.

End Within.

End EffFacts.

Create HintDb eff.
#[local] Hint Resolve never_raises_ret never_raises_get never_raises_modify
  never_raises_try_except : eff.

(** ** Redis commands *)

Section RedisFacts.

Context {V : Type}.
Variable down : nat -> bool.
Variable now : Z.

Implicit Types (c : Redis.client V) (k : string).

(** A command leaves every key other than its own alone. *)
Lemma incr_other_key to_int of_int k c k' :
  k' <> k ->
  Redis.keys (snd (Redis.incr down now to_int of_int k c)) !! k' = Redis.keys c !! k'.
Proof.
  intros Hne. unfold Redis.incr, Redis.command.
  destruct (down _); [reflexivity|].
  destruct (Redis.lookup now k c) as [e|]; simpl.
  - destruct (to_int _); simpl; [now rewrite lookup_insert_ne | reflexivity].
  - now rewrite lookup_insert_ne.
Qed.

Lemma expire_other_key k seconds c k' :
  k' <> k ->
  Redis.keys (snd (Redis.expire down now k seconds c)) !! k' = Redis.keys c !! k'.
Proof.
  intros Hne. unfold Redis.expire, Redis.command.
  destruct (down _); [reflexivity|].
  destruct (Redis.lookup now k c) as [e|]; simpl;
    [now rewrite lookup_insert_ne | reflexivity].
Qed.

Lemma setex_other_key k seconds v c k' :
  k' <> k ->
  Redis.keys (snd (Redis.setex down now k seconds v c)) !! k' = Redis.keys c !! k'.
Proof.
  intros Hne. unfold Redis.setex, Redis.command.
  destruct (down _); simpl; [reflexivity | now rewrite lookup_insert_ne].
Qed.

(** [INCR] on a reachable server whose key reads [n] (0 when missing or
    expired) returns [n + 1] and leaves a live counter [n + 1]. *)
Lemma incr_up to_int of_int k c n :
  down (Redis.issued c) = false ->
  match Redis.lookup now k c with
  | Some e => to_int (Redis.e_value e)
  | None => Some 0%Z
  end = Some n ->
  exists expires,
    Redis.incr down now to_int of_int k c
    = (Return (n + 1)%Z,
       Redis.mkClient
         (<[k := Redis.mkEntry (of_int (n + 1)%Z) expires]> (Redis.keys c))
         (S (Redis.issued c)))
    /\ Redis.live now (Redis.mkEntry (of_int (n + 1)%Z) expires) = true.
Proof.
  intros Hup Hn. unfold Redis.incr, Redis.command. rewrite Hup.
  unfold Redis.lookup in *.
  destruct (Redis.keys c !! k) as [e|] eqn:Ek.
  - destruct (Redis.live now e) eqn:Hlive.
    + rewrite Hn. exists (Redis.e_expires e). split; [reflexivity|].
      exact Hlive.
    + injection Hn as <-. now exists None.
  - injection Hn as <-. now exists None.
Qed.

(** [EXPIRE] on a reachable server restarts the expiry of a live key. *)
Lemma expire_up k seconds c e :
  down (Redis.issued c) = false ->
  Redis.keys c !! k = Some e ->
  Redis.live now e = true ->
  Redis.expire down now k seconds c
  = (Return true,
     Redis.mkClient
       (<[k := Redis.mkEntry (Redis.e_value e) (Some (now + seconds)%Z)]> (Redis.keys c))
       (S (Redis.issued c))).
Proof.
  intros Hup Hk Hlive. unfold Redis.expire, Redis.command, Redis.lookup.
  now rewrite Hup, Hk, Hlive.
Qed.

End RedisFacts.

(** ** The audit logging agent *)

Module AuditSpec.

Import Audit Kafka.

Section Totality.

Variable env : Env.

Lemma store_audit_log_never_raises log_entry :
  never_raises (_store_audit_log env log_entry).
Proof.
  unfold _store_audit_log. apply never_raises_bind; [auto with eff|].
  intros self. destruct (Py.is_set (db_session self)).
  - apply never_raises_try_except. intros _. apply never_raises_modify.
  - apply never_raises_modify.
Qed.

Lemma update_metrics_never_raises event_type :
  never_raises (_update_metrics env event_type).
Proof.
  unfold _update_metrics. apply never_raises_bind; [auto with eff|].
  intros self. destruct (Py.is_set (redis_client self)); auto with eff.
Qed.

Lemma detect_anomalies_never_raises event_type event_data :
  never_raises (_detect_anomalies env event_type event_data).
Proof.
  unfold _detect_anomalies. apply never_raises_bind; [auto with eff|].
  intros self. apply never_raises_bind.
  - destruct (bool_decide _), (Py.is_set (redis_client self)); auto with eff.
  - intros repeated. apply never_raises_bind.
    + destruct (Py.is_set (redis_client self)); auto with eff.
    + auto with eff.
Qed.

Lemma handle_anomalies_never_raises anomalies :
  never_raises (_handle_anomalies env anomalies).
Proof.
  unfold _handle_anomalies. apply never_raises_for_each. intros anomaly.
  apply never_raises_bind; [auto with eff|]. intros _.
  apply never_raises_bind; [auto with eff|]. intros self.
  destruct (Py.is_set (redis_client self)); auto with eff.
Qed.

End Totality.

(** *** What each method leaves alone *)

Lemma redis_key_kept_refl k s : redis_key_kept k s s.
Proof. unfold redis_key_kept. now destruct (redis_client s). Qed.

Lemma redis_key_kept_trans k s1 s2 s3 :
  redis_key_kept k s1 s2 -> redis_key_kept k s2 s3 -> redis_key_kept k s1 s3.
Proof.
  unfold redis_key_kept.
  destruct (redis_client s1), (redis_client s2), (redis_client s3);
    try tauto; congruence.
Qed.

Lemma metrics_step_refl k s : metrics_step k s s.
Proof. repeat split. apply redis_key_kept_refl. Qed.

Lemma metrics_step_trans k s1 s2 s3 :
  metrics_step k s1 s2 -> metrics_step k s2 s3 -> metrics_step k s1 s3.
Proof.
  unfold metrics_step, records_kept, quiet.
  intros (Ha & (Hb & Hc) & Hd) (Ha' & (Hb' & Hc') & Hd').
  split; [eapply redis_key_kept_trans; eassumption|].
  repeat split; congruence.
Qed.

Lemma alert_step_refl k s : alert_step k s s.
Proof. repeat split. apply redis_key_kept_refl. Qed.

Lemma alert_step_trans k s1 s2 s3 :
  alert_step k s1 s2 -> alert_step k s2 s3 -> alert_step k s1 s3.
Proof.
  unfold alert_step, records_kept.
  intros (Ha & Hb & Hc) (Ha' & Hb' & Hc').
  split; [eapply redis_key_kept_trans; eassumption|].
  split; congruence.
Qed.

Lemma store_step_refl s : store_step s s.
Proof. now split. Qed.

Lemma store_step_trans s1 s2 s3 :
  store_step s1 s2 -> store_step s2 s3 -> store_step s1 s3.
Proof. unfold store_step, quiet. intros [Ha Hb] [Ha' Hb']. split; congruence. Qed.

Ltac rel_refl :=
  first [exact store_step_refl | exact (metrics_step_refl _) | exact (alert_step_refl _)].
Ltac rel_trans :=
  first [exact store_step_trans | exact (metrics_step_trans _) | exact (alert_step_trans _)].

(** One step of a proof that a method stays within a relation. *)
Ltac within_bind := apply within_bind; [rel_trans | | intros ?].
Ltac within_try := apply within_try_except; [rel_trans | | intros ?].
Ltac within_leaf :=
  first [apply within_ret | apply within_get | apply within_raise]; rel_refl.

Section Frames.

Variable env : Env.

(** A Redis command that spares the key [k], run on the agent. *)
Lemma on_redis_metrics_step {A} (m : M (Redis.client Redis.cell) A) k :
  (forall c, Redis.keys (snd (m c)) !! k = Redis.keys c !! k) ->
  steps_within (metrics_step k) (on_redis m).
Proof.
  intros Hm s. unfold on_redis.
  destruct (redis_client s) as [c|] eqn:E.
  - specialize (Hm c). destruct (m c) as [r c']. simpl in *.
    unfold metrics_step, redis_key_kept, records_kept, quiet. simpl.
    rewrite E. auto.
  - apply metrics_step_refl.
Qed.

Lemma incr_metrics_step k k' : k <> k' -> steps_within (metrics_step k) (incr env k').
Proof. intros H. apply on_redis_metrics_step. intros c. now apply incr_other_key. Qed.

Lemma expire_metrics_step k k' seconds :
  k <> k' -> steps_within (metrics_step k) (expire env k' seconds).
Proof. intros H. apply on_redis_metrics_step. intros c. now apply expire_other_key. Qed.

Lemma setex_metrics_step k k' seconds text :
  k <> k' -> steps_within (metrics_step k) (setex env k' seconds text).
Proof. intros H. apply on_redis_metrics_step. intros c. now apply setex_other_key. Qed.

Lemma store_audit_log_store_step log_entry :
  steps_within store_step (_store_audit_log env log_entry).
Proof.
  assert (Happend : steps_within store_step (append_memory_log log_entry)).
  { intros s. unfold append_memory_log, modify. simpl.
    now destruct (memory_logs s). }
  unfold _store_audit_log. within_bind; [within_leaf|].
  destruct (Py.is_set (db_session a)); [|exact Happend].
  within_try; [|exact Happend].
  intros s. unfold on_db. destruct (db_session s) as [d|]; [|now split].
  destruct (Db.commit _ _ _ d). now split.
Qed.

(** The keys of the other counters and of the alerts differ from the
    key of a failure counter. *)
Lemma failure_key_not_counter event_data event_type :
  failure_key event_data <> "audit:counter:" +:+ event_type.
Proof. unfold failure_key. simpl. discriminate. Qed.

Lemma failure_key_not_daily event_data date event_type :
  failure_key event_data <> "audit:daily:" +:+ date +:+ ":" +:+ event_type.
Proof. unfold failure_key. simpl. discriminate. Qed.

Lemma failure_key_not_rate event_data event_type :
  failure_key event_data <> rate_key event_type.
Proof. unfold failure_key, rate_key. simpl. discriminate. Qed.

Lemma failure_key_not_alert event_data stamp :
  failure_key event_data <> "audit:alert:" +:+ stamp.
Proof. unfold failure_key. simpl. discriminate. Qed.

Lemma update_metrics_metrics_step event_data event_type :
  steps_within (metrics_step (failure_key event_data)) (_update_metrics env event_type).
Proof.
  unfold _update_metrics. within_bind; [within_leaf|].
  destruct (Py.is_set (redis_client a)); [|within_leaf].
  within_try; [|within_leaf].
  within_bind; [apply incr_metrics_step, failure_key_not_counter|].
  within_bind; [apply incr_metrics_step, failure_key_not_daily|].
  within_bind; [apply expire_metrics_step, failure_key_not_daily|].
  within_leaf.
Qed.

Lemma store_alert_metrics_step event_data anomaly :
  steps_within (metrics_step (failure_key event_data)) (store_alert env anomaly).
Proof.
  unfold store_alert. within_bind; [within_leaf|].
  destruct (Py.is_set (redis_client a)); [|within_leaf].
  within_try; [|within_leaf].
  apply setex_metrics_step, failure_key_not_alert.
Qed.

Lemma store_alert_never_raises anomaly : never_raises (store_alert env anomaly).
Proof.
  unfold store_alert. apply never_raises_bind; [auto with eff|].
  intros self. destruct (Py.is_set (redis_client self)); auto with eff.
Qed.

(** [_handle_anomalies] publishes one message per anomaly, in order, and
    spares the failure counters and the audit records. *)
Lemma handle_anomalies_publishes event_data anomalies s :
  let s' := snd (_handle_anomalies env anomalies s) in
  mock_events (kafka_handler s')
  = (mock_events (kafka_handler s) ++ map (anomaly_event env) anomalies)%list
  /\ alert_step (failure_key event_data) s s'.
Proof.
  revert s. induction anomalies as [|anomaly rest IH]; intros s.
  - simpl. split; [now rewrite app_nil_r | apply alert_step_refl].
  - pose (s1 := set_kafka
                  (send_event "audit-anomaly" "anomaly"
                     [("anomaly", FStr anomaly);
                      ("detected_at", FStr (isoformat (now env)))]
                     (kafka_handler s)) s).
    destruct (store_alert_never_raises anomaly s1) as (u & s2 & E).
    assert (Hrun : _handle_anomalies env (anomaly :: rest) s
                   = _handle_anomalies env rest s2).
    { unfold _handle_anomalies. simpl.
      unfold bind at 1. unfold bind at 1. unfold modify at 1.
      fold (store_alert env anomaly). fold s1. now rewrite E. }
    rewrite Hrun.
    pose proof (store_alert_metrics_step event_data anomaly s1) as Hstep.
    rewrite E in Hstep. simpl in Hstep.
    destruct Hstep as (Hkey & Hrec & Hquiet).
    destruct (IH s2) as [IHev IHstep].
    split.
    + rewrite IHev, Hquiet. simpl. now rewrite <- app_assoc.
    + eapply alert_step_trans; [|exact IHstep].
      split; [exact Hkey | exact Hrec].
Qed.

(** Detection publishes nothing, stores no audit record and keeps the
    client it has. *)
Lemma detect_anomalies_metrics_step event_type event_data :
  steps_within (metrics_step "") (_detect_anomalies env event_type event_data).
Proof.
  unfold _detect_anomalies. within_bind; [within_leaf|].
  within_bind.
  { destruct (bool_decide _); [|within_leaf].
    destruct (Py.is_set (redis_client a)); [|within_leaf].
    within_try; [|within_leaf].
    within_bind; [now apply incr_metrics_step|].
    within_bind; [now apply expire_metrics_step|].
    within_leaf. }
  within_bind; [|within_leaf].
  destruct (Py.is_set (redis_client a)); [|within_leaf].
  within_try; [|within_leaf].
  within_bind; [now apply incr_metrics_step|].
  within_bind; [now apply expire_metrics_step|].
  within_leaf.
Qed.

(** Without a usable cache, detection finds nothing. *)
Lemma detect_anomalies_degraded event_type event_data s :
  cache_unavailable env s ->
  fst (_detect_anomalies env event_type event_data s) = Return [].
Proof.
  intros Hcache.
  unfold _detect_anomalies, bind, get, try_except, incr, expire, on_redis,
    Redis.incr, Redis.expire, Redis.command, ret.
  destruct (redis_client s) as [c|] eqn:Ec; simpl.
  - destruct Hcache as [Hnone|Hdown]; [congruence|].
    destruct (bool_decide _); simpl; rewrite ?Ec, ?Hdown; simpl;
      rewrite ?Hdown; reflexivity.
  - destruct (bool_decide _); reflexivity.
Qed.

Lemma detect_anomalies_checks event_type event_data :
  _detect_anomalies env event_type event_data
  = bind get (fun self =>
    bind (failure_check env event_data self) (fun repeated =>
    bind (rate_check env event_type self) (fun rate_high =>
    ret (repeated ++ rate_high)%list))).
Proof. reflexivity. Qed.

Lemma rate_check_metrics_step event_data event_type self :
  steps_within (metrics_step (failure_key event_data)) (rate_check env event_type self).
Proof.
  unfold rate_check.
  destruct (Py.is_set (redis_client self)); [|within_leaf].
  within_try; [|within_leaf].
  within_bind; [apply incr_metrics_step, failure_key_not_rate|].
  within_bind; [apply expire_metrics_step, failure_key_not_rate|].
  within_leaf.
Qed.

(** The rate check returns no anomaly or the rate anomaly. *)
Lemma rate_check_returns event_type self s :
  exists rate_high,
    fst (rate_check env event_type self s) = Return rate_high
    /\ (rate_high = [] \/ rate_high = [rate_anomaly event_type]).
Proof.
  unfold rate_check. destruct (Py.is_set (redis_client self)); [|now exists []; auto].
  unfold try_except, bind.
  destruct (incr env (rate_key event_type) s) as [[rate|exc] s1]; [|now exists []; auto].
  destruct (expire env (rate_key event_type) 60 s1) as [[b|exc] s2];
    [|now exists []; auto].
  simpl. destruct (100 <? rate)%Z; eexists; eauto.
Qed.

(** With Redis up and the failure counter of the subject at [n], the
    failure check moves the counter to [n + 1], restarts its hour and
    reports the anomaly exactly when [n + 1] exceeds 5. *)
Lemma failure_check_counts event_data self s c n :
  redis_client self <> None ->
  redis_client s = Some c ->
  (forall i, redis_down env i = false) ->
  status event_data = Some "failure" ->
  failure_count (clock env) event_data s = Some n ->
  exists s' c',
    failure_check env event_data self s
    = (Return (if (5 <? n + 1)%Z then [failure_anomaly event_data] else []), s')
    /\ redis_client s' = Some c'
    /\ Redis.keys c' !! failure_key event_data
       = Some (Redis.mkEntry (Redis.CInt (n + 1)) (Some (clock env + 3600)%Z))
    /\ records_kept s s' /\ quiet s s'.
Proof.
  intros Hself Hc Hup Hstatus Hcount.
  unfold failure_check. rewrite bool_decide_eq_true_2 by assumption.
  destruct (redis_client self) as [c0|] eqn:E0; [simpl|congruence].
  unfold failure_count in Hcount. rewrite Hc in Hcount.
  destruct (incr_up (redis_down env) (clock env) Redis.as_int Redis.CInt
              (failure_key event_data) c n (Hup _) Hcount)
    as (expires & Hincr & Hlive).
  set (c1 := Redis.mkClient _ _) in Hincr.
  assert (Hexpire := expire_up (redis_down env) (clock env)
            (failure_key event_data) 3600 c1 _ (Hup _)
            (lookup_insert_eq _ _ _) Hlive).
  set (c2 := Redis.mkClient _ _) in Hexpire.
  exists (set_redis c2 s), c2.
  split; [|split; [reflexivity|split; [|now split]]].
  - unfold try_except, bind, incr, expire, on_redis.
    rewrite Hc, Hincr. simpl. now rewrite Hexpire.
  - subst c2. simpl. apply lookup_insert_eq.
Qed.

Lemma cache_unavailable_kept k s s' :
  redis_key_kept k s s' -> cache_unavailable env s -> cache_unavailable env s'.
Proof.
  unfold redis_key_kept, cache_unavailable. intros Hk [Hnone|Hdown]; [|now right].
  left. rewrite Hnone in Hk. now destruct (redis_client s').
Qed.

(** The run of [log_event] on a payload that [json.dumps] encodes, phase
    by phase: the states after the record is stored, after the metrics
    are updated, after detection and at the end, with the anomalies that
    detection returned. *)
Lemma log_event_phases event_type event_data details self :
  json_dumps env event_data = Return details ->
  exists s1 s2 anomalies s3 s4,
    _store_audit_log env (make_log_entry env event_type event_data details) self
    = (Return tt, s1)
    /\ _update_metrics env event_type s1 = (Return tt, s2)
    /\ _detect_anomalies env event_type event_data s2 = (Return anomalies, s3)
    /\ snd (_handle_anomalies env anomalies s3) = s4
    /\ log_event env event_type event_data self
       = (Return {| logged := true;
                    event_type := event_type;
                    timestamp := isoformat (now env) |}, s4).
Proof.
  intros Hjson.
  destruct (store_audit_log_never_raises env
              (make_log_entry env event_type event_data details) self)
    as ([] & s1 & E1).
  destruct (update_metrics_never_raises env event_type s1) as ([] & s2 & E2).
  destruct (detect_anomalies_never_raises env event_type event_data s2)
    as (anomalies & s3 & E3).
  destruct (handle_anomalies_never_raises env anomalies s3) as ([] & s4 & E4).
  exists s1, s2, anomalies, s3, s4.
  split; [exact E1|]. split; [exact E2|]. split; [exact E3|].
  split; [now rewrite E4|].
  unfold log_event. rewrite Hjson.
  unfold bind at 1. unfold ret at 1.
  unfold bind at 1. rewrite E1.
  unfold bind at 1. rewrite E2.
  unfold bind at 1. rewrite E3.
  unfold bind at 1.
  destruct anomalies as [|anomaly rest].
  - simpl in E4. injection E4 as <-. reflexivity.
  - rewrite E4. reflexivity.
Qed.

(** An anomaly message counts as an alert with its own text only. *)
Lemma is_alert_anomaly_event text anomaly :
  is_alert text (anomaly_event env anomaly) = String.eqb anomaly text.
Proof. reflexivity. Qed.

Lemma rate_anomaly_not_failure event_type event_data :
  String.eqb (rate_anomaly event_type) (failure_anomaly event_data) = false.
Proof. apply String.eqb_neq. unfold rate_anomaly, failure_anomaly. simpl. discriminate. Qed.

(** The failure counter read at [t] depends on the failure key only. *)
Lemma failure_count_kept event_data t s s' :
  redis_key_kept (failure_key event_data) s s' ->
  failure_count t event_data s' = failure_count t event_data s.
Proof.
  unfold redis_key_kept, failure_count, Redis.lookup.
  destruct (redis_client s), (redis_client s'); try tauto. now intros ->.
Qed.

(** One logged failure event, with Redis up and the counter of the subject
    at [n]: the counter becomes [n + 1] with a fresh hour, and one
    repeated-failure anomaly is published if [n + 1] exceeds 5, none
    otherwise. *)
Lemma log_event_failure_step event_type event_data self n :
  (exists details, json_dumps env event_data = Return details) ->
  (forall i, redis_down env i = false) ->
  status event_data = Some "failure" ->
  failure_count (clock env) event_data self = Some n ->
  let self' := snd (log_event env event_type event_data self) in
  (exists c',
      redis_client self' = Some c'
      /\ Redis.keys c' !! failure_key event_data
         = Some (Redis.mkEntry (Redis.CInt (n + 1)) (Some (clock env + 3600)%Z)))
  /\ alerts (failure_anomaly event_data) self'
     = alerts (failure_anomaly event_data) self
       + (if (5 <? n + 1)%Z then 1 else 0).
Proof.
  intros [details Hjson] Hup Hstatus Hcount self'.
  destruct (log_event_phases event_type event_data details self Hjson)
    as (s1 & s2 & anomalies & s3 & s4 & E1 & E2 & E3 & E4 & E).
  subst self'. rewrite E. simpl.
  pose proof (store_audit_log_store_step
                (make_log_entry env event_type event_data details) self) as H1.
  pose proof (update_metrics_metrics_step event_data event_type s1) as H2.
  pose proof (handle_anomalies_publishes event_data anomalies s3) as H4.
  rewrite E1 in H1. rewrite E2 in H2. rewrite E4 in H4. simpl in H1, H2, H4.
  destruct H1 as [H1r H1q]. destruct H2 as (H2k & _ & H2q).
  destruct H4 as (H4e & H4k & _).
  (* the counter as detection finds it *)
  assert (Hcount2 : failure_count (clock env) event_data s2 = Some n).
  { rewrite (failure_count_kept event_data _ s1 s2 H2k).
    unfold failure_count in *. now rewrite H1r. }
  assert (exists c2, redis_client s2 = Some c2) as [c2 Hc2].
  { unfold failure_count in Hcount2. destruct (redis_client s2); [eauto|discriminate]. }
  (* detection *)
  rewrite detect_anomalies_checks in E3. unfold bind at 1, get at 1 in E3.
  destruct (failure_check_counts event_data s2 s2 c2 n) as
      (s2' & c2' & Ef & Hc2' & Hkey & _ & Hq2'); try assumption; [congruence|].
  unfold bind at 1 in E3. rewrite Ef in E3.
  destruct (rate_check_returns event_type s2 s2') as (rate_high & Er & Hrate).
  pose proof (rate_check_metrics_step event_data event_type s2 s2') as H3.
  unfold bind at 1 in E3.
  destruct (rate_check env event_type s2 s2') as [r3 s3'] eqn:Erc.
  simpl in Er, H3. subst r3. unfold ret in E3. injection E3 as <- <-.
  destruct H3 as (H3k & _ & H3q).
  split.
  - (* the counter at the end *)
    unfold redis_key_kept in H3k, H4k. rewrite Hc2' in H3k.
    destruct (redis_client s3') as [c3|]; [|contradiction].
    destruct (redis_client s4) as [c4|]; [|contradiction].
    exists c4. split; [reflexivity|]. now rewrite H4k, H3k.
  - (* the alerts published *)
    unfold alerts. rewrite H4e. unfold quiet in *.
    rewrite H3q, Hq2', H2q, H1q.
    rewrite List.filter_app, length_app. f_equal.
    rewrite map_app, List.filter_app, length_app.
    assert (Hr : length (List.filter (is_alert (failure_anomaly event_data))
                           (map (anomaly_event env) rate_high)) = 0).
    { destruct Hrate as [-> | ->]; [reflexivity|]. cbn [map List.filter].
      rewrite is_alert_anomaly_event, rate_anomaly_not_failure. reflexivity. }
    rewrite Hr, Nat.add_0_r.
    destruct (5 <? n + 1)%Z; [|reflexivity]. cbn [map List.filter].
    rewrite is_alert_anomaly_event, String.eqb_refl. reflexivity.
Qed.

End Frames.

(** *** The repeated-failure counter over a sequence of events *)

Section Window.

Variable t0 : Z.
Variable subject : EventData.

Lemma failure_count_same_subject t event_data s :
  customer_id event_data = customer_id subject ->
  failure_count t event_data s = failure_count t subject s.
Proof. unfold failure_count, failure_key. now intros ->. Qed.

(** A counter that reads 0 keeps reading 0 as time passes. *)
Lemma counter_reads_fresh s :
  failure_count t0 subject s = Some 0%Z -> counter_reads t0 subject 0 s.
Proof.
  unfold counter_reads, failure_count, Redis.lookup, Redis.live.
  intros H t Ht. destruct (redis_client s) as [c|]; [|discriminate].
  destruct (Redis.keys c !! failure_key subject) as [e|]; [|reflexivity].
  destruct (Redis.e_expires e) as [expiry|]; [|exact H].
  destruct (t0 <=? expiry)%Z eqn:E0, (t <=? expiry)%Z eqn:Et; try easy.
  apply Z.leb_gt in E0. apply Z.leb_le in Et. lia.
Qed.

(** After a failure event in the window the counter reads one more. *)
Lemma counter_reads_after t n s c :
  (t0 <= t < t0 + 3600)%Z ->
  redis_client s = Some c ->
  Redis.keys c !! failure_key subject
  = Some (Redis.mkEntry (Redis.CInt n) (Some (t + 3600)%Z)) ->
  counter_reads t0 subject n s.
Proof.
  intros Ht Hc Hk t' Ht'. unfold failure_count, Redis.lookup, Redis.live.
  rewrite Hc, Hk. simpl.
  destruct (t' <=? t + 3600)%Z eqn:E; [reflexivity|].
  apply Z.leb_gt in E. lia.
Qed.

(** The alerts published by the first [k] of a sequence of failure events
    in the window, from a counter that reads [n]. *)
Lemma run_events_alerts calls : forall self n k,
  Forall (failure_in_window t0 (customer_id subject)) calls ->
  counter_reads t0 subject (Z.of_nat n) self ->
  k <= length calls ->
  alerts (failure_anomaly subject) (run_events (take k calls) self)
  = alerts (failure_anomaly subject) self + ((n + k - 5) - (n - 5)).
Proof.
  induction calls as [|[[env event_type] event_data] rest IH];
    intros self n k Hcalls Hreads Hk.
  - simpl in Hk. replace k with 0 by lia. simpl. lia.
  - destruct k as [|k]; [simpl; lia|].
    apply Forall_cons in Hcalls as [(Hstatus & Hsubject & Hjson & Hup & Ht) Hrest].
    simpl in Hk. simpl take. simpl run_events.
    assert (Hcount : failure_count (clock env) event_data self = Some (Z.of_nat n)).
    { rewrite failure_count_same_subject by assumption. now apply Hreads. }
    destruct (log_event_failure_step env event_type event_data self (Z.of_nat n)
                Hjson Hup Hstatus Hcount) as [(c' & Hc' & Hkey) Halerts].
    assert (Hmsg : failure_anomaly event_data = failure_anomaly subject).
    { unfold failure_anomaly. now rewrite Hsubject. }
    assert (Hfkey : failure_key event_data = failure_key subject).
    { unfold failure_key. now rewrite Hsubject. }
    rewrite Hmsg in Halerts. rewrite Hfkey in Hkey.
    assert (Hreads' : counter_reads t0 subject (Z.of_nat (S n))
                        (snd (log_event env event_type event_data self))).
    { replace (Z.of_nat (S n)) with (Z.of_nat n + 1)%Z by lia.
      eapply counter_reads_after; eassumption. }
    rewrite (IH _ (S n) k Hrest Hreads') by lia.
    rewrite Halerts.
    destruct (5 <? Z.of_nat n + 1)%Z eqn:E;
      [apply Z.ltb_lt in E | apply Z.ltb_ge in E]; lia.
Qed.

End Window.

(** C4: for the repeated-failure counter keyed by subject, with the
    counter storage available throughout: when failure-status events of
    one subject are logged one after the other within one hour, starting
    from a counter of that subject that reads 0, the k-th of them
    publishes exactly one repeated-failure anomaly if k exceeds 5 and none
    otherwise; so of 6 events the first 5 raise none and the 6th raises
    exactly one. *)
Theorem repeated_failure_fires_above_five
    (env1 : Env) (event_type1 : string) (event_data1 : EventData)
    (rest : list (Env * string * EventData)) (self : Agent) (k : nat) :
  let calls := (env1, event_type1, event_data1) :: rest in
  let published s := alerts (failure_anomaly event_data1) s in
  failure_count (clock env1) event_data1 self = Some 0%Z ->
  Forall (failure_in_window (clock env1) (customer_id event_data1)) calls ->
  k < length calls ->
  published (run_events (take (S k) calls) self)
  = published (run_events (take k calls) self) + (if (5 <? S k)%nat then 1 else 0)
  /\ (length calls = 6 ->
      (forall j, j <= 5 -> published (run_events (take j calls) self) = published self)
      /\ published (run_events calls self) = published self + 1).
Proof.
  intros calls published Hfresh Hcalls Hk.
  pose proof (counter_reads_fresh _ _ _ Hfresh) as Hreads.
  assert (Hrun : forall j, j <= length calls ->
            published (run_events (take j calls) self) = published self + (j - 5)).
  { intros j Hj. unfold published.
    rewrite (run_events_alerts (clock env1) event_data1 calls self 0 j Hcalls Hreads Hj).
    lia. }
  split.
  - rewrite !Hrun by lia.
    destruct (5 <? S k)%nat eqn:E; [apply Nat.ltb_lt in E | apply Nat.ltb_ge in E]; lia.
  - intros Hlen. split.
    + intros j Hj. rewrite Hrun by lia. lia.
    + rewrite <- (firstn_all calls) at 1. change firstn with (@take (Env * string * EventData)).
      rewrite Hrun by lia. rewrite Hlen. reflexivity.
Qed.

(** C7: for every audit event whose payload [json.dumps] encodes,
    [log_event] returns [logged: true] (with the event type and the time
    stamp), whatever the state of the database and of Redis and whichever
    of their operations fail; the publishing of the bus never raises.
    When the cache is unavailable (no client, or every command failing),
    anomaly detection returns no anomaly and nothing is published, and the
    audit record is stored exactly as [_store_audit_log] stores it. *)
Theorem log_event_always_logged
    (env : Env) (event_type : string) (event_data : EventData) (self : Agent) :
  (exists details, json_dumps env event_data = Return details) ->
  fst (log_event env event_type event_data self)
  = Return {| logged := true;
              event_type := event_type;
              timestamp := isoformat (now env) |}
  /\ records_kept
       (snd (_store_audit_log env
               (make_log_entry env event_type event_data event_data) self))
       (snd (log_event env event_type event_data self))
  /\ (cache_unavailable env self ->
      (forall s, cache_unavailable env s ->
                 fst (_detect_anomalies env event_type event_data s) = Return [])
      /\ kafka_handler (snd (log_event env event_type event_data self))
         = kafka_handler self).
Proof.
  intros [details Hjson].
  assert (details = event_data) as ->.
  { unfold json_dumps in Hjson. destruct (value_error _ _ _); congruence. }
  destruct (log_event_phases env event_type event_data event_data self Hjson)
    as (s1 & s2 & anomalies & s3 & s4 & E1 & E2 & E3 & E4 & E).
  rewrite E, E1. simpl.
  pose proof (store_audit_log_store_step env
                (make_log_entry env event_type event_data event_data) self) as H1.
  pose proof (update_metrics_metrics_step env event_data event_type s1) as H2.
  pose proof (detect_anomalies_metrics_step env event_type event_data s2) as H3.
  pose proof (handle_anomalies_publishes env event_data anomalies s3) as H4.
  rewrite E1 in H1. rewrite E2 in H2. rewrite E3 in H3. rewrite E4 in H4.
  simpl in H1, H2, H3, H4.
  destruct H1 as [H1r H1q]. destruct H2 as (H2k & [H2d H2m] & H2q).
  destruct H3 as (H3k & [H3d H3m] & H3q). destruct H4 as (H4e & H4k & [H4d H4m]).
  split; [reflexivity|]. split; [split; congruence|].
  intros Hcache. split; [intros s Hs; now apply detect_anomalies_degraded|].
  assert (Hcache2 : cache_unavailable env s2).
  { apply (cache_unavailable_kept env _ s1 s2 H2k).
    unfold cache_unavailable in *. now rewrite H1r. }
  pose proof (detect_anomalies_degraded env event_type event_data s2 Hcache2) as Hnone.
  rewrite E3 in Hnone. simpl in Hnone. injection Hnone as ->.
  simpl in E4. subst s4. unfold quiet in *. congruence.
Qed.

(** The six failures of the run for illustration: none of the first five
    raises the anomaly, the sixth raises one. *)
Lemma repeated_failure_fires_above_five_witness :
  alerts "Multiple failures detected for customer CUSTOMER_001"
         (run_events (take 5 six_failures) example_agent) = 0
  /\ alerts "Multiple failures detected for customer CUSTOMER_001"
            (run_events six_failures example_agent) = 1.
Proof.
  assert (Hfresh : failure_count (clock (example_env 0 true)) example_event example_agent
                   = Some 0%Z) by reflexivity.
  assert (Hcalls : Forall (failure_in_window (clock (example_env 0 true))
                             (customer_id example_event)) six_failures).
  { repeat constructor; try (eexists; reflexivity); simpl; lia. }
  destruct (repeated_failure_fires_above_five
              (example_env 0 true) "compliance-summary-generated" example_event
              (tail six_failures) example_agent 5 Hfresh Hcalls)
    as [_ Hsix]; [simpl; lia|].
  destruct (Hsix eq_refl) as [Hfirst Hlast].
  split.
  - exact (Hfirst 5 (le_n 5)).
  - exact Hlast.
Defined.

(** The failure event logged while every Redis command fails. *)
Lemma log_event_always_logged_witness :
  fst (log_event (example_env 0 false) "compliance-summary-generated"
                 example_event example_agent)
  = Return {| logged := true;
              event_type := "compliance-summary-generated";
              timestamp := "2024-01-05T09:00:07" |}
  /\ kafka_handler (snd (log_event (example_env 0 false) "compliance-summary-generated"
                                   example_event example_agent))
     = kafka_handler example_agent.
Proof.
  destruct (log_event_always_logged (example_env 0 false)
              "compliance-summary-generated" example_event example_agent)
    as (Hlogged & _ & Hdegraded).
  - exists example_event. reflexivity.
  - split; [exact Hlogged|].
    apply Hdegraded. right. intros n. reflexivity.
Defined.

End AuditSpec.

(** ** The KYC validation agent *)

Module KycSpec.

Import Kyc Kafka.

Lemma same_data_refl s : same_data s s.
Proof. now repeat split. Qed.

Lemma same_data_trans s1 s2 s3 : same_data s1 s2 -> same_data s2 s3 -> same_data s1 s3.
Proof.
  unfold same_data. intros (?&?&?&?&?&?) (?&?&?&?&?&?). repeat split; congruence.
Qed.

Section Phases.

Variable env : Env.

(** The cache check returns, changing the command counter at most. *)
Lemma check_cache_step document_id s :
  exists cached s0,
    check_cache env document_id s = (Return cached, s0)
    /\ same_data s s0
    /\ db_session s0 = db_session s.
Proof.
  unfold check_cache, _get_from_cache, bind, get, try_except, on_redis,
    Redis.get, Redis.command, ret.
  destruct (redis_client s) as [c|] eqn:Ec; simpl.
  - rewrite ?Ec. simpl. rewrite ?Ec.
    destruct (redis_down env (Redis.issued c)); simpl;
      eexists; eexists; (split; [reflexivity|]); unfold same_data; simpl;
      rewrite Ec; auto 10.
  - eexists; eexists; split; [reflexivity|]. split; [apply same_data_refl|reflexivity].
Qed.

(** Retrieval returns what the database has for the identifier, and
    otherwise what ChromaDB has; it changes the round-trip counter at
    most. *)
Lemma retrieve_document_step document_id s :
  exists s1,
    _retrieve_document env document_id s
    = (Return (match retrieve_from_db env document_id s with
               | Some document => Some document
               | None => retrieve_from_chroma env document_id s
               end), s1)
    /\ same_data s s1
    /\ redis_client s1 = redis_client s.
Proof.
  unfold _retrieve_document, retrieve_from_db, bind, get, try_except, on_db,
    Db.query, Db.round_trip, ret.
  destruct (db_session s) as [session|] eqn:Ed; simpl.
  - rewrite Ed. destruct (db_down env (Db.round_trips session)); simpl.
    + eexists. split; [reflexivity|].
      unfold same_data. simpl. rewrite Ed. auto 10.
    + destruct (first _ _) as [row|]; simpl.
      * eexists. split; [reflexivity|].
        unfold same_data. simpl. rewrite Ed. auto 10.
      * eexists. split; [reflexivity|].
        unfold same_data. simpl. rewrite Ed. auto 10.
  - eexists. split; [reflexivity|]. split; [apply same_data_refl|reflexivity].
Qed.

(** A retrieved document carries the identifier it was asked for. *)
Lemma retrieved_id document_id s document :
  match retrieve_from_db env document_id s with
  | Some document => Some document
  | None => retrieve_from_chroma env document_id s
  end = Some document ->
  rd_id document = document_id.
Proof.
  unfold retrieve_from_db, retrieve_from_chroma, first.
  destruct (db_session s) as [session|].
  - destruct (db_down env _).
    + destruct (chroma_down env); [discriminate|].
      destruct (collection s !! document_id) as [[text [md|]]|]; try discriminate.
      now intros [= <-].
    + destruct (find _ _) as [row|] eqn:Ef; simpl.
      * intros [= <-]. apply find_some in Ef as [_ Heq].
        now apply String.eqb_eq in Heq.
      * destruct (chroma_down env); [discriminate|].
        destruct (collection s !! document_id) as [[text [md|]]|]; try discriminate.
        now intros [= <-].
  - destruct (chroma_down env); [discriminate|].
    destruct (collection s !! document_id) as [[text [md|]]|]; try discriminate.
    now intros [= <-].
Qed.

Lemma retrievable_same document_id s s' :
  db_session s' = db_session s -> collection s' = collection s ->
  retrievable env document_id s' = retrievable env document_id s.
Proof.
  unfold retrievable, retrieve_from_db, retrieve_from_chroma. now intros -> ->.
Qed.

Lemma perform_validation_same s s' document customer_id :
  llm s' = llm s ->
  _perform_validation env s' document customer_id
  = _perform_validation env s document customer_id.
Proof. unfold _perform_validation. now intros ->. Qed.

(** A validation names its document and the customer of the call. *)
Lemma perform_validation_names s document customer_id result :
  _perform_validation env s document customer_id = Return result ->
  document_id result = rd_id document /\ Kyc.customer_id result = customer_id.
Proof.
  unfold _perform_validation, and_then, searched, _ai_validate.
  destruct (rd_text document),
    (String.eqb (rd_type document) "commercial_registration"),
    (String.eqb (rd_type document) "national_id"),
    (String.eqb (rd_type document) "bank_statement"), (llm s);
    try discriminate; intros [= <-]; split; reflexivity.
Qed.

(** A document that has a text is validated. *)
Lemma perform_validation_returns s document customer_id text :
  rd_text document = Some text ->
  exists result, _perform_validation env s document customer_id = Return result.
Proof.
  intros Htext. unfold _perform_validation, and_then, searched, _ai_validate.
  rewrite Htext.
  destruct (String.eqb _ "commercial_registration"); [destruct (llm s); eauto|].
  destruct (String.eqb _ "national_id"); [destruct (llm s); eauto|].
  destruct (String.eqb _ "bank_statement"); destruct (llm s); eauto.
Qed.

(** Without a text the validation raises as soon as the text is looked
    at: by the check of the type, if the type has one, or else by the
    prompt for the model, if the agent has one. *)
Lemma perform_validation_raises s document customer_id :
  rd_text document = None ->
  In (rd_type document) checked_types \/ llm s = true ->
  _perform_validation env s document customer_id = Raise "TypeError".
Proof.
  intros Htext Hlooked. unfold _perform_validation, and_then, searched, _ai_validate.
  rewrite Htext.
  destruct (String.eqb_spec (rd_type document) "commercial_registration"); [reflexivity|].
  destruct (String.eqb_spec (rd_type document) "national_id"); [reflexivity|].
  destruct (String.eqb_spec (rd_type document) "bank_statement"); [reflexivity|].
  destruct Hlooked as [Htype | ->]; [|reflexivity].
  unfold checked_types in Htype. simpl in Htype. intuition congruence.
Qed.

(** Without a text, of a type that has no check, and without a model:
    nothing looks at the text, and the validation is left pending. *)
Lemma perform_validation_unread s document customer_id :
  rd_text document = None ->
  ~ In (rd_type document) checked_types ->
  llm s = false ->
  exists result,
    _perform_validation env s document customer_id = Return result
    /\ validation_status result = "pending".
Proof.
  intros Htext Htype Hllm. unfold _perform_validation, and_then. rewrite Hllm.
  unfold checked_types in Htype. simpl in Htype.
  destruct (String.eqb_spec (rd_type document) "commercial_registration");
    [intuition congruence|].
  destruct (String.eqb_spec (rd_type document) "national_id"); [intuition congruence|].
  destruct (String.eqb_spec (rd_type document) "bank_statement"); [intuition congruence|].
  eexists. split; reflexivity.
Qed.

(** Storing the validation and caching it never raise and publish
    nothing. *)
Lemma store_validation_step validation s :
  exists s',
    _store_validation env validation s = (Return tt, s')
    /\ kafka_handler s' = kafka_handler s
    /\ redis_client s' = redis_client s.
Proof.
  unfold _store_validation, bind, get, try_except, on_db, Db.commit,
    Db.round_trip, modify, ret.
  destruct (db_session s) as [session|] eqn:Ed; simpl.
  - rewrite ?Ed. simpl. rewrite ?Ed.
    destruct (db_down env _); simpl; [eauto|].
    destruct (constraints_hold _); simpl; eauto.
  - destruct (memory_storage s); eauto.
Qed.

Lemma save_to_cache_step key validation s :
  exists s',
    _save_to_cache env key validation s = (Return tt, s')
    /\ kafka_handler s' = kafka_handler s.
Proof.
  unfold _save_to_cache, bind, get, try_except, on_redis, Redis.setex,
    Redis.command, ret.
  destruct (redis_client s) as [c|] eqn:Ec; simpl; [|eauto].
  rewrite ?Ec. simpl. rewrite ?Ec.
  destruct (redis_down env _); simpl; eauto.
Qed.

Lemma send_events_run validation s :
  exists s',
    _send_events env validation s = (Return tt, s')
    /\ mock_events (kafka_handler s')
       = (mock_events (kafka_handler s) ++ events_for env validation)%list.
Proof.
  unfold _send_events, events_for, send, bind, modify, ret, send_event,
    completed_event, summary_requested_event.
  destruct (String.eqb _ _); simpl; eexists; (split; [reflexivity|]); simpl;
    [now rewrite <- app_assoc | reflexivity].
Qed.

(** A call that misses the cache, in full: it answers with the error
    dictionary and touches no data when the stores give nothing for the
    identifier, and otherwise validates the document the stores give:
    when the validation returns, the call publishes its events and
    returns it; when the validation raises, so does the call, and it
    has touched no data. *)
Lemma validate_kyc_on_miss document_id customer_id self :
  cache_miss env document_id self ->
  exists s',
    match retrievable env document_id self with
    | None =>
        validate_kyc env document_id customer_id self = (Return not_found, s')
        /\ same_data self s'
    | Some document =>
        match _perform_validation env self document customer_id with
        | Return result =>
            validate_kyc env document_id customer_id self
            = (Return (Validated result), s')
            /\ mock_events (kafka_handler s')
               = (mock_events (kafka_handler self) ++ events_for env result)%list
        | Raise exc =>
            validate_kyc env document_id customer_id self = (Raise exc, s')
            /\ same_data self s'
        end
    end.
Proof.
  unfold cache_miss. intros Hmiss.
  destruct (check_cache_step document_id self) as (cached & s0 & E0 & H0 & Hdb0).
  rewrite E0 in Hmiss. simpl in Hmiss. injection Hmiss as ->.
  destruct (retrieve_document_step document_id s0) as (s1 & E1 & H1 & Hr1).
  fold (retrievable env document_id s0) in E1.
  assert (Hsame : retrievable env document_id s0 = retrievable env document_id self).
  { apply retrievable_same; [exact Hdb0 | apply H0]. }
  rewrite Hsame in E1.
  assert (Hllm : llm s1 = llm self).
  { destruct H0 as (Ha & _). destruct H1 as (Hb & _). congruence. }
  destruct (retrievable env document_id self) as [document|];
    [destruct (_perform_validation env self document customer_id)
       as [result|exc] eqn:Ep|];
    unfold validate_kyc; unfold bind at 1; rewrite E0;
    unfold bind at 1; rewrite E1.
  - unfold bind at 1, get at 1.
    rewrite (perform_validation_same self s1 _ _ Hllm), Ep.
    unfold bind at 1, lift.
    destruct (store_validation_step result s1) as (s2 & E2 & Hk2 & Hr2).
    unfold bind at 1. rewrite E2.
    assert (exists s3,
      (if Py.is_set (redis_client s1)
       then _save_to_cache env (cache_key document_id) result
       else ret tt) s2 = (Return tt, s3)
      /\ kafka_handler s3 = kafka_handler s2) as (s3 & E3 & Hk3).
    { destruct (Py.is_set (redis_client s1)); [apply save_to_cache_step|].
      now exists s2. }
    unfold bind at 1. rewrite E3.
    destruct (send_events_run result s3) as (s4 & E4 & Hev).
    unfold bind at 1. rewrite E4.
    exists s4. split; [reflexivity|].
    rewrite Hev, Hk3, Hk2.
    destruct H0 as (_ & _ & Ha & _). destruct H1 as (_ & _ & Hb & _). congruence.
  - unfold bind at 1, get at 1.
    rewrite (perform_validation_same self s1 _ _ Hllm), Ep.
    exists s1. split; [reflexivity|]. eapply same_data_trans; eassumption.
  - exists s1. split; [reflexivity|]. eapply same_data_trans; eassumption.
Qed.

End Phases.

(** C5 (as stated, refuted): a document is validated while ChromaDB
    answers, which caches the result; ten minutes later no store gives
    the document any more (ChromaDB fails, there is no database), and the
    call for the same identifier returns the cached validation, not the
    "Document not found" error. *)
Lemma cached_validation_without_document :
  retrievable (example_env 10 false) example_document_id example_validated_agent = None
  /\ fst (_retrieve_document (example_env 10 false) example_document_id
                             example_validated_agent) = Return None
  /\ fst (validate_kyc (example_env 10 false) example_document_id "KYC_TEST_001"
                       example_validated_agent)
     = fst (validate_kyc (example_env 0 true) example_document_id
                         "KYC_TEST_001" example_agent)
  /\ fst (validate_kyc (example_env 10 false) example_document_id "KYC_TEST_001"
                       example_validated_agent)
     <> Return not_found.
Proof.
  split; [vm_compute; reflexivity|]. split; [vm_compute; reflexivity|].
  split; [vm_compute; reflexivity|]. vm_compute. discriminate.
Qed.

(** A document that is retrievable and still gets no validation: the
    ChromaDB entry of the registration has no text ([documents] is
    [[None]]), and the check of the type raises on it. *)
Lemma validate_kyc_without_text :
  retrievable (example_env 0 true) example_document_id example_blank_agent
  = Some (mkRetrievedDocument example_document_id None "commercial_registration"
            (Some "KYC_TEST_001"))
  /\ fst (validate_kyc (example_env 0 true) example_document_id "KYC_TEST_001"
                       example_blank_agent)
     = Raise "TypeError".
Proof. split; vm_compute; reflexivity. Qed.

(** C5 (amended): a call that hits the cache returns the cached
    validation without consulting the stores. For every call that misses
    the cache: if no store gives a document for the identifier (the
    database has no session, fails or has no such row, and ChromaDB fails
    or has no such entry), the call returns the dictionary with status
    "error" and message "Document not found" and performs no validation:
    the tables, the in-memory store, the cache and the bus hold what they
    held; if a store gives the document, which then has the identifier
    asked for, the call does not return that error. It returns the
    validation of that document whenever the document has a text. Of a
    document without a text (a row whose extracted text is NULL, a
    ChromaDB entry without document) the call raises [TypeError], with
    nothing stored, cached or published, when the type has a check of
    its own or the agent has a language model; otherwise nothing reads
    the text, and the call returns the validation, which is pending. *)
Theorem validate_kyc_document_not_found
    (env : Env) (document_id customer_id : string) (self : Agent) :
  let call := validate_kyc env document_id customer_id self in
  fst (_retrieve_document env document_id self)
  = Return (retrievable env document_id self)
  /\ (forall cached,
        fst (check_cache env document_id self) = Return (Some cached) ->
        fst call = Return (Validated cached))
  /\ (cache_miss env document_id self ->
      retrievable env document_id self = None ->
      fst call = Return not_found /\ same_data self (snd call))
  /\ (cache_miss env document_id self ->
      forall document,
        retrievable env document_id self = Some document ->
        fst call <> Return not_found
        /\ rd_id document = document_id
        /\ (forall result,
              _perform_validation env self document customer_id = Return result ->
              fst call = Return (Validated result))
        /\ (forall text,
              rd_text document = Some text ->
              exists result,
                _perform_validation env self document customer_id = Return result
                /\ fst call = Return (Validated result))
        /\ (rd_text document = None ->
            In (rd_type document) checked_types \/ llm self = true ->
            fst call = Raise "TypeError" /\ same_data self (snd call))
        /\ (rd_text document = None ->
            ~ In (rd_type document) checked_types ->
            llm self = false ->
            exists result,
              fst call = Return (Validated result)
              /\ validation_status result = "pending")).
Proof.
  cbv zeta. split; [|split; [|split]].
  - destruct (retrieve_document_step env document_id self) as (s1 & E & _).
    now rewrite E.
  - intros cached Hhit. unfold validate_kyc, bind.
    destruct (check_cache env document_id self) as [r s0]. simpl in Hhit.
    now rewrite Hhit.
  - intros Hmiss Hnone.
    destruct (validate_kyc_on_miss env document_id customer_id self Hmiss) as [s' H].
    rewrite Hnone in H. destruct H as [E Hsame]. now rewrite E.
  - intros Hmiss document Hsome.
    destruct (validate_kyc_on_miss env document_id customer_id self Hmiss) as [s' H].
    rewrite Hsome in H.
    split; [|split; [now apply (retrieved_id env document_id self)|]].
    { destruct (_perform_validation env self document customer_id);
        destruct H as [E _]; rewrite E; discriminate. }
    assert (Hreturn : forall result,
              _perform_validation env self document customer_id = Return result ->
              fst (validate_kyc env document_id customer_id self)
              = Return (Validated result)).
    { intros result Hp. rewrite Hp in H. destruct H as [E _]. now rewrite E. }
    split; [exact Hreturn|]. split; [|split].
    + intros text Htext.
      destruct (perform_validation_returns env self document customer_id text Htext)
        as [result Hp].
      exists result. split; [exact Hp | now apply Hreturn].
    + intros Htext Hlooked.
      rewrite (perform_validation_raises env self document customer_id Htext Hlooked)
        in H.
      destruct H as [E Hsame]. now rewrite E.
    + intros Htext Htype Hllm.
      destruct (perform_validation_unread env self document customer_id
                  Htext Htype Hllm) as (result & Hp & Hpending).
      exists result. split; [now apply Hreturn | exact Hpending].
Qed.

(** An identifier no store knows, the document of the run for
    illustration, and that document without its text. *)
Lemma validate_kyc_document_not_found_witness :
  fst (validate_kyc (example_env 0 true) "no-such-document" "KYC_TEST_001" example_agent)
  = Return not_found
  /\ fst (validate_kyc (example_env 0 true) example_document_id "KYC_TEST_001" example_agent)
     <> Return not_found
  /\ fst (validate_kyc (example_env 0 true) example_document_id "KYC_TEST_001"
                       example_blank_agent)
     = Raise "TypeError".
Proof.
  split; [|split].
  - destruct (validate_kyc_document_not_found (example_env 0 true)
                "no-such-document" "KYC_TEST_001" example_agent)
      as (_ & _ & Hnone & _).
    apply Hnone; reflexivity.
  - destruct (validate_kyc_document_not_found (example_env 0 true)
                example_document_id "KYC_TEST_001" example_agent)
      as (_ & _ & _ & Hsome).
    eapply Hsome; reflexivity.
  - destruct (validate_kyc_document_not_found (example_env 0 true)
                example_document_id "KYC_TEST_001" example_blank_agent)
      as (_ & _ & _ & Hsome).
    destruct (Hsome eq_refl _ eq_refl) as (_ & _ & _ & _ & Hraise & _).
    apply Hraise; [reflexivity | left; simpl; auto].
Defined.

(** C6: for every call of [validate_kyc] that misses the cache and
    returns a validation (not the error), the messages published by the
    call are the [kyc-validation-completed] message keyed by the document
    identifier, followed by one [compliance-summary-requested] message
    keyed by the customer exactly when the validation status is
    "passed". *)
Theorem validate_kyc_publishes
    (env : Env) (document_id customer_id : string) (self : Agent)
    (result : ValidationResult) :
  cache_miss env document_id self ->
  fst (validate_kyc env document_id customer_id self) = Return (Validated result) ->
  exists published,
    mock_events (kafka_handler (snd (validate_kyc env document_id customer_id self)))
    = (mock_events (kafka_handler self) ++ published)%list
    /\ published
       = completed_event result
         :: (if String.eqb (validation_status result) "passed"
             then [summary_requested_event env result] else [])
    /\ topic (completed_event result) = "kyc-validation-completed"
    /\ key (completed_event result) = document_id
    /\ topic (summary_requested_event env result) = "compliance-summary-requested"
    /\ key (summary_requested_event env result) = customer_id
    /\ ((exists e, In e published /\ topic e = "compliance-summary-requested")
        <-> validation_status result = "passed").
Proof.
  intros Hmiss Hresult.
  destruct (validate_kyc_on_miss env document_id customer_id self Hmiss) as [s' H].
  destruct (retrievable env document_id self) as [document|] eqn:Hdoc.
  - destruct (_perform_validation env self document customer_id)
      as [validation|exc] eqn:Hp0;
      destruct H as [E Hev]; rewrite E in *; simpl in Hresult; [|discriminate].
    injection Hresult as <-.
    destruct (perform_validation_names env self document customer_id validation Hp0)
      as [Hid Hcustomer].
    exists (events_for env validation).
    split; [exact Hev|]. split; [reflexivity|]. split; [reflexivity|].
    split; [simpl; rewrite Hid;
            exact (retrieved_id env document_id self document Hdoc)|].
    split; [reflexivity|]. split; [exact Hcustomer|].
    unfold events_for.
    destruct (String.eqb _ "passed") eqn:Hp.
    + apply String.eqb_eq in Hp. split; [intros _; exact Hp|].
      intros _. eexists. split; [right; left; reflexivity | reflexivity].
    + apply String.eqb_neq in Hp. split; [|intros; contradiction].
      intros (e & [<- | []] & Htopic). discriminate Htopic.
  - destruct H as [E _]. rewrite E in Hresult. discriminate Hresult.
Qed.

(** The registration of the run for illustration passes: both messages
    are published. *)
Lemma validate_kyc_publishes_witness :
  map topic
      (mock_events (kafka_handler
         (snd (validate_kyc (example_env 0 true) example_document_id
                            "KYC_TEST_001" example_agent))))
  = ["kyc-validation-completed"; "compliance-summary-requested"].
Proof.
  edestruct (validate_kyc_publishes (example_env 0 true) example_document_id
               "KYC_TEST_001" example_agent)
    as (published & Hev & Hpub & _); [reflexivity | vm_compute; reflexivity |].
  rewrite Hev, Hpub. reflexivity.
Defined.

End KycSpec.

(** ** The compliance summary agent *)

Module SummarySpec.

Import Summary Kafka.

Lemma rows_kept_refl s : rows_kept s s.
Proof. reflexivity. Qed.

Lemma rows_kept_trans s1 s2 s3 : rows_kept s1 s2 -> rows_kept s2 s3 -> rows_kept s1 s3.
Proof. unfold rows_kept. congruence. Qed.

Lemma invariant_kept_refl s : invariant_kept s s.
Proof. now intros H. Qed.

Lemma invariant_kept_trans s1 s2 s3 :
  invariant_kept s1 s2 -> invariant_kept s2 s3 -> invariant_kept s1 s3.
Proof. unfold invariant_kept. tauto. Qed.

Lemma stored_rows_summaries customer s :
  stored_rows customer s
  = match summaries s with
    | Some rows => List.filter (for_customer customer) rows
    | None => []
    end.
Proof. unfold stored_rows, summaries. now destruct (db_session s). Qed.

Lemma rows_kept_invariant s s' : rows_kept s s' -> invariant_kept s s'.
Proof.
  unfold rows_kept, invariant_kept, one_per_customer. intros H Hs customer.
  specialize (Hs customer). now rewrite stored_rows_summaries, H, <- stored_rows_summaries.
Qed.

(** *** Rows under the pending changes of [_store_summary] *)

Section Rows.

Variable env : Env.
Variable summary : SummaryResult.

Lemma update_existing_customer existing :
  c_customer_id (update_existing env summary existing) = c_customer_id existing.
Proof. reflexivity. Qed.

Lemma update_first_ids (matches : ComplianceSummary -> bool) rows :
  map c_id (update_first matches (update_existing env summary) rows) = map c_id rows
  /\ map c_customer_id (update_first matches (update_existing env summary) rows)
     = map c_customer_id rows
  /\ length (update_first matches (update_existing env summary) rows) = length rows.
Proof.
  induction rows as [|row rest (IH1 & IH2 & IH3)]; simpl; [auto|].
  destruct (matches row); simpl; [auto|]. now rewrite IH1, IH2, IH3.
Qed.

(** The rows of a customer are counted on the customer column. *)
Lemma for_customer_count customer rows :
  length (List.filter (for_customer customer) rows)
  = length (List.filter (fun c => String.eqb c customer) (map c_customer_id rows)).
Proof.
  induction rows as [|row rest IH]; simpl; [reflexivity|].
  unfold for_customer at 1. destruct (String.eqb _ _); simpl; now rewrite IH.
Qed.

Lemma first_none_no_rows customer rows :
  first (for_customer customer) rows = None ->
  List.filter (for_customer customer) rows = [].
Proof.
  unfold first. induction rows as [|row rest IH]; simpl; [reflexivity|].
  destruct (for_customer customer row); [discriminate | exact IH].
Qed.

(** The first matching row is the one that is rewritten. *)
Lemma first_update_first customer rows existing :
  first (for_customer customer) rows = Some existing ->
  first (for_customer customer)
        (update_first (for_customer customer) (update_existing env summary) rows)
  = Some (update_existing env summary existing).
Proof.
  unfold first. induction rows as [|row rest IH]; simpl; [discriminate|].
  destruct (for_customer customer row) eqn:E; simpl.
  - intros [= <-]. unfold for_customer in *. simpl. now rewrite E.
  - rewrite E. exact IH.
Qed.

(** The pending changes keep at most one row per customer. *)
Lemma pending_one_per_customer (t : Tables) :
  (forall customer,
      length (List.filter (for_customer customer) (compliance_summaries t)) <= 1) ->
  forall customer,
    length (List.filter (for_customer customer)
              (compliance_summaries
                 (pending_summary env summary
                    (first (for_customer (customer_id summary)) (compliance_summaries t))
                    t))) <= 1.
Proof.
  intros Hone customer. unfold pending_summary. simpl.
  destruct (first _ _) as [existing|] eqn:Hfirst.
  - rewrite for_customer_count.
    destruct (update_first_ids (for_customer (customer_id summary))
                (compliance_summaries t)) as (_ & -> & _).
    rewrite <- for_customer_count. apply Hone.
  - rewrite List.filter_app, length_app. simpl.
    unfold for_customer at 2. simpl.
    destruct (String.eqb (customer_id summary) customer) eqn:E.
    + apply String.eqb_eq in E. subst customer.
      rewrite (first_none_no_rows _ _ Hfirst). simpl. lia.
    + simpl. specialize (Hone customer). lia.
Qed.

End Rows.

(** *** What each method does to the rows *)

Ltac rows_bind := apply within_bind; [exact rows_kept_trans | | intros ?].
Ltac rows_try := apply within_try_except; [exact rows_kept_trans | | intros ?].
Ltac rows_leaf :=
  first [apply within_ret | apply within_get | apply within_raise];
  exact rows_kept_refl.

Section Phases.

Variable env : Env.

Lemma on_redis_rows_kept {A} (m : M (Redis.client SummaryResult) A) :
  steps_within rows_kept (on_redis m).
Proof.
  intros s. unfold on_redis. destruct (redis_client s) as [c|]; [|reflexivity].
  now destruct (m c).
Qed.

Lemma query_rows_kept {A} (q : Tables -> A) :
  steps_within rows_kept (on_db (Db.query (db_down env) q)).
Proof.
  intros s. unfold on_db, Db.query, Db.round_trip, rows_kept, summaries.
  destruct (db_session s) as [session|] eqn:E; simpl; rewrite ?E; [|reflexivity].
  destruct (db_down env _); simpl; rewrite ?E; reflexivity.
Qed.

Lemma check_cache_rows_kept customer :
  steps_within rows_kept (check_cache env customer).
Proof.
  unfold check_cache, _get_from_cache. rows_bind; [rows_leaf|].
  destruct (Py.is_set (redis_client a)); [|rows_leaf].
  rows_bind; [rows_leaf|].
  destruct (Py.is_set (redis_client a0)); [|rows_leaf].
  rows_try; [apply on_redis_rows_kept | rows_leaf].
Qed.

Lemma save_to_cache_rows_kept key data :
  steps_within rows_kept (_save_to_cache env key data).
Proof.
  unfold _save_to_cache. rows_bind; [rows_leaf|].
  destruct (Py.is_set (redis_client a)); [|rows_leaf].
  rows_try; [apply on_redis_rows_kept | rows_leaf].
Qed.

Lemma get_customer_documents_rows_kept customer :
  steps_within rows_kept (_get_customer_documents env customer).
Proof.
  unfold _get_customer_documents. rows_bind; [rows_leaf|].
  rows_bind.
  - destruct (Py.is_set (db_session a)); [|rows_leaf].
    rows_try; [|rows_leaf]. rows_bind; [apply query_rows_kept | rows_leaf].
  - destruct a0; rows_leaf.
Qed.

Lemma get_validation_results_rows_kept customer :
  steps_within rows_kept (_get_validation_results env customer).
Proof.
  unfold _get_validation_results. rows_bind; [rows_leaf|].
  destruct (Py.is_set (db_session a)); [|rows_leaf].
  rows_try; [|rows_leaf]. rows_bind; [apply query_rows_kept | rows_leaf].
Qed.

Lemma send_events_rows_kept summary :
  steps_within rows_kept (_send_events summary).
Proof. intros s. reflexivity. Qed.

(** What [_store_summary] leaves in the summary table of a session: the
    rows as they were, or the rows under the pending changes computed from
    the row the query found. *)
Lemma store_summary_rows summary s session :
  db_session s = Some session ->
  exists session',
    db_session (snd (_store_summary env summary s)) = Some session'
    /\ (Db.tables session' = Db.tables session
        \/ (db_down env (Db.round_trips session) = false
            /\ db_down env (S (Db.round_trips session)) = false
            /\ Db.tables session'
               = pending_summary env summary
                   (first (for_customer (customer_id summary))
                          (compliance_summaries (Db.tables session)))
                   (Db.tables session)
            /\ constraints_hold (Db.tables session') = true)).
Proof.
  intros Hs.
  unfold _store_summary, bind, get, try_except, on_db, Db.query, Db.commit,
    Db.round_trip, ret.
  rewrite Hs. simpl. rewrite Hs.
  destruct (db_down env (Db.round_trips session)) eqn:D1; simpl; [eauto|].
  destruct (db_down env (S (Db.round_trips session))) eqn:D2; simpl; [eauto|].
  destruct (constraints_hold _) eqn:C; simpl; eauto 10.
Qed.

Lemma store_summary_invariant_kept summary :
  steps_within invariant_kept (_store_summary env summary).
Proof.
  intros s. destruct (db_session s) as [session|] eqn:Hs.
  - destruct (store_summary_rows summary s session Hs) as (session' & Hs' & Hrows).
    intros Hone customer.
    assert (Hone' : forall c,
              length (List.filter (for_customer c)
                        (compliance_summaries (Db.tables session))) <= 1).
    { intros c. specialize (Hone c). unfold stored_rows in Hone.
      now rewrite Hs in Hone. }
    unfold stored_rows. rewrite Hs'.
    destruct Hrows as [-> | (_ & _ & -> & _)];
      [apply Hone' | now apply pending_one_per_customer].
  - apply rows_kept_invariant.
    unfold _store_summary, bind, get, modify, rows_kept, summaries. rewrite Hs. simpl.
    destruct (memory_storage s); simpl; now rewrite Hs.
Qed.

Ltac inv_bind := apply within_bind; [exact invariant_kept_trans | | intros ?].
Ltac inv_rows := intros ?; apply rows_kept_invariant.

Lemma generate_summary_invariant_kept customer :
  steps_within invariant_kept (generate_summary env customer).
Proof.
  unfold generate_summary.
  inv_bind; [inv_rows; apply check_cache_rows_kept|].
  destruct a as [cached|]; [inv_rows; reflexivity|].
  inv_bind; [inv_rows; apply get_customer_documents_rows_kept|].
  inv_bind; [inv_rows; apply get_validation_results_rows_kept|].
  inv_bind; [inv_rows; reflexivity|].
  inv_bind; [apply store_summary_invariant_kept|].
  inv_bind; [inv_rows; reflexivity|].
  inv_bind.
  { destruct (Py.is_set (redis_client a3));
      [inv_rows; apply save_to_cache_rows_kept | inv_rows; reflexivity]. }
  inv_bind; [inv_rows; apply send_events_rows_kept|].
  inv_rows. reflexivity.
Qed.

(** With a session that answers both round trips and tables that satisfy
    the schema, storing a summary for a customer that has a row rewrites
    that row in place. *)
Lemma store_summary_updates summary s session existing :
  db_session s = Some session ->
  db_down env (Db.round_trips session) = false ->
  db_down env (S (Db.round_trips session)) = false ->
  constraints_hold (Db.tables session) = true ->
  first (for_customer (customer_id summary))
        (compliance_summaries (Db.tables session)) = Some existing ->
  summaries (snd (_store_summary env summary s))
  = Some (update_first (for_customer (customer_id summary))
                       (update_existing env summary)
                       (compliance_summaries (Db.tables session))).
Proof.
  intros Hs D1 D2 Hschema Hfirst.
  unfold _store_summary, bind, get, try_except, on_db, Db.query, Db.commit,
    Db.round_trip, ret, summaries.
  rewrite Hs. simpl. rewrite Hs, D1. simpl. rewrite D2, Hfirst.
  assert (Hschema' : constraints_hold
            (pending_summary env summary (Some existing) (Db.tables session)) = true).
  { unfold constraints_hold, pending_summary in *. simpl.
    destruct (update_first_ids env summary (for_customer (customer_id summary))
                (compliance_summaries (Db.tables session))) as (-> & -> & _).
    exact Hschema. }
  rewrite Hschema'. reflexivity.
Qed.

End Phases.

Lemma run_calls_invariant calls : forall self,
  one_per_customer self -> one_per_customer (run_calls calls self).
Proof.
  induction calls as [|[env customer] rest IH]; intros self Hone; simpl.
  - exact Hone.
  - apply IH. now apply (generate_summary_invariant_kept env customer self).
Qed.

(** C2: with at most one summary row per customer to start with (as in
    every database that satisfies the schema, the empty one included),
    after any finite sequence of [generate_summary] calls executed one at
    a time there is at most one summary row per customer; and when the
    database answers and a row for the customer exists, [_store_summary]
    rewrites that row in place with the values of the regenerated
    summary: the table keeps its length, its identifiers and its
    customers, and no row is inserted. *)
Theorem one_summary_per_customer
    (calls : list (Env * string)) (self : Agent)
    (env : Env) (summary : SummaryResult)
    (s : Agent) (session : Db.session Tables) (existing : ComplianceSummary) :
  (one_per_customer self ->
   forall customer, length (stored_rows customer (run_calls calls self)) <= 1)
  /\ (db_session s = Some session ->
      db_down env (Db.round_trips session) = false ->
      db_down env (S (Db.round_trips session)) = false ->
      constraints_hold (Db.tables session) = true ->
      first (for_customer (customer_id summary))
            (compliance_summaries (Db.tables session)) = Some existing ->
      exists rows',
        summaries (snd (_store_summary env summary s)) = Some rows'
        /\ rows' = update_first (for_customer (customer_id summary))
                                (update_existing env summary)
                                (compliance_summaries (Db.tables session))
        /\ length rows' = length (compliance_summaries (Db.tables session))
        /\ map c_id rows' = map c_id (compliance_summaries (Db.tables session))
        /\ map c_customer_id rows'
           = map c_customer_id (compliance_summaries (Db.tables session))
        /\ first (for_customer (customer_id summary)) rows'
           = Some (update_existing env summary existing)
        /\ c_id (update_existing env summary existing) = c_id existing
        /\ c_overall_compliance_score (update_existing env summary existing)
           = overall_compliance_score summary
        /\ c_compliance_status (update_existing env summary existing)
           = compliance_status summary).
Proof.
  split.
  - intros Hone. exact (run_calls_invariant calls self Hone).
  - intros Hs D1 D2 Hschema Hfirst.
    eexists. split; [now apply (store_summary_updates env summary s session existing)|].
    destruct (update_first_ids env summary (for_customer (customer_id summary))
                (compliance_summaries (Db.tables session))) as (Hids & Hcustomers & Hlen).
    split; [reflexivity|]. split; [exact Hlen|]. split; [exact Hids|].
    split; [exact Hcustomers|].
    split; [now apply first_update_first|].
    repeat split.
Qed.

(** Two calls for a customer whose row exists leave that one row. *)
Lemma one_summary_per_customer_witness :
  length (stored_rows "TEST_CUSTOMER_001" (run_calls example_calls example_db_agent)) <= 1
  /\ (exists rows',
        summaries (snd (_store_summary (example_env 0)
                          (mkSummaryResult "589a6e52c7c0088f9cdfc69715750a59"
                             "TEST_CUSTOMER_001" 3 0 2 Py.f0_4 "non_compliant" "" [] [] "")
                          example_db_agent)) = Some rows'
        /\ map c_id rows' = [c_id example_row]).
Proof.
  destruct (one_summary_per_customer example_calls example_db_agent
              (example_env 0)
              (mkSummaryResult "589a6e52c7c0088f9cdfc69715750a59"
                 "TEST_CUSTOMER_001" 3 0 2 Py.f0_4 "non_compliant" "" [] [] "")
              example_db_agent (Db.mkSession (mkTables [] [] [example_row]) 0)
              example_row) as [Hrun Hupdate].
  split.
  - apply Hrun. intros customer. unfold stored_rows. simpl.
    destruct (for_customer customer example_row); simpl; lia.
  - destruct Hupdate as (rows' & Hrows & _ & _ & Hids & _); try reflexivity.
    exists rows'. split; [exact Hrows | exact Hids].
Defined.

(** *** The in-memory fallback *)

Lemma check_cache_frame env customer s :
  db_session (snd (check_cache env customer s)) = db_session s
  /\ memory_storage (snd (check_cache env customer s)) = memory_storage s.
Proof.
  unfold check_cache, _get_from_cache, bind, get, try_except, on_redis,
    Redis.get, Redis.command, ret.
  destruct (redis_client s) as [c|] eqn:Ec; simpl; [|auto].
  rewrite ?Ec. simpl. rewrite ?Ec.
  destruct (redis_down env _); simpl; auto.
Qed.

Lemma save_to_cache_frame env key data (cache : bool) s :
  exists s',
    (if cache then _save_to_cache env key data else ret tt) s = (Return tt, s')
    /\ db_session s' = db_session s
    /\ memory_storage s' = memory_storage s.
Proof.
  destruct cache; [|now exists s].
  unfold _save_to_cache, bind, get, try_except, on_redis, Redis.setex,
    Redis.command, ret.
  destruct (redis_client s) as [c|] eqn:Ec; simpl; [|eauto].
  rewrite ?Ec. simpl. rewrite ?Ec.
  destruct (redis_down env _); simpl; eauto.
Qed.

Lemma get_customer_documents_no_db env customer s :
  db_session s = None ->
  _get_customer_documents env customer s
  = (Return match chroma_hits env with
            | Some hits => documents_of_hits hits
            | None => []
            end, s).
Proof. intros H. unfold _get_customer_documents, bind, get. now rewrite H. Qed.

Lemma get_validation_results_no_db env customer s :
  db_session s = None ->
  _get_validation_results env customer s = (Return [], s).
Proof. intros H. unfold _get_validation_results, bind, get. now rewrite H. Qed.

Lemma store_summary_no_db env summary s m :
  db_session s = None ->
  memory_storage s = Some m ->
  _store_summary env summary s
  = (Return tt, set_memory_storage (<[summary_id summary := summary]> m) s).
Proof.
  intros Hdb Hmem. unfold _store_summary, bind, get, modify.
  rewrite Hdb. simpl. now rewrite Hmem.
Qed.

(** Without a database, a call that misses the cache files the summary it
    returns in the in-memory store under the identifier of the call. *)
Lemma generate_summary_fallback env customer self m :
  db_session self = None ->
  memory_storage self = Some m ->
  cache_miss env customer self ->
  exists s',
    generate_summary env customer self = (Return (fallback_summary env customer), s')
    /\ db_session s' = None
    /\ memory_storage s'
       = Some (<[make_summary_id env customer := fallback_summary env customer]> m).
Proof.
  intros Hdb Hmem Hmiss. unfold cache_miss in Hmiss.
  destruct (check_cache_frame env customer self) as [Hdb0 Hmem0].
  unfold generate_summary. unfold bind at 1.
  destruct (check_cache env customer self) as [r s0]. simpl in *. subst r.
  rewrite Hdb in Hdb0. rewrite Hmem in Hmem0.
  unfold bind at 1. rewrite (get_customer_documents_no_db env customer s0 Hdb0).
  unfold bind at 1. rewrite (get_validation_results_no_db env customer s0 Hdb0).
  unfold bind at 1. unfold _calculate_scores at 1, ret at 1.
  fold (fallback_summary env customer).
  unfold bind at 1.
  rewrite (store_summary_no_db env (fallback_summary env customer) s0 m Hdb0 Hmem0).
  change (summary_id (fallback_summary env customer))
    with (make_summary_id env customer).
  set (s1 := set_memory_storage _ s0).
  unfold bind at 1, get at 1.
  destruct (save_to_cache_frame env (cache_key customer)
              (fallback_summary env customer) (Py.is_set (redis_client s1)) s1)
    as (s2 & E2 & Hdb2 & Hmem2).
  unfold bind at 1. rewrite E2.
  unfold bind at 1. unfold _send_events, modify, ret.
  eexists. split; [reflexivity|]. simpl. rewrite Hdb2, Hmem2. subst s1. simpl.
  split; [exact Hdb0 | reflexivity].
Qed.

(** The number of items that pass a test does not depend on their order. *)
Lemma filter_length_Permutation {A} (test : A -> bool) (l l' : list A) :
  l ≡ₚ l' -> length (List.filter test l) = length (List.filter test l').
Proof.
  induction 1 as [|x l l' _ IH|x y l|l l' l'' _ IH1 _ IH2]; simpl.
  - reflexivity.
  - destruct (test x); simpl; now rewrite IH.
  - destruct (test x), (test y); reflexivity.
  - now rewrite IH1.
Qed.

(** Two calls for one customer that both miss the cache and whose
    identifiers differ leave two summaries of the customer in a store that
    was empty. *)
Lemma two_calls_two_summaries env1 env2 customer self :
  db_session self = None ->
  memory_storage self = Some ∅ ->
  cache_miss env1 customer self ->
  cache_miss env2 customer (snd (generate_summary env1 customer self)) ->
  make_summary_id env1 customer <> make_summary_id env2 customer ->
  length (memory_summaries customer
            (run_calls [(env1, customer); (env2, customer)] self)) = 2.
Proof.
  intros Hdb Hmem Hmiss1 Hmiss2 Hids. simpl run_calls.
  destruct (generate_summary_fallback env1 customer self ∅ Hdb Hmem Hmiss1)
    as (s1 & E1 & Hdb1 & Hmem1).
  rewrite E1 in *. simpl in Hmiss2. simpl.
  destruct (generate_summary_fallback env2 customer s1 _ Hdb1 Hmem1 Hmiss2)
    as (s2 & E2 & _ & Hmem2).
  rewrite E2. simpl. unfold memory_summaries. rewrite Hmem2.
  assert (Hperm : map_to_list
            (<[make_summary_id env2 customer := fallback_summary env2 customer]>
               (<[make_summary_id env1 customer := fallback_summary env1 customer]>
                  (∅ : gmap string SummaryResult)))
          ≡ₚ [(make_summary_id env2 customer, fallback_summary env2 customer);
              (make_summary_id env1 customer, fallback_summary env1 customer)]).
  { rewrite map_to_list_insert.
    - now rewrite insert_empty, map_to_list_singleton.
    - rewrite lookup_insert_ne by exact Hids. apply lookup_empty. }
  rewrite (filter_length_Permutation _ _ _ (fmap_Permutation snd _ _ Hperm)).
  simpl. now rewrite String.eqb_refl.
Qed.

(** C10: when the database is unavailable, the in-memory store files each
    summary under the identifier of the call (the MD5 of the customer and
    the time) and not under the customer: every call that misses the cache
    inserts the summary it returns at that key, so two such calls for one
    customer whose identifiers differ leave two summaries of that
    customer; and there is such a sequence: two calls for the same
    customer, seventy minutes apart, from an empty store and an empty
    cache that has expired again at the second call. *)
Theorem fallback_store_keyed_by_summary_id :
  (forall env customer self m,
      db_session self = None ->
      memory_storage self = Some m ->
      cache_miss env customer self ->
      exists result,
        fst (generate_summary env customer self) = Return result
        /\ customer_id result = customer
        /\ summary_id result
           = MD5.hexdigest (customer +:+ "_" +:+ Datetime.str (now env))
        /\ memory_storage (snd (generate_summary env customer self))
           = Some (<[summary_id result := result]> m))
  /\ (forall env1 env2 customer self,
        db_session self = None ->
        memory_storage self = Some ∅ ->
        cache_miss env1 customer self ->
        cache_miss env2 customer (snd (generate_summary env1 customer self)) ->
        make_summary_id env1 customer <> make_summary_id env2 customer ->
        length (memory_summaries customer
                  (run_calls [(env1, customer); (env2, customer)] self)) = 2)
  /\ (exists env1 env2 customer self,
        db_session self = None
        /\ memory_storage self = Some ∅
        /\ (Redis.keys <$> redis_client self) = Some ∅
        /\ cache_miss env1 customer self
        /\ cache_miss env2 customer (snd (generate_summary env1 customer self))
        /\ 1 < length (memory_summaries customer
                         (run_calls [(env1, customer); (env2, customer)] self))).
Proof.
  split; [|split].
  - intros env customer self m Hdb Hmem Hmiss.
    destruct (generate_summary_fallback env customer self m Hdb Hmem Hmiss)
      as (s' & E & _ & Hm).
    exists (fallback_summary env customer). rewrite E. repeat split. exact Hm.
  - exact two_calls_two_summaries.
  - exists (example_env 0), example_later_env, "TEST_CUSTOMER_001", example_agent.
    split; [reflexivity|]. split; [reflexivity|]. split; [reflexivity|].
    split; [vm_compute; reflexivity|]. split; [vm_compute; reflexivity|].
    vm_compute. lia.
Qed.

(** The two summaries of the run for illustration, with the identifiers
    [hashlib] gives. *)
Lemma fallback_store_keyed_by_summary_id_witness :
  map summary_id (memory_summaries "TEST_CUSTOMER_001" (run_calls example_calls example_agent))
  = ["589a6e52c7c0088f9cdfc69715750a59"; "a7d4e50421d8e8b864acf28ba57a9dbc"]
  /\ length (memory_summaries "TEST_CUSTOMER_001" (run_calls example_calls example_agent))
     = 2
  /\ (exists result,
        fst (generate_summary (example_env 0) "TEST_CUSTOMER_001" example_agent)
        = Return result
        /\ memory_storage (snd (generate_summary (example_env 0) "TEST_CUSTOMER_001"
                                                 example_agent))
           = Some (<[summary_id result := result]> ∅)).
Proof.
  split; [vm_compute; reflexivity|].
  destruct fallback_store_keyed_by_summary_id as (Hkey & Htwo & _).
  split.
  - apply (Htwo (example_env 0) example_later_env "TEST_CUSTOMER_001" example_agent);
      try reflexivity.
    vm_compute. discriminate.
  - destruct (Hkey (example_env 0) "TEST_CUSTOMER_001" example_agent ∅)
      as (result & Hr & _ & _ & Hm); try reflexivity.
    exists result. split; [exact Hr | exact Hm].
Defined.

End SummarySpec.

(** ** The type-specific checks of the KYC agent *)

Module KycRules.

Import Kyc Kafka.

Ltac settle_check :=
  repeat (first [progress intros | split]); simpl in *;
  try reflexivity; try lia; try (intuition congruence).

(** X1: [_validate_commercial_registration] passes a text exactly when
    the evidence it finds weighs at least seven tenths (the binary
    rounding of the added literals never decides otherwise), and fails
    it otherwise; [business_verified] tells the same as the status; a
    text that passes has at most one issue; no issue is listed exactly
    when the number, the company, the capital and the currency are all
    found; a recommendation is given exactly when an issue is listed;
    and the score lies between 0 and 1. *)
Theorem commercial_registration_threshold (c : TextChecks) :
  let r := _validate_commercial_registration c in
  (ck_status r = "passed" <-> 7 <= commercial_registration_tenths c)
  /\ (ck_status r = "failed" <-> commercial_registration_tenths c < 7)
  /\ ck_business_verified r = Some (bool_decide (ck_status r = "passed"))
  /\ (ck_status r = "passed" -> length (ck_issues r) <= 1)
  /\ (ck_issues r = []
      <-> has_cr_number c && has_company_word c && has_capital c && has_sar c = true)
  /\ (ck_recommendations r = [] <-> ck_issues r = [])
  /\ Py.ge (ck_score r) 0 = true /\ Py.ge 1 (ck_score r) = true.
Proof.
  destruct c as [cr company capital sar date ? ? ? ? ? ? ?].
  destruct cr, company, capital, sar, date; vm_compute; settle_check.
Qed.

(** X2: [_validate_national_id] passes a text exactly when the evidence
    it finds weighs at least seven tenths, and fails it otherwise;
    [identity_verified] tells the same as the status; the only issue it
    lists is the missing identity number, and a text that passes has no
    issue and no recommendation (without the number the rest weighs six
    tenths); a recommendation is given exactly when the issue is listed;
    and the score lies between 0 and 1. *)
Theorem national_id_threshold (c : TextChecks) :
  let r := _validate_national_id c in
  (ck_status r = "passed" <-> 7 <= national_id_tenths c)
  /\ (ck_status r = "failed" <-> national_id_tenths c < 7)
  /\ ck_identity_verified r = Some (bool_decide (ck_status r = "passed"))
  /\ (ck_status r = "passed" -> ck_issues r = [] /\ ck_recommendations r = [])
  /\ (ck_issues r = [] <-> has_saudi_id c = true)
  /\ (ck_recommendations r = [] <-> ck_issues r = [])
  /\ Py.ge (ck_score r) 0 = true /\ Py.ge 1 (ck_score r) = true.
Proof.
  destruct c as [? ? ? ? ? id name birth saudi ? ? ?].
  destruct id, name, birth, saudi; vm_compute; settle_check.
Qed.

(** X3: [_validate_bank_statement] passes a text exactly when the
    evidence it finds weighs at least six tenths, and fails it
    otherwise; [address_verified] tells the same as the status; a text
    that passes has at most one issue; no issue is listed exactly when
    the account number, the IBAN and the currency are all found; a
    recommendation is given exactly when an issue is listed; and the
    score lies between 0 and 1. *)
Theorem bank_statement_threshold (c : TextChecks) :
  let r := _validate_bank_statement c in
  (ck_status r = "passed" <-> 6 <= bank_statement_tenths c)
  /\ (ck_status r = "failed" <-> bank_statement_tenths c < 6)
  /\ ck_address_verified r = Some (bool_decide (ck_status r = "passed"))
  /\ (ck_status r = "passed" -> length (ck_issues r) <= 1)
  /\ (ck_issues r = []
      <-> has_account_number c && has_iban c && has_sar c = true)
  /\ (ck_recommendations r = [] <-> ck_issues r = [])
  /\ Py.ge (ck_score r) 0 = true /\ Py.ge 1 (ck_score r) = true.
Proof.
  destruct c as [? ? ? sar ? ? ? ? ? account iban bank].
  destruct account, iban, sar, bank; vm_compute; settle_check.
Qed.

(** X4: the verdict of [_perform_validation]. The validation raises,
    with [TypeError], exactly when the document has no text and the
    text is looked at: its type has a check of its own, or the agent
    has a language model; in every other case it returns. Of what it
    returns: a document of a type that has no check of its own is left
    pending with score 0.5 and nothing verified; a document of a
    checked type passes or fails. Each of the three verified flags is
    set exactly when the document is of the type the flag belongs to
    and has passed, so at most one flag is set, and none for a document
    that has not passed. The language model has no say in any of this:
    the agent without a model returns as well, with the same status,
    score, flags and recommendations. The result names the document
    validated and the customer of the call. *)
Theorem perform_validation_verdict
    (env : Env) (self : Agent) (document : RetrievedDocument) (customer : string) :
  let run := _perform_validation env self document customer in
  let run0 := _perform_validation env (mkAgent false (redis_client self) (db_session self)
                                         (memory_storage self) (collection self)
                                         (kafka_handler self)) document customer in
  (run = Raise "TypeError"
   <-> rd_text document = None
       /\ (In (rd_type document) checked_types \/ llm self = true))
  /\ (forall exc, run = Raise exc -> exc = "TypeError")
  /\ (forall r, run = Return r ->
      exists r0,
        run0 = Return r0
        /\ (~ In (rd_type document) checked_types ->
            validation_status r = "pending" /\ validation_score r = Py.f0_5
            /\ issues r0 = ["Document type not recognized"]
            /\ recommendations r = ["Manual review required"])
        /\ (In (rd_type document) checked_types ->
            validation_status r = "passed" \/ validation_status r = "failed")
        /\ (business_verified r = true
            <-> rd_type document = "commercial_registration"
                /\ validation_status r = "passed")
        /\ (identity_verified r = true
            <-> rd_type document = "national_id" /\ validation_status r = "passed")
        /\ (address_verified r = true
            <-> rd_type document = "bank_statement" /\ validation_status r = "passed")
        /\ (validation_status r, validation_score r, recommendations r)
           = (validation_status r0, validation_score r0, recommendations r0)
        /\ (identity_verified r, address_verified r, business_verified r)
           = (identity_verified r0, address_verified r0, business_verified r0)
        /\ document_id r = rd_id document /\ customer_id r = customer).
Proof.
  cbv zeta. split; [|split].
  - split.
    + intros Hraise. destruct (rd_text document) as [text|] eqn:Htext.
      { destruct (KycSpec.perform_validation_returns env self document customer text
                    Htext) as [r Hr]. congruence. }
      split; [reflexivity|].
      destruct (llm self) eqn:Hllm; [now right | left].
      destruct (In_dec string_dec (rd_type document) checked_types) as [Hin|Hout];
        [exact Hin|].
      destruct (KycSpec.perform_validation_unread env self document customer
                  Htext Hout Hllm) as (r & Hr & _). congruence.
    + intros [Htext Hlooked].
      now apply KycSpec.perform_validation_raises.
  - intros exc. unfold _perform_validation, and_then, searched, _ai_validate.
    destruct (rd_text document),
      (String.eqb (rd_type document) "commercial_registration"),
      (String.eqb (rd_type document) "national_id"),
      (String.eqb (rd_type document) "bank_statement"), (llm self);
      try discriminate; now intros [= <-].
  - unfold _perform_validation, checked_types, and_then, searched, _ai_validate.
    cbn [llm In]. intros r.
    destruct (String.eqb_spec (rd_type document) "commercial_registration") as [-> | Hcr].
    { destruct (rd_text document) as [text|]; [|discriminate].
      destruct (text_checks env text) as [cr company capital sar date ? ? ? ? ? ? ?].
      destruct (llm self); intros [= <-]; eexists; (split; [reflexivity|]);
        destruct cr, company, capital, sar, date; vm_compute; settle_check. }
    destruct (String.eqb_spec (rd_type document) "national_id") as [-> | Hid].
    { destruct (rd_text document) as [text|]; [|discriminate].
      destruct (text_checks env text) as [? ? ? ? ? id name birth saudi ? ? ?].
      destruct (llm self); intros [= <-]; eexists; (split; [reflexivity|]);
        destruct id, name, birth, saudi; vm_compute; settle_check. }
    destruct (String.eqb_spec (rd_type document) "bank_statement") as [-> | Hbank].
    { destruct (rd_text document) as [text|]; [|discriminate].
      destruct (text_checks env text) as [? ? ? sar ? ? ? ? ? account iban bank].
      destruct (llm self); intros [= <-]; eexists; (split; [reflexivity|]);
        destruct account, iban, sar, bank; vm_compute; settle_check. }
    destruct (llm self), (rd_text document) as [text|]; try discriminate;
      intros [= <-]; eexists; (split; [reflexivity|]);
      cbn [validation_status validation_score issues recommendations identity_verified
           address_verified business_verified document_id customer_id];
      settle_check.
Qed.

End KycRules.

(** ** The cache and the stores of the KYC agent *)

Module KycStores.

Import Kyc Kafka.

Section Cache.

Variable env : Env.

(** The cache check issues one command and leaves the keys alone. *)
Lemma check_cache_client document_id s c :
  redis_client s = Some c ->
  redis_client (snd (check_cache env document_id s))
  = Some (Redis.mkClient (Redis.keys c) (S (Redis.issued c))).
Proof.
  intros Hc.
  unfold check_cache, _get_from_cache, bind, get, try_except, on_redis,
    Redis.get, Redis.command, ret.
  repeat (progress (rewrite ?Hc; simpl)).
  destruct (redis_down env (Redis.issued c)); simpl; now rewrite ?Hc.
Qed.

(** On a server that answers it reads the live entry of the key. *)
Lemma check_cache_reads document_id s c :
  redis_client s = Some c ->
  redis_down env (Redis.issued c) = false ->
  fst (check_cache env document_id s)
  = Return (Redis.e_value <$> Redis.lookup (clock env) (cache_key document_id) c).
Proof.
  intros Hc Hup.
  unfold check_cache, _get_from_cache, bind, get, try_except, on_redis,
    Redis.get, Redis.command, ret.
  repeat (progress (rewrite ?Hc; simpl)). now rewrite Hup.
Qed.

(** On a server that answers, caching writes the entry with its hour to
    live. *)
Lemma save_to_cache_writes key validation s c :
  redis_client s = Some c ->
  redis_down env (Redis.issued c) = false ->
  exists s',
    _save_to_cache env key validation s = (Return tt, s')
    /\ redis_client s'
       = Some (Redis.mkClient (<[key := cached_at (clock env) validation]> (Redis.keys c))
                              (S (Redis.issued c)))
    /\ kafka_handler s' = kafka_handler s.
Proof.
  intros Hc Hup.
  unfold _save_to_cache, bind, get, try_except, on_redis, Redis.setex,
    Redis.command, ret.
  repeat (progress (rewrite ?Hc; simpl)). rewrite Hup. simpl. eauto.
Qed.

(** Publishing leaves the cache alone. *)
Lemma send_events_client validation s :
  redis_client (snd (_send_events env validation s)) = redis_client s.
Proof.
  unfold _send_events, send, bind, modify, ret.
  destruct (String.eqb _ _); reflexivity.
Qed.

(** A call that misses the cache, finds the document and validates it
    leaves the validation in the cache, if the server takes the write. *)
Lemma validate_kyc_caches document_id customer_id self c document result :
  redis_client self = Some c ->
  cache_miss env document_id self ->
  retrievable env document_id self = Some document ->
  _perform_validation env self document customer_id = Return result ->
  redis_down env (S (Redis.issued c)) = false ->
  redis_client (snd (validate_kyc env document_id customer_id self))
  = Some (Redis.mkClient
            (<[cache_key document_id := cached_at (clock env) result]> (Redis.keys c))
            (S (S (Redis.issued c)))).
Proof.
  intros Hc Hmiss Hdoc Hresult Hup. unfold cache_miss in Hmiss.
  pose proof (check_cache_client document_id self c Hc) as Hc0.
  destruct (KycSpec.check_cache_step env document_id self) as (cached & s0 & E0 & H0 & Hdb0).
  rewrite E0 in Hmiss, Hc0. simpl in Hmiss, Hc0. injection Hmiss as ->.
  destruct (KycSpec.retrieve_document_step env document_id s0) as (s1 & E1 & H1 & Hr1).
  fold (retrievable env document_id s0) in E1.
  assert (Hsame : retrievable env document_id s0 = retrievable env document_id self).
  { apply KycSpec.retrievable_same; [exact Hdb0 | apply H0]. }
  rewrite Hsame, Hdoc in E1.
  unfold validate_kyc; unfold bind at 1; rewrite E0;
    unfold bind at 1; rewrite E1.
  unfold bind at 1, get at 1.
  rewrite (KycSpec.perform_validation_same env self s1).
  2:{ destruct H0 as (Ha & _). destruct H1 as (Hb & _). congruence. }
  rewrite Hresult. unfold bind at 1, lift.
  destruct (KycSpec.store_validation_step env result s1) as (s2 & E2 & Hk2 & Hr2).
  unfold bind at 1. rewrite E2.
  rewrite Hr1, Hc0. simpl Py.is_set. cbv iota.
  destruct (save_to_cache_writes (cache_key document_id) result s2
              (Redis.mkClient (Redis.keys c) (S (Redis.issued c))))
    as (s3 & E3 & Hc3 & _); [congruence | exact Hup |].
  unfold bind at 1. rewrite E3.
  pose proof (send_events_client result s3) as Hc4.
  unfold bind at 1.
  destruct (_send_events env result s3) as [[[]|exc] s4] eqn:E4; simpl in *; congruence.
Qed.

End Cache.

(** X5: a validation is cached for an hour, under the identifier of the
    document alone. When a call misses the cache, finds the document,
    validates it (the validation does not raise) and the Redis server
    takes the write, then the call returns the validation, and a later
    call for the same document, for whatever customer, on a server that
    answers, returns that same validation as long as no more than 3600
    seconds of server time have passed, the 3600th included, and then
    stores and publishes nothing; once more than 3600 seconds have
    passed the call misses the cache again. *)
Theorem validation_cached_for_an_hour
    (env1 env2 : Env) (document_id customer_id customer_id' : string)
    (self : Agent) (c : Redis.client ValidationResult) (document : RetrievedDocument)
    (result : ValidationResult) :
  redis_client self = Some c ->
  cache_miss env1 document_id self ->
  retrievable env1 document_id self = Some document ->
  _perform_validation env1 self document customer_id = Return result ->
  redis_down env1 (S (Redis.issued c)) = false ->
  redis_down env2 (S (S (Redis.issued c))) = false ->
  let first_call := validate_kyc env1 document_id customer_id self in
  let second_call := validate_kyc env2 document_id customer_id' (snd first_call) in
  fst first_call = Return (Validated result)
  /\ ((clock env2 <= clock env1 + 3600)%Z ->
      fst second_call = Return (Validated result)
      /\ same_data (snd first_call) (snd second_call))
  /\ ((clock env1 + 3600 < clock env2)%Z ->
      cache_miss env2 document_id (snd first_call)).
Proof.
  intros Hc Hmiss Hdoc Hresult Hup1 Hup2 first_call second_call.
  pose proof (validate_kyc_caches env1 document_id customer_id self c document result
                Hc Hmiss Hdoc Hresult Hup1) as Hc1.
  fold first_call in Hc1.
  pose proof (check_cache_reads env2 document_id (snd first_call) _ Hc1 Hup2) as Hread.
  unfold Redis.lookup in Hread. simpl in Hread.
  rewrite lookup_insert_eq in Hread. unfold Redis.live in Hread. simpl in Hread.
  split; [|split].
  - destruct (KycSpec.validate_kyc_on_miss env1 document_id customer_id self Hmiss) as [s' H].
    rewrite Hdoc, Hresult in H. destruct H as [E _]. unfold first_call. now rewrite E.
  - intros Hlive. apply Z.leb_le in Hlive. rewrite Hlive in Hread. simpl in Hread.
    destruct (KycSpec.check_cache_step env2 document_id (snd first_call))
      as (cached & s0 & E0 & H0 & _).
    rewrite E0 in Hread. simpl in Hread. injection Hread as ->.
    unfold second_call, validate_kyc, bind. rewrite E0. simpl. auto.
  - intros Hdead. apply Z.leb_gt in Hdead. rewrite Hdead in Hread. exact Hread.
Qed.

(** The registration of the run for illustration, asked for again ten
    minutes later for another customer while no store answers. *)
Lemma validation_cached_for_an_hour_witness :
  fst (validate_kyc (example_env 10 false) example_document_id "ANOTHER_CUSTOMER"
         (snd (validate_kyc (example_env 0 true) example_document_id "KYC_TEST_001"
                 example_agent)))
  = fst (validate_kyc (example_env 0 true) example_document_id "KYC_TEST_001"
           example_agent).
Proof.
  edestruct (validation_cached_for_an_hour (example_env 0 true) (example_env 10 false)
               example_document_id "KYC_TEST_001" "ANOTHER_CUSTOMER" example_agent
               (Redis.mkClient ∅ 0)
               (mkRetrievedDocument example_document_id (Some example_text)
                  "commercial_registration" (Some "KYC_TEST_001")))
    as (Hfirst & Hsecond & _);
    [reflexivity | reflexivity | reflexivity | vm_compute; reflexivity
    | reflexivity | reflexivity |].
  destruct Hsecond as [Hsame _]; [simpl; lia|].
  now rewrite Hsame, Hfirst.
Defined.

(** Through a session [_store_validation] returns, with the tables as
    the commit left them. *)
Lemma store_validation_run env validation self session :
  db_session self = Some session ->
  _store_validation env validation self
  = (Return tt,
     set_db (Db.mkSession
               (if written env validation session
                then add_kyc_record validation (Db.tables session)
                else Db.tables session)
               (S (Db.round_trips session))) self).
Proof.
  intros Hdb.
  unfold written, _store_validation, bind, get, try_except, on_db, Db.commit,
    Db.round_trip, modify, ret.
  repeat (progress (rewrite ?Hdb; simpl)).
  destruct (db_down env _); simpl; [reflexivity|].
  destruct (constraints_hold _); reflexivity.
Qed.

Lemma added_ids validation t :
  map k_id (kyc_validations (add_kyc_record validation t))
  = (map k_id (kyc_validations t) ++ [validation_id validation])%list.
Proof. unfold add_kyc_record. simpl. now rewrite map_app. Qed.

(** A row whose identifier is taken is refused. *)
Lemma written_duplicate env validation session :
  In (validation_id validation) (map k_id (kyc_validations (Db.tables session))) ->
  written env validation session = false.
Proof.
  intros Hin. unfold written, constraints_hold. rewrite added_ids.
  apply andb_false_intro2.
  apply andb_false_intro1. apply andb_false_intro1. apply andb_false_intro2.
  apply bool_decide_eq_false. rewrite NoDup_app.
  intros (_ & Hdisjoint & _). apply list_elem_of_In in Hin.
  apply (Hdisjoint _ Hin). constructor.
Qed.

(** A row with a new identifier is taken by a server that answers, if
    the tables satisfied the schema. *)
Lemma written_fresh env validation session :
  db_down env (Db.round_trips session) = false ->
  constraints_hold (Db.tables session) = true ->
  ~ In (validation_id validation) (map k_id (kyc_validations (Db.tables session))) ->
  written env validation session = true.
Proof.
  intros Hup Hschema Hfresh. unfold written. rewrite Hup. simpl.
  unfold constraints_hold in *. rewrite added_ids.
  apply andb_prop in Hschema as [Hschema H4].
  apply andb_prop in Hschema as [Hschema H3].
  apply andb_prop in Hschema as [H1 H2].
  unfold add_kyc_record at 1 2 3. simpl.
  rewrite H1, H3, H4. simpl. rewrite !andb_true_r.
  apply bool_decide_eq_true. apply bool_decide_eq_true in H2.
  rewrite NoDup_app. split; [exact H2|]. split.
  - intros x Hx Hx'. apply list_elem_of_singleton in Hx'. subst x.
    apply Hfresh. now apply list_elem_of_In.
  - apply NoDup_singleton.
Qed.

(** X6: through a database session [_store_validation] writes its row
    or nothing, and never raises. The row is written, at the end of the
    table, exactly when the server answers the commit and the schema
    accepts the row; it does when the tables satisfied the schema and no
    row has the identifier yet, and it does not when a row has the
    identifier already. In neither case is the validation put in the
    in-memory store or anything published: a rejected validation is
    dropped. *)
Theorem store_validation_all_or_nothing
    (env : Env) (validation : ValidationResult) (self : Agent)
    (session : Db.session Tables) :
  db_session self = Some session ->
  let run := _store_validation env validation self in
  let ids := map k_id (kyc_validations (Db.tables session)) in
  fst run = Return tt
  /\ (Db.tables <$> db_session (snd run))
     = Some (if written env validation session
             then add_kyc_record validation (Db.tables session)
             else Db.tables session)
  /\ kyc_validations (add_kyc_record validation (Db.tables session))
     = (kyc_validations (Db.tables session) ++ [kyc_record validation])%list
  /\ memory_storage (snd run) = memory_storage self
  /\ kafka_handler (snd run) = kafka_handler self
  /\ (In (validation_id validation) ids -> written env validation session = false)
  /\ (db_down env (Db.round_trips session) = false ->
      constraints_hold (Db.tables session) = true ->
      ~ In (validation_id validation) ids ->
      written env validation session = true).
Proof.
  intros Hdb run ids. unfold run.
  rewrite (store_validation_run env validation self session Hdb). simpl.
  repeat split.
  - apply written_duplicate.
  - apply written_fresh.
Qed.

(** The agent with a database stores the validation of the registration,
    and refuses the same validation a second time. *)
Lemma store_validation_all_or_nothing_witness :
  exists validation,
    _perform_validation (example_env 0 true) example_db_agent
      (document_of_row example_document_row) "KYC_TEST_001"
    = Return validation
    /\ let stored :=
         snd (_store_validation (example_env 0 true) validation example_db_agent) in
       (kyc_validations ∘ Db.tables <$> db_session stored) = Some [kyc_record validation]
       /\ (Db.tables
             <$> db_session (snd (_store_validation (example_env 1 true) validation stored)))
          = (Db.tables <$> db_session stored).
Proof.
  eexists. split; [vm_compute; reflexivity|]. cbv zeta.
  match goal with |- context [kyc_record ?v] => set (validation := v) end.
  destruct (store_validation_all_or_nothing (example_env 0 true) validation
              example_db_agent (Db.mkSession (mkTables [example_document_row] [] []) 0)
              eq_refl)
    as (_ & Htables & _ & _ & _ & _ & Hwritten).
  rewrite Hwritten in Htables; [|reflexivity|reflexivity|simpl; tauto].
  set (stored := snd (_store_validation (example_env 0 true) validation example_db_agent))
    in *.
  split.
  - destruct (db_session stored) as [session|]; [|discriminate].
    simpl in *. injection Htables as ->. reflexivity.
  - destruct (db_session stored) as [session|] eqn:Hsession; [|discriminate].
    simpl in Htables. injection Htables as Htables.
    destruct (store_validation_all_or_nothing (example_env 1 true) validation
                stored session Hsession)
      as (_ & Htwice & _ & _ & _ & Hrefused & _).
    rewrite Hrefused in Htwice; [exact Htwice|].
    rewrite Htables. simpl. now left.
Defined.

End KycStores.

(** ** From the KYC agent to the summary agent *)

Module Pipeline.

Import Schema.

(** The validation dictionary the summary agent makes of a stored row. *)
Lemma validation_of_kyc_record validation :
  Summary.validation_of_row (Kyc.kyc_record validation)
  = Scoring.mkValidation (Kyc.document_id validation)
                         (Kyc.validation_status validation)
                         (Some (Kyc.validation_score validation)).
Proof. reflexivity. Qed.

(** With a session that answers, the summary agent reads the rows of the
    customer. *)
Lemma get_validation_results_reads env customer self session :
  Summary.db_session self = Some session ->
  Summary.db_down env (Db.round_trips session) = false ->
  fst (Summary._get_validation_results env customer self)
  = Return (map Summary.validation_of_row
              (all (fun v => String.eqb (k_customer_id v) customer)
                   (kyc_validations (Db.tables session)))).
Proof.
  intros Hdb Hup.
  unfold Summary._get_validation_results, bind, get, try_except, Summary.on_db,
    Db.query, Db.round_trip, ret.
  repeat (progress (rewrite ?Hdb; simpl)). now rewrite Hup.
Qed.

(** X7: a validation the KYC agent stores reaches the summary of its
    customer. When [_store_validation] gets the row written (the server
    answers, the schema held and the identifier is new), the summary
    agent, reading the same tables through a session that answers, finds
    among the validation results of that customer the validation with
    its document, its status and its score, and the score is among
    those the scoring averages. *)
Theorem stored_validation_reaches_summary
    (kyc_env : Kyc.Env) (summary_env : Summary.Env) (validation : Kyc.ValidationResult)
    (kyc_agent : Kyc.Agent) (summary_agent : Summary.Agent)
    (kyc_session summary_session : Db.session Tables) :
  Kyc.db_session kyc_agent = Some kyc_session ->
  Kyc.db_down kyc_env (Db.round_trips kyc_session) = false ->
  constraints_hold (Db.tables kyc_session) = true ->
  ~ In (Kyc.validation_id validation)
       (map k_id (kyc_validations (Db.tables kyc_session))) ->
  Summary.db_session summary_agent = Some summary_session ->
  Summary.db_down summary_env (Db.round_trips summary_session) = false ->
  Some (Db.tables summary_session)
  = (Db.tables <$> Kyc.db_session
                     (snd (Kyc._store_validation kyc_env validation kyc_agent))) ->
  exists validations,
    fst (Summary._get_validation_results summary_env (Kyc.customer_id validation)
                                         summary_agent)
    = Return validations
    /\ In (Scoring.mkValidation (Kyc.document_id validation)
                                (Kyc.validation_status validation)
                                (Some (Kyc.validation_score validation)))
          validations
    /\ In (Kyc.validation_score validation) (Scoring.validation_scores validations).
Proof.
  intros Hkdb Hkup Hschema Hfresh Hsdb Hsup Hshared.
  rewrite (KycStores.store_validation_run kyc_env validation kyc_agent kyc_session Hkdb)
    in Hshared.
  rewrite (KycStores.written_fresh kyc_env validation kyc_session Hkup Hschema Hfresh)
    in Hshared.
  simpl in Hshared. injection Hshared as Hshared.
  eexists. split.
  - apply (get_validation_results_reads summary_env _ summary_agent summary_session
             Hsdb Hsup).
  - rewrite Hshared, <- validation_of_kyc_record.
    change (kyc_validations (Kyc.add_kyc_record validation (Db.tables kyc_session)))
      with (kyc_validations (Db.tables kyc_session) ++ [Kyc.kyc_record validation])%list.
    assert (Hin : In (Summary.validation_of_row (Kyc.kyc_record validation))
                     (map Summary.validation_of_row
                        (all (fun v => String.eqb (k_customer_id v)
                                                  (Kyc.customer_id validation))
                             (kyc_validations (Db.tables kyc_session)
                              ++ [Kyc.kyc_record validation])))).
    { apply in_map. unfold all. apply filter_In. split.
      - apply in_or_app. right. now left.
      - simpl. apply String.eqb_refl. }
    split; [exact Hin|].
    unfold Scoring.validation_scores.
    apply list_elem_of_In. apply list_elem_of_omap.
    exists (Summary.validation_of_row (Kyc.kyc_record validation)).
    split; [now apply list_elem_of_In | reflexivity].
Qed.

(** The validation of the registration, stored by the KYC agent with a
    database, read by a summary agent on the same tables. *)
Lemma stored_validation_reaches_summary_witness :
  exists validation,
    Kyc._perform_validation (Kyc.example_env 0 true) Kyc.example_db_agent
      (Kyc.document_of_row Kyc.example_document_row) "KYC_TEST_001"
    = Return validation
    /\ let tables :=
         Kyc.add_kyc_record validation (mkTables [Kyc.example_document_row] [] []) in
       In (Kyc.validation_score validation)
          (Scoring.validation_scores
             match fst (Summary._get_validation_results (Summary.example_env 5)
                          (Kyc.customer_id validation)
                          (Summary.mkAgent false None (Some (Db.mkSession tables 0)) None
                             (Kafka.mkKafkaHandler [])))
             with Return validations => validations | Raise _ => [] end).
Proof.
  eexists. split; [vm_compute; reflexivity|]. cbv zeta.
  match goal with |- context [Kyc.validation_score ?v] => set (validation := v) end.
  destruct (stored_validation_reaches_summary
              (Kyc.example_env 0 true) (Summary.example_env 5) validation
              Kyc.example_db_agent
              (Summary.mkAgent false None
                 (Some (Db.mkSession
                          (Kyc.add_kyc_record validation
                             (mkTables [Kyc.example_document_row] [] [])) 0))
                 None (Kafka.mkKafkaHandler []))
              (Db.mkSession (mkTables [Kyc.example_document_row] [] []) 0)
              (Db.mkSession
                 (Kyc.add_kyc_record validation
                    (mkTables [Kyc.example_document_row] [] [])) 0))
    as (validations & Hread & _ & Hscore);
    [reflexivity | reflexivity | reflexivity | simpl; tauto | reflexivity
    | reflexivity | reflexivity |].
  rewrite Hread. exact Hscore.
Defined.

End Pipeline.

(** ** More on the scoring *)

Module ScoringFacts.

Import Scoring.

Lemma contains_Permutation x (l l' : list string) :
  Permutation l l' -> Py.contains x l = Py.contains x l'.
Proof.
  intros Hperm.
  destruct (Py.contains x l) eqn:E, (Py.contains x l') eqn:E'; try reflexivity.
  - apply ScoringSpec.contains_In in E. apply not_true_iff_false in E'.
    exfalso. apply E'. apply ScoringSpec.contains_In.
    now apply (Permutation_in _ Hperm).
  - apply ScoringSpec.contains_In in E'. apply not_true_iff_false in E.
    exfalso. apply E. apply ScoringSpec.contains_In.
    now apply (Permutation_in _ (Permutation_sym Hperm)).
Qed.

Lemma count_compliant_le documents :
  count_compliant documents <= length documents.
Proof.
  unfold count_compliant. pose proof (filter_length is_compliant documents). lia.
Qed.

(** X8: the scores do not depend on the order of the documents: for two
    lists that hold the same documents, in whatever order, and the same
    validations, [_calculate_scores] returns the same overall score,
    count, status, issues and recommendations. *)
Theorem calculate_scores_document_order
    (documents documents' : list Document) (validations : list Validation) :
  Permutation documents documents' ->
  _calculate_scores documents validations = _calculate_scores documents' validations.
Proof.
  intros Hperm. unfold _calculate_scores.
  assert (Hlen : length documents = length documents')
    by apply (Permutation_length Hperm).
  assert (Hcount : count_compliant documents = count_compliant documents').
  { unfold count_compliant.
    now apply SummarySpec.filter_length_Permutation. }
  assert (Hmissing :
    List.filter (fun t => negb (Py.contains t (map doc_type documents))) required_types
    = List.filter (fun t => negb (Py.contains t (map doc_type documents'))) required_types).
  { apply List.filter_ext. intros t. f_equal.
    apply contains_Permutation. now apply Permutation_map. }
  now rewrite Hlen, Hcount, Hmissing.
Qed.

(** The example documents in reverse order. *)
Lemma calculate_scores_document_order_witness :
  _calculate_scores example_documents example_validations
  = _calculate_scores (rev example_documents) example_validations.
Proof.
  apply calculate_scores_document_order. apply Permutation_rev.
Defined.

End ScoringFacts.

(** ** More on the summary agent *)

Module SummaryFacts.

Import Summary Kafka.

Section Phases.

Variable env : Env.

(** Reading the documents and the validations, and storing a summary,
    return and leave the cache alone. *)
Lemma get_customer_documents_client customer s :
  exists documents s',
    _get_customer_documents env customer s = (Return documents, s')
    /\ redis_client s' = redis_client s.
Proof.
  unfold _get_customer_documents, bind, get, try_except, on_db, Db.query,
    Db.round_trip, ret.
  destruct (db_session s) as [session|] eqn:Ed; simpl.
  - rewrite ?Ed. destruct (db_down env _); simpl; [eauto|].
    destruct (map _ _); simpl; eauto.
  - eauto.
Qed.

Lemma get_validation_results_client customer s :
  exists validations s',
    _get_validation_results env customer s = (Return validations, s')
    /\ redis_client s' = redis_client s.
Proof.
  unfold _get_validation_results, bind, get, try_except, on_db, Db.query,
    Db.round_trip, ret.
  destruct (db_session s) as [session|] eqn:Ed; simpl; [|eauto].
  rewrite ?Ed. destruct (db_down env _); simpl; eauto.
Qed.

Lemma store_summary_client summary s :
  exists s',
    _store_summary env summary s = (Return tt, s')
    /\ redis_client s' = redis_client s.
Proof.
  unfold _store_summary, bind, get, try_except, on_db, Db.query, Db.commit,
    Db.round_trip, modify, ret.
  destruct (db_session s) as [session|] eqn:Ed; simpl.
  - rewrite ?Ed. simpl.
    destruct (db_down env (Db.round_trips session)); simpl; [eauto|].
    destruct (db_down env (S (Db.round_trips session))); simpl; [eauto|].
    destruct (constraints_hold _); simpl; eauto.
  - destruct (memory_storage s); eauto.
Qed.

(** The cache check issues one command and leaves the keys alone; on a
    server that answers it reads the live entry of the key. *)
Lemma summary_cache_client customer s c :
  redis_client s = Some c ->
  redis_client (snd (check_cache env customer s))
  = Some (Redis.mkClient (Redis.keys c) (S (Redis.issued c))).
Proof.
  intros Hc.
  unfold check_cache, _get_from_cache, bind, get, try_except, on_redis,
    Redis.get, Redis.command, ret.
  repeat (progress (rewrite ?Hc; simpl)).
  destruct (redis_down env (Redis.issued c)); simpl; now rewrite ?Hc.
Qed.

Lemma summary_cache_reads customer s c :
  redis_client s = Some c ->
  redis_down env (Redis.issued c) = false ->
  check_cache env customer s
  = (Return (Redis.e_value <$> Redis.lookup (clock env) (cache_key customer) c),
     set_redis (Redis.mkClient (Redis.keys c) (S (Redis.issued c))) s).
Proof.
  intros Hc Hup.
  unfold check_cache, _get_from_cache, bind, get, try_except, on_redis,
    Redis.get, Redis.command, ret.
  repeat (progress (rewrite ?Hc; simpl)). now rewrite Hup.
Qed.

Lemma summary_cache_writes key summary s c :
  redis_client s = Some c ->
  redis_down env (Redis.issued c) = false ->
  _save_to_cache env key summary s
  = (Return tt,
     set_redis (Redis.mkClient (<[key := cached_at (clock env) summary]> (Redis.keys c))
                               (S (Redis.issued c))) s).
Proof.
  intros Hc Hup.
  unfold _save_to_cache, bind, get, try_except, on_redis, Redis.setex,
    Redis.command, ret.
  repeat (progress (rewrite ?Hc; simpl)). now rewrite Hup.
Qed.

(** A call that misses the cache returns a summary and leaves it in the
    cache, if the server takes the write. *)
Lemma generate_summary_caches customer self c :
  redis_client self = Some c ->
  cache_miss env customer self ->
  redis_down env (S (Redis.issued c)) = false ->
  exists summary s',
    generate_summary env customer self = (Return summary, s')
    /\ redis_client s'
       = Some (Redis.mkClient
                 (<[cache_key customer := cached_at (clock env) summary]> (Redis.keys c))
                 (S (S (Redis.issued c)))).
Proof.
  intros Hc Hmiss Hup. unfold cache_miss in Hmiss.
  pose proof (summary_cache_client customer self c Hc) as Hc0.
  unfold generate_summary. unfold bind at 1.
  destruct (check_cache env customer self) as [r s0]. simpl in Hmiss, Hc0. subst r.
  destruct (get_customer_documents_client customer s0) as (documents & s1 & E1 & Hc1).
  unfold bind at 1. rewrite E1.
  destruct (get_validation_results_client customer s1) as (validations & s2 & E2 & Hc2).
  unfold bind at 1. rewrite E2.
  unfold bind at 1. unfold _calculate_scores at 1, ret at 1.
  set (summary := mkSummaryResult _ _ _ _ _ _ _ _ _ _ _).
  destruct (store_summary_client summary s2) as (s3 & E3 & Hc3).
  unfold bind at 1. rewrite E3.
  unfold bind at 1, get at 1.
  assert (Hclient : redis_client s3
                    = Some (Redis.mkClient (Redis.keys c) (S (Redis.issued c))))
    by congruence.
  rewrite Hclient. simpl Py.is_set. cbv iota.
  unfold bind at 1.
  rewrite (summary_cache_writes (cache_key customer) summary s3 _ Hclient Hup).
  unfold bind at 1. unfold _send_events, modify, ret.
  exists summary. eexists. split; [reflexivity|]. reflexivity.
Qed.

(** Without a database a call that misses the cache returns the summary
    of the documents ChromaDB gives, with no validation. *)
Lemma generate_summary_without_db customer self :
  db_session self = None ->
  cache_miss env customer self ->
  fst (generate_summary env customer self) = Return (fallback_summary env customer).
Proof.
  intros Hdb Hmiss. unfold cache_miss in Hmiss.
  destruct (SummarySpec.check_cache_frame env customer self) as [Hdb0 _].
  unfold generate_summary. unfold bind at 1.
  destruct (check_cache env customer self) as [r s0]. simpl in *. subst r.
  rewrite Hdb in Hdb0.
  unfold bind at 1.
  rewrite (SummarySpec.get_customer_documents_no_db env customer s0 Hdb0).
  unfold bind at 1.
  rewrite (SummarySpec.get_validation_results_no_db env customer s0 Hdb0).
  unfold bind at 1. unfold _calculate_scores at 1, ret at 1.
  fold (fallback_summary env customer).
  destruct (store_summary_client (fallback_summary env customer) s0) as (s1 & E1 & _).
  unfold bind at 1. rewrite E1.
  unfold bind at 1, get at 1.
  destruct (SummarySpec.save_to_cache_frame env (cache_key customer)
              (fallback_summary env customer) (Py.is_set (redis_client s1)) s1)
    as (s2 & E2 & _).
  unfold bind at 1. rewrite E2.
  reflexivity.
Qed.

End Phases.

(** The loop over the hits appends at most one document per hit. *)
Lemma documents_of_hits_length hits :
  length (documents_of_hits hits) <= length hits.
Proof.
  induction hits as [|hit rest IH]; simpl; [lia|].
  destruct (hit_metadata hit); simpl; lia.
Qed.

(** The status of up to a hundred documents without validations, by
    evaluation of every case. *)
Lemma status_of_documents_alone compliant total :
  compliant <= total -> 0 < total <= 100 ->
  Scoring.status_of
    (Py.truediv compliant total * Py.f0_6 + 0 * Py.f0_4)%float
  = status_without_validations compliant total.
Proof.
  intros Hc Ht.
  assert (Hall :
    forallb (fun total =>
      forallb (fun compliant =>
        String.eqb
          (Scoring.status_of
             (Py.truediv compliant total * Py.f0_6 + 0 * Py.f0_4)%float)
          (status_without_validations compliant total))
        (seq 0 (S total)))
      (seq 1 100) = true) by (vm_compute; reflexivity).
  rewrite forallb_forall in Hall.
  specialize (Hall total). rewrite forallb_forall in Hall.
  apply String.eqb_eq. apply Hall; apply in_seq; lia.
Qed.

(** X9: without a database no customer is ever found compliant. An
    agent that has no database session reads no validation, so a call
    that misses the cache scores the documents ChromaDB gives (at most
    the hundred the query asks for) on their own: the summary counts no
    validated document, and its status is "partially_compliant" when
    there is a document and all documents are compliant, and
    "non_compliant" in every other case. *)
Theorem no_database_never_compliant
    (env : Env) (customer : string) (self : Agent) :
  db_session self = None ->
  cache_miss env customer self ->
  (forall hits, chroma_hits env = Some hits -> length hits <= 100) ->
  exists summary,
    fst (generate_summary env customer self) = Return summary
    /\ validated_documents summary = 0
    /\ compliance_status summary
       = status_without_validations (compliant_documents summary)
                                    (total_documents summary)
    /\ compliance_status summary <> "compliant"
    /\ (compliance_status summary = "partially_compliant"
        <-> 0 < total_documents summary
            /\ compliant_documents summary = total_documents summary).
Proof.
  intros Hdb Hmiss Hhundred.
  exists (fallback_summary env customer).
  split; [now apply generate_summary_without_db|].
  split; [reflexivity|].
  assert (Hstatus :
    compliance_status (fallback_summary env customer)
    = status_without_validations
        (compliant_documents (fallback_summary env customer))
        (total_documents (fallback_summary env customer))).
  { unfold fallback_summary. simpl.
    set (documents := match chroma_hits env with
                      | Some hits => documents_of_hits hits
                      | None => []
                      end).
    assert (Hlen : length documents <= 100).
    { unfold documents. destruct (chroma_hits env) as [hits|] eqn:Eh; simpl; [|lia].
      pose proof (documents_of_hits_length hits). specialize (Hhundred hits eq_refl). lia. }
    pose proof (ScoringFacts.count_compliant_le documents) as Hle.
    destruct documents as [|doc rest] eqn:Edocs; [reflexivity|].
    rewrite <- Edocs in *.
    unfold Scoring._calculate_scores. simpl Scoring.status.
    assert (Hpos : (0 <? length documents)%nat = true)
      by (rewrite Edocs; reflexivity).
    rewrite Hpos.
    apply status_of_documents_alone; [exact Hle|].
    apply Nat.ltb_lt in Hpos. lia. }
  split; [exact Hstatus|].
  rewrite Hstatus. clear Hstatus.
  generalize (compliant_documents (fallback_summary env customer)).
  generalize (total_documents (fallback_summary env customer)).
  intros total compliant. unfold status_without_validations.
  destruct (0 <? total)%nat eqn:Hpos; simpl;
    [destruct (compliant =? total)%nat eqn:Hall|].
  - apply Nat.ltb_lt in Hpos. apply Nat.eqb_eq in Hall.
    split; [discriminate|]. split; [auto|reflexivity].
  - apply Nat.eqb_neq in Hall.
    split; [discriminate|]. split; [discriminate|]. intros [_ H]. contradiction.
  - apply Nat.ltb_ge in Hpos.
    split; [discriminate|]. split; [discriminate|]. intros [H _]. lia.
Qed.

(** The run for illustration: three documents of which two are
    compliant, and no database. *)
Lemma no_database_never_compliant_witness :
  exists summary,
    fst (generate_summary (example_env 0) "TEST_CUSTOMER_001" example_agent)
    = Return summary
    /\ compliance_status summary = "non_compliant".
Proof.
  destruct (no_database_never_compliant (example_env 0) "TEST_CUSTOMER_001" example_agent)
    as (summary & Hrun & _ & Hstatus & _).
  - reflexivity.
  - reflexivity.
  - intros hits [= <-]. simpl. lia.
  - exists summary. split; [exact Hrun|].
    rewrite Hstatus.
    assert (Hsummary : Return summary
                       = Return (fallback_summary (example_env 0) "TEST_CUSTOMER_001"))
      by (rewrite <- Hrun; reflexivity).
    injection Hsummary as ->. reflexivity.
Defined.

(** X10: a summary is cached for an hour. When a call misses the
    cache and the Redis server takes the write of the summary it
    returns, then a later call for the same customer, on a server that
    answers, returns that same summary, with the same identifier, as
    long as no more than 3600 seconds of server time have passed, the
    3600th included, and then it stores and publishes nothing; once
    more than 3600 seconds have passed the call misses the cache
    again. *)
Theorem summary_cached_for_an_hour
    (env1 env2 : Env) (customer : string) (self : Agent)
    (c : Redis.client SummaryResult) :
  redis_client self = Some c ->
  cache_miss env1 customer self ->
  redis_down env1 (S (Redis.issued c)) = false ->
  redis_down env2 (S (S (Redis.issued c))) = false ->
  let first_call := generate_summary env1 customer self in
  let second_call := generate_summary env2 customer (snd first_call) in
  exists summary,
    fst first_call = Return summary
    /\ ((clock env2 <= clock env1 + 3600)%Z ->
        fst second_call = Return summary
        /\ db_session (snd second_call) = db_session (snd first_call)
        /\ memory_storage (snd second_call) = memory_storage (snd first_call)
        /\ kafka_handler (snd second_call) = kafka_handler (snd first_call))
    /\ ((clock env1 + 3600 < clock env2)%Z ->
        cache_miss env2 customer (snd first_call)).
Proof.
  intros Hc Hmiss Hup1 Hup2 first_call second_call.
  destruct (generate_summary_caches env1 customer self c Hc Hmiss Hup1)
    as (summary & s1 & E1 & Hc1).
  exists summary. unfold second_call, first_call. rewrite E1. simpl.
  split; [reflexivity|].
  pose proof (summary_cache_reads env2 customer s1 _ Hc1 Hup2) as Hread.
  unfold Redis.lookup in Hread. simpl in Hread.
  rewrite lookup_insert_eq in Hread. unfold Redis.live in Hread. simpl in Hread.
  split.
  - intros Hlive. apply Z.leb_le in Hlive. rewrite Hlive in Hread. simpl in Hread.
    unfold generate_summary, bind. rewrite Hread. simpl. auto.
  - intros Hdead. apply Z.leb_gt in Hdead. rewrite Hdead in Hread.
    unfold cache_miss. now rewrite Hread.
Qed.

(** The run for illustration, asked again after ten minutes and after
    seventy: the first repeat gives the cached summary, the second
    misses the cache. *)
Lemma summary_cached_for_an_hour_witness :
  fst (generate_summary (example_env 10) "TEST_CUSTOMER_001"
         (snd (generate_summary (example_env 0) "TEST_CUSTOMER_001" example_agent)))
  = fst (generate_summary (example_env 0) "TEST_CUSTOMER_001" example_agent)
  /\ cache_miss example_later_env "TEST_CUSTOMER_001"
       (snd (generate_summary (example_env 0) "TEST_CUSTOMER_001" example_agent)).
Proof.
  split.
  - destruct (summary_cached_for_an_hour (example_env 0) (example_env 10)
                "TEST_CUSTOMER_001" example_agent (Redis.mkClient ∅ 0))
      as (summary & Hfirst & Hsecond & _); [reflexivity .. |].
    destruct Hsecond as [Hsame _]; [simpl; lia|].
    now rewrite Hsame, Hfirst.
  - destruct (summary_cached_for_an_hour (example_env 0) example_later_env
                "TEST_CUSTOMER_001" example_agent (Redis.mkClient ∅ 0))
      as (summary & _ & _ & Hexpired); [reflexivity .. |].
    apply Hexpired. simpl. lia.
Defined.

Section Bus.

Variable env : Env.

Lemma get_customer_documents_bus customer s :
  kafka_handler (snd (_get_customer_documents env customer s)) = kafka_handler s.
Proof.
  unfold _get_customer_documents, bind, get, try_except, on_db, Db.query,
    Db.round_trip, ret.
  destruct (db_session s) as [session|] eqn:Ed; simpl; [|reflexivity].
  rewrite ?Ed. destruct (db_down env _); simpl; [reflexivity|].
  destruct (map _ _); reflexivity.
Qed.

Lemma get_validation_results_bus customer s :
  kafka_handler (snd (_get_validation_results env customer s)) = kafka_handler s.
Proof.
  unfold _get_validation_results, bind, get, try_except, on_db, Db.query,
    Db.round_trip, ret.
  destruct (db_session s) as [session|] eqn:Ed; simpl; [|reflexivity].
  rewrite ?Ed. now destruct (db_down env _).
Qed.

Lemma store_summary_bus summary s :
  kafka_handler (snd (_store_summary env summary s)) = kafka_handler s.
Proof.
  unfold _store_summary, bind, get, try_except, on_db, Db.query, Db.commit,
    Db.round_trip, modify, ret.
  destruct (db_session s) as [session|] eqn:Ed; simpl.
  - rewrite ?Ed. simpl.
    destruct (db_down env (Db.round_trips session)); simpl; [reflexivity|].
    destruct (db_down env (S (Db.round_trips session))); simpl; [reflexivity|].
    now destruct (constraints_hold _).
  - now destruct (memory_storage s).
Qed.

Lemma check_cache_bus customer s :
  kafka_handler (snd (check_cache env customer s)) = kafka_handler s.
Proof.
  unfold check_cache, _get_from_cache, bind, get, try_except, on_redis,
    Redis.get, Redis.command, ret.
  destruct (redis_client s) as [c|] eqn:Ec; simpl; [|reflexivity].
  repeat (progress (rewrite ?Ec; simpl)).
  now destruct (redis_down env _).
Qed.

Lemma save_to_cache_bus key summary (cache : bool) s :
  exists s',
    (if cache then _save_to_cache env key summary else ret tt) s = (Return tt, s')
    /\ kafka_handler s' = kafka_handler s.
Proof.
  destruct cache; [|now exists s].
  unfold _save_to_cache, bind, get, try_except, on_redis, Redis.setex,
    Redis.command, ret.
  destruct (redis_client s) as [c|] eqn:Ec; simpl; [|eauto].
  repeat (progress (rewrite ?Ec; simpl)).
  destruct (redis_down env _); simpl; eauto.
Qed.

(** A call that misses the cache returns a summary and publishes its
    message, and nothing else. *)
Lemma generate_summary_publishes customer self :
  cache_miss env customer self ->
  exists summary s',
    generate_summary env customer self = (Return summary, s')
    /\ customer_id summary = customer
    /\ mock_events (kafka_handler s')
       = (mock_events (kafka_handler self) ++ [generated_event summary])%list.
Proof.
  intros Hmiss. unfold cache_miss in Hmiss.
  pose proof (check_cache_bus customer self) as Hk0.
  unfold generate_summary. unfold bind at 1.
  destruct (check_cache env customer self) as [r s0]. simpl in Hmiss, Hk0. subst r.
  pose proof (get_customer_documents_bus customer s0) as Hk1.
  destruct (get_customer_documents_client env customer s0) as (documents & s1 & E1 & _).
  unfold bind at 1. rewrite E1 in *. simpl in Hk1.
  pose proof (get_validation_results_bus customer s1) as Hk2.
  destruct (get_validation_results_client env customer s1) as (validations & s2 & E2 & _).
  unfold bind at 1. rewrite E2 in *. simpl in Hk2.
  unfold bind at 1. unfold _calculate_scores at 1, ret at 1.
  set (summary := mkSummaryResult _ _ _ _ _ _ _ _ _ _ _).
  pose proof (store_summary_bus summary s2) as Hk3.
  destruct (store_summary_client env summary s2) as (s3 & E3 & _).
  unfold bind at 1. rewrite E3 in *. simpl in Hk3.
  unfold bind at 1, get at 1.
  destruct (save_to_cache_bus (cache_key customer) summary
              (Py.is_set (redis_client s3)) s3) as (s4 & E4 & Hk4).
  unfold bind at 1. rewrite E4.
  unfold bind at 1. unfold _send_events, modify, ret.
  exists summary. eexists. split; [reflexivity|]. split; [reflexivity|].
  simpl. unfold generated_event. rewrite Hk4, Hk3, Hk2, Hk1, Hk0. reflexivity.
Qed.

End Bus.

(** X18: one message per summary built, none per summary served from
    the cache. A call of [generate_summary] that misses the cache
    returns a summary of the customer asked for and publishes exactly
    one message after those published before: on topic
    "compliance-summary-generated", keyed by the customer, with the
    identifier, status, score and time of the summary returned. A call
    that hits the cache returns the cached summary and publishes
    nothing. *)
Theorem summary_published_once (env : Env) (customer : string) (self : Agent) :
  let call := generate_summary env customer self in
  (cache_miss env customer self ->
   exists summary,
     fst call = Return summary
     /\ customer_id summary = customer
     /\ mock_events (kafka_handler (snd call))
        = (mock_events (kafka_handler self) ++ [generated_event summary])%list
     /\ topic (generated_event summary) = "compliance-summary-generated"
     /\ key (generated_event summary) = customer
     /\ value (generated_event summary)
        = [("summary_id", FStr (summary_id summary));
           ("customer_id", FStr customer);
           ("status", FStr (compliance_status summary));
           ("score", FNum (overall_compliance_score summary));
           ("generated_at", FStr (generated_at summary))])
  /\ (forall cached,
        fst (check_cache env customer self) = Return (Some cached) ->
        fst call = Return cached
        /\ kafka_handler (snd call) = kafka_handler self).
Proof.
  cbv zeta. split.
  - intros Hmiss.
    destruct (generate_summary_publishes env customer self Hmiss)
      as (summary & s' & E & Hcustomer & Hevents).
    exists summary. rewrite E. simpl.
    repeat split; try assumption. unfold generated_event. simpl. now rewrite Hcustomer.
  - intros cached Hhit.
    pose proof (check_cache_bus env customer self) as Hbus.
    unfold generate_summary, bind.
    destruct (check_cache env customer self) as [r s0]. simpl in Hhit, Hbus. subst r.
    simpl. auto.
Qed.

End SummaryFacts.

(** ** The reports of the audit agent *)

Module AuditReports.

Import Audit Kafka.

(** *** Dictionaries of counts *)

Lemma bump_total key counts : total (bump key counts) = S (total counts).
Proof.
  unfold total. induction counts as [|[k n] rest IH]; simpl; [reflexivity|].
  destruct (String.eqb k key); simpl; [reflexivity|]. rewrite IH. lia.
Qed.

Lemma bump_count_same key counts :
  count_of key (bump key counts) = Some (S (default 0 (count_of key counts))).
Proof.
  unfold count_of. induction counts as [|[k n] rest IH]; simpl.
  - now rewrite String.eqb_refl.
  - destruct (String.eqb k key) eqn:E; simpl; rewrite E; [reflexivity | exact IH].
Qed.

Lemma bump_count_other key key' counts :
  key' <> key -> count_of key' (bump key counts) = count_of key' counts.
Proof.
  intros Hne. unfold count_of. induction counts as [|[k n] rest IH]; simpl.
  - apply String.eqb_neq in Hne. now rewrite String.eqb_sym, Hne.
  - destruct (String.eqb k key) eqn:E; simpl.
    + apply String.eqb_eq in E. subst k.
      apply String.eqb_neq in Hne. now rewrite String.eqb_sym, Hne.
    + destruct (String.eqb k key'); [reflexivity | exact IH].
Qed.

Lemma bump_keys key counts :
  map fst (bump key counts)
  = if Py.contains key (map fst counts) then map fst counts
    else (map fst counts ++ [key])%list.
Proof.
  unfold Py.contains. induction counts as [|[k n] rest IH]; simpl; [reflexivity|].
  rewrite (String.eqb_sym key k).
  destruct (String.eqb k key); simpl; [reflexivity|].
  rewrite IH. now destruct (existsb _ _).
Qed.

Lemma bump_NoDup key counts :
  NoDup (map fst counts) -> NoDup (map fst (bump key counts)).
Proof.
  intros Hnodup. rewrite bump_keys.
  destruct (Py.contains key (map fst counts)) eqn:E; [exact Hnodup|].
  apply NoDup_app. split; [exact Hnodup|]. split; [|apply NoDup_singleton].
  intros x Hx Hx'. apply list_elem_of_singleton in Hx'. subst x.
  apply list_elem_of_In, ScoringSpec.contains_In in Hx. congruence.
Qed.

Section Tally.

Context {A : Type}.
Variable f : A -> string.

(** The number of items that [f] sends to [key]. *)
Let tally (key : string) (items : list A) : nat :=
  length (List.filter (fun x => String.eqb (f x) key) items).

Let counted (items : list A) (counts : list (string * nat)) : list (string * nat) :=
  fold_left (fun c x => bump (f x) c) items counts.

Lemma counted_total items counts :
  total (counted items counts) = total counts + length items.
Proof.
  revert counts. induction items as [|x items IH]; intros counts; simpl; [lia|].
  unfold counted in *. simpl. rewrite IH, bump_total. lia.
Qed.

Lemma counted_NoDup items counts :
  NoDup (map fst counts) -> NoDup (map fst (counted items counts)).
Proof.
  revert counts. induction items as [|x items IH]; intros counts H; simpl; [exact H|].
  apply IH. now apply bump_NoDup.
Qed.

Lemma counted_count key items counts :
  count_of key (counted items counts)
  = if (tally key items =? 0)%nat then count_of key counts
    else Some (default 0 (count_of key counts) + tally key items).
Proof.
  revert counts. induction items as [|x items IH]; intros counts; [reflexivity|].
  unfold counted, tally in *. simpl. rewrite IH.
  destruct (String.eqb (f x) key) eqn:E; simpl.
  - apply String.eqb_eq in E. rewrite E, bump_count_same. simpl.
    destruct (length _ =? 0)%nat eqn:El;
      [apply Nat.eqb_eq in El; rewrite El|]; f_equal; lia.
  - apply String.eqb_neq in E.
    rewrite bump_count_other by congruence. reflexivity.
Qed.

End Tally.

(** The three parts of the analysis, each a fold of its own. *)
Lemma analyze_fold logs (start : Analysis) :
  let analysis :=
    fold_left
      (fun analysis log =>
         {| event_counts := bump (dict_event_type log) (event_counts analysis);
            agent_counts := bump (dict_agent_name log) (agent_counts analysis);
            status_counts := count_status (dict_status log) (status_counts analysis);
            timeline := timeline analysis |})
      logs start in
  event_counts analysis
  = fold_left (fun c log => bump (dict_event_type log) c) logs (event_counts start)
  /\ agent_counts analysis
     = fold_left (fun c log => bump (dict_agent_name log) c) logs (agent_counts start)
  /\ status_counts analysis
     = fold_left (fun c log => count_status (dict_status log) c) logs
                 (status_counts start).
Proof.
  revert start. induction logs as [|log logs IH]; intros start; simpl; [auto|].
  apply IH.
Qed.

Lemma analyze_logs_parts logs :
  event_counts (_analyze_logs logs)
  = fold_left (fun c log => bump (dict_event_type log) c) logs []
  /\ agent_counts (_analyze_logs logs)
     = fold_left (fun c log => bump (dict_agent_name log) c) logs []
  /\ status_counts (_analyze_logs logs)
     = fold_left (fun c log => count_status (dict_status log) c) logs
                 (mkStatusCounts 0 0 0).
Proof. apply analyze_fold. Qed.

Lemma count_status_tally logs statuses :
  let tally status :=
    length (List.filter (fun log => String.eqb (dict_status log) status) logs) in
  let counted := fold_left (fun c log => count_status (dict_status log) c) logs statuses in
  sc_success counted = sc_success statuses + tally "success"
  /\ sc_failure counted = sc_failure statuses + tally "failure"
  /\ sc_warning counted = sc_warning statuses + tally "warning".
Proof.
  revert statuses. induction logs as [|log logs IH]; intros statuses; simpl; [lia|].
  destruct (IH (count_status (dict_status log) statuses)) as (-> & -> & ->).
  unfold count_status. generalize (dict_status log). intros st.
  destruct (String.eqb_spec st "success") as [-> | ?]; simpl; [lia|].
  destruct (String.eqb_spec st "failure") as [-> | ?]; simpl; [lia|].
  destruct (String.eqb_spec st "warning") as [-> | ?]; simpl; lia.
Qed.

(** The logs of the three statuses are disjoint parts of the logs. *)
Lemma three_statuses_le logs :
  let tally status :=
    length (List.filter (fun log => String.eqb (dict_status log) status) logs) in
  tally "success" + tally "failure" + tally "warning" <= length logs.
Proof.
  induction logs as [|log logs IH]; simpl in *; [lia|].
  generalize (dict_status log). intros st.
  destruct (String.eqb_spec st "success") as [-> | ?]; simpl; [lia|].
  destruct (String.eqb_spec st "failure") as [-> | ?]; simpl; [lia|].
  destruct (String.eqb_spec st "warning") as [-> | ?]; simpl; lia.
Qed.


(** X11: what [_analyze_logs] counts. The counts per event type add up
    to the number of logs, and so do the counts per agent; a type (an
    agent) is a key of its dictionary exactly when a log has it, no key
    occurs twice, and its count is the number of logs that have it. Of
    the statuses only "success", "failure" and "warning" are counted,
    each by the number of logs that have it, so together they count at
    most the number of logs. *)
Theorem analyze_logs_counts (logs : list AuditDict) :
  let analysis := _analyze_logs logs in
  let tally (f : AuditDict -> string) (key : string) :=
    length (List.filter (fun log => String.eqb (f log) key) logs) in
  total (event_counts analysis) = length logs
  /\ total (agent_counts analysis) = length logs
  /\ (forall key,
        count_of key (event_counts analysis)
        = if (tally dict_event_type key =? 0)%nat then None
          else Some (tally dict_event_type key))
  /\ (forall key,
        count_of key (agent_counts analysis)
        = if (tally dict_agent_name key =? 0)%nat then None
          else Some (tally dict_agent_name key))
  /\ NoDup (map fst (event_counts analysis))
  /\ NoDup (map fst (agent_counts analysis))
  /\ status_counts analysis
     = mkStatusCounts (tally dict_status "success") (tally dict_status "failure")
                      (tally dict_status "warning")
  /\ sc_success (status_counts analysis) + sc_failure (status_counts analysis)
     + sc_warning (status_counts analysis) <= length logs.
Proof.
  cbv zeta. destruct (analyze_logs_parts logs) as (-> & -> & ->).
  destruct (count_status_tally logs (mkStatusCounts 0 0 0)) as (Hs & Hf & Hw).
  simpl in Hs, Hf, Hw.
  split; [apply (counted_total dict_event_type logs [])|].
  split; [apply (counted_total dict_agent_name logs [])|].
  split; [intros key; apply (counted_count dict_event_type key logs [])|].
  split; [intros key; apply (counted_count dict_agent_name key logs [])|].
  split; [apply (counted_NoDup dict_event_type logs []); constructor|].
  split; [apply (counted_NoDup dict_agent_name logs []); constructor|].
  split.
  - destruct (fold_left _ logs _) as [s f w]. simpl in *. now subst.
  - rewrite Hs, Hf, Hw. apply three_statuses_le.
Qed.

(** *** The order of time stamps *)

Lemma lex_compare_refl a : Datetime.lex_compare a a = Eq.
Proof. induction a as [|x a IH]; simpl; [reflexivity|]. now rewrite N.compare_refl. Qed.

Lemma lex_compare_opp a b :
  Datetime.lex_compare b a = CompOpp (Datetime.lex_compare a b).
Proof.
  revert b. induction a as [|x a IH]; intros [|y b]; simpl; try reflexivity.
  rewrite (N.compare_antisym x y).
  destruct (N.compare x y); simpl; [apply IH | reflexivity | reflexivity].
Qed.

Lemma lex_compare_eq a b : Datetime.lex_compare a b = Eq -> a = b.
Proof.
  revert b. induction a as [|x a IH]; intros [|y b]; simpl; try discriminate;
    [reflexivity|].
  destruct (N.compare x y) eqn:E; try discriminate.
  apply N.compare_eq in E. intros H. f_equal; [exact E | now apply IH].
Qed.

Lemma lex_compare_lt_trans a b c :
  Datetime.lex_compare a b = Lt -> Datetime.lex_compare b c = Lt ->
  Datetime.lex_compare a c = Lt.
Proof.
  revert b c. induction a as [|x a IH]; intros [|y b] [|z c]; simpl;
    try discriminate; try reflexivity.
  destruct (N.compare x y) eqn:Exy; try discriminate;
    destruct (N.compare y z) eqn:Eyz; try discriminate; intros Hab Hbc.
  - apply N.compare_eq in Exy, Eyz. subst. rewrite N.compare_refl. eauto.
  - apply N.compare_eq in Exy. subst. now rewrite Eyz.
  - apply N.compare_eq in Eyz. subst. now rewrite Exy.
  - rewrite N.compare_lt_iff in Exy, Eyz.
    assert (H : (x < z)%N) by lia. apply N.compare_lt_iff in H. now rewrite H.
Qed.

Lemma leb_refl a : Datetime.leb a a = true.
Proof. unfold Datetime.leb, Datetime.compare. now rewrite lex_compare_refl. Qed.

Lemma leb_total a b : Datetime.leb a b = false -> Datetime.leb b a = true.
Proof.
  unfold Datetime.leb, Datetime.compare.
  rewrite (lex_compare_opp (Datetime.fields a) (Datetime.fields b)).
  now destruct (Datetime.lex_compare _ _).
Qed.

Lemma leb_trans a b c :
  Datetime.leb a b = true -> Datetime.leb b c = true -> Datetime.leb a c = true.
Proof.
  unfold Datetime.leb, Datetime.compare.
  destruct (Datetime.lex_compare (Datetime.fields a) (Datetime.fields b)) eqn:Eab;
    try discriminate; intros _.
  - apply lex_compare_eq in Eab. now rewrite Eab.
  - destruct (Datetime.lex_compare (Datetime.fields b) (Datetime.fields c)) eqn:Ebc;
      try discriminate; intros _.
    + apply lex_compare_eq in Ebc. now rewrite <- Ebc, Eab.
    + now rewrite (lex_compare_lt_trans _ _ _ Eab Ebc).
Qed.

(** *** The rows in the order of the query *)

Lemma insert_desc_Permutation x rows : insert_desc x rows ≡ₚ x :: rows.
Proof.
  induction rows as [|y rows IH]; simpl; [reflexivity|].
  destruct (Datetime.leb _ _); [reflexivity|].
  rewrite IH. apply perm_swap.
Qed.

Lemma order_by_desc_Permutation rows : order_by_desc rows ≡ₚ rows.
Proof.
  induction rows as [|x rows IH]; simpl; [reflexivity|].
  unfold order_by_desc in *. simpl. now rewrite insert_desc_Permutation, IH.
Qed.

Lemma insert_desc_sorted x rows :
  StronglySorted (fun earlier later =>
                    Datetime.leb (le_occurred_at later) (le_occurred_at earlier) = true)
                 rows ->
  StronglySorted (fun earlier later =>
                    Datetime.leb (le_occurred_at later) (le_occurred_at earlier) = true)
                 (insert_desc x rows).
Proof.
  induction 1 as [|y rows Hsorted IH Hall]; simpl.
  - repeat constructor.
  - destruct (Datetime.leb (le_occurred_at y) (le_occurred_at x)) eqn:E.
    + constructor; [now constructor|].
      constructor; [exact E|].
      apply (Forall_impl _ _ _ Hall). intros z Hz. simpl in Hz.
      now apply (leb_trans _ (le_occurred_at y)).
    + constructor; [exact IH|].
      apply (Forall_forall _ _). intros z Hz.
      rewrite insert_desc_Permutation in Hz.
      apply list_elem_of_In in Hz. destruct Hz as [<- | Hz].
      * now apply leb_total.
      * rewrite Forall_forall in Hall. apply Hall. now apply list_elem_of_In.
Qed.

Lemma order_by_desc_sorted rows :
  StronglySorted (fun earlier later =>
                    Datetime.leb (le_occurred_at later) (le_occurred_at earlier) = true)
                 (order_by_desc rows).
Proof.
  induction rows as [|x rows IH]; simpl; [constructor|].
  now apply insert_desc_sorted.
Qed.

Lemma from_rows_latest_first customer_id start_date end_date rows :
  latest_first (from_rows customer_id start_date end_date rows).
Proof.
  unfold latest_first, from_rows.
  generalize (order_by_desc_sorted
                (List.filter (selected customer_id start_date end_date) rows)).
  generalize (order_by_desc (List.filter (selected customer_id start_date end_date) rows)).
  induction 1 as [|y sorted Hsorted IH Hall]; simpl; constructor; [exact IH|].
  apply Forall_map. exact Hall.
Qed.

Lemma from_rows_Permutation customer_id start_date end_date rows :
  from_rows customer_id start_date end_date rows
  ≡ₚ map dict_of_row (List.filter (selected customer_id start_date end_date) rows).
Proof. unfold from_rows. now rewrite order_by_desc_Permutation. Qed.

Lemma from_rows_nil customer_id start_date end_date rows :
  from_rows customer_id start_date end_date rows = []
  <-> List.filter (selected customer_id start_date end_date) rows = [].
Proof.
  split; intros H.
  - unfold from_rows in H. apply map_eq_nil in H.
    apply Permutation_nil. rewrite <- H. apply order_by_desc_Permutation.
  - unfold from_rows. now rewrite H.
Qed.

(** *** What the methods read and write *)

Section Runs.

Variable env : Env.

(** [_get_audit_logs] in full: the rows of the table if the session
    answers and has rows to give, and otherwise what the in-memory list
    gives; nothing is changed but the round-trip counter. *)
Lemma get_audit_logs_run customer_id start_date end_date self :
  _get_audit_logs env customer_id start_date end_date self
  = match db_session self with
    | Some session =>
        (Return
           (if db_down env (Db.round_trips session)
            then from_memory customer_id start_date end_date self
            else match from_rows customer_id start_date end_date (Db.tables session) with
                 | [] => from_memory customer_id start_date end_date self
                 | logs => logs
                 end),
         set_db (Db.mkSession (Db.tables session) (S (Db.round_trips session))) self)
    | None => (Return (from_memory customer_id start_date end_date self), self)
    end.
Proof.
  unfold _get_audit_logs, from_memory, from_rows, bind, get, try_except, on_db,
    Db.query, Db.round_trip, ret.
  destruct (db_session self) as [session|] eqn:Ed; simpl.
  - rewrite Ed. destruct (db_down env (Db.round_trips session)); simpl.
    + now destruct (memory_logs self).
    + destruct (map dict_of_row _); [|reflexivity]. now destruct (memory_logs self).
  - now destruct (memory_logs self).
Qed.

(** [_store_audit_log] in full. *)
Lemma store_audit_log_run log_entry self :
  _store_audit_log env log_entry self
  = (Return tt,
     match db_session self with
     | Some session =>
         if db_down env (Db.round_trips session)
         then snd (append_memory_log log_entry
                     (set_db (Db.mkSession (Db.tables session)
                                           (S (Db.round_trips session))) self))
         else set_db (Db.mkSession (Db.tables session ++ [log_entry])%list
                                   (S (Db.round_trips session))) self
     | None => snd (append_memory_log log_entry self)
     end).
Proof.
  unfold _store_audit_log, bind, get, try_except, on_db, Db.commit, Db.round_trip, ret.
  destruct (db_session self) as [session|] eqn:Ed; simpl.
  - rewrite Ed. destruct (db_down env (Db.round_trips session)); reflexivity.
  - reflexivity.
Qed.

(** After the record is stored, [log_event] leaves the records alone. *)
Lemma log_event_records event_type event_data self :
  (exists details, json_dumps env event_data = Return details) ->
  records_kept
    (snd (_store_audit_log env (make_log_entry env event_type event_data event_data) self))
    (snd (log_event env event_type event_data self)).
Proof.
  intros [details Hjson].
  assert (details = event_data) as ->.
  { unfold json_dumps in Hjson. destruct (value_error _ _ _); congruence. }
  destruct (AuditSpec.log_event_phases env event_type event_data event_data self Hjson)
    as (s1 & s2 & anomalies & s3 & s4 & E1 & E2 & E3 & E4 & E).
  rewrite E, E1. simpl.
  pose proof (AuditSpec.update_metrics_metrics_step env event_data event_type s1) as H2.
  pose proof (AuditSpec.detect_anomalies_metrics_step env event_type event_data s2) as H3.
  pose proof (AuditSpec.handle_anomalies_publishes env event_data anomalies s3) as H4.
  rewrite E2 in H2. rewrite E3 in H3. rewrite E4 in H4. simpl in H2, H3, H4.
  destruct H2 as (_ & [H2d H2m] & _). destruct H3 as (_ & [H3d H3m] & _).
  destruct H4 as (_ & _ & [H4d H4m]).
  split; congruence.
Qed.

End Runs.



(** X13: what is logged in the database is reported from the database.
    When the server answers the commit of [log_event] and the query of
    [_get_audit_logs], and the entry is selected (its time stamp in the
    period, its customer the one asked for, if one is), the logs
    returned contain the entry's row; they are the selected rows of the
    table, none lost and none invented, and they come latest first. *)
Theorem logged_event_is_reported_from_database
    (env report_env : Env) (event_type : string) (event_data : EventData)
    (self : Agent) (session : Db.session (list LogEntry))
    (customer_id : option string) (start_date end_date : datetime) :
  db_session self = Some session ->
  (exists details, json_dumps env event_data = Return details) ->
  db_down env (Db.round_trips session) = false ->
  db_down report_env (S (Db.round_trips session)) = false ->
  let entry := make_log_entry env event_type event_data event_data in
  selected customer_id start_date end_date entry = true ->
  exists logs,
    fst (_get_audit_logs report_env customer_id start_date end_date
           (snd (log_event env event_type event_data self)))
    = Return logs
    /\ In (dict_of_row entry) logs
    /\ logs ≡ₚ map dict_of_row
                  (List.filter (selected customer_id start_date end_date)
                               (Db.tables session ++ [entry]))
    /\ latest_first logs.
Proof.
  intros Hdb Hjson Hup Hup' entry Hselected.
  pose proof (log_event_records env event_type event_data self Hjson) as [Hd _].
  rewrite store_audit_log_run, Hdb, Hup in Hd. simpl in Hd. fold entry in Hd.
  rewrite get_audit_logs_run, Hd. simpl. rewrite Hup'.
  set (rows := (Db.tables session ++ [entry])%list).
  assert (Hin : In entry (List.filter (selected customer_id start_date end_date) rows)).
  { apply filter_In. split; [|exact Hselected].
    apply in_or_app. right. now left. }
  pose proof (from_rows_Permutation customer_id start_date end_date rows) as Hperm.
  pose proof (from_rows_latest_first customer_id start_date end_date rows) as Hsorted.
  destruct (from_rows customer_id start_date end_date rows) as [|log logs] eqn:E.
  - apply from_rows_nil in E. rewrite E in Hin. contradiction.
  - exists (log :: logs). split; [reflexivity|]. split; [|split; assumption].
    apply (Permutation_in _ (Permutation_sym Hperm)). now apply in_map.
Qed.

(** The [document-processed] event of the agent's test, logged by the
    agent with a database and reported for all customers. *)
Lemma logged_event_is_reported_from_database_witness :
  fst (_get_audit_logs (example_env 30 true) None
         (mkDatetime 2024 1 4 9 30 7 0) (mkDatetime 2024 1 5 9 30 7 0)
         (snd (log_event (example_env 0 true) "document-processed"
                         example_success_event example_db_agent)))
  = Return [OfRow "document-processed" "DocumentIngestionAgent" "CUSTOMER_001"
                  "success" (mkDatetime 2024 1 5 9 0 7 0)].
Proof.
  destruct (logged_event_is_reported_from_database (example_env 0 true)
              (example_env 30 true) "document-processed" example_success_event
              example_db_agent (Db.mkSession [] 0) None
              (mkDatetime 2024 1 4 9 30 7 0) (mkDatetime 2024 1 5 9 30 7 0))
    as (logs & Hlogs & _ & Hperm & _);
    [reflexivity | exists example_success_event; reflexivity | reflexivity
    | reflexivity | reflexivity |].
  rewrite Hlogs. f_equal.
  apply Permutation_sym, Permutation_length_1_inv in Hperm. exact Hperm.
Defined.


(** *** The metrics *)

Section MetricsSteps.

Variable env : Env.

Lemma reads_guarded {A} k (m : M (Agent * Metrics) A) : reads env k m -> guarded env k m.
Proof.
  intros Hm self metrics c Hc. specialize (Hm self metrics c Hc).
  destruct (m (self, metrics)) as [[a|exc] [self' metrics']];
    intuition discriminate.
Qed.

Lemma reads_ret {A} (a : A) : reads env 0 (ret a).
Proof.
  intros self metrics c Hc. simpl.
  repeat split; try reflexivity; [|intros; lia].
  exists c. repeat split; [exact Hc | lia].
Qed.

Lemma guarded_update b f :
  (b = true -> forall m, system_health (f m) = system_health m) ->
  guarded_by b env 0 (update f).
Proof.
  intros Hf self metrics c Hc. simpl.
  repeat split; try reflexivity; [|intros; lia|intros Hb; now apply Hf].
  exists c. repeat split; [exact Hc | lia].
Qed.

Lemma reads_the_metrics : reads env 0 the_metrics.
Proof.
  intros self metrics c Hc. simpl.
  repeat split; try reflexivity; [|intros; lia].
  exists c. repeat split; [exact Hc | lia].
Qed.

Lemma reads_lift {A} (r : outcome A) : reads env 0 (lift_outcome r).
Proof.
  intros self metrics c Hc. destruct r as [a|exc]; simpl.
  - repeat split; try reflexivity; [|intros; lia].
    exists c. repeat split; [exact Hc | lia].
  - repeat split; try reflexivity. now exists c.
Qed.

(** A read-only command on the client. *)
Lemma reads_command {A} (run : Redis.client Redis.cell -> outcome A) :
  reads env 1
    (on_agent (on_redis (Redis.command (redis_down env)
                           (fun c => (run c, Redis.keys c))))).
Proof.
  intros self metrics c Hc.
  unfold on_agent, on_redis, Redis.command. rewrite Hc.
  destruct (redis_down env (Redis.issued c)) eqn:Hdown; simpl.
  - repeat split; try reflexivity. eexists. repeat split; reflexivity.
  - destruct (run c) as [a|exc]; simpl.
    + repeat split; try reflexivity.
      * eexists. repeat split; simpl; lia.
      * intros i Hi. replace i with 0 by lia. now rewrite Nat.add_0_r.
    + repeat split; try reflexivity. eexists. repeat split; reflexivity.
Qed.

Lemma reads_redis_get key : reads env 1 (redis_get env key).
Proof. apply (reads_command (fun c => Return (Redis.e_value <$> Redis.lookup _ key c))). Qed.

Lemma reads_keys prefix :
  reads env 1
    (on_agent (on_redis (Redis.keys_with_prefix (redis_down env) (clock env) prefix))).
Proof. apply (reads_command (fun c => Return _)). Qed.

Lemma guarded_bind {A B} b k1 k2 (m : M (Agent * Metrics) A)
    (f : A -> M (Agent * Metrics) B) :
  reads env k1 m -> (forall a, guarded_by b env k2 (f a)) ->
  guarded_by b env (k1 + k2) (bind m f).
Proof.
  intros Hm Hf self metrics c Hc. specialize (Hm self metrics c Hc).
  unfold bind.
  destruct (m (self, metrics)) as [[a|exc] [s1 m1]].
  - destruct Hm as (Hd & Hl & Hk & (c1 & Hc1 & Hkeys & Hissued) & Hup & Hhealth).
    specialize (Hf a s1 m1 c1 Hc1).
    destruct (f a (s1, m1)) as [[b'|exc] [s2 m2]].
    + destruct Hf as (Hd2 & Hl2 & Hk2 & (c2 & Hc2 & Hkeys2 & Hissued2) & Hup2 & Hhealth2).
      split; [congruence|]. split; [congruence|]. split; [congruence|].
      split; [exists c2; repeat split; [assumption | congruence | lia]|].
      split.
      * intros i Hi. destruct (Nat.lt_ge_cases i k1) as [Hlt | Hge]; [now apply Hup|].
        replace (Redis.issued c + i) with (Redis.issued c1 + (i - k1)) by lia.
        apply Hup2. lia.
      * intros Hb. rewrite (Hhealth2 Hb). now apply Hhealth.
    + destruct Hf as (Hd2 & Hl2 & Hk2 & (c2 & Hc2 & Hkeys2 & _) & Hhealth2).
      split; [congruence|]. split; [congruence|]. split; [congruence|].
      split; [exists c2; repeat split; [assumption | congruence]|].
      rewrite Hhealth2. now apply Hhealth.
  - exact Hm.
Qed.

Lemma reads_for_each {A} k (xs : list A) (body : A -> M (Agent * Metrics) unit) :
  (forall x, reads env k (body x)) -> reads env (length xs * k) (for_each xs body).
Proof.
  intros Hbody. induction xs as [|x xs IH]; simpl.
  - apply reads_ret.
  - apply guarded_bind; [apply Hbody | intros _; exact IH].
Qed.

Lemma reads_count_topic today topic : reads env 1 (count_topic env today topic).
Proof.
  unfold count_topic. apply (guarded_bind true 1 0); [apply reads_redis_get|].
  intros [cell|]; [|apply reads_ret].
  destruct (truthy cell); [|apply reads_ret].
  apply (guarded_bind true 0 0); [apply reads_lift|].
  intros n. now apply guarded_update.
Qed.

Lemma reads_count_or_zero key : reads env 1 (count_or_zero env key).
Proof.
  unfold count_or_zero. apply (guarded_bind true 1 0); [apply reads_redis_get|].
  intros [cell|]; [|apply reads_ret].
  destruct (truthy cell); [apply reads_lift | apply reads_ret].
Qed.

Lemma guarded_determine_health : guarded env 0 determine_health.
Proof.
  unfold determine_health. apply (guarded_bind false 0 0); [apply reads_the_metrics|].
  intros m. destruct (Py.lt _ _); [now apply guarded_update|].
  destruct (Py.lt _ _); [now apply guarded_update | apply reads_guarded, reads_ret].
Qed.

(** The method, with its body cut in the named parts. *)
Lemma get_compliance_metrics_body self :
  get_compliance_metrics env self
  = let today := strftime_Ymd (now env) in
    let body :=
      bind (for_each monitored_topics (count_topic env today)) (fun _ =>
      bind (count_or_zero env (daily_key today "success")) (fun success_count =>
      bind (count_or_zero env (daily_key today "failure")) (fun failure_count =>
      bind (if (0 <? success_count + failure_count)%Z
            then update (fun m => mkMetrics (total_events_today m)
                                    (Py.truediv_Z success_count
                                                  (success_count + failure_count)%Z)
                                    (active_agents m) (recent_failures m)
                                    (system_health m))
            else ret tt) (fun _ =>
      bind (on_agent (on_redis (Redis.keys_with_prefix (redis_down env) (clock env)
                                                       "audit:failure:")))
           (fun failure_keys =>
      bind (update (fun m => mkMetrics (total_events_today m) (success_rate m)
                               (active_agents m) (Some (length failure_keys))
                               (system_health m))) (fun _ =>
      determine_health)))))) in
    let '(_, (self', metrics)) :=
      (if Py.is_set (redis_client self)
       then try_except body (fun _ => ret tt)
       else ret tt) (self, initial_metrics) in
    (Return metrics, self').
Proof. reflexivity. Qed.

Lemma metrics_body_guarded today :
  guarded env 10
    (bind (for_each monitored_topics (count_topic env today)) (fun _ =>
     bind (count_or_zero env (daily_key today "success")) (fun success_count =>
     bind (count_or_zero env (daily_key today "failure")) (fun failure_count =>
     bind (if (0 <? success_count + failure_count)%Z
           then update (fun m => mkMetrics (total_events_today m)
                                   (Py.truediv_Z success_count
                                                 (success_count + failure_count)%Z)
                                   (active_agents m) (recent_failures m)
                                   (system_health m))
           else ret tt) (fun _ =>
     bind (on_agent (on_redis (Redis.keys_with_prefix (redis_down env) (clock env)
                                                      "audit:failure:")))
          (fun failure_keys =>
     bind (update (fun m => mkMetrics (total_events_today m) (success_rate m)
                              (active_agents m) (Some (length failure_keys))
                              (system_health m))) (fun _ =>
     determine_health))))))).
Proof.
  apply (guarded_bind false (length monitored_topics * 1) 3).
  { apply reads_for_each. intros topic. apply reads_count_topic. }
  intros _. apply (guarded_bind false 1 2); [apply reads_count_or_zero|].
  intros success_count. apply (guarded_bind false 1 1); [apply reads_count_or_zero|].
  intros failure_count. apply (guarded_bind false 0 1).
  { destruct (0 <? _)%Z; [now apply guarded_update | apply reads_ret]. }
  intros _. apply (guarded_bind false 1 0); [apply reads_keys|].
  intros failure_keys. apply (guarded_bind false 0 0); [now apply guarded_update|].
  intros _. apply guarded_determine_health.
Qed.

End MetricsSteps.

(** The method around a body that is guarded. *)
Lemma guarded_metrics env (body : M (Agent * Metrics) unit) self c :
  redis_client self = Some c ->
  guarded env 10 body ->
  exists metrics s',
    (let '(_, (self', metrics)) :=
       try_except body (fun _ => ret tt) (self, initial_metrics) in
     (@Return Metrics metrics, self'))
    = (Return metrics, s')
    /\ ((exists i, i < 10 /\ redis_down env (Redis.issued c + i) = true) ->
        system_health metrics = "healthy")
    /\ db_session s' = db_session self
    /\ memory_logs s' = memory_logs self
    /\ kafka_handler s' = kafka_handler self
    /\ (Redis.keys <$> redis_client s') = Some (Redis.keys c).
Proof.
  intros Hc Hbody. specialize (Hbody self initial_metrics c Hc).
  unfold try_except.
  destruct (body (self, initial_metrics)) as [[[]|exc] [s' m']].
  - destruct Hbody as (Hd & Hl & Hk & (c' & Hc' & Hkeys & _) & Hup & _).
    exists m', s'. split; [reflexivity|].
    split.
    { intros (i & Hi & Hdown). rewrite (Hup i Hi) in Hdown. discriminate. }
    rewrite Hc'. simpl. rewrite Hkeys. auto.
  - destruct Hbody as (Hd & Hl & Hk & (c' & Hc' & Hkeys & _) & Hhealth).
    exists m', s'. split; [reflexivity|].
    split; [intros; exact Hhealth|].
    rewrite Hc'. simpl. rewrite Hkeys. auto.
Qed.

(** X15: [get_compliance_metrics] never raises, and a Redis outage
    reads as healthy. Without a Redis client the method returns the
    initial dictionary: no event, success rate 0, health "healthy". With
    a client it issues up to ten commands (seven topic counters, the
    two counters of the success rate and the key scan); if the server
    fails any one of them the health returned is "healthy", whatever
    the counters hold. The method writes nothing: keys, audit records
    and bus are as they were. *)
Theorem metrics_outage_reads_healthy (env : Env) (self : Agent) :
  exists metrics s',
    get_compliance_metrics env self = (Return metrics, s')
    /\ (redis_client self = None -> metrics = initial_metrics /\ s' = self)
    /\ (forall c i,
          redis_client self = Some c -> i < 10 ->
          redis_down env (Redis.issued c + i) = true ->
          system_health metrics = "healthy")
    /\ db_session s' = db_session self
    /\ memory_logs s' = memory_logs self
    /\ kafka_handler s' = kafka_handler self
    /\ (Redis.keys <$> redis_client s') = (Redis.keys <$> redis_client self).
Proof.
  rewrite get_compliance_metrics_body. cbv zeta.
  destruct (redis_client self) as [c|] eqn:Hc.
  - destruct (guarded_metrics env _ self c Hc
                (metrics_body_guarded env (strftime_Ymd (now env))))
      as (metrics & s' & Hrun & Hhealthy & Hd & Hl & Hk & Hkeys).
    exists metrics, s'. split; [exact Hrun|]. split; [discriminate|].
    split; [|auto].
    intros c0 i [= <-] Hi Hdown. apply Hhealthy. eauto.
  - exists initial_metrics, self. split; [reflexivity|].
    split; [auto|]. split; [discriminate|]. rewrite Hc. auto.
Qed.

(** *** What logging leaves in Redis *)

Section Keys.

Variable I : gmap string (Redis.entry Redis.cell) -> Prop.

Lemma keeps_refl s : keeps I s s.
Proof. split; auto. Qed.

Lemma keeps_trans s1 s2 s3 : keeps I s1 s2 -> keeps I s2 s3 -> keeps I s1 s3.
Proof. unfold keeps. tauto. Qed.

Lemma same_client_keeps s s' : redis_client s' = redis_client s -> keeps I s s'.
Proof. unfold keeps, holds. intros ->. auto. Qed.

Lemma own_values_insert ks k e :
  own_values ks -> own_value k e -> own_values (<[k := e]> ks).
Proof.
  intros Hks He k' e' Hlookup.
  destruct (decide (k' = k)) as [-> | Hne].
  - rewrite lookup_insert_eq in Hlookup. now injection Hlookup as <-.
  - rewrite lookup_insert_ne in Hlookup by congruence. now apply Hks.
Qed.

Lemma on_redis_keeps {A} (m : M (Redis.client Redis.cell) A) :
  (forall c, I (Redis.keys c) /\ own_values (Redis.keys c) ->
             I (Redis.keys (snd (m c))) /\ own_values (Redis.keys (snd (m c)))) ->
  steps_within (keeps I) (on_redis m).
Proof.
  intros Hm s. unfold on_redis, keeps, holds.
  destruct (redis_client s) as [c|] eqn:E; [|simpl; rewrite E; auto].
  specialize (Hm c). destruct (m c) as [r c']. simpl in *. auto.
Qed.

Section Commands.

Variable env : Env.
Variable k : string.
Hypothesis Hclosed : forall ks e, I ks -> I (<[k := e]> ks).

Lemma incr_keeps : steps_within (keeps I) (incr env k).
Proof.
  apply on_redis_keeps. intros c [HI Hown].
  unfold Redis.incr, Redis.command.
  destruct (redis_down env _); simpl; [auto|].
  destruct (Redis.lookup (clock env) k c) as [e|]; simpl.
  - destruct (Redis.as_int _); simpl; [|auto].
    split; [now apply Hclosed|]. apply own_values_insert; [exact Hown|].
    right. now eexists.
  - split; [now apply Hclosed|]. apply own_values_insert; [exact Hown|].
    right. now eexists.
Qed.

Lemma expire_keeps seconds : steps_within (keeps I) (expire env k seconds).
Proof.
  apply on_redis_keeps. intros c [HI Hown].
  unfold Redis.expire, Redis.command.
  destruct (redis_down env _); simpl; [auto|].
  unfold Redis.lookup.
  destruct (Redis.keys c !! k) as [e|] eqn:Ek; simpl; [|auto].
  destruct (Redis.live (clock env) e); simpl; [|auto].
  split; [now apply Hclosed|]. apply own_values_insert; [exact Hown|].
  exact (Hown k e Ek).
Qed.

Lemma setex_keeps seconds text :
  String.prefix "audit:alert:" k = true ->
  steps_within (keeps I) (setex env k seconds text).
Proof.
  intros Halert. apply on_redis_keeps. intros c [HI Hown].
  unfold Redis.setex, Redis.command.
  destruct (redis_down env _); simpl; [auto|].
  split; [now apply Hclosed|]. apply own_values_insert; [exact Hown|]. now left.
Qed.

End Commands.

Ltac keeps_bind := apply within_bind; [exact keeps_trans | | intros ?].
Ltac keeps_try := apply within_try_except; [exact keeps_trans | | intros ?].
Ltac keeps_leaf :=
  first [apply within_ret | apply within_get | apply within_raise]; exact keeps_refl.

Section Methods.

Variable env : Env.
Variable event_type : string.
Variable event_data : EventData.
Hypothesis Hclosed : closed_under I (written_keys env event_type event_data).

Let closed_at k : In k (written_keys env event_type event_data) ->
                  forall ks e, I ks -> I (<[k := e]> ks).
Proof. intros Hin ks e HI. now apply Hclosed. Qed.

Lemma update_metrics_keeps : steps_within (keeps I) (_update_metrics env event_type).
Proof.
  unfold _update_metrics. keeps_bind; [keeps_leaf|].
  destruct (Py.is_set (redis_client a)); [|keeps_leaf].
  keeps_try; [|keeps_leaf].
  keeps_bind; [apply incr_keeps, closed_at; simpl; auto|].
  keeps_bind; [apply incr_keeps, closed_at; simpl; auto|].
  keeps_bind; [apply expire_keeps, closed_at; simpl; auto|].
  keeps_leaf.
Qed.

Lemma detect_anomalies_keeps :
  steps_within (keeps I) (_detect_anomalies env event_type event_data).
Proof.
  unfold _detect_anomalies. keeps_bind; [keeps_leaf|].
  keeps_bind.
  { destruct (bool_decide _); [|keeps_leaf].
    destruct (Py.is_set (redis_client a)); [|keeps_leaf].
    keeps_try; [|keeps_leaf].
    keeps_bind; [apply incr_keeps, closed_at; simpl; auto|].
    keeps_bind; [apply expire_keeps, closed_at; simpl; auto|].
    keeps_leaf. }
  keeps_bind; [|keeps_leaf].
  destruct (Py.is_set (redis_client a)); [|keeps_leaf].
  keeps_try; [|keeps_leaf].
  keeps_bind; [apply incr_keeps, closed_at; simpl; auto|].
  keeps_bind; [apply expire_keeps, closed_at; simpl; auto|].
  keeps_leaf.
Qed.

Lemma handle_anomalies_keeps anomalies :
  steps_within (keeps I) (_handle_anomalies env anomalies).
Proof.
  unfold _handle_anomalies. apply within_for_each; [exact keeps_refl | exact keeps_trans|].
  intros anomaly. keeps_bind.
  { intros s. now apply same_client_keeps. }
  keeps_bind; [keeps_leaf|].
  destruct (Py.is_set (redis_client a0)); [|keeps_leaf].
  keeps_try; [|keeps_leaf].
  apply setex_keeps; [apply closed_at; simpl; auto 10|].
  simpl. now destruct (strftime_YmdHMS (now env)).
Qed.

Lemma log_event_keeps : steps_within (keeps I) (log_event env event_type event_data).
Proof.
  unfold log_event. keeps_bind.
  { destruct (json_dumps env event_data); keeps_leaf. }
  keeps_bind.
  { intros s. apply same_client_keeps.
    now destruct (AuditSpec.store_audit_log_store_step env
                    (make_log_entry env event_type event_data a) s). }
  keeps_bind; [apply update_metrics_keeps|].
  keeps_bind; [apply detect_anomalies_keeps|].
  keeps_bind; [destruct a2; [keeps_leaf | apply handle_anomalies_keeps]|].
  keeps_leaf.
Qed.

End Methods.

Lemma run_events_keeps calls self :
  Forall (fun call : Env * string * EventData =>
            closed_under I (written_keys call.1.1 call.1.2 call.2)) calls ->
  keeps I self (run_events calls self).
Proof.
  revert self. induction calls as [|[[env event_type] event_data] calls IH];
    intros self Hcalls; simpl; [apply keeps_refl|].
  inversion Hcalls as [|? ? Hcall Hrest]; subst.
  eapply keeps_trans; [|apply IH, Hrest].
  apply (log_event_keeps env event_type event_data Hcall self).
Qed.

End Keys.

(** *** The keys of the success rate are never written *)

Lemma has_colon_app a b : has_colon (a +:+ b) = has_colon a || has_colon b.
Proof.
  induction a as [|c a IH]; simpl; [reflexivity|]. now rewrite IH, orb_assoc.
Qed.

Lemma has_colon_digits u : has_colon (NilEmpty.string_of_uint u) = false.
Proof. induction u; simpl; auto. Qed.

Lemma has_colon_zeros n : has_colon (Py.zeros n) = false.
Proof. induction n; simpl; auto. Qed.

Lemma has_colon_zfill width n : has_colon (Py.zfill width n) = false.
Proof.
  unfold Py.zfill, Py.str_of_N.
  now rewrite has_colon_app, has_colon_zeros, has_colon_digits.
Qed.

Lemma has_colon_Ymd d : has_colon (strftime_Ymd d) = false.
Proof.
  unfold strftime_Ymd, date_part.
  now rewrite !has_colon_app, !has_colon_zfill.
Qed.

(** Two texts cut at their first colon. *)
Lemma split_first_colon a a' b b' :
  has_colon a = false -> has_colon a' = false ->
  a +:+ String ":" b = a' +:+ String ":" b' -> a = a' /\ b = b'.
Proof.
  revert a'. induction a as [|c a IH]; intros [|c' a']; simpl.
  - intros _ _ [= ->]. auto.
  - intros _ Hc' [= <- _]. discriminate.
  - intros Hc _ [= -> _]. discriminate.
  - intros Hc Hc' [= -> Hrest].
    apply orb_false_elim in Hc as [_ Hc]. apply orb_false_elim in Hc' as [_ Hc'].
    destruct (IH a' Hc Hc' Hrest) as [-> ->]. auto.
Qed.

Lemma daily_key_inj d today event_type status :
  daily_key (strftime_Ymd d) event_type = daily_key today status ->
  has_colon today = false ->
  event_type = status.
Proof.
  unfold daily_key. simpl. intros [= H] Htoday.
  now destruct (split_first_colon _ _ _ _ (has_colon_Ymd d) Htoday H).
Qed.

Lemma unread_closed env event_type event_data today :
  has_colon today = false ->
  event_type <> "success" -> event_type <> "failure" ->
  closed_under (unread today) (written_keys env event_type event_data).
Proof.
  intros Htoday Hs Hf ks k e (H1 & H2 & H3) Hin.
  assert (Hk : k <> daily_key today "success" /\ k <> daily_key today "failure"
               /\ String.prefix "audit:failure:" k = false).
  { simpl in Hin.
    destruct Hin as [<- | [<- | [<- | [<- | [<- | []]]]]].
    - repeat split; try reflexivity; unfold daily_key; simpl; discriminate.
    - split; [|split; [|reflexivity]]; intros H.
      + apply Hs. now apply (daily_key_inj _ _ _ _ H).
      + apply Hf. now apply (daily_key_inj _ _ _ _ H).
    - repeat split; try reflexivity; unfold daily_key, failure_key; simpl; discriminate.
    - repeat split; try reflexivity; unfold daily_key, rate_key; simpl; discriminate.
    - repeat split; try reflexivity; unfold daily_key; simpl; discriminate. }
  destruct Hk as (Hk1 & Hk2 & Hk3).
  split; [now rewrite lookup_insert_ne|]. split; [now rewrite lookup_insert_ne|].
  intros k' Hprefix. rewrite lookup_insert_ne; [now apply H3 | congruence].
Qed.

(** *** The metrics read after logging *)

Lemma filter_none {A} (f : A -> bool) (l : list A) :
  (forall x, In x l -> f x = false) -> List.filter f l = [].
Proof.
  induction l as [|x l IH]; intros H; simpl; [reflexivity|].
  rewrite (H x) by now left. apply IH. intros y Hy. apply H. now right.
Qed.

Section Reading.

Variable env : Env.
Hypothesis Hup : forall i, redis_down env i = false.

Lemma redis_get_run key self metrics c :
  redis_client self = Some c ->
  redis_get env key (self, metrics)
  = (Return (Redis.e_value <$> Redis.lookup (clock env) key c),
     (set_redis (Redis.mkClient (Redis.keys c) (S (Redis.issued c))) self, metrics)).
Proof.
  intros Hc. unfold redis_get, on_agent, on_redis, Redis.get, Redis.command.
  now rewrite Hc, Hup.
Qed.

Lemma lookup_own key c e :
  own_values (Redis.keys c) ->
  Redis.lookup (clock env) key c = Some e ->
  own_value key e.
Proof.
  intros Hown. unfold Redis.lookup.
  destruct (Redis.keys c !! key) as [e'|] eqn:E; [|discriminate].
  destruct (Redis.live _ _); [|discriminate]. intros [= <-]. now apply Hown.
Qed.

(** Counting the topics returns, leaves the keys alone and changes the
    number of events only. *)
Lemma count_topics_run today topics self metrics c :
  redis_client self = Some c ->
  own_values (Redis.keys c) ->
  exists s' m' c',
    for_each topics (count_topic env today) (self, metrics) = (Return tt, (s', m'))
    /\ redis_client s' = Some c' /\ Redis.keys c' = Redis.keys c
    /\ success_rate m' = success_rate metrics
    /\ recent_failures m' = recent_failures metrics
    /\ system_health m' = system_health metrics.
Proof.
  revert self metrics c. induction topics as [|topic topics IH];
    intros self metrics c Hc Hown; simpl.
  - exists self, metrics, c. auto 10.
  - assert (Hstep : exists m1,
              count_topic env today topic (self, metrics)
              = (Return tt,
                 (set_redis (Redis.mkClient (Redis.keys c) (S (Redis.issued c))) self, m1))
              /\ success_rate m1 = success_rate metrics
              /\ recent_failures m1 = recent_failures metrics
              /\ system_health m1 = system_health metrics).
    { unfold count_topic. unfold bind at 1. rewrite (redis_get_run _ _ _ c Hc).
      destruct (Redis.lookup (clock env) (daily_key today topic) c) as [e|] eqn:E; simpl.
      - destruct (lookup_own _ _ _ Hown E) as [Halert | [n Hn]];
          [unfold daily_key in Halert; simpl in Halert; discriminate|].
        rewrite Hn. simpl. eexists. split; [reflexivity|]. auto.
      - eexists. split; [reflexivity|]. auto. }
    destruct Hstep as (m1 & E1 & Hr1 & Hf1 & Hh1).
    unfold bind. rewrite E1.
    destruct (IH (set_redis (Redis.mkClient (Redis.keys c) (S (Redis.issued c))) self)
                 m1 _ eq_refl Hown)
      as (s' & m' & c' & E & Hc' & Hkeys & Hr & Hf & Hh).
    exists s', m', c'. rewrite E. simpl in Hkeys. repeat split; congruence.
Qed.

Lemma count_or_zero_absent key self metrics c :
  redis_client self = Some c ->
  Redis.keys c !! key = None ->
  count_or_zero env key (self, metrics)
  = (Return 0%Z,
     (set_redis (Redis.mkClient (Redis.keys c) (S (Redis.issued c))) self, metrics)).
Proof.
  intros Hc Habsent. unfold count_or_zero, bind.
  rewrite (redis_get_run _ _ _ c Hc). unfold Redis.lookup. now rewrite Habsent.
Qed.

Lemma scan_unread today self metrics c :
  redis_client self = Some c ->
  unread today (Redis.keys c) ->
  on_agent (on_redis (Redis.keys_with_prefix (redis_down env) (clock env)
                                             "audit:failure:")) (self, metrics)
  = (Return [],
     (set_redis (Redis.mkClient (Redis.keys c) (S (Redis.issued c))) self, metrics)).
Proof.
  intros Hc (_ & _ & Hnone).
  unfold on_agent, on_redis, Redis.keys_with_prefix, Redis.command.
  rewrite Hc, Hup.
  assert (Hempty :
    List.filter (fun kv : string * Redis.entry Redis.cell =>
                   String.prefix "audit:failure:" kv.1 && Redis.live (clock env) kv.2)
                (map_to_list (Redis.keys c)) = []).
  { apply filter_none. intros [k e] Hin.
    apply list_elem_of_In, elem_of_map_to_list in Hin. simpl.
    destruct (String.prefix "audit:failure:" k) eqn:Hp; [|reflexivity].
    rewrite (Hnone k Hp) in Hin. discriminate. }
  now rewrite Hempty.
Qed.

(** With neither of the two keys of the success rate and no key of the
    scan in Redis, the metrics read a success rate of 0, no recent
    failure and a critical health. *)
Lemma metrics_of_unread self c :
  redis_client self = Some c ->
  unread (strftime_Ymd (now env)) (Redis.keys c) ->
  own_values (Redis.keys c) ->
  exists metrics,
    fst (get_compliance_metrics env self) = Return metrics
    /\ success_rate metrics = 0%float
    /\ system_health metrics = "critical"
    /\ recent_failures metrics = Some 0.
Proof.
  intros Hc Hunread Hown.
  rewrite get_compliance_metrics_body. cbv zeta. rewrite Hc.
  unfold Py.is_set. cbv beta iota.
  set (today := strftime_Ymd (now env)) in *.
  destruct (count_topics_run today monitored_topics self initial_metrics c Hc Hown)
    as (s1 & m1 & c1 & E1 & Hc1 & Hkeys1 & Hr1 & Hf1 & Hh1).
  unfold try_except. unfold bind at 1. rewrite E1.
  destruct Hunread as (Hs & Hf & Hscan).
  unfold bind at 1. rewrite (count_or_zero_absent _ s1 m1 c1 Hc1) by congruence.
  set (c2 := Redis.mkClient (Redis.keys c1) (S (Redis.issued c1))).
  set (s2 := set_redis c2 s1).
  assert (Hc2 : redis_client s2 = Some c2) by reflexivity.
  unfold bind at 1.
  rewrite (count_or_zero_absent _ s2 m1 c2 Hc2) by (simpl; congruence).
  set (c3 := Redis.mkClient (Redis.keys c2) (S (Redis.issued c2))).
  set (s3 := set_redis c3 s2).
  assert (Hc3 : redis_client s3 = Some c3) by reflexivity.
  change (0 <? 0 + 0)%Z with false. cbv iota.
  unfold bind at 1. unfold ret at 1.
  unfold bind at 1.
  rewrite (scan_unread today s3 m1 c3 Hc3)
    by (unfold unread; simpl; rewrite Hkeys1; auto).
  unfold bind at 1. unfold update at 1, modify at 1.
  unfold determine_health, bind, the_metrics. simpl success_rate.
  rewrite Hr1. simpl.
  eexists. split; [reflexivity|]. auto.
Qed.

End Reading.

(** X16: the success rate never sees the events logged. Starting from
    an empty Redis, after any sequence of [log_event] calls none of
    which has the event type "success" or "failure" (whatever the
    statuses of the events, and whichever Redis commands failed
    meanwhile), [get_compliance_metrics] on a server that answers
    reports a success rate of 0 and the health "critical", and counts
    no recent failure: the counters it reads for the rate are kept per
    event type, and the keys it scans are not those of the failure
    counters. *)
Theorem metrics_after_logging
    (calls : list (Env * string * EventData)) (self : Agent)
    (c : Redis.client Redis.cell) (env : Env) :
  redis_client self = Some c ->
  Redis.keys c = ∅ ->
  Forall (fun call : Env * string * EventData =>
            call.1.2 <> "success" /\ call.1.2 <> "failure") calls ->
  (forall i, redis_down env i = false) ->
  exists metrics,
    fst (get_compliance_metrics env (run_events calls self)) = Return metrics
    /\ success_rate metrics = 0%float
    /\ system_health metrics = "critical"
    /\ recent_failures metrics = Some 0.
Proof.
  intros Hc Hempty Hcalls Hup.
  set (today := strftime_Ymd (now env)).
  assert (Hclosed : Forall (fun call : Env * string * EventData =>
                              closed_under (unread today)
                                           (written_keys call.1.1 call.1.2 call.2)) calls).
  { apply (Forall_impl _ _ _ Hcalls). intros [[env' event_type] event_data] [Hs Hf].
    apply unread_closed; [apply has_colon_Ymd | exact Hs | exact Hf]. }
  destruct (run_events_keeps (unread today) calls self Hclosed) as [Hholds Hclient].
  unfold holds in Hholds. rewrite Hc, Hempty in Hholds. rewrite Hc in Hclient.
  destruct (redis_client (run_events calls self)) as [c'|] eqn:Hc';
    [|specialize (Hclient eq_refl); discriminate].
  destruct Hholds as [Hunread Hown].
  { split.
    - repeat split; intros; apply lookup_empty.
    - intros k e Hlookup. rewrite lookup_empty in Hlookup. discriminate. }
  now apply (metrics_of_unread env Hup _ c').
Qed.

(** The six failures of the run for illustration, then the metrics. *)
Lemma metrics_after_logging_witness :
  exists metrics,
    fst (get_compliance_metrics (example_env 55 true)
           (run_events six_failures example_agent)) = Return metrics
    /\ system_health metrics = "critical".
Proof.
  destruct (metrics_after_logging six_failures example_agent (Redis.mkClient ∅ 0)
              (example_env 55 true))
    as (metrics & Hrun & _ & Hhealth & _).
  - reflexivity.
  - reflexivity.
  - unfold six_failures. repeat constructor; simpl; discriminate.
  - reflexivity.
  - exists metrics. auto.
Defined.

(** The exception of a list of items is that of one of them. *)
Lemma first_error_among {A} (error : A -> option string) (l : list A) exc :
  first_error error l = Some exc -> exists x, In x l /\ error x = Some exc.
Proof.
  induction l as [|x rest IH]; simpl; [discriminate|].
  destruct (error x) as [e|] eqn:E.
  - intros [= <-]. exists x. auto.
  - intros H. destruct (IH H) as (y & Hy & Ey). exists y. auto.
Qed.

(** Items the encoder writes are passed over. *)
Lemma first_error_after {A} (error : A -> option string) (before : list A) x after :
  Forall (fun y => error y = None) before ->
  first_error error (before ++ x :: after)
  = match error x with
    | Some exc => Some exc
    | None => first_error error after
    end.
Proof.
  induction before as [|y rest IH]; intros H; [reflexivity|].
  apply Forall_cons in H as [Hy Hrest]. simpl. rewrite Hy. now apply IH.
Qed.

(** The encoder raises nothing but these three. *)
Lemma value_error_kinds digits nesting : forall v exc,
  value_error digits nesting v = Some exc ->
  In exc ["TypeError"; "ValueError"; "RecursionError"].
Proof.
  assert (Hint : forall n exc, int_error digits n = Some exc ->
                   In exc ["TypeError"; "ValueError"; "RecursionError"]).
  { intros n exc. unfold int_error. destruct digits as [limit|]; [|discriminate].
    destruct (_ <? _)%nat; [|discriminate]. intros [= <-]. simpl. auto. }
  induction nesting as [|inner IH]; intros v exc; destruct v; simpl;
    try discriminate; try apply Hint; try (intros [= <-]; simpl; now auto).
  - intros H. apply first_error_among in H as (x & _ & Hx). now apply (IH x).
  - intros H. apply first_error_among in H as ([k x] & _ & Hx). simpl in Hx.
    destruct (key_error digits k) as [e|] eqn:Ek; [|now apply (IH x)].
    injection Hx as <-. destruct k; simpl in Ek; try discriminate;
      try (injection Ek as <-; simpl; now auto). now apply (Hint n).
Qed.

(** The five keys the agent reads hold texts, which are written. *)
Lemma items_error digits inner (d : EventData) :
  value_error digits (S inner) (PyDict (items d))
  = value_error digits (S inner) (PyDict (extra d)).
Proof.
  unfold items. simpl.
  destruct (event_id d), (agent_name d), (customer_id d), (action d), (status d);
    simpl; destruct inner; reflexivity.
Qed.

(** X17: a payload that [json.dumps] cannot encode is not logged.
    [log_event] raises exactly when [json.dumps] raises on the payload,
    and with the same exception, which is [TypeError], [ValueError] or
    [RecursionError]; it then has stored no record, touched no counter
    and published nothing: the agent is as it was. On a payload that
    [json.dumps] encodes the call returns. The exception is that of the
    first item that cannot be encoded: [RecursionError] for whatever
    payload when the interpreter allows no container to be entered, and
    otherwise, after items that are written, [TypeError] for an object
    without encoding or a key that is a tuple, [ValueError] for the
    payload met again inside itself or an integer of more digits than
    the interpreter converts, [RecursionError] for a list inside the
    payload when only the payload itself may be entered. *)
Theorem unencodable_event_not_logged
    (env : Env) (event_type : string) (event_data : EventData) (self : Agent) :
  let call := log_event env event_type event_data self in
  (forall exc, fst call = Raise exc <-> json_dumps env event_data = Raise exc)
  /\ (forall exc, json_dumps env event_data = Raise exc ->
                  call = (Raise exc, self)
                  /\ In exc ["TypeError"; "ValueError"; "RecursionError"])
  /\ (forall details, json_dumps env event_data = Return details ->
                      exists result, fst call = Return result)
  /\ (nesting_allowed env = 0 -> json_dumps env event_data = Raise "RecursionError")
  /\ (forall inner before key value after exc,
        nesting_allowed env = S inner ->
        extra event_data = (before ++ (PyStr key, value) :: after)%list ->
        Forall plain before ->
        value_error (int_max_str_digits env) inner value = Some exc ->
        json_dumps env event_data = Raise exc)
  /\ (forall digits inner,
        value_error digits inner PyObject = Some "TypeError"
        /\ value_error digits (S inner) (PyDict [(PyList [PyInt 1; PyInt 2], PyNone)])
           = Some "TypeError"
        /\ value_error digits (S inner) PyRef = Some "ValueError"
        /\ value_error (Some 3) inner (PyInt (-1000)) = Some "ValueError"
        /\ value_error (Some 3) inner (PyInt 999) = None
        /\ value_error digits 0 (PyList []) = Some "RecursionError").
Proof.
  intros call.
  assert (Hraise : forall exc, json_dumps env event_data = Raise exc ->
                     call = (Raise exc, self)).
  { intros exc H. unfold call, log_event. now rewrite H. }
  assert (Hreturn : forall details, json_dumps env event_data = Return details ->
                      exists result, fst call = Return result).
  { intros details H.
    destruct (AuditSpec.log_event_phases env event_type event_data details self H)
      as (s1 & s2 & anomalies & s3 & s4 & _ & _ & _ & _ & E).
    unfold call. rewrite E. eauto. }
  split; [|split; [|split; [exact Hreturn|split; [|split]]]].
  - intros exc. split.
    + intros H. destruct (json_dumps env event_data) as [details|exc'] eqn:E.
      * destruct (Hreturn details eq_refl) as [result Hr]. congruence.
      * rewrite (Hraise exc' eq_refl) in H. simpl in H. congruence.
    + intros H. now rewrite (Hraise exc H).
  - intros exc H. split; [now apply Hraise|].
    unfold json_dumps in H.
    destruct (value_error _ _ _) as [e|] eqn:E; [|discriminate].
    injection H as <-. exact (value_error_kinds _ _ _ _ E).
  - intros H. unfold json_dumps. now rewrite H.
  - intros inner before key value after exc Hn Hextra Hplain Hvalue.
    unfold json_dumps. rewrite Hn, items_error, Hextra. simpl.
    rewrite first_error_after.
    + simpl. now rewrite Hvalue.
    + eapply Forall_impl; [exact Hplain|].
      intros [k v] Hkv. simpl. destruct k; try contradiction.
      destruct v; try contradiction; now destruct inner.
  - intros digits inner. repeat split; now destruct inner.
Qed.

End AuditReports.

(** ** The language model wrapper *)

Module OllamaFacts.

Import Ollama.

Lemma app_cons (c : ascii) (a b : string) : String c a +:+ b = String c (a +:+ b).
Proof. reflexivity. Qed.

Lemma app_empty_r (s : string) : s +:+ "" = s.
Proof. induction s; [reflexivity|]. rewrite app_cons. congruence. Qed.

Lemma app_assoc_string (a b c : string) : (a +:+ b) +:+ c = a +:+ (b +:+ c).
Proof. induction a; [reflexivity|]. rewrite !app_cons. congruence. Qed.

Lemma chars_app (a b : string) :
  list_ascii_of_string (a +:+ b)
  = (list_ascii_of_string a ++ list_ascii_of_string b)%list.
Proof. induction a; [reflexivity|]. rewrite app_cons. simpl. congruence. Qed.

Lemma fold_rendered (messages : list Message) (start : string) :
  fold_left (fun prompt msg => prompt +:+ render msg) messages start
  = start +:+ rendered messages.
Proof.
  revert start. induction messages as [|msg rest IH]; intros start; simpl.
  - now rewrite app_empty_r.
  - now rewrite IH, app_assoc_string.
Qed.

(** What a turn appends is empty or ends with a blank line. *)
Lemma render_shape (msg : Message) :
  (render msg = "" /\ skipped msg)
  \/ (exists text, render msg = text +:+ blank_line) /\ ~ skipped msg.
Proof.
  destruct msg as [role content|text]; simpl.
  - destruct (String.eqb_spec (default "user" role) "system") as [E1|E1];
      [right; split; [rewrite <- app_assoc_string; eauto | rewrite E1; intuition congruence]|].
    destruct (String.eqb_spec (default "user" role) "user") as [E2|E2];
      [right; split; [rewrite <- app_assoc_string; eauto | rewrite E2; intuition congruence]|].
    destruct (String.eqb_spec (default "user" role) "assistant") as [E3|E3];
      [right; split; [rewrite <- app_assoc_string; eauto | rewrite E3; intuition congruence]|].
    left. auto.
  - right. split; [eauto | auto].
Qed.

Lemma rendered_shape (messages : list Message) :
  (rendered messages = "" /\ Forall skipped messages)
  \/ (exists text, rendered messages = text +:+ blank_line)
     /\ ~ Forall skipped messages.
Proof.
  induction messages as [|msg rest IH]; simpl.
  - left. auto.
  - destruct (render_shape msg) as [[E Hs]|[[text E] Hs]]; rewrite E.
    + destruct IH as [[Er Hr]|[[text Er] Hr]].
      * left. rewrite Er. auto.
      * right. split; [simpl; eauto|]. intros H. now inversion H.
    + right. split; [|intros H; now inversion H].
      destruct IH as [[Er _]|[[more Er] _]]; rewrite Er.
      * rewrite app_empty_r. eauto.
      * exists (text +:+ blank_line +:+ more). now rewrite !app_assoc_string.
Qed.

Lemma blank_line_not_empty (text : string) : text +:+ blank_line <> "".
Proof. destruct text; discriminate. Qed.

(** A text that ends with a blank line does not end with a colon. *)
Lemma endswith_after_blank_line (text : string) :
  Py.endswith (text +:+ blank_line) "Assistant:" = false.
Proof.
  unfold Py.endswith. apply bool_decide_eq_false. rewrite chars_app.
  change (list_ascii_of_string "Assistant:")
    with (list_ascii_of_string "Assistant" ++ [":"%char])%list.
  change (list_ascii_of_string blank_line) with (["010"%char] ++ ["010"%char])%list.
  rewrite app_assoc. intros H. apply suffix_snoc_inv_1 in H. discriminate.
Qed.

(** X19: the prompt of a conversation. [_messages_to_prompt] puts the
    messages one after the other, each followed by a blank line, and
    the text so made always gets "Assistant:" at its end: the test
    [endswith] in the method never holds it back, also when the last
    message is the assistant's. The prompt is empty exactly when every
    message is a dictionary whose role is none of system, user and
    assistant; such messages leave no trace in the prompt. *)
Theorem messages_to_prompt_shape (messages : list Message) :
  (_messages_to_prompt messages = "" <-> Forall skipped messages)
  /\ (~ Forall skipped messages ->
      _messages_to_prompt messages = rendered messages +:+ "Assistant:"
      /\ exists text, rendered messages = text +:+ blank_line)
  /\ (forall before msg after,
        skipped msg ->
        _messages_to_prompt (before ++ msg :: after)
        = _messages_to_prompt (before ++ after)).
Proof.
  assert (Hprompt : forall l,
    _messages_to_prompt l
    = if String.eqb (rendered l) "" then "" else rendered l +:+ "Assistant:").
  { intros l. destruct l as [|msg rest]; [reflexivity|].
    unfold _messages_to_prompt. cbv zeta. rewrite fold_rendered.
    change ("" +:+ rendered (msg :: rest)) with (rendered (msg :: rest)).
    destruct (rendered_shape (msg :: rest)) as [[E _]|[[text E] _]]; rewrite E.
    - reflexivity.
    - rewrite endswith_after_blank_line.
      destruct (String.eqb_spec (text +:+ blank_line) "") as [E'|_]; [|reflexivity].
      now apply blank_line_not_empty in E'. }
  assert (Hrendered : forall before msg after,
    skipped msg -> rendered (before ++ msg :: after) = rendered (before ++ after)).
  { intros before msg after Hs.
    induction before as [|m before IH]; simpl; [|now rewrite IH].
    destruct (render_shape msg) as [[E _]|[_ Hn]]; [now rewrite E | contradiction]. }
  split; [|split].
  - rewrite Hprompt.
    destruct (rendered_shape messages) as [[E Hs]|[[text E] Hs]]; rewrite E.
    + simpl. tauto.
    + destruct (String.eqb_spec (text +:+ blank_line) "") as [E'|_];
        [now apply blank_line_not_empty in E'|].
      split; [|tauto]. intros H. destruct text; discriminate.
  - intros Hs. rewrite Hprompt.
    destruct (rendered_shape messages) as [[_ Hall]|[[text E] _]]; [contradiction|].
    rewrite E.
    destruct (String.eqb_spec (text +:+ blank_line) "") as [E'|_];
      [now apply blank_line_not_empty in E'|].
    eauto.
  - intros before msg after Hs. now rewrite !Hprompt, Hrendered.
Qed.

(** X20: the model the wrapper settles on. After [_test_connection]
    the model name is one the server lists whenever the server answers
    with status 200 and a list that is not empty: the name asked for
    if it is listed, else that name with [:latest] if that is listed,
    else the first of the list. In every other case (another status, a
    body that cannot be read, an empty list, no answer) the name stays
    as it was. Testing a second time against the same answer changes
    nothing. *)
Theorem test_connection_settles (tags : Tags) (model_name : string) :
  let chosen := _test_connection tags model_name in
  (forall model_names,
     tags = Answered 200 (Some model_names) -> model_names <> [] ->
     chosen ∈ model_names
     /\ (model_name ∈ model_names -> chosen = model_name)
     /\ (model_name ∉ model_names -> model_name +:+ ":latest" ∈ model_names ->
         chosen = model_name +:+ ":latest")
     /\ (model_name ∉ model_names -> model_name +:+ ":latest" ∉ model_names ->
         head model_names = Some chosen))
  /\ ((forall model_names, tags = Answered 200 (Some model_names) -> model_names = []) ->
      chosen = model_name)
  /\ _test_connection tags chosen = chosen.
Proof.
  cbv zeta. split; [|split].
  - intros names -> Hne. simpl.
    destruct (decide (model_name ∈ names)) as [Hin|Hout].
    + rewrite bool_decide_eq_true_2 by assumption. intuition.
    + rewrite bool_decide_eq_false_2 by assumption.
      destruct (decide (model_name +:+ ":latest" ∈ names)) as [Hin'|Hout'].
      * rewrite bool_decide_eq_true_2 by assumption. intuition.
      * rewrite bool_decide_eq_false_2 by assumption.
        destruct names as [|first rest]; [congruence|].
        split; [apply list_elem_of_here|]. intuition.
  - intros Hempty. destruct tags as [status [names|]|]; simpl; try reflexivity;
      [|now destruct (status =? 200)%Z].
    destruct (Z.eqb_spec status 200) as [->|_]; [|reflexivity].
    now rewrite (Hempty names eq_refl), !bool_decide_eq_false_2 by apply not_elem_of_nil.
  - destruct tags as [status [names|]|]; simpl; try reflexivity;
      [|now destruct (status =? 200)%Z].
    destruct (Z.eqb_spec status 200) as [->|_]; [|reflexivity].
    destruct (decide (model_name ∈ names)) as [Hin|Hout].
    + now rewrite !(bool_decide_eq_true_2 _ Hin).
    + rewrite (bool_decide_eq_false_2 _ Hout).
      destruct (decide (model_name +:+ ":latest" ∈ names)) as [Hin'|Hout'].
      * now rewrite !(bool_decide_eq_true_2 _ Hin').
      * rewrite (bool_decide_eq_false_2 _ Hout').
        destruct names as [|first rest].
        -- now rewrite (bool_decide_eq_false_2 _ Hout), (bool_decide_eq_false_2 _ Hout').
        -- now rewrite bool_decide_eq_true_2 by apply list_elem_of_here.
Qed.

(** *** The JSON object in an answer *)

Lemma length_app_string (a b : string) :
  String.length (a +:+ b) = (String.length a + String.length b)%nat.
Proof. induction a; [reflexivity|]. rewrite app_cons. simpl. congruence. Qed.

Lemma occurs_cons (c d : ascii) (s : string) :
  occurs c (String d s) <-> d = c \/ occurs c s.
Proof. reflexivity. Qed.

Lemma index_of_occurs (c : ascii) (s : string) :
  match Py.index_of c s with Some _ => occurs c s | None => ~ occurs c s end.
Proof.
  unfold occurs. induction s as [|d s IH]; simpl; [tauto|].
  destruct (Ascii.eqb_spec d c) as [->|Hne]; [tauto|].
  destruct (Py.index_of c s); simpl; tauto.
Qed.

Lemma last_index_of_occurs (c : ascii) (s : string) :
  match Py.last_index_of c s with Some _ => occurs c s | None => ~ occurs c s end.
Proof.
  unfold occurs. induction s as [|d s IH]; simpl; [tauto|].
  destruct (Py.last_index_of c s); simpl; [tauto|].
  destruct (Ascii.eqb_spec d c) as [->|Hne]; tauto.
Qed.

Lemma index_of_none (c : ascii) (s : string) :
  Py.index_of c s = None <-> ~ occurs c s.
Proof.
  pose proof (index_of_occurs c s) as H.
  destruct (Py.index_of c s); [split; [discriminate | tauto] | tauto].
Qed.

Lemma last_index_of_none (c : ascii) (s : string) :
  Py.last_index_of c s = None <-> ~ occurs c s.
Proof.
  pose proof (last_index_of_occurs c s) as H.
  destruct (Py.last_index_of c s); [split; [discriminate | tauto] | tauto].
Qed.

Lemma index_of_first (c : ascii) (a b : string) :
  ~ occurs c a -> Py.index_of c (a +:+ String c b) = Some (String.length a).
Proof.
  induction a as [|d a IH]; intros Ha.
  - change ("" +:+ String c b) with (String c b). simpl. now rewrite Ascii.eqb_refl.
  - rewrite app_cons. simpl. rewrite occurs_cons in Ha.
    destruct (Ascii.eqb_spec d c) as [->|_]; [tauto|].
    rewrite IH by tauto. reflexivity.
Qed.

Lemma last_index_of_last (c : ascii) (a b : string) :
  ~ occurs c b -> Py.last_index_of c (a +:+ String c b) = Some (String.length a).
Proof.
  intros Hb. induction a as [|d a IH].
  - change ("" +:+ String c b) with (String c b). simpl.
    apply last_index_of_none in Hb. now rewrite Hb, Ascii.eqb_refl.
  - rewrite app_cons. simpl. now rewrite IH.
Qed.

Lemma substring_skip (a rest : string) (n : nat) :
  String.substring (String.length a) n (a +:+ rest) = String.substring 0 n rest.
Proof.
  induction a as [|d a IH]; [reflexivity|]. rewrite app_cons. simpl. exact IH.
Qed.

Lemma substring_take (a rest : string) :
  String.substring 0 (String.length a) (a +:+ rest) = a.
Proof.
  induction a as [|d a IH].
  - now destruct rest.
  - rewrite app_cons. simpl. now rewrite IH.
Qed.

(** X21: the JSON object cut out of an answer. [_ai_validate] and
    [_analyze_with_ollama] hand to [json.loads] the text from the
    first opening brace to the last closing brace of the answer. So an
    object with text before it and after it is found whole, without
    that text, provided no opening brace comes before it and no
    closing brace after it. Nothing is cut out exactly when the answer
    lacks an opening or a closing brace. When the last closing brace
    comes before the first opening one, the empty text is cut out. *)
Theorem json_text_span (response : string) :
  (json_text response = None
   <-> ~ occurs "{" response \/ ~ occurs "}" response)
  /\ (forall before body after,
        response = before +:+ "{" +:+ body +:+ "}" +:+ after ->
        ~ occurs "{" before -> ~ occurs "}" after ->
        json_text response = Some ("{" +:+ body +:+ "}"))
  /\ (forall before between after,
        response = before +:+ "}" +:+ between +:+ "{" +:+ after ->
        ~ occurs "{" before -> ~ occurs "{" between ->
        ~ occurs "}" between -> ~ occurs "}" after ->
        json_text response = Some "").
Proof.
  split; [|split].
  - unfold json_text, Py.find, Py.rfind.
    rewrite <- index_of_none, <- last_index_of_none.
    destruct (Py.index_of "{" response) as [i|];
      destruct (Py.last_index_of "}" response) as [j|]; simpl.
    + replace (Z.of_nat i =? -1)%Z with false by (symmetry; apply Z.eqb_neq; lia).
      replace (Z.of_nat j + 1 >? 0)%Z with true by (symmetry; apply Z.gtb_lt; lia).
      simpl. split; [discriminate | intros [H|H]; discriminate].
    + replace (Z.of_nat i =? -1)%Z with false by (symmetry; apply Z.eqb_neq; lia).
      simpl. tauto.
    + tauto.
    + tauto.
  - intros before body after -> Hbefore Hafter.
    unfold json_text, Py.find, Py.rfind.
    change (before +:+ "{" +:+ body +:+ "}" +:+ after)
      with (before +:+ String "{" (body +:+ String "}" after)).
    rewrite (index_of_first _ _ _ Hbefore).
    replace (before +:+ String "{" (body +:+ String "}" after))
      with ((before +:+ String "{" body) +:+ String "}" after)
      by (now rewrite app_assoc_string, app_cons).
    rewrite (last_index_of_last _ _ _ Hafter).
    replace (Z.of_nat (String.length before) =? -1)%Z with false
      by (symmetry; apply Z.eqb_neq; lia).
    replace (Z.of_nat (String.length (before +:+ String "{" body)) + 1 >? 0)%Z with true
      by (symmetry; apply Z.gtb_lt; lia).
    simpl. f_equal. unfold Py.slice.
    rewrite Nat2Z.id, length_app_string. simpl String.length.
    replace (Z.to_nat _) with (String.length (String "{" (body +:+ "}")))
      by (simpl; rewrite length_app_string; simpl; lia).
    rewrite app_assoc_string, substring_skip.
    change (String "{" body +:+ String "}" after)
      with (String "{" (body +:+ "}" +:+ after)).
    replace (String "{" (body +:+ "}" +:+ after))
      with (String "{" (body +:+ "}") +:+ after)
      by (now rewrite app_cons, app_assoc_string).
    now rewrite substring_take.
  - intros before between after -> Hb1 Hb2 Hb3 Ha.
    unfold json_text, Py.find, Py.rfind.
    change (before +:+ "}" +:+ between +:+ "{" +:+ after)
      with (before +:+ String "}" (between +:+ String "{" after)).
    assert (Hopen : ~ occurs "{" (before +:+ String "}" between)).
    { unfold occurs in *. rewrite chars_app. simpl. rewrite in_app_iff. simpl.
      intros [H|[H|H]]; [tauto | discriminate | tauto]. }
    assert (Hclose : ~ occurs "}" (between +:+ String "{" after)).
    { unfold occurs in *. rewrite chars_app. simpl. rewrite in_app_iff. simpl.
      intros [H|[H|H]]; [tauto | discriminate | tauto]. }
    rewrite (last_index_of_last _ _ _ Hclose).
    replace (before +:+ String "}" (between +:+ String "{" after))
      with ((before +:+ String "}" between) +:+ String "{" after)
      by (now rewrite app_assoc_string, app_cons).
    rewrite (index_of_first _ _ _ Hopen).
    replace (Z.of_nat (String.length (before +:+ String "}" between)) =? -1)%Z
      with false by (symmetry; apply Z.eqb_neq; lia).
    replace (Z.of_nat (String.length before) + 1 >? 0)%Z with true
      by (symmetry; apply Z.gtb_lt; lia).
    simpl. f_equal. unfold Py.slice.
    replace (Z.to_nat (_ - _)) with 0%nat
      by (rewrite length_app_string; simpl; lia).
    generalize (Z.to_nat (Z.of_nat (String.length (before +:+ String "}" between)))).
    generalize ((before +:+ String "}" between) +:+ String "{" after).
    intros text n. revert n. induction text; intros [|n]; simpl; auto.
Qed.

End OllamaFacts.

(** ** The compliance chat agent *)

Module ChatFacts.

Import Chat.

Lemma history_key_inj (a b : string) : history_key a = history_key b -> a = b.
Proof. unfold history_key. intros H. cbv in H. congruence. Qed.

Lemma touched_coherent (self : Agent) : coherent self -> coherent (touched self).
Proof.
  unfold coherent, touched. destruct (redis_client self) as [c|] eqn:Ec; simpl.
  - auto.
  - now rewrite Ec.
Qed.

(** Under the agreement, the history read is the one in memory,
    whatever Redis does. *)
Lemma get_history_coherent (env : Env) (session : string) (self : Agent) :
  coherent self ->
  _get_conversation_history env session self
  = (Return (default [] (conversations self !! session)), touched self).
Proof.
  unfold coherent, touched, _get_conversation_history, bind, get, try_except,
    on_redis, Redis.get, Redis.command, Redis.lookup, ret.
  destruct (redis_client self) as [c|] eqn:Ec; simpl; [|reflexivity].
  intros Hco. rewrite Ec.
  destruct (redis_down env (Redis.issued c)); simpl; [reflexivity|].
  destruct (Redis.keys c !! history_key session) as [e|] eqn:Ee; simpl; [|reflexivity].
  destruct (Redis.live (clock env) e); simpl; [|reflexivity].
  now rewrite (Hco _ _ Ee).
Qed.

(** What [_store_conversation] leaves: the history read with the new
    exchange at its end, in memory and, if the write is taken, in
    Redis. *)
Lemma store_conversation_reads (env : Env) (session query : string)
    (response : Response) (self : Agent) (history : list Exchange) :
  reads env session self history ->
  _store_conversation env session query response self
  = (Return tt,
     after_store env session (history ++ [exchange_of env query response])%list self).
Proof.
  unfold reads. intros Hread. unfold _store_conversation. unfold bind at 1.
  rewrite Hread.
  unfold after_store, touched, bind, get, try_except, on_redis, Redis.setex,
    Redis.command, modify, ret.
  destruct (redis_client self) as [c|] eqn:Ec; simpl; [|now rewrite Ec].
  destruct (redis_down env (S (Redis.issued c))); reflexivity.
Qed.

Lemma generate_response_readable (env : Env) (query : string)
    (history : list Exchange) (self : Agent) :
  readable env self ->
  exists response,
    _generate_response env query (retrieved env) history self = (Return response, self).
Proof.
  unfold readable, _generate_response, bind, get, try_except, of_outcome, ret, raise.
  intros Hr. destruct (llm self); simpl; [|eauto].
  rewrite (Hr eq_refl). destruct (reply env) as [text|exc]; [|eauto].
  destruct (mapM source_of (firstn 3 (retrieved env))); eauto.
Qed.

Lemma readable_touched (env : Env) (self : Agent) :
  readable env self -> readable env (touched self).
Proof. unfold readable, touched. now destruct (redis_client self). Qed.

(** One call of [chat], given what its two readings of the history
    come to. *)
Lemma chat_reads (env : Env) (query : string) (session_id : option string)
    (self : Agent) (history : list Exchange) :
  let session := session_of env session_id in
  reads env session self history ->
  reads env session (touched self) history ->
  readable env self ->
  exists response,
    chat env query session_id self
    = (Return (mkResult session query (answer response) (sources response)
                 (confidence response) (isoformat (returned env))),
       set_published
         (published self ++ [interaction_of env session query response])%list
         (after_store env session
            (history ++ [exchange_of env query response])%list
            (touched self))).
Proof.
  intros session Hread1 Hread2 Hr. unfold chat. fold session. unfold bind at 1.
  rewrite Hread1.
  destruct (generate_response_readable env query history (touched self)
              (readable_touched env self Hr)) as [response E].
  unfold bind at 1. rewrite E.
  unfold bind at 1.
  rewrite (store_conversation_reads env session query response (touched self)
             history Hread2).
  exists response.
  unfold _log_interaction, modify, ret, bind, interaction_of. simpl.
  f_equal. unfold after_store, touched.
  destruct (redis_client self) as [c|] eqn:Ec; simpl; [|now rewrite Ec].
  reflexivity.
Qed.

(** One call of [chat] on an agent that agrees with Redis. *)
Lemma chat_run (env : Env) (query : string) (session_id : option string)
    (self : Agent) :
  coherent self -> readable env self ->
  let session := session_of env session_id in
  exists response,
    chat env query session_id self
    = (Return (mkResult session query (answer response) (sources response)
                 (confidence response) (isoformat (returned env))),
       set_published
         (published self ++ [interaction_of env session query response])%list
         (after_store env session
            (default [] (conversations self !! session)
             ++ [exchange_of env query response])%list
            (touched self))).
Proof.
  intros Hco Hr session. apply chat_reads; [| |assumption].
  - apply get_history_coherent, Hco.
  - unfold reads. rewrite get_history_coherent by now apply touched_coherent.
    replace (conversations (touched self)) with (conversations self); [reflexivity|].
    unfold touched. now destruct (redis_client self).
Qed.

(** A history Redis holds and has not let expire is the one read when
    the server answers. *)
Lemma get_history_live (env : Env) (session : string) (self : Agent)
    (c : Redis.client (list Exchange)) (e : Redis.entry (list Exchange)) :
  redis_client self = Some c ->
  redis_down env (Redis.issued c) = false ->
  Redis.keys c !! history_key session = Some e ->
  Redis.live (clock env) e = true ->
  reads env session self (Redis.e_value e).
Proof.
  intros Ec Hup He Hlive.
  unfold reads, touched, _get_conversation_history, bind, get, try_except,
    on_redis, Redis.get, Redis.command, Redis.lookup, ret.
  rewrite Ec. simpl. rewrite Ec, Hup. simpl. rewrite He, Hlive. reflexivity.
Qed.

Lemma answered_touched (env : Env) (self : Agent) :
  answered env self -> answered env (touched self).
Proof.
  unfold answered, touched. destruct (redis_client self) as [c|] eqn:Ec; simpl.
  - intros [H|H]; [discriminate | now right].
  - intros _. now left.
Qed.

(** A call changes neither whether there is a client nor whether
    there is a model. *)
Lemma serving_after_chat (env0 env : Env) (session : string)
    (history : list Exchange) (l : list Interaction) (self : Agent) :
  answered env self /\ readable env self ->
  answered env (set_published l (after_store env0 session history (touched self)))
  /\ readable env (set_published l (after_store env0 session history (touched self))).
Proof.
  unfold answered, readable, after_store, touched.
  destruct (redis_client self) as [c|] eqn:Ec; simpl.
  - intros [[H|H] Hr]; [discriminate|]. auto.
  - rewrite Ec. simpl. intros [_ Hr]. auto.
Qed.

Lemma after_store_coherent (env : Env) (session : string)
    (history : list Exchange) (self : Agent) :
  coherent self -> answered env self ->
  coherent (after_store env session history self).
Proof.
  unfold coherent, answered, after_store.
  destruct (redis_client self) as [c|] eqn:Ec; simpl; [|now rewrite Ec].
  intros Hco [Hnone|Hup]; [discriminate|]. rewrite Hup. simpl.
  intros other e.
  destruct (decide (other = session)) as [->|Hne].
  - rewrite lookup_insert_eq, lookup_insert_eq. now intros [= <-].
  - rewrite lookup_insert_ne by (intros H; apply history_key_inj in H; congruence).
    rewrite lookup_insert_ne by congruence. apply Hco.
Qed.

(** Calls one after the other: every session gets the questions asked
    in it, in the order asked, after those it had. *)
Lemma run_chats_histories (calls : list Call) (self : Agent) :
  coherent self ->
  Forall (fun call => answered (c_env call) self /\ readable (c_env call) self) calls ->
  exists self',
    run_chats calls self = (Return tt, self')
    /\ coherent self'
    /\ forall session,
         map ex_query (default [] (conversations self' !! session))
         = (map ex_query (default [] (conversations self !! session))
            ++ asked session calls)%list.
Proof.
  revert self. induction calls as [|call calls IH]; intros self Hco Hall.
  - exists self. split; [reflexivity|]. split; [assumption|].
    intros session. simpl. now rewrite app_nil_r.
  - inversion Hall as [|? ? [Hup Hread] Hrest]; subst.
    destruct (chat_run (c_env call) (c_query call) (c_session call) self Hco Hread)
      as [response E]. cbv zeta in E.
    set (session0 := session_of (c_env call) (c_session call)) in *.
    set (s1 := set_published _ _) in E.
    assert (Hco1 : coherent s1).
    { subst s1. unfold coherent. simpl.
      change (coherent (after_store (c_env call) session0
                (default [] (conversations self !! session0)
                 ++ [exchange_of (c_env call) (c_query call) response])%list
                (touched self))).
      apply after_store_coherent; [now apply touched_coherent|].
      now apply answered_touched. }
    assert (Hsame : forall env, (answered env self /\ readable env self)
                                -> answered env s1 /\ readable env s1).
    { intros env H. subst s1. now apply serving_after_chat. }
    destruct (IH s1 Hco1) as (self' & Erun & Hco' & Hq).
    { eapply Forall_impl; [exact Hrest|]. intros c0 H. now apply Hsame. }
    exists self'. split; [|split; [assumption|]].
    + unfold run_chats in *. simpl. unfold bind at 1. unfold bind at 1.
      rewrite E. simpl. exact Erun.
    + intros session. rewrite Hq.
      assert (Hconv : conversations s1
                      = <[session0 := (default [] (conversations self !! session0)
                            ++ [exchange_of (c_env call) (c_query call) response])%list]>
                          (conversations self)).
      { subst s1. unfold after_store, touched. simpl.
        destruct (redis_client self); reflexivity. }
      rewrite Hconv. unfold asked. simpl List.filter. fold session0.
      destruct (String.eqb_spec session0 session) as [->|Hne].
      * rewrite lookup_insert_eq. simpl. rewrite map_app, <- app_assoc. reflexivity.
      * rewrite lookup_insert_ne by assumption. reflexivity.
Qed.

Lemma last_map_query (first : Exchange) (history : list Exchange) :
  last (map ex_query (first :: history))
  = Some (ex_query (List.last (first :: history) first)).
Proof.
  revert first. induction history as [|next rest IH]; intros first; [reflexivity|].
  change (last (map ex_query (first :: next :: rest)))
    with (last (map ex_query (next :: rest))).
  rewrite IH. f_equal. f_equal.
  change (List.last (first :: next :: rest) first) with (List.last (next :: rest) first).
  clear IH. revert next. induction rest as [|x rest IH]; intros next; [reflexivity|].
  change (List.last (next :: x :: rest) next) with (List.last (x :: rest) next).
  change (List.last (next :: x :: rest) first) with (List.last (x :: rest) first).
  destruct rest as [|y rest]; [reflexivity|].
  change (List.last (x :: y :: rest) next) with (List.last (y :: rest) next).
  change (List.last (x :: y :: rest) first) with (List.last (y :: rest) first).
  specialize (IH y).
  change (List.last (x :: y :: rest) x) with (List.last (y :: rest) x) in IH.
  clear - rest. revert y. induction rest as [|z rest IH]; intros y; [reflexivity|].
  change (List.last (y :: z :: rest) next) with (List.last (z :: rest) next).
  change (List.last (y :: z :: rest) first) with (List.last (z :: rest) first).
  destruct rest as [|w rest]; [reflexivity|]. apply (IH w).
Qed.

Lemma summary_of_snoc (session : string) (history : list Exchange) (x : Exchange) :
  summary_of session (history ++ [x])
  = Session session (length history + 1) (ex_timestamp (hd x history)) (ex_query x)
            (map ex_query history ++ [ex_query x])%list.
Proof.
  destruct history as [|first rest]; [reflexivity|].
  unfold summary_of. rewrite <- app_comm_cons. cbv beta iota.
  rewrite app_comm_cons, last_last, length_app, map_app. reflexivity.
Qed.

(** X22: a session keeps its questions. Take an agent that agrees with
    Redis on the histories (as a new agent on a new server does) and
    any calls of [chat], each meeting a Redis that answers (or an agent
    without Redis) and documents it can read. Every call returns, and
    afterwards [get_session_summary] reports for every session the
    questions it had followed by the questions the calls asked in it,
    in the order asked, with their number and the last of them,
    whatever the calls of other sessions in between, the times of the
    calls (the two hours after which Redis drops a history included)
    and the state of Redis at the time of the summary. *)
Theorem chat_history_kept
    (calls : list Call) (self : Agent) (session : string) (later : Env) :
  coherent self ->
  Forall (fun call => answered (c_env call) self /\ readable (c_env call) self) calls ->
  let questions :=
    (map ex_query (default [] (conversations self !! session))
     ++ asked session calls)%list in
  exists self',
    run_chats calls self = (Return tt, self')
    /\ coherent self'
    /\ match fst (get_session_summary later session self') with
       | Return (Session id total _ last_query queries) =>
           id = session /\ queries = questions /\ total = length questions
           /\ last questions = Some last_query
       | Return (NoHistory id _) => id = session /\ questions = []
       | Raise _ => False
       end.
Proof.
  intros Hco Hall questions.
  destruct (run_chats_histories calls self Hco Hall) as (self' & Erun & Hco' & Hq).
  exists self'. split; [assumption|]. split; [assumption|].
  unfold get_session_summary, bind.
  rewrite (get_history_coherent later session self' Hco'). simpl.
  specialize (Hq session). fold questions in Hq.
  destruct (default [] (conversations self' !! session)) as [|first history].
  - simpl. auto.
  - unfold summary_of. rewrite <- Hq.
    split; [reflexivity|]. split; [reflexivity|].
    split; [now rewrite length_map|]. apply last_map_query.
Qed.

Lemma chat_history_kept_witness :
  exists self',
    run_chats example_calls example_agent = (Return tt, self')
    /\ coherent self'
    /\ match fst (get_session_summary example_env "test_session_001" self') with
       | Return (Session id total _ last_query queries) =>
           id = "test_session_001"
           /\ queries = ["What documents are needed?"; "What are the KYC requirements?"]
           /\ total = 2%nat
           /\ last ["What documents are needed?"; "What are the KYC requirements?"]
              = Some last_query
       | Return (NoHistory id _) => id = "test_session_001" /\ False
       | Raise _ => False
       end.
Proof.
  destruct (chat_history_kept example_calls example_agent "test_session_001" example_env)
    as (self' & Erun & Hco & Hsum).
  - unfold coherent. simpl. intros session e H. rewrite lookup_empty in H. discriminate.
  - unfold example_calls.
    repeat (constructor; [split; [right; intros n; reflexivity | intros _; reflexivity]|]).
    constructor.
  - exists self'. split; [exact Erun|]. split; [exact Hco|].
    destruct (fst (get_session_summary example_env "test_session_001" self'))
      as [[id message|id total start last_query queries]|exc]; [|exact Hsum|exact Hsum].
    destruct Hsum as [Hid Hq]. split; [exact Hid|]. discriminate Hq.
Defined.

(** X23: a write Redis refuses costs the session an exchange. Let the
    agent agree with Redis on a session whose history Redis holds and
    has not let expire. If the write of the history fails during a
    call of [chat] in that session, the call still returns its answer
    and keeps the exchange in memory; but the next call in the session
    on an answering Redis reads the history Redis holds, which lacks
    that exchange, and writes it back to both places with its own
    exchange at the end. From then on the summary of the session lists
    the questions it had and the second question: the first one is
    gone. *)
Theorem failed_write_loses_exchange
    (env1 env2 : Env) (q1 q2 session : string) (self : Agent)
    (c : Redis.client (list Exchange)) (e : Redis.entry (list Exchange)) :
  coherent self ->
  redis_client self = Some c ->
  session <> "" ->
  Redis.keys c !! history_key session = Some e ->
  Redis.live (clock env2) e = true ->
  redis_down env1 (S (S (Redis.issued c))) = true ->
  (forall n, redis_down env2 n = false) ->
  readable env1 self -> readable env2 self ->
  exists result1 result2 s1 s2 x1 x2,
    chat env1 q1 (Some session) self = (Return result1, s1)
    /\ r_session_id result1 = session /\ r_query result1 = q1
    /\ ex_query x1 = q1 /\ ex_response x1 = r_response result1
    /\ conversations s1 !! session = Some (Redis.e_value e ++ [x1])%list
    /\ chat env2 q2 (Some session) s1 = (Return result2, s2)
    /\ ex_query x2 = q2
    /\ conversations s2 !! session = Some (Redis.e_value e ++ [x2])%list
    /\ fst (get_session_summary env2 session s2)
       = Return (Session session (length (Redis.e_value e) + 1)
                   (ex_timestamp (hd x2 (Redis.e_value e))) q2
                   (map ex_query (Redis.e_value e) ++ [q2])%list).
Proof.
  intros Hco Ec Hsession He Hlive Hdown Hup Hr1 Hr2.
  assert (Hs : forall env, session_of env (Some session) = session).
  { intros env. unfold session_of.
    destruct (String.eqb_spec session "") as [E|_]; [contradiction | reflexivity]. }
  assert (Hmem : default [] (conversations self !! session) = Redis.e_value e).
  { unfold coherent in Hco. rewrite Ec in Hco. symmetry. now apply Hco. }
  (* the first call *)
  destruct (chat_run env1 q1 (Some session) self Hco Hr1) as [response1 E1].
  cbv zeta in E1. rewrite Hs, Hmem in E1.
  set (x1 := exchange_of env1 q1 response1) in *.
  set (s1 := set_published _ _) in E1.
  set (c1 := Redis.mkClient (Redis.keys c) (S (S (S (Redis.issued c))))).
  assert (Ec1 : redis_client s1 = Some c1).
  { subst s1 c1. unfold after_store, touched. rewrite Ec. simpl. now rewrite Hdown. }
  assert (Hconv1 : conversations s1 !! session = Some (Redis.e_value e ++ [x1])%list).
  { subst s1. unfold after_store, touched. rewrite Ec. simpl. apply lookup_insert_eq. }
  assert (Hr2' : readable env2 s1).
  { subst s1. unfold readable, after_store, touched in *. now rewrite Ec. }
  (* the second call *)
  assert (Hread1 : reads env2 session s1 (Redis.e_value e)).
  { apply (get_history_live env2 session s1 c1 e Ec1 (Hup _) He Hlive). }
  assert (Hread2 : reads env2 session (touched s1) (Redis.e_value e)).
  { apply (get_history_live env2 session (touched s1)
             (Redis.mkClient (Redis.keys c1) (S (Redis.issued c1))) e);
      [unfold touched; now rewrite Ec1 | apply Hup | exact He | exact Hlive]. }
  pose proof (chat_reads env2 q2 (Some session) s1 (Redis.e_value e)) as E2.
  cbv zeta in E2. rewrite Hs in E2.
  destruct (E2 Hread1 Hread2 Hr2') as [response2 E2']. clear E2.
  set (x2 := exchange_of env2 q2 response2) in *.
  set (s2 := set_published _ _) in E2'.
  set (c2 := Redis.mkClient
               (<[history_key session :=
                    Redis.mkEntry (Redis.e_value e ++ [x2])%list
                                  (Some (clock env2 + 7200)%Z)]> (Redis.keys c))
               (S (S (S (Redis.issued c1))))).
  assert (Ec2 : redis_client s2 = Some c2).
  { subst s2 c2. unfold after_store, touched. rewrite Ec1. simpl. now rewrite Hup. }
  assert (Hconv2 : conversations s2 !! session = Some (Redis.e_value e ++ [x2])%list).
  { subst s2. unfold after_store, touched. rewrite Ec1. simpl. apply lookup_insert_eq. }
  exists (mkResult session q1 (answer response1) (sources response1)
            (confidence response1) (isoformat (returned env1))),
         (mkResult session q2 (answer response2) (sources response2)
            (confidence response2) (isoformat (returned env2))),
         s1, s2, x1, x2.
  repeat (split; [first [exact E1 | exact E2' | exact Hconv1 | exact Hconv2 | reflexivity]|]).
  unfold get_session_summary, bind.
  assert (Hread3 : reads env2 session s2 (Redis.e_value e ++ [x2])%list).
  { apply (get_history_live env2 session s2 c2
             (Redis.mkEntry (Redis.e_value e ++ [x2])%list (Some (clock env2 + 7200)%Z))
             Ec2 (Hup _)).
    - subst c2. simpl. apply lookup_insert_eq.
    - unfold Redis.live. simpl. apply Z.leb_le. lia. }
  unfold reads in Hread3. rewrite Hread3. simpl. f_equal.
  apply summary_of_snoc.
Qed.

Lemma failed_write_loses_exchange_witness :
  exists result1 result2 s1 s2 x1 x2,
    chat example_env_write_fails "Tell me about SAMA" (Some "test_session_001")
         example_agent_in_session = (Return result1, s1)
    /\ r_session_id result1 = "test_session_001"
    /\ r_query result1 = "Tell me about SAMA"
    /\ ex_query x1 = "Tell me about SAMA" /\ ex_response x1 = r_response result1
    /\ conversations s1 !! "test_session_001" = Some ([example_exchange] ++ [x1])%list
    /\ chat example_env "What are the KYC requirements?" (Some "test_session_001") s1
       = (Return result2, s2)
    /\ ex_query x2 = "What are the KYC requirements?"
    /\ conversations s2 !! "test_session_001" = Some ([example_exchange] ++ [x2])%list
    /\ fst (get_session_summary example_env "test_session_001" s2)
       = Return (Session "test_session_001" 2 "2025-01-15T10:29:00"
                   "What are the KYC requirements?"
                   ["What documents are needed?"; "What are the KYC requirements?"]).
Proof.
  apply (failed_write_loses_exchange example_env_write_fails example_env
           "Tell me about SAMA" "What are the KYC requirements?" "test_session_001"
           example_agent_in_session
           (Redis.mkClient
              {[ history_key "test_session_001"
                 := Redis.mkEntry [example_exchange] (Some 1736944140%Z) ]} 0)
           (Redis.mkEntry [example_exchange] (Some 1736944140%Z))).
  - unfold coherent. simpl. intros session e H.
    apply lookup_singleton_Some in H. destruct H as [Hk <-].
    apply history_key_inj in Hk. subst session. simpl.
    now rewrite lookup_singleton_eq.
  - reflexivity.
  - discriminate.
  - apply lookup_singleton_eq.
  - reflexivity.
  - reflexivity.
  - reflexivity.
  - intros _. reflexivity.
  - intros _. reflexivity.
Defined.

(** *** When [chat] raises *)

(** Reading a history returns and changes neither the histories in
    memory nor the messages published. *)
Lemma get_history_returns (env : Env) (session : string) (self : Agent) :
  exists history self',
    _get_conversation_history env session self = (Return history, self')
    /\ llm self' = llm self
    /\ conversations self' = conversations self
    /\ published self' = published self.
Proof.
  unfold _get_conversation_history, bind, get, try_except, on_redis, Redis.get,
    Redis.command, ret.
  destruct (redis_client self) as [c|] eqn:Ec; simpl; [|eauto 10].
  rewrite Ec. destruct (redis_down env (Redis.issued c)); simpl; [eauto 10|].
  destruct (Redis.lookup (clock env) (history_key session) c); simpl; eauto 10.
Qed.

Lemma store_conversation_returns (env : Env) (session query : string)
    (response : Response) (self : Agent) :
  exists self',
    _store_conversation env session query response self = (Return tt, self')
    /\ published self' = published self.
Proof.
  destruct (get_history_returns env session self) as (history & s1 & E1 & _ & _ & Hp1).
  unfold _store_conversation. unfold bind at 1. rewrite E1.
  unfold bind, get, try_except, on_redis, Redis.setex, Redis.command, modify, ret.
  destruct (redis_client s1) as [c|] eqn:Ec; simpl; [|eauto].
  rewrite Ec. destruct (redis_down env (Redis.issued c)); simpl; eauto.
Qed.

(** X26: the one way [chat] raises. A call of [chat] raises exactly
    when the agent has a model and one of the first three documents
    the search found has no text: building the prompt then fails with
    [TypeError], after the history has been read and before anything
    is stored or published, so the question leaves no trace in the
    history and none on the bus. In every other case, whatever Redis
    does and whatever the model does, the call returns an answer to
    the question asked and publishes exactly one message, which
    carries the first 200 characters of the answer (all of it when it
    has no more), whatever bytes the characters take. *)
Theorem chat_raises_without_text
    (env : Env) (query : string) (session_id : option string) (self : Agent) :
  (readable env self ->
   exists result self',
     chat env query session_id self = (Return result, self')
     /\ r_query result = query
     /\ r_session_id result = session_of env session_id
     /\ exists message,
          published self' = (published self ++ [message])%list
          /\ i_query message = query
          /\ i_response_preview message = Py.slice_to 200 (r_response result)
          /\ Py.len (i_response_preview message)
             = Nat.min 200 (Py.len (r_response result))
          /\ String.prefix (i_response_preview message) (r_response result) = true)
  /\ (~ readable env self ->
      exists self',
        chat env query session_id self = (Raise "TypeError", self')
        /\ conversations self' = conversations self
        /\ published self' = published self).
Proof.
  set (session := session_of env session_id).
  destruct (get_history_returns env session self)
    as (history & s1 & E1 & Hl1 & Hc1 & Hp1).
  split.
  - intros Hr.
    assert (Hr1 : readable env s1) by (unfold readable in *; now rewrite Hl1).
    destruct (generate_response_readable env query history s1 Hr1) as [response E2].
    destruct (store_conversation_returns env session query response s1)
      as (s3 & E3 & Hp3).
    unfold chat. fold session. unfold bind at 1. rewrite E1.
    unfold bind at 1. rewrite E2. unfold bind at 1. rewrite E3.
    unfold _log_interaction, bind, modify, ret. simpl.
    eexists. eexists. split; [reflexivity|]. simpl.
    split; [reflexivity|]. split; [reflexivity|].
    eexists. split; [rewrite Hp3, Hp1; reflexivity|]. simpl.
    split; [reflexivity|]. split; [reflexivity|].
    split; [apply ScoringSpec.slice_to_len | apply ScoringSpec.slice_to_prefix].
  - intros Hn. exists s1.
    assert (Hllm : llm self = true).
    { destruct (llm self) eqn:E; [reflexivity|]. exfalso. apply Hn.
      unfold readable. rewrite E. discriminate. }
    assert (Hdocs : forallb (fun doc => Py.is_set (found_content doc))
                      (firstn 3 (retrieved env)) = false).
    { destruct (forallb _ _) eqn:E; [|reflexivity]. exfalso. apply Hn.
      intros _. exact E. }
    split; [|split; assumption].
    unfold chat. fold session. unfold bind at 1. rewrite E1.
    unfold bind at 1. unfold _generate_response, bind, get, raise.
    rewrite Hl1, Hllm. simpl. now rewrite Hdocs.
Qed.

End ChatFacts.

(** ** The event rate counter of the audit agent *)

Module RateWindow.

Import Kafka Audit AuditSpec.

Section Spared.

Variable env : Env.
Variable k : string.

Hypothesis not_counter : forall event_type, k <> "audit:counter:" +:+ event_type.
Hypothesis not_daily : forall date event_type,
  k <> "audit:daily:" +:+ date +:+ ":" +:+ event_type.
Hypothesis not_failure : forall event_data, k <> failure_key event_data.
Hypothesis not_alert : forall stamp, k <> "audit:alert:" +:+ stamp.

Lemma update_metrics_spares event_type :
  steps_within (metrics_step k) (_update_metrics env event_type).
Proof.
  unfold _update_metrics. within_bind; [within_leaf|].
  destruct (Py.is_set (redis_client a)); [|within_leaf].
  within_try; [|within_leaf].
  within_bind; [apply incr_metrics_step, not_counter|].
  within_bind; [apply incr_metrics_step, not_daily|].
  within_bind; [apply expire_metrics_step, not_daily|].
  within_leaf.
Qed.

Lemma failure_check_spares event_data self :
  steps_within (metrics_step k) (failure_check env event_data self).
Proof.
  unfold failure_check. destruct (bool_decide _); [|within_leaf].
  destruct (Py.is_set (redis_client self)); [|within_leaf].
  within_try; [|within_leaf].
  within_bind; [apply incr_metrics_step, not_failure|].
  within_bind; [apply expire_metrics_step, not_failure|].
  within_leaf.
Qed.

(** The failure check returns no anomaly or the failure anomaly. *)
Lemma failure_check_returns event_data self s :
  exists repeated,
    fst (failure_check env event_data self s) = Return repeated
    /\ (repeated = [] \/ repeated = [failure_anomaly event_data]).
Proof.
  unfold failure_check. destruct (bool_decide _); [|now exists []; auto].
  destruct (Py.is_set (redis_client self)); [|now exists []; auto].
  unfold try_except, bind.
  destruct (incr env (failure_key event_data) s) as [[failures|exc] s1];
    [|now exists []; auto].
  destruct (expire env (failure_key event_data) 3600 s1) as [[b|exc] s2];
    [|now exists []; auto].
  simpl. destruct (5 <? failures)%Z; eexists; eauto.
Qed.

Lemma store_alert_spares anomaly :
  steps_within (metrics_step k) (store_alert env anomaly).
Proof.
  unfold store_alert. within_bind; [within_leaf|].
  destruct (Py.is_set (redis_client a)); [|within_leaf].
  within_try; [|within_leaf].
  apply setex_metrics_step, not_alert.
Qed.

Lemma handle_anomalies_spares anomalies s :
  redis_key_kept k s (snd (_handle_anomalies env anomalies s)).
Proof.
  revert s. induction anomalies as [|anomaly rest IH]; intros s.
  - apply redis_key_kept_refl.
  - pose (s1 := set_kafka
                  (send_event "audit-anomaly" "anomaly"
                     [("anomaly", FStr anomaly);
                      ("detected_at", FStr (isoformat (now env)))]
                     (kafka_handler s)) s).
    destruct (store_alert_never_raises env anomaly s1) as (u & s2 & E).
    assert (Hrun : _handle_anomalies env (anomaly :: rest) s
                   = _handle_anomalies env rest s2).
    { unfold _handle_anomalies. simpl.
      unfold bind at 1. unfold bind at 1. unfold modify at 1.
      fold (store_alert env anomaly). fold s1. now rewrite E. }
    rewrite Hrun.
    pose proof (store_alert_spares anomaly s1) as Hstep.
    rewrite E in Hstep. simpl in Hstep. destruct Hstep as (Hkey & _).
    eapply redis_key_kept_trans; [|apply IH].
    unfold redis_key_kept in *. subst s1. simpl in Hkey. exact Hkey.
Qed.

End Spared.

Section Rate.

Variable env : Env.

Lemma rate_key_not_counter event_type other :
  rate_key event_type <> "audit:counter:" +:+ other.
Proof. unfold rate_key. simpl. discriminate. Qed.

Lemma rate_key_not_daily event_type date other :
  rate_key event_type <> "audit:daily:" +:+ date +:+ ":" +:+ other.
Proof. unfold rate_key. simpl. discriminate. Qed.

Lemma rate_key_not_failure event_type event_data :
  rate_key event_type <> failure_key event_data.
Proof. unfold rate_key, failure_key. simpl. discriminate. Qed.

Lemma rate_key_not_alert event_type stamp :
  rate_key event_type <> "audit:alert:" +:+ stamp.
Proof. unfold rate_key. simpl. discriminate. Qed.

Lemma failure_anomaly_not_rate event_data event_type :
  String.eqb (failure_anomaly event_data) (rate_anomaly event_type) = false.
Proof. apply String.eqb_neq. unfold rate_anomaly, failure_anomaly. simpl. discriminate. Qed.

(** The rate counter read at [t] depends on the rate key only. *)
Lemma rate_count_kept event_type t s s' :
  redis_key_kept (rate_key event_type) s s' ->
  rate_count t event_type s' = rate_count t event_type s.
Proof.
  unfold redis_key_kept, rate_count, Redis.lookup.
  destruct (redis_client s), (redis_client s'); try tauto. now intros ->.
Qed.

(** With Redis up and the rate counter at [n], the rate check moves the
    counter to [n + 1], gives it sixty seconds from now and reports the
    anomaly exactly when [n + 1] exceeds 100. *)
Lemma rate_check_counts event_type self s c n :
  redis_client self <> None ->
  redis_client s = Some c ->
  (forall i, redis_down env i = false) ->
  rate_count (clock env) event_type s = Some n ->
  exists s' c',
    rate_check env event_type self s
    = (Return (if (100 <? n + 1)%Z then [rate_anomaly event_type] else []), s')
    /\ redis_client s' = Some c'
    /\ Redis.keys c' !! rate_key event_type
       = Some (Redis.mkEntry (Redis.CInt (n + 1)) (Some (clock env + 60)%Z))
    /\ records_kept s s' /\ quiet s s'.
Proof.
  intros Hself Hc Hup Hcount.
  unfold rate_check.
  destruct (redis_client self) as [c0|] eqn:E0; [simpl|congruence].
  unfold rate_count in Hcount. rewrite Hc in Hcount.
  destruct (incr_up (redis_down env) (clock env) Redis.as_int Redis.CInt
              (rate_key event_type) c n (Hup _) Hcount)
    as (expires & Hincr & Hlive).
  set (c1 := Redis.mkClient _ _) in Hincr.
  assert (Hexpire := expire_up (redis_down env) (clock env)
            (rate_key event_type) 60 c1 _ (Hup _)
            (lookup_insert_eq _ _ _) Hlive).
  set (c2 := Redis.mkClient _ _) in Hexpire.
  exists (set_redis c2 s), c2.
  split; [|split; [reflexivity|split; [|now split]]].
  - unfold try_except, bind, incr, expire, on_redis.
    rewrite Hc, Hincr. simpl. now rewrite Hexpire.
  - subst c2. simpl. apply lookup_insert_eq.
Qed.

(** One logged event, with Redis up and the rate counter of its type at
    [n]: the counter becomes [n + 1] with a fresh minute, and one rate
    anomaly is published if [n + 1] exceeds 100, none otherwise. *)
Lemma log_event_rate_step event_type event_data self n :
  (exists details, json_dumps env event_data = Return details) ->
  (forall i, redis_down env i = false) ->
  rate_count (clock env) event_type self = Some n ->
  let self' := snd (log_event env event_type event_data self) in
  rate_entry event_type (clock env) (n + 1) self'
  /\ alerts (rate_anomaly event_type) self'
     = alerts (rate_anomaly event_type) self
       + (if (100 <? n + 1)%Z then 1 else 0).
Proof.
  intros [details Hjson] Hup Hcount self'.
  destruct (log_event_phases env event_type event_data details self Hjson)
    as (s1 & s2 & anomalies & s3 & s4 & E1 & E2 & E3 & E4 & E).
  subst self'. rewrite E. simpl.
  pose proof (store_audit_log_store_step env
                (make_log_entry env event_type event_data details) self) as H1.
  pose proof (update_metrics_spares env (rate_key event_type)
                (rate_key_not_counter event_type) (rate_key_not_daily event_type)
                event_type s1) as H2.
  rewrite E1 in H1. rewrite E2 in H2. simpl in H1, H2.
  destruct H1 as [H1r H1q]. destruct H2 as (H2k & _ & H2q).
  (* the counter as detection finds it *)
  assert (Hcount2 : rate_count (clock env) event_type s2 = Some n).
  { rewrite (rate_count_kept event_type _ s1 s2 H2k).
    unfold rate_count in *. now rewrite H1r. }
  (* detection: the failure check, then the rate check *)
  rewrite detect_anomalies_checks in E3. unfold bind at 1, get at 1 in E3.
  destruct (failure_check_returns env event_data s2 s2) as (repeated & Ef & Hrepeated).
  pose proof (failure_check_spares env (rate_key event_type)
                (rate_key_not_failure event_type) event_data s2 s2) as Hf.
  unfold bind at 1 in E3.
  destruct (failure_check env event_data s2 s2) as [rf s2'] eqn:Efc.
  simpl in Ef, Hf. subst rf. destruct Hf as (Hfk & _ & Hfq).
  assert (Hcount2' : rate_count (clock env) event_type s2' = Some n).
  { now rewrite (rate_count_kept event_type _ s2 s2' Hfk). }
  assert (exists c2, redis_client s2' = Some c2) as [c2 Hc2].
  { unfold rate_count in Hcount2'. destruct (redis_client s2'); [eauto|discriminate]. }
  assert (Hself : redis_client s2 <> None).
  { unfold rate_count in Hcount2. destruct (redis_client s2); [discriminate|congruence]. }
  destruct (rate_check_counts event_type s2 s2' c2 n Hself Hc2 Hup Hcount2')
    as (s3' & c3 & Er & Hc3 & Hkey & _ & Hq3).
  unfold bind at 1 in E3. rewrite Er in E3. unfold ret in E3. injection E3 as <- <-.
  (* the alerts *)
  pose proof (handle_anomalies_publishes env event_data
                (repeated ++ (if (100 <? n + 1)%Z then [rate_anomaly event_type] else []))%list
                s3') as [H4e _].
  pose proof (handle_anomalies_spares env (rate_key event_type)
                (rate_key_not_alert event_type)
                (repeated ++ (if (100 <? n + 1)%Z then [rate_anomaly event_type] else []))%list
                s3') as H4k.
  rewrite E4 in H4e, H4k.
  split.
  - unfold rate_entry. unfold redis_key_kept in H4k. rewrite Hc3 in H4k.
    destruct (redis_client s4) as [c4|]; [|contradiction].
    exists c4. split; [reflexivity|]. now rewrite H4k.
  - unfold alerts. rewrite H4e. unfold quiet in *.
    rewrite Hq3, Hfq, H2q, H1q.
    rewrite List.filter_app, length_app. f_equal.
    rewrite map_app, List.filter_app, length_app.
    assert (Hr : length (List.filter (is_alert (rate_anomaly event_type))
                           (map (anomaly_event env) repeated)) = 0).
    { destruct Hrepeated as [-> | ->]; [reflexivity|]. cbn [map List.filter].
      rewrite is_alert_anomaly_event, failure_anomaly_not_rate. reflexivity. }
    rewrite Hr. simpl.
    destruct (100 <? n + 1)%Z; [|reflexivity]. cbn [map List.filter].
    rewrite is_alert_anomaly_event, String.eqb_refl. reflexivity.
Qed.

End Rate.

(** *** The counter over a sequence of events *)

Lemma run_events_app calls more self :
  run_events (calls ++ more) self = run_events more (run_events calls self).
Proof.
  revert self. induction calls as [|[[env event_type] event_data] rest IH];
    intros self; [reflexivity|]. simpl. apply IH.
Qed.

(** A counter with sixty seconds from [t] reads its value up to
    [t + 60] and 0 after that. *)
Lemma rate_entry_reads event_type t n s t' :
  rate_entry event_type t n s ->
  rate_count t' event_type s = Some (if (t' <=? t + 60)%Z then n else 0%Z).
Proof.
  intros (c & Hc & Hk). unfold rate_count, Redis.lookup, Redis.live.
  rewrite Hc, Hk. simpl. now destruct (t' <=? t + 60)%Z.
Qed.

Lemma last_clock_cons t call rest :
  last_clock t (call :: rest) = last_clock (clock (fst (fst call))) rest.
Proof.
  unfold last_clock. simpl map.
  generalize (map (fun call => clock (fst (fst call))) rest).
  generalize (clock (fst (fst call))). intros y l. revert y t.
  induction l as [|x l IHl]; intros y t'; [reflexivity|].
  change (List.last (y :: x :: l) t') with (List.last (x :: l) t').
  now rewrite (IHl x t'), (IHl x y).
Qed.

(** The alerts published by the first [k] of a sequence of events of one
    type, each no more than a minute after the one before, from a counter
    that holds [n]; and the counter at the end. *)
Lemma run_events_rate_alerts event_type calls : forall self t n k,
  Forall (of_type event_type) calls ->
  within_a_minute t calls ->
  rate_entry event_type t (Z.of_nat n) self ->
  k <= length calls ->
  alerts (rate_anomaly event_type) (run_events (take k calls) self)
  = alerts (rate_anomaly event_type) self + ((n + k - 100) - (n - 100))
  /\ rate_entry event_type (last_clock t calls) (Z.of_nat (n + length calls))
       (run_events calls self).
Proof.
  induction calls as [|[[env called_type] event_data] rest IH];
    intros self t n k Hcalls Hpaced Hentry Hk.
  - simpl in Hk. replace k with 0 by lia. simpl.
    split; [lia|]. now rewrite Nat.add_0_r.
  - apply Forall_cons in Hcalls as [(-> & Hjson & Hup) Hrest].
    destruct Hpaced as [Ht Hpaced].
    assert (Hcount : rate_count (clock env) event_type self = Some (Z.of_nat n)).
    { rewrite (rate_entry_reads _ _ _ _ _ Hentry).
      now replace (clock env <=? t + 60)%Z with true by (symmetry; apply Z.leb_le; lia). }
    destruct (log_event_rate_step env event_type event_data self (Z.of_nat n)
                Hjson Hup Hcount) as [Hentry' Halerts].
    replace (Z.of_nat n + 1)%Z with (Z.of_nat (S n)) in Hentry' by lia.
    split.
    + destruct k as [|k]; [simpl; lia|].
      simpl in Hk. simpl take. simpl run_events.
      destruct (IH _ (clock env) (S n) k Hrest Hpaced Hentry') as [IHa _]; [lia|].
      rewrite IHa, Halerts.
      destruct (100 <? Z.of_nat n + 1)%Z eqn:E;
        [apply Z.ltb_lt in E | apply Z.ltb_ge in E]; lia.
    + simpl run_events. rewrite last_clock_cons.
      destruct (IH _ (clock env) (S n) 0 Hrest Hpaced Hentry') as [_ IHe]; [lia|].
      simpl length. now replace (n + S (length rest)) with (S n + length rest) by lia.
Qed.

(** X24: the rate anomaly counts events that follow one another, not
    events per minute. Let events of one type be logged on an answering
    Redis, starting from a rate counter of that type that reads 0,
    each no more than sixty seconds (by the clock of the server) after
    the one before. Then the k-th of them publishes exactly one
    "High event rate" anomaly if k exceeds 100 and none otherwise,
    however long the events took altogether: each event gives the
    counter sixty more seconds. Only an event that comes more than
    sixty seconds after the last one finds the counter gone and
    publishes no such anomaly; one that comes exactly sixty seconds
    after it still finds the counter. *)
Theorem rate_anomaly_sliding_minute
    (env1 : Env) (event_type : string) (event_data1 : EventData)
    (rest : list (Env * string * EventData)) (self : Agent) (k : nat) :
  let calls := (env1, event_type, event_data1) :: rest in
  let published s := alerts (rate_anomaly event_type) s in
  rate_count (clock env1) event_type self = Some 0%Z ->
  Forall (of_type event_type) calls ->
  within_a_minute (clock env1) rest ->
  (k < length calls ->
   published (run_events (take (S k) calls) self)
   = published (run_events (take k calls) self) + (if (100 <? S k)%nat then 1 else 0))
  /\ (forall env event_data,
        of_type event_type (env, event_type, event_data) ->
        (last_clock (clock env1) calls + 60 < clock env)%Z ->
        published (run_events (calls ++ [(env, event_type, event_data)]) self)
        = published (run_events calls self)).
Proof.
  intros calls published Hfresh Hcalls Hpaced.
  pose proof Hcalls as Hcalls'.
  apply Forall_cons in Hcalls' as [(_ & Hjson1 & Hup1) Hrest].
  destruct (log_event_rate_step env1 event_type event_data1 self 0 Hjson1 Hup1 Hfresh)
    as [Hentry1 Halerts1].
  change (0 + 1)%Z with (Z.of_nat 1) in Hentry1. simpl in Halerts1.
  set (s1 := snd (log_event env1 event_type event_data1 self)) in *.
  assert (Hrun : forall j, j <= length calls ->
            published (run_events (take j calls) self) = published self + (j - 100)).
  { intros [|j] Hj; [simpl; lia|]. simpl in Hj. simpl take. simpl run_events. fold s1.
    destruct (run_events_rate_alerts event_type rest s1 (clock env1) 1 j
                Hrest Hpaced Hentry1) as [Ha _]; [lia|].
    unfold published. rewrite Ha, Halerts1. lia. }
  split.
  - intros Hk. rewrite !Hrun by lia.
    destruct (100 <? S k)%nat eqn:E; [apply Nat.ltb_lt in E | apply Nat.ltb_ge in E]; lia.
  - intros env event_data (_ & Hjson & Hup) Hlate.
    destruct (run_events_rate_alerts event_type rest s1 (clock env1) 1 0
                Hrest Hpaced Hentry1) as [_ Hend]; [lia|].
    rewrite run_events_app. simpl run_events at 1.
    change (run_events calls self) with (run_events rest s1).
    unfold calls in Hlate. rewrite last_clock_cons in Hlate. simpl in Hlate.
    assert (Hcount : rate_count (clock env) event_type (run_events rest s1) = Some 0%Z).
    { rewrite (rate_entry_reads _ _ _ _ _ Hend).
      now replace (clock env <=? last_clock (clock env1) rest + 60)%Z with false
        by (symmetry; apply Z.leb_gt; lia). }
    destruct (log_event_rate_step env event_type event_data (run_events rest s1) 0
                Hjson Hup Hcount) as [_ Halerts].
    unfold published. fold s1. rewrite Halerts. simpl. lia.
Qed.

Lemma steady_events_of_type (first n : nat) :
  Forall (of_type "document-processed")
    (map (fun i => (example_env_at (59 * Z.of_nat i), "document-processed",
                    example_success_event))
         (seq first n)).
Proof.
  apply List.Forall_forall. intros call Hin. apply in_map_iff in Hin.
  destruct Hin as (i & <- & _). split; [reflexivity|].
  split; [eexists; reflexivity | intros j; reflexivity].
Qed.

Lemma steady_events_paced (n first : nat) :
  within_a_minute (clock (example_env_at (59 * Z.of_nat first)))
    (map (fun i => (example_env_at (59 * Z.of_nat i), "document-processed",
                    example_success_event))
         (seq (S first) n)).
Proof.
  revert first. induction n as [|n IH]; intros first; [exact I|].
  split; [simpl; lia | apply IH].
Qed.

(** One event every 59 seconds: the 101st, logged more than an hour and
    a half after the first, publishes the anomaly. *)
Lemma rate_anomaly_sliding_minute_witness :
  alerts (rate_anomaly "document-processed")
         (run_events (take 101 (steady_events 102)) example_agent)
  = alerts (rate_anomaly "document-processed")
           (run_events (take 100 (steady_events 102)) example_agent) + 1.
Proof.
  destruct (rate_anomaly_sliding_minute (example_env_at 0) "document-processed"
              example_success_event
              (map (fun i => (example_env_at (59 * Z.of_nat i), "document-processed",
                              example_success_event))
                   (seq 1 101))
              example_agent 100) as [Hstep _].
  - reflexivity.
  - exact (steady_events_of_type 0 102).
  - exact (steady_events_paced 101 0).
  - apply Hstep. rewrite length_cons, length_map, length_seq. lia.
Defined.

End RateWindow.

(** ** The events of the day in the metrics *)

Module DailyCount.

Import Kafka Audit AuditSpec.

Lemma daily_key_not_counter date topic event_type :
  daily_key date topic <> "audit:counter:" +:+ event_type.
Proof. unfold daily_key. simpl. discriminate. Qed.

Lemma daily_key_not_failure date topic event_data :
  daily_key date topic <> failure_key event_data.
Proof. unfold daily_key, failure_key. simpl. discriminate. Qed.

Lemma daily_key_not_rate date topic event_type :
  daily_key date topic <> rate_key event_type.
Proof. unfold daily_key, rate_key. simpl. discriminate. Qed.

Lemma daily_key_not_alert date topic stamp :
  daily_key date topic <> "audit:alert:" +:+ stamp.
Proof. unfold daily_key. simpl. discriminate. Qed.

(** A counter of the agent reads as a number. *)
Lemma own_counter_reads now k (c : Redis.client Redis.cell) :
  own_values (Redis.keys c) ->
  String.prefix "audit:alert:" k = false ->
  exists n,
    match Redis.lookup now k c with
    | Some e => Redis.as_int (Redis.e_value e)
    | None => Some 0%Z
    end = Some n.
Proof.
  intros Hown Hk. unfold Redis.lookup.
  destruct (Redis.keys c !! k) as [e|] eqn:E; [|eauto].
  destruct (Redis.live now e); [|eauto].
  destruct (Hown _ _ E) as [H|[n Hn]]; [congruence|].
  rewrite Hn. simpl. eauto.
Qed.

Section Written.

Variable env : Env.
Hypothesis Hup : forall i, redis_down env i = false.

(** With Redis up and the daily counter of the type at [n],
    [_update_metrics] moves it to [n + 1] and gives it a week from
    now; of the other keys it touches the total counter of the type
    only. *)
Lemma update_metrics_counts event_type s c n :
  redis_client s = Some c ->
  own_values (Redis.keys c) ->
  match Redis.lookup (clock env) (daily_key (strftime_Ymd (now env)) event_type) c with
  | Some e => Redis.as_int (Redis.e_value e)
  | None => Some 0%Z
  end = Some n ->
  exists c',
    redis_client (snd (_update_metrics env event_type s)) = Some c'
    /\ Redis.keys c' !! daily_key (strftime_Ymd (now env)) event_type
       = Some (Redis.mkEntry (Redis.CInt (n + 1)) (Some (clock env + week)%Z))
    /\ forall k, k <> daily_key (strftime_Ymd (now env)) event_type ->
                 k <> "audit:counter:" +:+ event_type ->
                 Redis.keys c' !! k = Redis.keys c !! k.
Proof.
  intros Hc Hown Hn.
  set (daily := daily_key (strftime_Ymd (now env)) event_type) in *.
  set (counter := "audit:counter:" +:+ event_type).
  destruct (own_counter_reads (clock env) counter c Hown eq_refl) as [m Hm].
  destruct (incr_up (redis_down env) (clock env) Redis.as_int Redis.CInt
              counter c m (Hup _) Hm) as (expires1 & Hincr1 & _).
  set (c1 := Redis.mkClient _ _) in Hincr1.
  assert (Hn1 : match Redis.lookup (clock env) daily c1 with
                | Some e => Redis.as_int (Redis.e_value e)
                | None => Some 0%Z
                end = Some n).
  { unfold Redis.lookup in *. subst c1. simpl.
    rewrite lookup_insert_ne by (symmetry; apply daily_key_not_counter). exact Hn. }
  destruct (incr_up (redis_down env) (clock env) Redis.as_int Redis.CInt
              daily c1 n (Hup _) Hn1) as (expires2 & Hincr2 & Hlive2).
  set (c2 := Redis.mkClient _ _) in Hincr2.
  assert (Hexpire := expire_up (redis_down env) (clock env) daily week c2 _ (Hup _)
            (lookup_insert_eq _ _ _) Hlive2).
  set (c3 := Redis.mkClient _ _) in Hexpire.
  exists c3.
  assert (Erun : _update_metrics env event_type s = (Return tt, set_redis c3 s)).
  { unfold _update_metrics, bind, get, try_except, incr, expire, on_redis, ret.
    rewrite Hc. simpl. rewrite Hc.
    change ("audit:counter:" +:+ event_type) with counter.
    change ("audit:daily:" +:+ strftime_Ymd (now env) +:+ ":" +:+ event_type) with daily.
    rewrite Hincr1. simpl. rewrite Hincr2. simpl.
    unfold week in Hexpire. rewrite Hexpire. reflexivity. }
  rewrite Erun. split; [reflexivity|]. split.
  - subst c3. simpl. apply lookup_insert_eq.
  - intros k Hk1 Hk2. subst c3 c2 c1. simpl.
    now rewrite !lookup_insert_ne by congruence.
Qed.

(** Detection spares a key that is neither a failure counter nor a
    rate counter. *)
Lemma detect_anomalies_spares k event_type event_data :
  (forall data, k <> failure_key data) ->
  (forall type, k <> rate_key type) ->
  steps_within (metrics_step k) (_detect_anomalies env event_type event_data).
Proof.
  intros Hfailure Hrate.
  unfold _detect_anomalies. within_bind; [within_leaf|].
  within_bind.
  { destruct (bool_decide _); [|within_leaf].
    destruct (Py.is_set (redis_client a)); [|within_leaf].
    within_try; [|within_leaf].
    within_bind; [apply incr_metrics_step, Hfailure|].
    within_bind; [apply expire_metrics_step, Hfailure|].
    within_leaf. }
  within_bind; [|within_leaf].
  destruct (Py.is_set (redis_client a)); [|within_leaf].
  within_try; [|within_leaf].
  within_bind; [apply incr_metrics_step, Hrate|].
  within_bind; [apply expire_metrics_step, Hrate|].
  within_leaf.
Qed.

(** One logged event, with Redis up and the daily counter of its type
    at [n]: that counter becomes [n + 1] with a week from now, the
    other daily counters stay as they are, and Redis still holds
    values of the agent only. *)
Lemma log_event_daily_step event_type event_data s c n :
  (exists details, json_dumps env event_data = Return details) ->
  redis_client s = Some c ->
  own_values (Redis.keys c) ->
  match Redis.lookup (clock env) (daily_key (strftime_Ymd (now env)) event_type) c with
  | Some e => Redis.as_int (Redis.e_value e)
  | None => Some 0%Z
  end = Some n ->
  exists c',
    redis_client (snd (log_event env event_type event_data s)) = Some c'
    /\ own_values (Redis.keys c')
    /\ Redis.keys c' !! daily_key (strftime_Ymd (now env)) event_type
       = Some (Redis.mkEntry (Redis.CInt (n + 1)) (Some (clock env + week)%Z))
    /\ forall date topic,
         daily_key date topic <> daily_key (strftime_Ymd (now env)) event_type ->
         Redis.keys c' !! daily_key date topic = Redis.keys c !! daily_key date topic.
Proof.
  intros [details Hjson] Hc Hown Hn.
  (* the values stay the agent's own *)
  pose proof (AuditReports.log_event_keeps (fun _ => True) env event_type event_data
                (fun ks k e _ _ => I) s) as [Hholds _].
  unfold holds in Hholds. rewrite Hc in Hholds. specialize (Hholds (conj I Hown)).
  (* the phases *)
  destruct (log_event_phases env event_type event_data details s Hjson)
    as (s1 & s2 & anomalies & s3 & s4 & E1 & E2 & E3 & E4 & E).
  rewrite E in *. simpl in *.
  pose proof (store_audit_log_store_step env
                (make_log_entry env event_type event_data details) s) as H1.
  rewrite E1 in H1. simpl in H1. destruct H1 as [H1r _].
  assert (Hc1 : redis_client s1 = Some c) by congruence.
  destruct (update_metrics_counts event_type s1 c n Hc1 Hown Hn)
    as (c2 & Hc2 & Hkey2 & Hothers2).
  rewrite E2 in Hc2. simpl in Hc2.
  assert (Hkept : forall date topic, redis_key_kept (daily_key date topic) s2 s4).
  { intros date topic.
    pose proof (detect_anomalies_spares (daily_key date topic) event_type event_data
                  (daily_key_not_failure date topic) (daily_key_not_rate date topic) s2)
      as H3.
    rewrite E3 in H3. simpl in H3. destruct H3 as [H3k _].
    eapply redis_key_kept_trans; [exact H3k|]. subst s4.
    apply (RateWindow.handle_anomalies_spares env (daily_key date topic)
             (daily_key_not_alert date topic)). }
  destruct (redis_client s4) as [c4|] eqn:Hc4.
  - exists c4. split; [reflexivity|]. split; [apply Hholds|].
    split.
    + specialize (Hkept (strftime_Ymd (now env)) event_type).
      unfold redis_key_kept in Hkept. rewrite Hc2, Hc4 in Hkept. now rewrite Hkept.
    + intros date topic Hne.
      specialize (Hkept date topic).
      unfold redis_key_kept in Hkept. rewrite Hc2, Hc4 in Hkept.
      rewrite Hkept. apply Hothers2; [exact Hne | apply daily_key_not_counter].
  - specialize (Hkept "" ""). unfold redis_key_kept in Hkept.
    rewrite Hc2, Hc4 in Hkept. contradiction.
Qed.

End Written.

(** *** The counters over a sequence of events *)

Lemma daily_key_alert_prefix date topic :
  String.prefix "audit:alert:" (daily_key date topic) = false.
Proof. reflexivity. Qed.

Lemma daily_key_same d today topic event_type :
  has_colon today = false ->
  daily_key today topic = daily_key (strftime_Ymd d) event_type ->
  today = strftime_Ymd d /\ topic = event_type.
Proof.
  unfold daily_key. simpl. intros Htoday [= H].
  now apply (AuditReports.split_first_colon _ _ _ _ Htoday (AuditReports.has_colon_Ymd d)).
Qed.

Lemma daily_counts_step t0 today calls env event_type event_data s :
  has_colon today = false ->
  daily_counts t0 today calls s ->
  in_week t0 (env, event_type, event_data) ->
  daily_counts t0 today (calls ++ [(env, event_type, event_data)])
    (snd (log_event env event_type event_data s)).
Proof.
  intros Htoday (c & Hc & Hown & Hcounts) (Hjson & Hup & Ht).
  destruct (own_counter_reads (clock env) (daily_key (strftime_Ymd (now env)) event_type)
              c Hown (daily_key_alert_prefix _ _)) as [n Hn].
  destruct (log_event_daily_step env Hup event_type event_data s c n Hjson Hc Hown Hn)
    as (c' & Hc' & Hown' & Hkey & Hothers).
  exists c'. split; [exact Hc'|]. split; [exact Hown'|].
  intros topic. rewrite List.filter_app, length_app.
  destruct (decide (daily_key today topic
                    = daily_key (strftime_Ymd (now env)) event_type)) as [Heq|Hne].
  - destruct (daily_key_same _ _ _ _ Htoday Heq) as [-> ->].
    rewrite Hkey.
    assert (Hlogged : logged_on (strftime_Ymd (now env)) event_type
                        (env, event_type, event_data) = true).
    { unfold logged_on. simpl. now rewrite !String.eqb_refl. }
    cbn [List.filter]. rewrite Hlogged. simpl length.
    assert (Hcount : n = Z.of_nat (length (List.filter
                           (logged_on (strftime_Ymd (now env)) event_type) calls))).
    { specialize (Hcounts event_type). unfold Redis.lookup, Redis.live in Hn.
      destruct (Redis.keys c !! daily_key (strftime_Ymd (now env)) event_type)
        as [e|]; [|injection Hn as <-; now rewrite Hcounts].
      destruct Hcounts as (Hvalue & expiry & Hexpiry & Hlong).
      rewrite Hexpiry in Hn.
      replace (clock env <=? expiry)%Z with true in Hn
        by (symmetry; apply Z.leb_le; lia).
      rewrite Hvalue in Hn. simpl in Hn. congruence. }
    split; [simpl; f_equal; lia|].
    exists (clock env + week)%Z. split; [reflexivity | lia].
  - rewrite (Hothers _ _ Hne).
    assert (Hlogged : logged_on today topic (env, event_type, event_data) = false).
    { unfold logged_on. simpl.
      destruct (String.eqb_spec (strftime_Ymd (now env)) today) as [Hd|]; [|reflexivity].
      destruct (String.eqb_spec event_type topic) as [Ht'|]; [|reflexivity].
      subst. contradiction. }
    cbn [List.filter]. rewrite Hlogged. simpl length. rewrite Nat.add_0_r.
    specialize (Hcounts topic).
    destruct (Redis.keys c !! daily_key today topic) as [e|]; [exact Hcounts|].
    rewrite Hcounts. reflexivity.
Qed.

Lemma run_events_daily_counts t0 today calls : forall logged s,
  has_colon today = false ->
  daily_counts t0 today logged s ->
  Forall (in_week t0) calls ->
  daily_counts t0 today (logged ++ calls) (run_events calls s).
Proof.
  induction calls as [|[[env event_type] event_data] rest IH];
    intros logged s Htoday Hcounts Hcalls.
  - simpl. now rewrite app_nil_r.
  - apply Forall_cons in Hcalls as [Hcall Hrest]. simpl run_events.
    replace (logged ++ (env, event_type, event_data) :: rest)%list
      with ((logged ++ [(env, event_type, event_data)]) ++ rest)%list
      by (now rewrite <- app_assoc).
    apply IH; [assumption | | assumption].
    now apply daily_counts_step.
Qed.

(** *** Reading the counters *)

Lemma same_total_refl s : same_total s s.
Proof. reflexivity. Qed.

Lemma same_total_trans s1 s2 s3 :
  same_total s1 s2 -> same_total s2 s3 -> same_total s1 s3.
Proof. unfold same_total. congruence. Qed.

Ltac total_bind := apply within_bind; [exact same_total_trans | | intros ?].
Ltac total_leaf :=
  first [apply within_ret | apply within_raise]; exact same_total_refl.

Lemma on_agent_same_total {A} (m : M Agent A) : steps_within same_total (on_agent m).
Proof. intros [s metrics]. unfold on_agent, same_total. now destruct (m s). Qed.

Lemma update_same_total (f : Metrics -> Metrics) :
  (forall m, total_events_today (f m) = total_events_today m) ->
  steps_within same_total (update f).
Proof. intros Hf [s metrics]. unfold update, modify, same_total. simpl. apply Hf. Qed.

Lemma count_or_zero_same_total env key :
  steps_within same_total (count_or_zero env key).
Proof.
  unfold count_or_zero. total_bind; [apply on_agent_same_total|].
  destruct a as [cell|]; [|total_leaf].
  destruct (truthy cell); [|total_leaf].
  unfold lift_outcome. destruct (int_of_cell cell); total_leaf.
Qed.

Lemma determine_health_same_total : steps_within same_total determine_health.
Proof.
  unfold determine_health. total_bind.
  { intros [s metrics]. reflexivity. }
  destruct (Py.lt _ _); [now apply update_same_total|].
  destruct (Py.lt _ _); [now apply update_same_total | total_leaf].
Qed.

(** The part of the body that follows the loop over the topics leaves
    the number of events as the loop made it, whether it returns or
    raises. *)
Lemma try_body_total (first : M (Agent * Metrics) unit)
    (rest : unit -> M (Agent * Metrics) unit) s m s1 m1 :
  first (s, m) = (Return tt, (s1, m1)) ->
  steps_within same_total (rest tt) ->
  total_events_today
    (snd (snd (try_except (bind first rest) (fun _ => ret tt) (s, m))))
  = total_events_today m1.
Proof.
  intros Efirst Hrest. unfold try_except, bind. rewrite Efirst.
  specialize (Hrest (s1, m1)). unfold same_total in Hrest.
  destruct (rest tt (s1, m1)) as [[[]|exc] [s2 m2]]; exact Hrest.
Qed.

Lemma logged_among_cons today topic topics call :
  logged_among today (topic :: topics) call
  = logged_on today topic call || logged_among today topics call.
Proof.
  unfold logged_among, logged_on.
  destruct (String.eqb (strftime_Ymd (now call.1.1)) today); [|reflexivity].
  cbn [andb].
  destruct (String.eqb_spec call.1.2 topic) as [->|Hne].
  - now rewrite bool_decide_eq_true_2 by apply list_elem_of_here.
  - cbn [orb]. destruct (decide (call.1.2 ∈ topics)) as [Hin|Hout].
    + rewrite (bool_decide_eq_true_2 _ Hin).
      now rewrite bool_decide_eq_true_2 by now apply list_elem_of_further.
    + rewrite (bool_decide_eq_false_2 _ Hout).
      apply bool_decide_eq_false_2. intros H. apply elem_of_cons in H.
      destruct H; [congruence | contradiction].
Qed.

Lemma logged_on_not_among today topic topics call :
  topic ∉ topics ->
  logged_on today topic call = true -> logged_among today topics call = false.
Proof.
  unfold logged_among, logged_on. intros Hfresh H.
  apply andb_true_iff in H as [_ H]. apply String.eqb_eq in H. rewrite H.
  rewrite (bool_decide_eq_false_2 _ Hfresh). apply andb_false_r.
Qed.

Lemma filter_among_cons today topic topics calls :
  topic ∉ topics ->
  length (List.filter (logged_among today (topic :: topics)) calls)
  = length (List.filter (logged_on today topic) calls)
    + length (List.filter (logged_among today topics) calls).
Proof.
  intros Hfresh. induction calls as [|call calls IH]; [reflexivity|].
  cbn [List.filter]. rewrite logged_among_cons.
  pose proof (logged_on_not_among today topic topics call Hfresh) as Hdisjoint.
  destruct (logged_on today topic call).
  - rewrite (Hdisjoint eq_refl). cbn [orb]. simpl length. now rewrite IH.
  - cbn [orb]. destruct (logged_among today topics call); simpl length; rewrite IH; lia.
Qed.

Section Read.

Variable env : Env.
Hypothesis Hup : forall i, redis_down env i = false.

(** The loop over the topics adds up the daily counters of the topics. *)
Lemma count_topics_total today calls topics : forall self metrics c,
  NoDup topics ->
  redis_client self = Some c ->
  (forall topic,
     match Redis.keys c !! daily_key today topic with
     | Some e =>
         Redis.e_value e
         = Redis.CInt (Z.of_nat (length (List.filter (logged_on today topic) calls)))
         /\ exists expiry, Redis.e_expires e = Some expiry /\ (clock env < expiry)%Z
     | None => List.filter (logged_on today topic) calls = []
     end) ->
  exists s' m',
    for_each topics (count_topic env today) (self, metrics) = (Return tt, (s', m'))
    /\ total_events_today m'
       = (total_events_today metrics
          + Z.of_nat (length (List.filter (logged_among today topics) calls)))%Z.
Proof.
  induction topics as [|topic topics IH]; intros self metrics c Hnodup Hc Hcounts.
  - exists self, metrics. split; [reflexivity|].
    replace (List.filter (logged_among today []) calls) with (@nil (Env * string * EventData)).
    + simpl. lia.
    + symmetry. apply AuditReports.filter_none. intros [[e t] d] _.
      unfold logged_among. simpl. apply andb_false_r.
  - apply NoDup_cons in Hnodup as [Hfresh Hnodup].
    set (n := length (List.filter (logged_on today topic) calls)).
    set (c1 := Redis.mkClient (Redis.keys c) (S (Redis.issued c))).
    assert (Hstep : exists m1,
              count_topic env today topic (self, metrics)
              = (Return tt, (set_redis c1 self, m1))
              /\ total_events_today m1 = (total_events_today metrics + Z.of_nat n)%Z).
    { unfold count_topic. unfold bind at 1.
      rewrite (AuditReports.redis_get_run env Hup _ _ _ c Hc).
      specialize (Hcounts topic). unfold Redis.lookup, Redis.live.
      destruct (Redis.keys c !! daily_key today topic) as [e|].
      - destruct Hcounts as (Hvalue & expiry & Hexpiry & Hlive).
        rewrite Hexpiry.
        replace (clock env <=? expiry)%Z with true by (symmetry; apply Z.leb_le; lia).
        simpl. rewrite Hvalue. simpl. eexists. split; [reflexivity|]. reflexivity.
      - simpl. exists metrics. split; [reflexivity|].
        subst n. rewrite Hcounts. simpl. lia. }
    destruct Hstep as (m1 & E1 & Htotal1).
    destruct (IH (set_redis c1 self) m1 c1 Hnodup eq_refl Hcounts)
      as (s' & m' & E & Htotal).
    exists s', m'. split.
    + simpl. unfold bind. rewrite E1. exact E.
    + rewrite Htotal, Htotal1, (filter_among_cons _ _ _ _ Hfresh). fold n. lia.
Qed.

(** With the daily counters of today as a run of events left them,
    the metrics report the number of those events whose topic is a
    monitored one. *)
Lemma metrics_total t0 calls self :
  daily_counts t0 (strftime_Ymd (now env)) calls self ->
  (clock env < t0 + week)%Z ->
  exists metrics,
    fst (get_compliance_metrics env self) = Return metrics
    /\ total_events_today metrics
       = Z.of_nat (length (List.filter (counted_on (strftime_Ymd (now env))) calls)).
Proof.
  intros (c & Hc & Hown & Hcounts) Ht.
  assert (Hnodup : NoDup monitored_topics).
  { apply (proj1 (bool_decide_eq_true _)). reflexivity. }
  destruct (count_topics_total (strftime_Ymd (now env)) calls monitored_topics
              self initial_metrics c Hnodup Hc) as (s1 & m1 & E1 & Htotal1).
  { intros topic. specialize (Hcounts topic).
    destruct (Redis.keys c !! daily_key (strftime_Ymd (now env)) topic); [|exact Hcounts].
    destruct Hcounts as (Hvalue & expiry & Hexpiry & Hlong).
    split; [exact Hvalue|]. exists expiry. split; [exact Hexpiry | lia]. }
  rewrite AuditReports.get_compliance_metrics_body. cbv zeta. rewrite Hc.
  unfold Py.is_set. cbv beta iota.
  match goal with
  | |- context [try_except (bind ?first ?rest) ?handler (self, initial_metrics)] =>
      pose proof (try_body_total first rest self initial_metrics s1 m1 E1) as Htotal;
      destruct (try_except (bind first rest) handler (self, initial_metrics))
        as [r [s2 m2]]
  end.
  simpl in Htotal. exists m2. split; [reflexivity|].
  rewrite Htotal.
  - rewrite Htotal1. reflexivity.
  - total_bind; [apply count_or_zero_same_total|].
    total_bind; [apply count_or_zero_same_total|].
    total_bind.
    { destruct (0 <? _)%Z; [now apply update_same_total | total_leaf]. }
    total_bind; [apply on_agent_same_total|].
    total_bind; [now apply update_same_total|].
    apply determine_health_same_total.
Qed.

End Read.

(** X25: what [total_events_today] counts. Starting from an empty
    Redis, let events be logged with payloads that [json.dumps]
    encodes, on a Redis that answers, at server times within one week;
    then [get_compliance_metrics], on an answering Redis within that
    week, reports as [total_events_today] the number of logged events
    of the calendar day of the call whose event type is one of the
    seven monitored topics. Events of other types, and events logged
    on another day, are not counted. *)
Theorem total_events_today_counts
    (calls : list (Env * string * EventData)) (self : Agent)
    (c : Redis.client Redis.cell) (env : Env) (t0 : Z) :
  redis_client self = Some c ->
  Redis.keys c = ∅ ->
  Forall (in_week t0) calls ->
  (forall i, redis_down env i = false) ->
  (t0 <= clock env < t0 + week)%Z ->
  exists metrics,
    fst (get_compliance_metrics env (run_events calls self)) = Return metrics
    /\ total_events_today metrics
       = Z.of_nat (length (List.filter (counted_on (strftime_Ymd (now env))) calls)).
Proof.
  intros Hc Hempty Hcalls Hup Ht.
  apply (metrics_total env Hup t0); [|lia].
  apply (run_events_daily_counts t0 (strftime_Ymd (now env)) calls [] self
           (AuditReports.has_colon_Ymd _)); [|exact Hcalls].
  exists c. split; [exact Hc|]. rewrite Hempty. split.
  - intros k e H. rewrite lookup_empty in H. discriminate.
  - intros topic. rewrite lookup_empty. reflexivity.
Qed.

(** The day for illustration: of its four events, two are counted. *)
Lemma total_events_today_counts_witness :
  exists metrics,
    fst (get_compliance_metrics (example_env_on 5 200)
           (run_events example_day example_agent)) = Return metrics
    /\ total_events_today metrics = 2%Z.
Proof.
  apply (total_events_today_counts example_day example_agent (Redis.mkClient ∅ 0)
           (example_env_on 5 200) 1704445387).
  - reflexivity.
  - reflexivity.
  - unfold example_day.
    repeat (constructor;
            [split; [eexists; reflexivity
                    | split; [intros i; reflexivity | unfold week; simpl; lia]]|]).
    constructor.
  - intros i. reflexivity.
  - unfold week. simpl. lia.
Defined.

End DailyCount.
